(** * A shallow embedding of the try-on backend (src/main.py)

    The Lambda entry point [lambda_handler] and the eight domain handlers
    of src/main.py are embedded as monadic functions over a world made of
    the three DynamoDB tables and of the inputs the process cannot
    control (clock, UUID source, service faults and answers).

    Python values are the JSON-shaped values the handlers manipulate;
    Python exceptions are values of [exn]; [try]/[except] is [try_except].
    The functions the source takes from Python's own libraries ([json],
    [base64], [str]) are an interface, [PyLib]: every theorem holds for
    every implementation of it. *)

From Stdlib Require Import ZArith String List Ascii Bool Lia.
From stdpp Require Import base option gmap strings list fin_maps.

Local Open Scope string_scope.
Local Open Scope Z_scope.
Set Warnings "-register-all".

(** ** Python values *)

(** A float is NaN, an infinity, or the dyadic number [m * 2^e]. *)
Inductive pyfloat : Type :=
| FNan
| FInf (negative : bool)
| FFin (m e : Z).

(** Numbers: [bool] is a subclass of [int] in Python. *)
Inductive pynum : Type :=
| NInt (z : Z)
| NFloat (f : pyfloat).

(** [PDecimal x] is the [decimal.Decimal] of value [x]: what boto3 hands
    back for a number attribute of a DynamoDB item. *)
Inductive pyval : Type :=
| PNone
| PBool (b : bool)
| PInt (z : Z)
| PFloat (f : pyfloat)
| PStr (s : string)
| PList (l : list pyval)
| PDict (d : list (string * pyval))
| PDecimal (x : pynum).

(** A dict with string keys, in insertion order. *)
Abbreviation dict := (list (string * pyval)).

Fixpoint dict_get (k : string) (d : dict) : option pyval :=
  match d with
  | [] => None
  | (k', v) :: d' => if String.eqb k k' then Some v else dict_get k d'
  end.

Definition dict_has (k : string) (d : dict) : bool :=
  match dict_get k d with Some _ => true | None => false end.

(** [d[k] = v]: replaces in place, or appends a new key. *)
Fixpoint dict_set (k : string) (v : pyval) (d : dict) : dict :=
  match d with
  | [] => [(k, v)]
  | (k', v') :: d' =>
      if String.eqb k k' then (k', v) :: d' else (k', v') :: dict_set k v d'
  end.

(** ** Exceptions *)

Inductive exn_class : Type :=
| KeyError
| TypeError
| AttributeError
| ValueError
| JSONDecodeError
| UnicodeDecodeError
| BinasciiError
| ClientError
| BotoCoreError
| Exception.

Record exn : Type := Exn { exn_class_of : exn_class; exn_message : string }.

Definition exn_class_eqb (a b : exn_class) : bool :=
  match a, b with
  | KeyError, KeyError | TypeError, TypeError
  | AttributeError, AttributeError | ValueError, ValueError
  | JSONDecodeError, JSONDecodeError
  | UnicodeDecodeError, UnicodeDecodeError
  | BinasciiError, BinasciiError | ClientError, ClientError
  | BotoCoreError, BotoCoreError | Exception, Exception => true
  | _, _ => false
  end.

(** [subclass a b]: class [a] is [b] or derives from it.  Every class
    derives from [Exception]; the three decoding errors derive from
    [ValueError]. *)
Definition subclass (a b : exn_class) : bool :=
  exn_class_eqb a b ||
  match a, b with
  | _, Exception
  | JSONDecodeError, ValueError
  | UnicodeDecodeError, ValueError
  | BinasciiError, ValueError => true
  | _, _ => false
  end.

Definition isinstance_exn (e : exn) (cs : list exn_class) : bool :=
  existsb (subclass (exn_class_of e)) cs.

(** [str(e)] *)
Definition str_exn (e : exn) : string := exn_message e.

Abbreviation result A := (exn + A)%type.

(** ** Operators on Python values *)

Definition py_truthy (v : pyval) : bool :=
  match v with
  | PNone => false
  | PBool b => b
  | PInt z => negb (z =? 0)
  | PFloat FNan => true
  | PFloat (FInf _) => true
  | PFloat (FFin m _) => negb (m =? 0)
  | PStr s => negb (String.eqb s "")
  | PList l => match l with [] => false | _ => true end
  | PDict d => match d with [] => false | _ => true end
  | PDecimal (NInt z) => negb (z =? 0)
  | PDecimal (NFloat (FFin m _)) => negb (m =? 0)
  | PDecimal (NFloat _) => true
  end.

(** [v[k]] for a string [k]. *)
Definition py_getitem (v : pyval) (k : string) : result pyval :=
  match v with
  | PDict d =>
      match dict_get k d with
      | Some x => inr x
      | None => inl (Exn KeyError k)
      end
  | PStr _ => inl (Exn TypeError "string indices must be integers")
  | PList _ => inl (Exn TypeError "list indices must be integers or slices")
  | _ => inl (Exn TypeError "object is not subscriptable")
  end.

(** [v.get(k)] *)
Definition py_get (v : pyval) (k : string) : result pyval :=
  match v with
  | PDict d => inr (default PNone (dict_get k d))
  | _ => inl (Exn AttributeError "object has no attribute 'get'")
  end.

(** [v == s] for a string [s]: only a string equals a string. *)
Definition py_eq_str (v : pyval) (s : string) : bool :=
  match v with PStr t => String.eqb t s | _ => false end.

Fixpoint prefixb (p s : string) : bool :=
  match p, s with
  | EmptyString, _ => true
  | String a p', String b s' => Ascii.eqb a b && prefixb p' s'
  | String _ _, EmptyString => false
  end.

(** [p in s] on two strings: [p] occurs in [s]. *)
Fixpoint substringb (p s : string) : bool :=
  prefixb p s ||
  match s with
  | EmptyString => false
  | String _ s' => substringb p s'
  end.

(** [k in v] for a string [k]: key of a dict, element of a list,
    substring of a string; anything else is not iterable. *)
Definition py_contains (k : string) (v : pyval) : result bool :=
  match v with
  | PDict d => inr (dict_has k d)
  | PList l => inr (existsb (fun x => py_eq_str x k) l)
  | PStr s => inr (substringb k s)
  | _ => inl (Exn TypeError "argument is not iterable")
  end.

(** [v in [s1, s2, ...]] *)
Definition py_in_strs (v : pyval) (l : list string) : bool :=
  existsb (py_eq_str v) l.

(** [isinstance(v, (int, float))], with the number when it holds; a
    Decimal is neither. *)
Definition as_number (v : pyval) : option pynum :=
  match v with
  | PBool b => Some (NInt (if b then 1 else 0))
  | PInt z => Some (NInt z)
  | PFloat f => Some (NFloat f)
  | _ => None
  end.

Definition isinstance_int_float (v : pyval) : bool :=
  match as_number v with Some _ => true | None => false end.

(** Exact comparison of [m * 2^e] with the integer [n]. *)
Definition dyadic_compare (m e n : Z) : comparison :=
  if 0 <=? e then (m * 2 ^ e ?= n) else (m ?= n * 2 ^ (- e)).

(** [x ?= n]; [None] when [x] is NaN, which makes every ordering
    comparison false. *)
Definition num_compare (x : pynum) (n : Z) : option comparison :=
  match x with
  | NInt z => Some (z ?= n)
  | NFloat FNan => None
  | NFloat (FInf true) => Some Lt
  | NFloat (FInf false) => Some Gt
  | NFloat (FFin m e) => Some (dyadic_compare m e n)
  end.

Definition num_le (x : pynum) (n : Z) : bool :=
  match num_compare x n with Some Lt | Some Eq => true | _ => false end.
Definition num_lt (x : pynum) (n : Z) : bool :=
  match num_compare x n with Some Lt => true | _ => false end.
Definition num_gt (x : pynum) (n : Z) : bool :=
  match num_compare x n with Some Gt => true | _ => false end.

Definition num_eq (x y : pynum) : bool :=
  match x, y with
  | NInt a, NInt b => a =? b
  | NInt a, NFloat (FFin m e) | NFloat (FFin m e), NInt a =>
      match dyadic_compare m e a with Eq => true | _ => false end
  | NFloat (FFin m e), NFloat (FFin m' e') =>
      if e <=? e' then m =? m' * 2 ^ (e' - e) else m * 2 ^ (e - e') =? m'
  | NFloat (FInf s), NFloat (FInf s') => Bool.eqb s s'
  | _, _ => false
  end.

(** The number a value stands for in a comparison. *)
Definition number_of (v : pyval) : option pynum :=
  match v with
  | PDecimal x => Some x
  | _ => as_number v
  end.

(** [a == b] on Python values: numbers by value across bool, int,
    float and Decimal, lists element by element, dicts key by key. *)
Fixpoint py_eq (a b : pyval) {struct a} : bool :=
  match a, b with
  | PNone, PNone => true
  | PStr s, PStr t => String.eqb s t
  | PList l, PList l' =>
      (fix go (l l' : list pyval) {struct l} : bool :=
         match l, l' with
         | [], [] => true
         | x :: xs, y :: ys => py_eq x y && go xs ys
         | _, _ => false
         end) l l'
  | PDict d, PDict d' =>
      (length d =? length d')%nat &&
      (fix go (d : dict) {struct d} : bool :=
         match d with
         | [] => true
         | (k, v) :: r =>
             match dict_get k d' with
             | Some v' => py_eq v v' && go r
             | None => false
             end
         end) d
  | _, _ =>
      match number_of a, number_of b with
      | Some x, Some y => num_eq x y
      | _, _ => false
      end
  end.

(** *** Values and DynamoDB *)

(** The value holds a Decimal. *)
Fixpoint has_decimal (v : pyval) : bool :=
  match v with
  | PDecimal _ => true
  | PList l => existsb has_decimal l
  | PDict d => existsb (fun kv => has_decimal (snd kv)) d
  | _ => false
  end.

(** What boto3 makes of a stored value when it is read: a number comes
    back as a Decimal, whatever it was written as. *)
Fixpoint as_read (v : pyval) : pyval :=
  match v with
  | PInt z => PDecimal (NInt z)
  | PFloat f => PDecimal (NFloat f)
  | PList l => PList (map as_read l)
  | PDict d => PDict (map (fun kv => (fst kv, as_read (snd kv))) d)
  | _ => v
  end.

Definition read_item (it : dict) : dict :=
  map (fun kv => (fst kv, as_read (snd kv))) it.

(** The first error among the elements of [l]. *)
Definition first_error {A} (f : A -> option exn) (l : list A) : option exn :=
  fold_right (fun x r => match f x with Some e => Some e | None => r end)
    None l.

(** What boto3 refuses to write, before anything is sent: its
    serializer raises TypeError on a float, and takes an integer through
    a decimal context of 38 digits that traps rounding. *)
Fixpoint serializer_error (v : pyval) : option exn :=
  match v with
  | PFloat _ =>
      Some (Exn TypeError
              "Float types are not supported. Use Decimal types instead.")
  | PInt z =>
      if Z.abs z <? 10 ^ 38 then None
      else Some (Exn Exception "decimal.Rounded")
  | PList l => first_error serializer_error l
  | PDict d => first_error (fun kv => serializer_error (snd kv)) d
  | _ => None
  end.

(** The serializer accepts the value. *)
Definition storable (v : pyval) : bool :=
  match serializer_error v with None => true | Some _ => false end.

(** ** The Python library functions the handlers call *)

Class PyLib : Type := {
  (** [json.loads(x)] *)
  json_loads : pyval -> result pyval;
  (** what [json.loads] returns is made of None, booleans, integers,
      floats, texts, lists and dicts *)
  json_loads_plain : forall x v, json_loads x = inr v -> has_decimal v = false;
  (** the text that [json.dumps(x)] returns for such a value *)
  json_text : pyval -> string;
  (** [str(x)], which is also how an f-string formats [x] *)
  py_str : pyval -> string;
  (** [s.encode()] *)
  str_encode : string -> result (list Byte.byte);
  (** [b.decode()] *)
  bytes_decode : list Byte.byte -> result string;
  (** [base64.b64encode(b)] *)
  b64encode : list Byte.byte -> list Byte.byte;
  (** [base64.b64decode(s)] on a text argument *)
  b64decode : string -> result (list Byte.byte);
  (** [urllib.parse.urlencode(d)] *)
  urlencode : list (string * pyval) -> string
}.

(** ** The record store and the world *)

(** A stored item is the dict that was written. *)
Abbreviation item := dict.

Inductive table_name : Type :=
| PROFILES_TABLE
| CART_ITEMS_TABLE
| FITS_TABLE.

(** The key attributes of each table, all of string type: the profile
    and the cart are keyed by the Cognito subject, a fit by its UUID. *)
Definition key_schema (t : table_name) : list string :=
  match t with
  | PROFILES_TABLE => ["user_id"]
  | CART_ITEMS_TABLE => ["user_id"; "item_key"]
  | FITS_TABLE => ["fitId"]
  end.

Record Store : Type := {
  profiles : gmap (list string) item;
  cart_items : gmap (list string) item;
  fits : gmap (list string) item
}.

Definition table_of (t : table_name) (s : Store) : gmap (list string) item :=
  match t with
  | PROFILES_TABLE => profiles s
  | CART_ITEMS_TABLE => cart_items s
  | FITS_TABLE => fits s
  end.

Definition set_table (t : table_name) (m : gmap (list string) item)
    (s : Store) : Store :=
  match t with
  | PROFILES_TABLE =>
      {| profiles := m; cart_items := cart_items s; fits := fits s |}
  | CART_ITEMS_TABLE =>
      {| profiles := profiles s; cart_items := m; fits := fits s |}
  | FITS_TABLE =>
      {| profiles := profiles s; cart_items := cart_items s; fits := m |}
  end.

(** The answer of the store to a Query. *)
Record QueryResponse : Type := {
  Items : option (list pyval);
  LastEvaluatedKey : option pyval
}.

(** The answer of the token endpoint. *)
Record HttpResponse : Type := {
  http_status : Z;
  http_data : list Byte.byte
}.

(** What the process does not control.  Every interaction with the
    outside (clock, UUID source, AWS call, HTTP call) takes the next
    index; [env_fault k] says whether interaction [k] raises. *)
Record Env : Type := {
  env_fault : nat -> option exn;
  env_clock : nat -> string;
  env_uuid : nat -> string;
  (** the URL signed at an interaction for a client method, an object
      key and a lifetime in seconds *)
  env_url : nat -> string -> string -> Z -> string;
  env_query : nat -> table_name -> option string -> pyval -> option pyval
              -> QueryResponse;
  env_http : nat -> HttpResponse;
  (** [COGNITO_DOMAIN] and [COGNITO_CLIENT_ID], read from the process
      environment ([None] when unset). *)
  COGNITO_DOMAIN : pyval;
  COGNITO_CLIENT_ID : pyval
}.

(** [history] lists the store after each accepted write, newest first;
    it is what an observer polling the store could have seen. *)
Record World : Type := {
  store : Store;
  history : list Store;
  ticks : nat;
  env : Env
}.

Definition next_tick (w : World) : World :=
  {| store := store w; history := history w;
     ticks := S (ticks w); env := env w |}.

Definition commit (s : Store) (w : World) : World :=
  {| store := s; history := s :: history w;
     ticks := ticks w; env := env w |}.

(** ** The monad of handlers: state and exceptions *)

Definition M (A : Type) : Type := World -> result A * World.

Definition ret {A} (a : A) : M A := fun w => (inr a, w).

Definition raise {A} (e : exn) : M A := fun w => (inl e, w).

Definition bind {A B} (m : M A) (k : A -> M B) : M B :=
  fun w =>
    match m w with
    | (inr a, w') => k a w'
    | (inl e, w') => (inl e, w')
    end.

Notation "'let!' x ':=' m 'in' k" := (bind m (fun x => k))
  (at level 10, x pattern, m at level 100, k at level 200).

(** A pure operation that may raise. *)
Definition lift {A} (r : result A) : M A :=
  match r with inr a => ret a | inl e => raise e end.

(** The [except] clauses of a [try], in order: the first clause whose
    classes the exception is an instance of handles it; with none, the
    exception goes on. *)
Fixpoint dispatch {A} (clauses : list (list exn_class * (exn -> M A)))
    (e : exn) : M A :=
  match clauses with
  | [] => raise e
  | (cs, h) :: rest =>
      if isinstance_exn e cs then h e else dispatch rest e
  end.

(** [try: m  except cs1 as e: h1 e  except cs2 as e: h2 e ...] *)
Definition try_except {A} (m : M A)
    (clauses : list (list exn_class * (exn -> M A))) : M A :=
  fun w =>
    match m w with
    | (inr a, w') => (inr a, w')
    | (inl e, w') => dispatch clauses e w'
    end.

(** [try: x = m  except (cs): return r] followed by the rest [k x]. *)
Definition try_or_return {A B} (m : M A) (cs : list exn_class) (r : M B)
    (k : A -> M B) : M B :=
  fun w =>
    match m w with
    | (inr a, w') => k a w'
    | (inl e, w') => if isinstance_exn e cs then r w' else (inl e, w')
    end.

(** Sequencing of pure operations that may raise. *)
Definition rbind {A B} (r : result A) (k : A -> result B) : result B :=
  match r with inr a => k a | inl e => inl e end.

Notation "'let?' x ':=' r 'in' k" := (rbind r (fun x => k))
  (at level 10, x pattern, r at level 100, k at level 200).

(** One interaction with the outside: takes the next index and raises
    when the environment says so. *)
Definition interact : M nat :=
  fun w =>
    let k := ticks w in
    match env_fault (env w) k with
    | Some e => (inl e, next_tick w)
    | None => (inr k, next_tick w)
    end.

Definition get_env : M Env := fun w => (inr (env w), w).
Definition get_store : M Store := fun w => (inr (store w), w).
Definition put_store (s : Store) : M unit := fun w => (inr tt, commit s w).

(** The clock and the UUID source never raise. *)
Definition read_clock : M string :=
  fun w => (inr (env_clock (env w) (ticks w)), next_tick w).

Definition uuid4 : M string :=
  fun w => (inr (env_uuid (env w) (ticks w)), next_tick w).

(** *** DynamoDB operations

    A table holds each item as the dict it was written with.  The
    values of a call go through boto3's serializer before anything is
    sent, and what it refuses is raised there; the numbers of an item
    that is read come back as Decimals.  Whatever makes a call fail at
    the service (throttling, an outage) is a fault of that interaction,
    [env_fault]; a call that faults leaves the table as it was. *)

(** The serializer on the values of a call. *)
Definition serialize (v : pyval) : M unit :=
  match serializer_error v with
  | Some e => raise e
  | None => ret tt
  end.

(** The key of an item or of a [Key=] argument: the values of the key
    attributes, which must be strings. *)
Fixpoint key_values (attrs : list string) (d : dict)
    : option (list string) :=
  match attrs with
  | [] => Some []
  | a :: attrs' =>
      match dict_get a d, key_values attrs' d with
      | Some (PStr s), Some ks => Some (s :: ks)
      | _, _ => None
      end
  end.

Definition validation_exception : exn :=
  Exn ClientError "ValidationException".

(** The store with item [it] under key [k] of table [t]. *)
Definition store_put (t : table_name) (k : list string) (it : item)
    (s : Store) : Store :=
  set_table t (<[k := it]> (table_of t s)) s.

(** [table.put_item(Item=it)]: inserts or fully replaces. *)
Definition put_item (t : table_name) (it : item) : M unit :=
  let! _ := serialize (PDict it) in
  let! _ := interact in
  match key_values (key_schema t) it with
  | None => raise validation_exception
  | Some k =>
      let! s := get_store in
      put_store (store_put t k it s)
  end.

(** [table.get_item(Key=key)]: the response holds ['Item'] when the
    record exists. *)
Definition get_item (t : table_name) (key : dict) : M dict :=
  let! _ := serialize (PDict key) in
  let! _ := interact in
  match key_values (key_schema t) key with
  | None => raise validation_exception
  | Some k =>
      let! s := get_store in
      match table_of t s !! k with
      | Some it => ret [("Item", PDict (read_item it))]
      | None => ret []
      end
  end.

(** The actions of a [SET] update expression, values substituted. *)
Inductive set_action : Type :=
| SetValue (attr : string) (v : pyval)
| SetIfNotExists (attr : string) (v : pyval).

(** [if_not_exists] looks at the item as it was before the update. *)
Definition apply_set (old : item) (a : set_action) (it : item) : item :=
  match a with
  | SetValue attr v => dict_set attr v it
  | SetIfNotExists attr v =>
      match dict_get attr old with
      | Some v0 => dict_set attr v0 it
      | None => dict_set attr v it
      end
  end.

(** The item under key [k] after the [SET] actions: the record is
    updated in place, and created from its key when absent. *)
Definition updated_item (t : table_name) (k : list string) (key : dict)
    (actions : list set_action) (s : Store) : item :=
  let old := default key (table_of t s !! k) in
  fold_left (fun it a => apply_set old a it) actions old.

(** The value that an action substitutes in the expression. *)
Definition action_value (a : set_action) : pyval :=
  match a with
  | SetValue _ v => v
  | SetIfNotExists _ v => v
  end.

(** [table.update_item(Key=key, UpdateExpression="SET ...",
    ExpressionAttributeValues=...)] *)
Definition update_item (t : table_name) (key : dict)
    (actions : list set_action) : M unit :=
  let! _ := serialize (PDict key) in
  let! _ := serialize (PList (map action_value actions)) in
  let! _ := interact in
  match key_values (key_schema t) key with
  | None => raise validation_exception
  | Some k =>
      let! s := get_store in
      put_store (store_put t k (updated_item t k key actions s) s)
  end.

Definition param_validation_error : exn :=
  Exn BotoCoreError "ParamValidationError".

(** [table.query(KeyConditionExpression='user_id = :user_id',
    ExpressionAttributeValues={':user_id': user_id}, ...)], with
    [ExclusiveStartKey] when there is one: the environment chooses the
    page of stored items that answers the arguments of the call. *)
Definition query (t : table_name) (index_name : option string)
    (user_id : pyval) (exclusive_start_key : option pyval)
    : M QueryResponse :=
  let! _ := serialize user_id in
  let! _ :=
    match exclusive_start_key with
    | None => ret tt
    | Some (PDict d) => serialize (PDict d)
    | Some _ => raise param_validation_error
    end in
  let! k := interact in
  let! e := get_env in
  let page := env_query e k t index_name user_id exclusive_start_key in
  ret {| Items := map as_read <$> Items page;
         LastEvaluatedKey := as_read <$> LastEvaluatedKey page |}.

(** [s3_client.generate_presigned_url(client_method, Params={'Bucket':
    ASSETS_BUCKET, 'Key': key, ...}, ExpiresIn=expires_in, ...)].  The
    method has the parameters ClientMethod, Params, ExpiresIn and
    HttpMethod; [keywords] lists the other keywords of the call, and
    with one of them Python raises TypeError before the method runs.
    The key must be a text. *)
Definition generate_presigned_url (client_method : string) (key : pyval)
    (expires_in : Z) (keywords : list string) : M string :=
  match keywords with
  | _ :: _ =>
      raise (Exn TypeError
               "generate_presigned_url() got an unexpected keyword argument")
  | [] =>
      match key with
      | PStr object_key =>
          let! k := interact in
          let! e := get_env in
          ret (env_url e k client_method object_key expires_in)
      | _ => raise param_validation_error
      end
  end.

(** [urllib3.PoolManager().request('POST', url, body=..., headers=...)] *)
Definition http_request (url body : string) : M HttpResponse :=
  let! k := interact in
  let! e := get_env in
  ret (env_http e k).

(** ** Shared utilities of main.py *)

Record Response : Type := {
  statusCode : Z;
  headers : dict;
  body : string
}.

(** [s.replace(old, new)] for a non-empty [old]: [skip] characters of a
    replaced occurrence are still to be dropped. *)
Fixpoint replace_from (old new : string) (skip : nat) (s : string)
    : string :=
  match s with
  | EmptyString => EmptyString
  | String c s' =>
      match skip with
      | S n => replace_from old new n s'
      | O =>
          if prefixb old s
          then new ++ replace_from old new (String.length old - 1) s'
          else String c (replace_from old new 0 s')
      end
  end.

Definition str_replace (s old new : string) : string :=
  replace_from old new 0 s.

(** [d.update(h)] *)
Definition dict_update (d h : dict) : dict :=
  fold_left (fun acc kv => dict_set (fst kv) (snd kv) acc) h d.

(** [v <= n], [v < n], [v > n] on a value that is a number. *)
Definition py_le_int (v : pyval) (n : Z) : bool :=
  match as_number v with Some x => num_le x n | None => false end.
Definition py_lt_int (v : pyval) (n : Z) : bool :=
  match as_number v with Some x => num_lt x n | None => false end.
Definition py_gt_int (v : pyval) (n : Z) : bool :=
  match as_number v with Some x => num_gt x n | None => false end.

Section Handlers.

Context {lib : PyLib}.

(** main.py, [get_user_id]: only a missing key is turned into the
    ValueError that the handlers map to 401. *)
Definition get_user_id (event : pyval) : result pyval :=
  match (let? rc := py_getitem event "requestContext" in
         let? au := py_getitem rc "authorizer" in
         let? cl := py_getitem au "claims" in
         py_getitem cl "sub") with
  | inr sub => inr sub
  | inl e =>
      if isinstance_exn e [KeyError]
      then inl (Exn ValueError "User ID not found in request context")
      else inl e
  end.

Definition default_headers : dict :=
  [("Content-Type", PStr "application/json");
   ("Access-Control-Allow-Origin", PStr "*");
   ("Access-Control-Allow-Headers", PStr "Content-Type,Authorization");
   ("Access-Control-Allow-Methods", PStr "GET,POST,PUT,DELETE,OPTIONS")].

(** [json.dumps(x)]: a Decimal is not JSON serializable. *)
Definition json_dumps (x : pyval) : result string :=
  if has_decimal x
  then inl (Exn TypeError "Object of type Decimal is not JSON serializable")
  else inr (json_text x).

(** main.py, [create_response] *)
Definition create_response (status_code : Z) (body : pyval)
    (headers : option dict) : result Response :=
  let default_headers :=
    match headers with
    | Some h => if py_truthy (PDict h) then dict_update default_headers h
                else default_headers
    | None => default_headers
    end in
  let? text := json_dumps body in
  inr {| statusCode := status_code;
         headers := default_headers;
         body := text |}.

(** main.py, [create_error_response] *)
Definition create_error_response (status_code : Z)
    (error_type message : string) (details : option pyval)
    : result Response :=
  let error_body := [("error", PStr error_type); ("message", PStr message)] in
  let error_body :=
    match details with
    | Some d => if py_truthy d then dict_set "details" d error_body
                else error_body
    | None => error_body
    end in
  create_response status_code (PDict error_body) None.

(** The response that [create_response] returns when it returns. *)
Definition reply (status_code : Z) (body : pyval) (headers : option dict)
    : Response :=
  {| statusCode := status_code;
     headers :=
       match headers with
       | Some h => if py_truthy (PDict h) then dict_update default_headers h
                   else default_headers
       | None => default_headers
       end;
     body := json_text body |}.

(** The response that [create_error_response] returns. *)
Definition error_reply (status_code : Z) (error_type message : string)
    : Response :=
  reply status_code
    (PDict [("error", PStr error_type); ("message", PStr message)]) None.

(** [return r] out of a loop whose result is [None] when it ends. *)
Definition some_response (r : result Response) : result (option Response) :=
  let? x := r in inr (Some x).

(** [return r] in a function that may also fall off its end. *)
Definition return_some (r : result Response) : M (option Response) :=
  let! x := lift r in ret (Some x).

(** main.py, [get_current_timestamp] *)
Definition get_current_timestamp : M pyval :=
  let! t := read_clock in ret (PStr t).

(** [event.get('queryStringParameters') or {}] *)
Definition query_string_parameters (event : pyval) : result pyval :=
  let? q := py_get event "queryStringParameters" in
  inr (if py_truthy q then q else PDict []).

(** ** 1. GET /upload-url *)

Definition upload_url_handler (event : pyval) : M Response :=
  try_except
    (let! user_id := lift (get_user_id event) in
     let! query_params := lift (query_string_parameters event) in
     let! image_type := lift (py_get query_params "type") in
     if negb (py_truthy image_type)
        || negb (py_in_strs image_type ["face"; "body"; "other"])
     then lift (create_error_response 400 "INVALID_PARAMETER"
                 "type parameter must be one of: face, body, other" None)
     else
       let! unique_id := uuid4 in
       let object_key :=
         "uploads/" ++ py_str user_id ++ "/" ++ py_str image_type
           ++ "/" ++ unique_id ++ ".jpg" in
       let! presigned_url :=
         generate_presigned_url "put_object" (PStr object_key) 300
           ["Conditions"] in
       lift (create_response 200
              (PDict [("url", PStr presigned_url);
                      ("key", PStr object_key)]) None))
    [([ValueError],
      fun e => lift (create_error_response 401 "UNAUTHORIZED" (str_exn e) None));
     ([ClientError],
      fun _ => lift (create_error_response 500 "S3_ERROR"
                      "Failed to generate upload URL" None));
     ([Exception],
      fun _ => lift (create_error_response 500 "INTERNAL_ERROR"
                      "An unexpected error occurred" None))].

(** ** 2. POST /profile *)

(** [json.loads(event['body'])] *)
Definition parse_body (event : pyval) : M pyval :=
  let! raw := lift (py_getitem event "body") in
  lift (json_loads raw).

Definition profile_required_fields : list string :=
  ["height_cm"; "weight_kg"; "chest_cm"; "waist_cm"; "hips_cm"; "inseam_cm"].

(** The loop over the required numeric fields; [Some r] is the early
    [return r] of the loop body. *)
Fixpoint profile_check_fields (body : pyval) (fields : list string)
    : result (option Response) :=
  match fields with
  | [] => inr None
  | field :: rest =>
      let? present := py_contains field body in
      if negb present
      then some_response (create_error_response 400 "MISSING_FIELD"
                        ("Required field missing: " ++ field) None)
      else
        let? value := py_getitem body field in
        if negb (isinstance_int_float value)
           || py_le_int value 0 || py_gt_int value 300
        then some_response (create_error_response 400 "INVALID_VALUE"
                          (field ++ " must be a positive number less than 300")
                          None)
        else profile_check_fields body rest
  end.

Definition profile_handler (event : pyval) : M Response :=
  try_except
    (let! user_id := lift (get_user_id event) in
     try_or_return (parse_body event) [JSONDecodeError; TypeError]
       (lift (create_error_response 400 "INVALID_JSON"
                "Request body must be valid JSON" None))
       (fun body =>
     let! bad := lift (profile_check_fields body profile_required_fields) in
     match bad with
     | Some r => ret r
     | None =>
     let! has_fit := lift (py_contains "preferred_fit" body) in
     if negb has_fit
     then lift (create_error_response 400 "MISSING_FIELD"
                 "Required field missing: preferred_fit" None)
     else
       let! height_cm := lift (py_getitem body "height_cm") in
       let! weight_kg := lift (py_getitem body "weight_kg") in
       let! chest_cm := lift (py_getitem body "chest_cm") in
       let! waist_cm := lift (py_getitem body "waist_cm") in
       let! hips_cm := lift (py_getitem body "hips_cm") in
       let! inseam_cm := lift (py_getitem body "inseam_cm") in
       let! preferred_fit := lift (py_getitem body "preferred_fit") in
       let! now := get_current_timestamp in
       let profile_data :=
         [("user_id", user_id);
          ("height_cm", height_cm);
          ("weight_kg", weight_kg);
          ("chest_cm", chest_cm);
          ("waist_cm", waist_cm);
          ("hips_cm", hips_cm);
          ("inseam_cm", inseam_cm);
          ("preferred_fit", preferred_fit);
          ("updatedAt", now)] in
       let! has_avatar := lift (py_contains "avatar_key" body) in
       let! profile_data :=
         if has_avatar
         then let! avatar_key := lift (py_getitem body "avatar_key") in
              ret (dict_set "avatar_key" avatar_key profile_data)
         else ret profile_data in
       let! _ := put_item PROFILES_TABLE profile_data in
       lift (create_response 200
              (PDict [("ok", PBool true); ("profile", PDict profile_data)])
              None)
     end))
    [([ValueError],
      fun e => lift (create_error_response 401 "UNAUTHORIZED" (str_exn e) None));
     ([ClientError],
      fun _ => lift (create_error_response 500 "DYNAMODB_ERROR"
                      "Failed to save profile" None));
     ([Exception],
      fun _ => lift (create_error_response 500 "INTERNAL_ERROR"
                      "An unexpected error occurred" None))].

(** ** 3. POST /cart *)

Definition cart_required_fields : list string :=
  ["retailer"; "productId"; "title"; "price_cents"; "currency";
   "productUrl"; "imageUrl"; "selectedSize"; "color"; "category"].

(** [for field in required_fields: if field not in body: return ...] *)
Fixpoint check_required_fields (body : pyval) (fields : list string)
    : result (option Response) :=
  match fields with
  | [] => inr None
  | field :: rest =>
      let? present := py_contains field body in
      if negb present
      then some_response (create_error_response 400 "MISSING_FIELD"
                        ("Required field missing: " ++ field) None)
      else check_required_fields body rest
  end.

Definition cart_post_handler (event : pyval) : M Response :=
  try_except
    (let! user_id := lift (get_user_id event) in
     try_or_return (parse_body event) [JSONDecodeError; TypeError]
       (lift (create_error_response 400 "INVALID_JSON"
                "Request body must be valid JSON" None))
       (fun body =>
     let! bad := lift (check_required_fields body cart_required_fields) in
     match bad with
     | Some r => ret r
     | None =>
     let! price_cents := lift (py_getitem body "price_cents") in
     if negb (isinstance_int_float price_cents) || py_lt_int price_cents 0
     then lift (create_error_response 400 "INVALID_VALUE"
                 "price_cents must be a non-negative number" None)
     else
       let! retailer := lift (py_getitem body "retailer") in
       let! productId := lift (py_getitem body "productId") in
       let item_key := py_str retailer ++ "#" ++ py_str productId in
       let! current_time := get_current_timestamp in
       let! r := lift (py_getitem body "retailer") in
       let! pid := lift (py_getitem body "productId") in
       let! t := lift (py_getitem body "title") in
       let! p := lift (py_getitem body "price_cents") in
       let! c := lift (py_getitem body "currency") in
       let! pu := lift (py_getitem body "productUrl") in
       let! iu := lift (py_getitem body "imageUrl") in
       let! ss := lift (py_getitem body "selectedSize") in
       let! col := lift (py_getitem body "color") in
       let! cat := lift (py_getitem body "category") in
       let! _ :=
         update_item CART_ITEMS_TABLE
           [("user_id", user_id); ("item_key", PStr item_key)]
           [SetValue "retailer" r; SetValue "productId" pid;
            SetValue "title" t; SetValue "price_cents" p;
            SetValue "currency" c; SetValue "productUrl" pu;
            SetValue "imageUrl" iu; SetValue "selectedSize" ss;
            SetValue "color" col; SetValue "category" cat;
            SetValue "updatedAt" current_time;
            SetIfNotExists "addedAt" current_time] in
       lift (create_response 200 (PDict [("ok", PBool true)]) None)
     end))
    [([ValueError],
      fun e => lift (create_error_response 401 "UNAUTHORIZED" (str_exn e) None));
     ([ClientError],
      fun _ => lift (create_error_response 500 "DYNAMODB_ERROR"
                      "Failed to save cart item" None));
     ([Exception],
      fun _ => lift (create_error_response 500 "INTERNAL_ERROR"
                      "An unexpected error occurred" None))].

(** ** 4. GET /cart *)

(** Line 259: [json.loads(base64.b64decode(cursor).decode())] *)
Definition decode_cursor (cursor : pyval) : result pyval :=
  match cursor with
  | PStr c =>
      let? raw := b64decode c in
      let? text := bytes_decode raw in
      json_loads (PStr text)
  | _ => inl (Exn TypeError "argument should be a bytes-like object or ASCII string")
  end.

(** Line 275: [base64.b64encode(json.dumps(key).encode()).decode()] *)
Definition encode_cursor (key : pyval) : result string :=
  let? text := json_dumps key in
  let? raw := str_encode text in
  bytes_decode (b64encode raw).

Definition cart_get_handler (event : pyval) : M Response :=
  try_except
    (let! user_id := lift (get_user_id event) in
     let! query_params := lift (query_string_parameters event) in
     let! cursor := lift (py_get query_params "cursor") in
     try_or_return
       (if py_truthy cursor
        then let! decoded_cursor := lift (decode_cursor cursor) in
             ret (Some decoded_cursor)
        else ret None)
       [Exception]
       (lift (create_error_response 400 "INVALID_CURSOR"
               "Invalid pagination cursor" None))
       (fun exclusive_start_key =>
     let! response :=
       query CART_ITEMS_TABLE None user_id exclusive_start_key in
     let items := default [] (Items response) in
     let! next_cursor :=
       match LastEvaluatedKey response with
       | Some key => let! cursor_data := lift (encode_cursor key) in
                     ret (PStr cursor_data)
       | None => ret PNone
       end in
     lift (create_response 200
            (PDict [("items", PList items); ("nextCursor", next_cursor)])
            None)))
    [([ValueError],
      fun e => lift (create_error_response 401 "UNAUTHORIZED" (str_exn e) None));
     ([ClientError],
      fun _ => lift (create_error_response 500 "DYNAMODB_ERROR"
                      "Failed to retrieve cart items" None));
     ([Exception],
      fun _ => lift (create_error_response 500 "INTERNAL_ERROR"
                      "An unexpected error occurred" None))].

(** ** 5. POST /fit *)

Definition is_dict (v : pyval) : bool :=
  match v with PDict _ => true | _ => false end.

Definition is_list (v : pyval) : bool :=
  match v with PList _ => true | _ => false end.

(** [a or b], where [b] is evaluated only when [a] is false. *)
Definition or_else (a : bool) (b : result bool) : result bool :=
  if a then inr true else b.

Definition py_not_in (k : string) (v : pyval) : result bool :=
  let? b := py_contains k v in inr (negb b).

(** [for item in body['items']: if not isinstance(item, dict) or
    'retailer' not in item or 'productId' not in item: return ...] *)
Fixpoint fit_check_items (items : list pyval)
    : result (option Response) :=
  match items with
  | [] => inr None
  | item :: rest =>
      let? bad :=
        or_else (negb (is_dict item))
          (let? no_retailer := py_not_in "retailer" item in
           or_else no_retailer (py_not_in "productId" item)) in
      if bad
      then some_response (create_error_response 400 "INVALID_ITEMS"
                        "Each item must have retailer and productId" None)
      else fit_check_items rest
  end.

(** Iterating [body['items']], which the first check made a list. *)
Definition list_elements (v : pyval) : list pyval :=
  match v with PList l => l | _ => [] end.

(** Lines 302-313: the validation of the body; [Some r] is an early
    [return r]. *)
Definition fit_validate (body : pyval) : result (option Response) :=
  let? bad_items :=
    let? no_items := py_not_in "items" body in
    or_else no_items
      (let? items := py_getitem body "items" in inr (negb (is_list items))) in
  if bad_items
  then some_response (create_error_response 400 "MISSING_FIELD"
                    "items array is required" None)
  else
    let? bad_mode :=
      let? no_mode := py_not_in "mode" body in
      or_else no_mode
        (let? mode := py_getitem body "mode" in
         inr (negb (py_in_strs mode ["MVP_COMPOSITE"; "BEDROCK"]))) in
    if bad_mode
    then some_response (create_error_response 400 "INVALID_MODE"
                      "mode must be MVP_COMPOSITE or BEDROCK" None)
    else
      let? items := py_getitem body "items" in
      fit_check_items (list_elements items).

(** Lines 348-387: the synchronous branch.  The compositing call is
    commented out in the source, so the only step of the [try] that can
    raise is the update to READY. *)
Definition fit_generate (user_id : pyval) (fit_id : string) : M Response :=
  try_except
    (let generated_key :=
       "generated/" ++ py_str user_id ++ "/" ++ fit_id ++ ".jpg" in
     let! now := get_current_timestamp in
     let! _ :=
       update_item FITS_TABLE [("fitId", PStr fit_id)]
         [SetValue "status" (PStr "READY");
          SetValue "imageUrl" (PStr generated_key);
          SetValue "updatedAt" now] in
     lift (create_response 201
            (PDict [("fitId", PStr fit_id); ("status", PStr "READY")]) None))
    [([Exception],
      fun _ =>
        let! now := get_current_timestamp in
        let! _ :=
          update_item FITS_TABLE [("fitId", PStr fit_id)]
            [SetValue "status" (PStr "FAILED");
             SetValue "updatedAt" now] in
        lift (create_error_response 500 "GENERATION_FAILED"
               "Failed to generate fit" None))].

(** Lines 315-333: a fresh identifier and the record of the new job. *)
Definition fit_new_record (user_id body : pyval) : M (string * dict) :=
  let! fit_id := uuid4 in
  let! items := lift (py_getitem body "items") in
  let! mode := lift (py_getitem body "mode") in
  let! createdAt := get_current_timestamp in
  let! updatedAt := get_current_timestamp in
  let fit_data :=
    [("fitId", PStr fit_id);
     ("user_id", user_id);
     ("items", items);
     ("mode", mode);
     ("status", PStr "PENDING");
     ("createdAt", createdAt);
     ("updatedAt", updatedAt)] in
  let! has_name := lift (py_contains "name" body) in
  let! fit_data :=
    if has_name
    then let! name := lift (py_getitem body "name") in
         ret (dict_set "name" name fit_data)
    else ret fit_data in
  let! has_asset := lift (py_contains "body_asset_key" body) in
  let! fit_data :=
    if has_asset
    then let! key := lift (py_getitem body "body_asset_key") in
         ret (dict_set "body_asset_key" key fit_data)
    else ret fit_data in
  ret (fit_id, fit_data).

(** Lines 335-387: the record is stored, then the mode decides.  The
    result is [None] when the function falls off the end of the
    [if]/[elif]. *)
Definition fit_persist (user_id body : pyval) (fit_id : string)
    (fit_data : dict) : M (option Response) :=
  let! _ := put_item FITS_TABLE fit_data in
  let! mode := lift (py_getitem body "mode") in
  if py_eq_str mode "BEDROCK"
  then return_some (create_response 201
                    (PDict [("fitId", PStr fit_id);
                            ("status", PStr "PENDING")]) None)
  else
    let! mode := lift (py_getitem body "mode") in
    if py_eq_str mode "MVP_COMPOSITE"
    then let! r := fit_generate user_id fit_id in ret (Some r)
    else ret None.

Definition fit_create_handler (event : pyval) : M (option Response) :=
  try_except
    (let! user_id := lift (get_user_id event) in
     try_or_return (parse_body event) [JSONDecodeError; TypeError]
       (return_some (create_error_response 400 "INVALID_JSON"
                       "Request body must be valid JSON" None))
       (fun body =>
     let! bad := lift (fit_validate body) in
     match bad with
     | Some r => ret (Some r)
     | None =>
         let! new := fit_new_record user_id body in
         fit_persist user_id body (fst new) (snd new)
     end))
    [([ValueError],
      fun e => return_some (create_error_response 401 "UNAUTHORIZED"
                            (str_exn e) None));
     ([ClientError],
      fun _ => return_some (create_error_response 500 "DYNAMODB_ERROR"
                            "Failed to create fit job" None));
     ([Exception],
      fun _ => return_some (create_error_response 500 "INTERNAL_ERROR"
                            "An unexpected error occurred" None))].

(** ** 6. GET /fit/{fitId} *)

Definition fit_get_handler (event : pyval) : M Response :=
  try_except
    (let! user_id := lift (get_user_id event) in
     let! path_parameters := lift (py_getitem event "pathParameters") in
     let! fit_id := lift (py_getitem path_parameters "fitId") in
     if negb (py_truthy fit_id)
     then lift (create_error_response 400 "MISSING_PARAMETER"
                 "fitId is required" None)
     else
       let! response := get_item FITS_TABLE [("fitId", fit_id)] in
       if negb (dict_has "Item" response)
       then lift (create_error_response 404 "FIT_NOT_FOUND"
                   "Fit not found" None)
       else
         let! fit_item := lift (py_getitem (PDict response) "Item") in
         let! owner := lift (py_getitem fit_item "user_id") in
         if negb (py_eq owner user_id)
         then lift (create_error_response 403 "FORBIDDEN"
                     "Access denied to this fit" None)
         else
           let! fitId := lift (py_getitem fit_item "fitId") in
           let! status := lift (py_getitem fit_item "status") in
           let! items := lift (py_getitem fit_item "items") in
           let! createdAt := lift (py_getitem fit_item "createdAt") in
           let! updatedAt := lift (py_getitem fit_item "updatedAt") in
           let response_data :=
             [("fitId", fitId); ("status", status); ("items", items);
              ("createdAt", createdAt); ("updatedAt", updatedAt);
              ("imageUrl", PNone)] in
           let! has_name := lift (py_contains "name" fit_item) in
           let! response_data :=
             if has_name
             then let! name := lift (py_getitem fit_item "name") in
                  ret (dict_set "name" name response_data)
             else ret response_data in
           let! status := lift (py_getitem fit_item "status") in
           let! ready :=
             if py_eq_str status "READY"
             then lift (py_contains "imageUrl" fit_item)
             else ret false in
           let! response_data :=
             if ready
             then
               try_except
                 (let! key := lift (py_getitem fit_item "imageUrl") in
                  let! presigned_url :=
                    generate_presigned_url "get_object" key 3600 [] in
                  ret (dict_set "imageUrl" (PStr presigned_url)
                         response_data))
                 [([ClientError], fun _ => ret response_data)]
             else ret response_data in
           lift (create_response 200 (PDict response_data) None))
    [([ValueError],
      fun e => lift (create_error_response 401 "UNAUTHORIZED" (str_exn e) None));
     ([ClientError],
      fun _ => lift (create_error_response 500 "DYNAMODB_ERROR"
                      "Failed to retrieve fit" None));
     ([Exception],
      fun _ => lift (create_error_response 500 "INTERNAL_ERROR"
                      "An unexpected error occurred" None))].

(** ** 7. GET /fits *)

(** [v.replace(old, new)], a method of strings only. *)
Definition py_replace (v : pyval) (old new : string) : result string :=
  match v with
  | PStr s => inr (str_replace s old new)
  | _ => inl (Exn AttributeError "object has no attribute 'replace'")
  end.

(** The body of the loop over the page of fits. *)
Definition fit_summary_of (item : pyval) : M pyval :=
  let! fitId := lift (py_getitem item "fitId") in
  let! createdAt := lift (py_getitem item "createdAt") in
  let! status := lift (py_getitem item "status") in
  let fit_summary :=
    [("fitId", fitId); ("createdAt", createdAt); ("status", status);
     ("thumbnailUrl", PNone)] in
  let! has_name := lift (py_contains "name" item) in
  let! fit_summary :=
    if has_name
    then let! name := lift (py_getitem item "name") in
         ret (dict_set "name" name fit_summary)
    else ret fit_summary in
  let! status := lift (py_getitem item "status") in
  let! ready :=
    if py_eq_str status "READY"
    then lift (py_contains "imageUrl" item)
    else ret false in
  let! fit_summary :=
    if ready
    then
      try_except
        (let! image_url := lift (py_getitem item "imageUrl") in
         let! thumbnail_key :=
           lift (py_replace image_url ".jpg" "_thumb.jpg") in
         let! thumbnail_url :=
           generate_presigned_url "get_object" (PStr thumbnail_key) 3600 []
           in
         ret (dict_set "thumbnailUrl" (PStr thumbnail_url) fit_summary))
        [([ClientError], fun _ => ret fit_summary)]
    else ret fit_summary in
  ret (PDict fit_summary).

Fixpoint fit_summaries (items : list pyval) : M (list pyval) :=
  match items with
  | [] => ret []
  | item :: rest =>
      let! x := fit_summary_of item in
      let! xs := fit_summaries rest in
      ret (x :: xs)
  end.

Definition fits_list_handler (event : pyval) : M Response :=
  try_except
    (let! user_id := lift (get_user_id event) in
     let! response :=
       query FITS_TABLE (Some "UserFitsByDate-Index") user_id None in
     let! fits := fit_summaries (default [] (Items response)) in
     lift (create_response 200 (PDict [("fits", PList fits)]) None))
    [([ValueError],
      fun e => lift (create_error_response 401 "UNAUTHORIZED" (str_exn e) None));
     ([ClientError],
      fun _ => lift (create_error_response 500 "DYNAMODB_ERROR"
                      "Failed to retrieve fits" None));
     ([Exception],
      fun _ => lift (create_error_response 500 "INTERNAL_ERROR"
                      "An unexpected error occurred" None))].

(** ** 8. POST /token *)

Definition token_handler (event : pyval) : M Response :=
  try_except
    (try_or_return (parse_body event) [JSONDecodeError; TypeError]
       (lift (create_error_response 400 "INVALID_JSON"
                "Request body must be valid JSON" None))
       (fun body =>
     let! bad :=
       lift (check_required_fields body
               ["code"; "redirectUri"; "codeVerifier"]) in
     match bad with
     | Some r => ret r
     | None =>
       let! e := get_env in
       let! code := lift (py_getitem body "code") in
       let! redirect_uri := lift (py_getitem body "redirectUri") in
       let! code_verifier := lift (py_getitem body "codeVerifier") in
       let token_data :=
         [("grant_type", PStr "authorization_code");
          ("client_id", COGNITO_CLIENT_ID e);
          ("code", code);
          ("redirect_uri", redirect_uri);
          ("code_verifier", code_verifier)] in
       let token_url :=
         "https://" ++ py_str (COGNITO_DOMAIN e) ++ "/oauth2/token" in
       let encoded_data := urlencode token_data in
       let! response := http_request token_url encoded_data in
       let! text := lift (bytes_decode (http_data response)) in
       let! response_data := lift (json_loads (PStr text)) in
       if http_status response =? 200
       then lift (create_response 200 response_data None)
       else lift (create_response (http_status response) response_data None)
     end))
    [([JSONDecodeError],
      fun _ => lift (create_error_response 500 "COGNITO_ERROR"
                      "Invalid response from Cognito" None));
     ([Exception],
      fun _ => lift (create_error_response 500 "INTERNAL_ERROR"
                      "Token exchange failed" None))].

(** ** The router *)

Definition lambda_handler (event : pyval) : M (option Response) :=
  try_except
    (let! method := lift (py_getitem event "httpMethod") in
     let! resource := lift (py_getitem event "resource") in
     if py_eq_str method "OPTIONS"
     then return_some (create_response 204 (PDict []) None)
     else if py_eq_str resource "/upload-url" && py_eq_str method "GET"
     then let! r := upload_url_handler event in ret (Some r)
     else if py_eq_str resource "/profile" && py_eq_str method "POST"
     then let! r := profile_handler event in ret (Some r)
     else if py_eq_str resource "/cart" && py_eq_str method "POST"
     then let! r := cart_post_handler event in ret (Some r)
     else if py_eq_str resource "/cart" && py_eq_str method "GET"
     then let! r := cart_get_handler event in ret (Some r)
     else if py_eq_str resource "/fit" && py_eq_str method "POST"
     then fit_create_handler event
     else if py_eq_str resource "/fit/{fitId}" && py_eq_str method "GET"
     then let! r := fit_get_handler event in ret (Some r)
     else if py_eq_str resource "/fits" && py_eq_str method "GET"
     then let! r := fits_list_handler event in ret (Some r)
     else if py_eq_str resource "/token" && py_eq_str method "POST"
     then let! r := token_handler event in ret (Some r)
     else return_some (create_error_response 404 "NOT_FOUND"
                       "The requested resource was not found" None))
    [([Exception],
      fun _ => return_some (create_error_response 500 "INTERNAL_ERROR"
                            "An unexpected internal error occurred" None))].

End Handlers.

(** ** A reference implementation of the library interface

    The functions of CPython that the handlers call, written out for
    texts held as UTF-8, so that the handlers can be run on concrete
    requests.  Floats are printed with their exact decimal expansion,
    which is CPython's output when that expansion is the shortest one
    that reads back to the same float. *)

Module Reference.

Definition code (c : ascii) : Z := Z.of_N (N_of_ascii c).
Definition chr (z : Z) : ascii := ascii_of_N (Z.to_N z).
Definition char (z : Z) : string := String (chr z) EmptyString.

(** A quotation mark, and a text written with apostrophes in place of
    quotation marks. *)
Definition dquote : string := char 34.

Fixpoint text (s : string) : string :=
  match s with
  | EmptyString => EmptyString
  | String c r => String (if code c =? 39 then chr 34 else c) (text r)
  end.

(** *** Integers in decimal *)

Fixpoint digits_from (fuel : nat) (n : Z) (acc : string) : string :=
  match fuel with
  | O => acc
  | S f =>
      let acc' := String (chr (48 + n mod 10)) acc in
      if n / 10 =? 0 then acc' else digits_from f (n / 10) acc'
  end.

Definition nat_digits (n : Z) : string :=
  digits_from (S (Z.to_nat (Z.log2 n))) n EmptyString.

Definition Z_to_string (z : Z) : string :=
  if z <? 0 then "-" ++ nat_digits (- z) else nat_digits z.

(** *** UTF-8 *)

Definition is_cont (c : ascii) : bool := (128 <=? code c) && (code c <? 192).

(** The code points of a UTF-8 text; [None] when it is not UTF-8
    (overlong forms, surrogates and values past U+10FFFF included). *)
Fixpoint code_points (fuel : nat) (s : string) : option (list Z) :=
  match fuel with
  | O => match s with EmptyString => Some [] | _ => None end
  | S f =>
  match s with
  | EmptyString => Some []
  | String a r =>
      let x := code a in
      if x <? 128 then cons x <$> code_points f r
      else if x <? 194 then None
      else if x <? 224 then
        match r with
        | String b r' =>
            if is_cont b
            then cons ((x - 192) * 64 + (code b - 128)) <$> code_points f r'
            else None
        | _ => None
        end
      else if x <? 240 then
        match r with
        | String b (String c r') =>
            let cp := (x - 224) * 4096 + (code b - 128) * 64 + (code c - 128) in
            if is_cont b && is_cont c && (2048 <=? cp)
               && negb ((55296 <=? cp) && (cp <? 57344))
            then cons cp <$> code_points f r'
            else None
        | _ => None
        end
      else if x <? 245 then
        match r with
        | String b (String c (String d r')) =>
            let cp := (x - 240) * 262144 + (code b - 128) * 4096
                      + (code c - 128) * 64 + (code d - 128) in
            if is_cont b && is_cont c && is_cont d
               && (65536 <=? cp) && (cp <? 1114112)
            then cons cp <$> code_points f r'
            else None
        | _ => None
        end
      else None
  end
  end.

Definition utf8_of_point (cp : Z) : string :=
  if cp <? 128 then char cp
  else if cp <? 2048 then
    char (192 + cp / 64) ++ char (128 + cp mod 64)
  else if cp <? 65536 then
    char (224 + cp / 4096) ++ char (128 + cp / 64 mod 64)
      ++ char (128 + cp mod 64)
  else
    char (240 + cp / 262144) ++ char (128 + cp / 4096 mod 64)
      ++ char (128 + cp / 64 mod 64) ++ char (128 + cp mod 64).

Definition bytes_of_string (s : string) : list Byte.byte :=
  list_byte_of_string s.

(** [s.encode()] *)
Definition ref_str_encode (s : string) : result (list Byte.byte) :=
  inr (bytes_of_string s).

(** [b.decode()] *)
Definition ref_bytes_decode (b : list Byte.byte) : result string :=
  let s := string_of_list_byte b in
  match code_points (String.length s) s with
  | Some _ => inr s
  | None => inl (Exn UnicodeDecodeError "invalid utf-8")
  end.

(** *** json.dumps *)

Definition hex_digit (n : Z) : ascii :=
  if n <? 10 then chr (48 + n) else chr (87 + n).

Definition u_escape (cp : Z) : string :=
  char 92 ++ "u"
    ++ String (hex_digit (cp / 4096 mod 16))
         (String (hex_digit (cp / 256 mod 16))
            (String (hex_digit (cp / 16 mod 16))
               (String (hex_digit (cp mod 16)) EmptyString))).

Definition escape_point (cp : Z) : string :=
  if cp =? 34 then char 92 ++ char 34
  else if cp =? 92 then char 92 ++ char 92
  else if cp =? 10 then char 92 ++ "n"
  else if cp =? 13 then char 92 ++ "r"
  else if cp =? 9 then char 92 ++ "t"
  else if cp =? 8 then char 92 ++ "b"
  else if cp =? 12 then char 92 ++ "f"
  else if (32 <=? cp) && (cp <? 127) then char cp
  else if cp <? 65536 then u_escape cp
  else u_escape (55296 + (cp - 65536) / 1024)
       ++ u_escape (56320 + (cp - 65536) mod 1024).

Definition points_of (s : string) : list Z :=
  default (map code (list_ascii_of_string s))
    (code_points (String.length s) s).

Definition json_quote (s : string) : string :=
  dquote ++ fold_right (fun cp acc => escape_point cp ++ acc)
              EmptyString (points_of s) ++ dquote.

Fixpoint join (sep : string) (l : list string) : string :=
  match l with
  | [] => EmptyString
  | [x] => x
  | x :: r => x ++ sep ++ join sep r
  end.

(** The exact decimal expansion of [m * 2^e]. *)
Fixpoint zeros (n : nat) : string :=
  match n with O => EmptyString | S k => String (chr 48) (zeros k) end.

Fixpoint drop_trailing_zeros (s : string) : string :=
  match s with
  | EmptyString => EmptyString
  | String c r =>
      match drop_trailing_zeros r with
      | EmptyString =>
          if code c =? 48 then EmptyString else String c EmptyString
      | r' => String c r'
      end
  end.

Definition float_text (nan inf : string) (f : pyfloat) : string :=
  match f with
  | FNan => nan
  | FInf true => "-" ++ inf
  | FInf false => inf
  | FFin m e =>
      let sign := if m <? 0 then "-" else EmptyString in
      let a := Z.abs m in
      if 0 <=? e then sign ++ nat_digits (a * 2 ^ e) ++ ".0"
      else
        let k := Z.to_nat (- e) in
        let frac := nat_digits ((a mod 2 ^ (- e)) * 5 ^ (- e)) in
        let frac := zeros (k - String.length frac) ++ frac in
        sign ++ nat_digits (a / 2 ^ (- e)) ++ "."
          ++ match drop_trailing_zeros frac with
             | EmptyString => "0"
             | digits => digits
             end
  end.

(** The text of a value that holds no Decimal. *)
Fixpoint ref_json_dumps (v : pyval) : string :=
  match v with
  | PNone => "null"
  | PBool true => "true"
  | PBool false => "false"
  | PInt z => Z_to_string z
  | PFloat f => float_text "NaN" "Infinity" f
  | PStr s => json_quote s
  | PList l => "[" ++ join ", " (map ref_json_dumps l) ++ "]"
  | PDict d =>
      "{" ++ join ", "
               (map (fun kv => json_quote (fst kv) ++ ": "
                               ++ ref_json_dumps (snd kv)) d) ++ "}"
  | PDecimal _ => EmptyString
  end.


(** *** json.loads *)

Fixpoint skip_ws (s : string) : string :=
  match s with
  | String c r =>
      if (code c =? 32) || (code c =? 9) || (code c =? 10) || (code c =? 13)
      then skip_ws r else s
  | EmptyString => s
  end.

Definition hex_value (c : ascii) : option Z :=
  let x := code c in
  if (48 <=? x) && (x <=? 57) then Some (x - 48)
  else if (97 <=? x) && (x <=? 102) then Some (x - 87)
  else if (65 <=? x) && (x <=? 70) then Some (x - 55)
  else None.

Definition hex4 (s : string) : option (Z * string) :=
  match s with
  | String a (String b (String c (String d r))) =>
      match hex_value a, hex_value b, hex_value c, hex_value d with
      | Some x, Some y, Some z, Some t =>
          Some (x * 4096 + y * 256 + z * 16 + t, r)
      | _, _, _, _ => None
      end
  | _ => None
  end.

Definition simple_escape (c : ascii) : option Z :=
  let x := code c in
  if x =? 34 then Some 34
  else if x =? 92 then Some 92
  else if x =? 47 then Some 47
  else if x =? 98 then Some 8
  else if x =? 102 then Some 12
  else if x =? 110 then Some 10
  else if x =? 114 then Some 13
  else if x =? 116 then Some 9
  else None.

(** The rest of a string literal, after its opening quotation mark. *)
Fixpoint scan_string (fuel : nat) (s : string) : option (string * string) :=
  match fuel with
  | O => None
  | S f =>
  match s with
  | EmptyString => None
  | String c r =>
      if code c =? 34 then Some (EmptyString, r)
      else if code c =? 92 then
        match r with
        | String e r' =>
            if code e =? 117 then
              match hex4 r' with
              | Some (hi, r2) =>
                  let low :=
                    match r2 with
                    | String b (String u r3) =>
                        if (code b =? 92) && (code u =? 117)
                        then hex4 r3 else None
                    | _ => None
                    end in
                  match low with
                  | Some (lo, r4) =>
                      if (55296 <=? hi) && (hi <? 56320)
                         && (56320 <=? lo) && (lo <? 57344)
                      then
                        '(t, rest) ← scan_string f r4;
                        Some (utf8_of_point
                                (65536 + (hi - 55296) * 1024 + (lo - 56320))
                                ++ t, rest)
                      else
                        '(t, rest) ← scan_string f r2;
                        Some (utf8_of_point hi ++ t, rest)
                  | None =>
                      '(t, rest) ← scan_string f r2;
                      Some (utf8_of_point hi ++ t, rest)
                  end
              | None => None
              end
            else
              match simple_escape e with
              | Some x =>
                  '(t, rest) ← scan_string f r';
                  Some (String (chr x) t, rest)
              | None => None
              end
        | EmptyString => None
        end
      else if code c <? 32 then None
      else
        '(t, rest) ← scan_string f r;
        Some (String c t, rest)
  end
  end.

Definition is_digit (c : ascii) : bool := (48 <=? code c) && (code c <=? 57).

(** The digits at the head of [s]: their value after [acc], how many,
    and the rest. *)
Fixpoint scan_digits (s : string) (acc : Z) (n : Z) : Z * Z * string :=
  match s with
  | String c r =>
      if is_digit c then scan_digits r (acc * 10 + (code c - 48)) (n + 1)
      else (acc, n, s)
  | EmptyString => (acc, n, s)
  end.

(** [n / d] rounded to the nearest, ties to even. *)
Definition round_div (n d : Z) : Z :=
  let q := n / d in
  let r := n mod d in
  if 2 * r <? d then q
  else if d <? 2 * r then q + 1
  else if Z.even q then q else q + 1.

(** The double nearest to [n / d], for [0 <= n] and [0 < d]. *)
Definition double_of_ratio (negative : bool) (n d : Z) : pyfloat :=
  if n =? 0 then FFin 0 0
  else
    let e0 := Z.log2 n - Z.log2 d in
    let below :=
      if 0 <=? e0 then n <? d * 2 ^ e0 else n * 2 ^ (- e0) <? d in
    let e := if below then e0 - 1 else e0 in
    let k := Z.max (e - 52) (- 1074) in
    let m := if 0 <=? k then round_div n (d * 2 ^ k)
             else round_div (n * 2 ^ (- k)) d in
    if (0 <=? k + 53 - 1024) && (2 ^ (1024 - k) <=? m) then FInf negative
    else FFin (if negative then - m else m) k.

Definition scan_number (s : string) : option (pyval * string) :=
  let '(negative, s1) :=
    match s with
    | String c r => if code c =? 45 then (true, r) else (false, s)
    | EmptyString => (false, s)
    end in
  let int_part :=
    match s1 with
    | String c r =>
        if code c =? 48 then Some (0, r)
        else if is_digit c then
          let '(v, _, rest) := scan_digits s1 0 0 in Some (v, rest)
        else None
    | EmptyString => None
    end in
  match int_part with
  | None => None
  | Some (ip, s2) =>
      let '(mant, fdigits, s3, has_frac) :=
        match s2 with
        | String c (String d r) =>
            if (code c =? 46) && is_digit d
            then let '(v, n, rest) := scan_digits (String d r) ip 0 in
                 (v, n, rest, true)
            else (ip, 0, s2, false)
        | _ => (ip, 0, s2, false)
        end in
      let exp_part :=
        match s3 with
        | String c r =>
            if (code c =? 101) || (code c =? 69) then
              let '(eneg, r1) :=
                match r with
                | String g r' =>
                    if code g =? 45 then (true, r')
                    else if code g =? 43 then (false, r')
                    else (false, r)
                | EmptyString => (false, r)
                end in
              match r1 with
              | String d _ =>
                  if is_digit d
                  then let '(v, _, rest) := scan_digits r1 0 0 in
                       Some (if eneg then - v else v, rest)
                  else None
              | EmptyString => None
              end
            else None
        | EmptyString => None
        end in
      match has_frac, exp_part with
      | false, None => Some (PInt (if negative then - ip else ip), s3)
      | _, _ =>
          let '(ex, s4) := default (0, s3) exp_part in
          let x := ex - fdigits in
          Some (PFloat (if 0 <=? x
                        then double_of_ratio negative (mant * 10 ^ x) 1
                        else double_of_ratio negative mant (10 ^ (- x))),
                s4)
      end
  end.

Definition strip_prefix (p s : string) : option string :=
  if prefixb p s then Some (substring (String.length p)
                              (String.length s - String.length p) s)
  else None.

Fixpoint scan_value (fuel : nat) (s : string) : option (pyval * string) :=
  match fuel with
  | O => None
  | S f =>
      match skip_ws s with
      | EmptyString => None
      | String c r as s0 =>
          if code c =? 34 then
            '(t, rest) ← scan_string (String.length r) r;
            Some (PStr t, rest)
          else if code c =? 91 then
            match skip_ws r with
            | String c' r' =>
                if code c' =? 93 then Some (PList [], r')
                else scan_elements f r
            | EmptyString => None
            end
          else if code c =? 123 then
            match skip_ws r with
            | String c' r' =>
                if code c' =? 125 then Some (PDict [], r')
                else scan_members f r []
            | EmptyString => None
            end
          else
            match strip_prefix "null" s0, strip_prefix "true" s0,
                  strip_prefix "false" s0, strip_prefix "NaN" s0,
                  strip_prefix "Infinity" s0, strip_prefix "-Infinity" s0 with
            | Some rest, _, _, _, _, _ => Some (PNone, rest)
            | _, Some rest, _, _, _, _ => Some (PBool true, rest)
            | _, _, Some rest, _, _, _ => Some (PBool false, rest)
            | _, _, _, Some rest, _, _ => Some (PFloat FNan, rest)
            | _, _, _, _, Some rest, _ => Some (PFloat (FInf false), rest)
            | _, _, _, _, _, Some rest => Some (PFloat (FInf true), rest)
            | _, _, _, _, _, _ => scan_number s0
            end
      end
  end
with scan_elements (fuel : nat) (s : string) : option (pyval * string) :=
  match fuel with
  | O => None
  | S f =>
      '(v, rest) ← scan_value f s;
      match skip_ws rest with
      | String c r =>
          if code c =? 44 then
            '(tl, rest') ← scan_elements f r;
            match tl with
            | PList l => Some (PList (v :: l), rest')
            | _ => None
            end
          else if code c =? 93 then Some (PList [v], r)
          else None
      | EmptyString => None
      end
  end
with scan_members (fuel : nat) (s : string) (acc : dict)
    : option (pyval * string) :=
  match fuel with
  | O => None
  | S f =>
      match skip_ws s with
      | String q r =>
          if code q =? 34 then
            '(k, rest) ← scan_string (String.length r) r;
            match skip_ws rest with
            | String c r1 =>
                if code c =? 58 then
                  '(v, rest1) ← scan_value f r1;
                  let acc' := dict_set k v acc in
                  match skip_ws rest1 with
                  | String c2 r2 =>
                      if code c2 =? 44 then scan_members f r2 acc'
                      else if code c2 =? 125 then Some (PDict acc', r2)
                      else None
                  | EmptyString => None
                  end
                else None
            | EmptyString => None
            end
          else None
      | EmptyString => None
      end
  end.

(** [json.loads(x)]: a text holds one value and blanks. *)
Definition ref_json_loads (x : pyval) : result pyval :=
  match x with
  | PStr s =>
      match scan_value (2 * String.length s + 2) s with
      | Some (v, rest) =>
          match skip_ws rest with
          | EmptyString => inr v
          | _ => inl (Exn JSONDecodeError "Extra data")
          end
      | None => inl (Exn JSONDecodeError "Expecting value")
      end
  | _ => inl (Exn TypeError "the JSON object must be str, bytes or bytearray")
  end.

(** *** base64 *)

Definition b64_char (n : Z) : ascii :=
  if n <? 26 then chr (65 + n)
  else if n <? 52 then chr (97 + (n - 26))
  else if n <? 62 then chr (48 + (n - 52))
  else if n =? 62 then chr 43 else chr 47.

Definition b64_value (c : ascii) : option Z :=
  let x := code c in
  if (65 <=? x) && (x <=? 90) then Some (x - 65)
  else if (97 <=? x) && (x <=? 122) then Some (x - 97 + 26)
  else if (48 <=? x) && (x <=? 57) then Some (x - 48 + 52)
  else if x =? 43 then Some 62
  else if x =? 47 then Some 63
  else None.

Fixpoint b64_encode_codes (l : list Z) : string :=
  match l with
  | [] => EmptyString
  | [a] =>
      String (b64_char (a / 4))
        (String (b64_char (a mod 4 * 16)) "==")
  | [a; b] =>
      String (b64_char (a / 4))
        (String (b64_char (a mod 4 * 16 + b / 16))
           (String (b64_char (b mod 16 * 4)) "="))
  | a :: b :: c :: r =>
      String (b64_char (a / 4))
        (String (b64_char (a mod 4 * 16 + b / 16))
           (String (b64_char (b mod 16 * 4 + c / 64))
              (String (b64_char (c mod 64)) (b64_encode_codes r))))
  end.

Definition byte_code (b : Byte.byte) : Z := Z.of_N (Byte.to_N b).

(** [base64.b64encode(b)] *)
Definition ref_b64encode (b : list Byte.byte) : list Byte.byte :=
  list_byte_of_string (b64_encode_codes (map byte_code b)).

(** The decoder of [binascii.a2b_base64] when it does not validate:
    characters outside the alphabet are skipped, decoding stops at
    the padding that completes a quad, and an incomplete quad at the
    end is an error.  [quad_pos] is the position in the quad,
    [leftchar] the bits not yet written, [pads] the padding seen. *)
Fixpoint b64_decode_from (s : string) (quad_pos leftchar pads : Z)
    : option (list Z) :=
  match s with
  | EmptyString => if quad_pos =? 0 then Some [] else None
  | String c r =>
      if code c =? 61 then
        if (2 <=? quad_pos) && (4 <=? quad_pos + (pads + 1)) then Some []
        else b64_decode_from r quad_pos leftchar
               (if 2 <=? quad_pos then pads + 1 else pads)
      else
        match b64_value c with
        | None => b64_decode_from r quad_pos leftchar pads
        | Some v =>
            if quad_pos =? 0 then b64_decode_from r 1 v 0
            else if quad_pos =? 1 then
              cons (leftchar * 4 + v / 16)
                <$> b64_decode_from r 2 (v mod 16) 0
            else if quad_pos =? 2 then
              cons (leftchar * 16 + v / 4)
                <$> b64_decode_from r 3 (v mod 4) 0
            else
              cons (leftchar * 64 + v) <$> b64_decode_from r 0 0 0
        end
  end.

Definition is_ascii_text (s : string) : bool :=
  forallb (fun c => code c <? 128) (list_ascii_of_string s).

Definition byte_of_code (z : Z) : Byte.byte :=
  default Byte.x00 (Byte.of_N (Z.to_N z)).

(** [base64.b64decode(s)] on a text *)
Definition ref_b64decode (s : string) : result (list Byte.byte) :=
  if is_ascii_text s then
    match b64_decode_from s 0 0 0 with
    | Some l => inr (map byte_of_code l)
    | None => inl (Exn BinasciiError "Incorrect padding")
    end
  else inl (Exn ValueError
              "string argument should contain only ASCII characters").

(** *** str() and repr() *)

Definition has_char (x : Z) (s : string) : bool :=
  existsb (fun c => code c =? x) (list_ascii_of_string s).

Definition x_escape (x : Z) : string :=
  char 92 ++ "x"
    ++ String (hex_digit (x / 16)) (String (hex_digit (x mod 16)) EmptyString).

(** [repr(s)] of a text: apostrophes around it, unless it holds an
    apostrophe and no quotation mark. *)
Definition str_repr (s : string) : string :=
  let q := if has_char 39 s && negb (has_char 34 s) then 34 else 39 in
  char q
    ++ fold_right
         (fun c acc =>
            let x := code c in
            (if (x =? q) || (x =? 92) then char 92 ++ char x
             else if x =? 10 then char 92 ++ "n"
             else if x =? 13 then char 92 ++ "r"
             else if x =? 9 then char 92 ++ "t"
             else if (x <? 32) || (x =? 127) then x_escape x
             else char x) ++ acc)
         EmptyString (list_ascii_of_string s)
    ++ char q.

(** [str(d)] of a Decimal that is an integer or has a fraction. *)
Definition decimal_text (x : pynum) : string :=
  match x with
  | NInt z => Z_to_string z
  | NFloat f => float_text "NaN" "Infinity" f
  end.

Fixpoint py_repr (v : pyval) : string :=
  match v with
  | PNone => "None"
  | PBool true => "True"
  | PBool false => "False"
  | PInt z => Z_to_string z
  | PFloat f => float_text "nan" "inf" f
  | PStr s => str_repr s
  | PList l => "[" ++ join ", " (map py_repr l) ++ "]"
  | PDict d =>
      "{" ++ join ", "
               (map (fun kv => str_repr (fst kv) ++ ": " ++ py_repr (snd kv)) d)
        ++ "}"
  | PDecimal x => "Decimal('" ++ decimal_text x ++ "')"
  end.

(** [str(x)] *)
Definition ref_py_str (v : pyval) : string :=
  match v with
  | PStr s => s
  | PDecimal x => decimal_text x
  | _ => py_repr v
  end.

(** *** urllib.parse.urlencode *)

Definition percent (x : Z) : string :=
  "%" ++ String (chr (if x / 16 <? 10 then 48 + x / 16 else 55 + x / 16))
           (String (chr (if x mod 16 <? 10 then 48 + x mod 16
                         else 55 + x mod 16)) EmptyString).

Definition quote_plus (s : string) : string :=
  fold_right
    (fun c acc =>
       let x := code c in
       (if ((48 <=? x) && (x <=? 57)) || ((65 <=? x) && (x <=? 90))
           || ((97 <=? x) && (x <=? 122))
           || (x =? 95) || (x =? 46) || (x =? 45) || (x =? 126)
        then char x
        else if x =? 32 then "+"
        else percent x) ++ acc)
    EmptyString (list_ascii_of_string s).

Definition ref_urlencode (d : list (string * pyval)) : string :=
  join "&" (map (fun kv => quote_plus (fst kv) ++ "="
                           ++ quote_plus (ref_py_str (snd kv))) d).

(** *** Vocabulary for the codecs *)

(** The code of the [n]-th character of the base64 alphabet. *)
Definition b64_code (n : Z) : Z :=
  if n <? 26 then 65 + n
  else if n <? 52 then 71 + n
  else if n <? 62 then n - 4
  else if n =? 62 then 43 else 47.

Definition byte_range (l : list Z) : Prop := Forall (fun x => 0 <= x < 256) l.

(** A Unicode scalar value: a code point that is not a surrogate. *)
Definition scalar (cp : Z) : Prop :=
  0 <= cp < 1114112 /\ ~ (55296 <= cp < 57344).

Fixpoint utf8_of_points (l : list Z) : string :=
  match l with
  | [] => EmptyString
  | cp :: r => utf8_of_point cp ++ utf8_of_points r
  end.

(** The inside of a JSON string literal. *)
Definition escaped (l : list Z) : string :=
  fold_right (fun cp acc => escape_point cp ++ acc) EmptyString l.

(** The four hexadecimal digits of a [\u] escape, before [rest]. *)
Definition hex_digits (cp : Z) (rest : string) : string :=
  String (hex_digit (cp / 4096 mod 16))
    (String (hex_digit (cp / 256 mod 16))
       (String (hex_digit (cp / 16 mod 16))
          (String (hex_digit (cp mod 16)) rest))).

Definition is_utf8 (s : string) : bool :=
  match code_points (String.length s) s with Some _ => true | None => false end.

(** One member of a serialised object. *)
Definition member_text (kv : string * pyval) : string :=
  json_quote (fst kv) ++ ": " ++ ref_json_dumps (snd kv).

Definition members_text (d : dict) : string := join ", " (map member_text d).

Fixpoint distinct (l : list string) : bool :=
  match l with
  | [] => true
  | k :: r => negb (existsb (String.eqb k) r) && distinct r
  end.

Definition is_text_value (v : pyval) : bool :=
  match v with PStr s => is_utf8 s | _ => false end.

Definition text_member (kv : string * pyval) : bool :=
  is_utf8 (fst kv) && is_text_value (snd kv).

Definition set_member (acc : dict) (kv : string * pyval) : dict :=
  dict_set (fst kv) (snd kv) acc.

(** The last-evaluated key of a table whose key attributes are texts:
    an object of texts, each attribute named once. *)
Definition string_key (key : pyval) : bool :=
  match key with
  | PDict d =>
      forallb text_member d && distinct (map fst d)
  | _ => false
  end.

(** The parser builds no Decimal. *)
Lemma dict_set_plain k v acc :
  has_decimal v = false -> has_decimal (PDict acc) = false ->
  has_decimal (PDict (dict_set k v acc)) = false.
Proof.
  intros Hv. cbn [has_decimal]. induction acc as [|[k' v'] acc IH]; cbn.
  - now rewrite Hv.
  - intros H. apply orb_false_iff in H as [H1 H2].
    destruct (String.eqb k k'); cbn; rewrite ?Hv, ?H1, ?H2; auto.
Qed.

Lemma scan_number_plain s v r :
  scan_number s = Some (v, r) -> has_decimal v = false.
Proof.
  unfold scan_number.
  repeat match goal with
         | |- context [match ?x with _ => _ end] => destruct x
         end;
    intros H; inversion H; reflexivity.
Qed.

Lemma scan_plain fuel :
  (forall s v r, scan_value fuel s = Some (v, r) -> has_decimal v = false) /\
  (forall s v r, scan_elements fuel s = Some (v, r) -> has_decimal v = false) /\
  (forall s acc v r,
     has_decimal (PDict acc) = false ->
     scan_members fuel s acc = Some (v, r) -> has_decimal v = false).
Proof.
  induction fuel as [|f (IHv & IHe & IHm)];
    [repeat split; intros; discriminate|].
  repeat split.
  - intros s v r. cbn [scan_value].
    destruct (skip_ws s) as [|c t]; [discriminate|].
    destruct (code c =? 34).
    { destruct (scan_string _ t) as [[x rest]|]; cbn; [|discriminate].
      intros H; inversion H; reflexivity. }
    destruct (code c =? 91).
    { destruct (skip_ws t) as [|c' r']; [discriminate|].
      destruct (code c' =? 93); [intros H; inversion H; reflexivity|].
      apply IHe. }
    destruct (code c =? 123).
    { destruct (skip_ws t) as [|c' r']; [discriminate|].
      destruct (code c' =? 125); [intros H; inversion H; reflexivity|].
      now apply IHm. }
    repeat match goal with
           | |- context [match strip_prefix ?p ?x with _ => _ end] =>
               destruct (strip_prefix p x)
           end;
      try (intros H; inversion H; reflexivity).
    apply scan_number_plain.
  - intros s v r. cbn [scan_elements].
    destruct (scan_value f s) as [[x rest]|] eqn:Hx; cbn; [|discriminate].
    apply IHv in Hx.
    destruct (skip_ws rest) as [|c t]; [discriminate|].
    destruct (code c =? 44).
    { destruct (scan_elements f t) as [[tl rest']|] eqn:Htl; cbn;
        [|discriminate].
      apply IHe in Htl.
      destruct tl; try discriminate.
      intros H; inversion H; subst. cbn in *. now rewrite Hx, Htl. }
    destruct (code c =? 93); [|discriminate].
    intros H; inversion H; subst. cbn. now rewrite Hx.
  - intros s acc v r Hacc. cbn [scan_members].
    destruct (skip_ws s) as [|q t]; [discriminate|].
    destruct (code q =? 34); [|discriminate].
    destruct (scan_string _ t) as [[k rest]|]; cbn; [|discriminate].
    destruct (skip_ws rest) as [|c r1]; [discriminate|].
    destruct (code c =? 58); [|discriminate].
    destruct (scan_value f r1) as [[x rest1]|] eqn:Hx; cbn; [|discriminate].
    apply IHv in Hx.
    pose proof (dict_set_plain k x acc Hx Hacc) as Hacc'.
    destruct (skip_ws rest1) as [|c2 r2]; [discriminate|].
    destruct (code c2 =? 44); [now apply IHm|].
    destruct (code c2 =? 125); [|discriminate].
    intros H; inversion H; subst. exact Hacc'.
Qed.

Lemma ref_json_loads_plain x v :
  ref_json_loads x = inr v -> has_decimal v = false.
Proof.
  unfold ref_json_loads. destruct x; try discriminate.
  destruct (scan_value _ s) as [[y rest]|] eqn:Hy; [|discriminate].
  destruct (skip_ws rest); [|discriminate].
  intros H; inversion H; subst. exact (proj1 (scan_plain _) _ _ _ Hy).
Qed.

Definition lib : PyLib := {|
  json_loads := ref_json_loads;
  json_loads_plain := ref_json_loads_plain;
  json_text := ref_json_dumps;
  py_str := ref_py_str;
  str_encode := ref_str_encode;
  bytes_decode := ref_bytes_decode;
  b64encode := ref_b64encode;
  b64decode := ref_b64decode;
  urlencode := ref_urlencode
|}.

End Reference.

(** ** Sample worlds and requests, for running the handlers *)

Module Sample.

Import Reference.

Definition empty_store : Store :=
  {| profiles := ∅; cart_items := ∅; fits := ∅ |}.

(** An environment in which nothing fails: interaction [k] reads the
    clock at second [k] and draws the identifier [uuid-k]. *)
Definition calm : Env := {|
  env_fault := fun _ => None;
  env_clock := fun k => "2025-10-18T09:00:" ++ Z_to_string (Z.of_nat k);
  env_uuid := fun k => "uuid-" ++ Z_to_string (Z.of_nat k);
  env_url := fun k _ key _ =>
    "https://assets.example/" ++ key ++ "?n=" ++ Z_to_string (Z.of_nat k);
  env_query := fun _ _ _ _ _ => {| Items := Some []; LastEvaluatedKey := None |};
  env_http := fun _ => {| http_status := 200; http_data := [] |};
  COGNITO_DOMAIN := PStr "auth.example";
  COGNITO_CLIENT_ID := PStr "client-1"
|}.

(** The same environment, with a ClientError at the given interactions. *)
Definition failing_at (ks : list nat) : Env := {|
  env_fault := fun k =>
    if existsb (Nat.eqb k) ks
    then Some (Exn ClientError "ProvisionedThroughputExceededException")
    else None;
  env_clock := env_clock calm;
  env_uuid := env_uuid calm;
  env_url := env_url calm;
  env_query := env_query calm;
  env_http := env_http calm;
  COGNITO_DOMAIN := COGNITO_DOMAIN calm;
  COGNITO_CLIENT_ID := COGNITO_CLIENT_ID calm
|}.

Definition world_of (s : Store) (e : Env) : World :=
  {| store := s; history := []; ticks := 0; env := e |}.

(** A request as API Gateway delivers it after the Cognito authorizer;
    the body is written with apostrophes for quotation marks. *)
Definition request (method resource user body : string) : pyval :=
  PDict [("httpMethod", PStr method);
         ("resource", PStr resource);
         ("requestContext",
          PDict [("authorizer",
                  PDict [("claims", PDict [("sub", PStr user)])])]);
         ("body", PStr (text body))].

(** A request whose authorizer context is null. *)
Definition null_authorizer_request (method resource : string) : pyval :=
  PDict [("httpMethod", PStr method);
         ("resource", PStr resource);
         ("requestContext", PDict [("authorizer", PNone)])].

(** A request whose authorizer context carries the claims as a text,
    as a Lambda authorizer's context does. *)
Definition text_claims_request (method resource claims : string) : pyval :=
  PDict [("httpMethod", PStr method);
         ("resource", PStr resource);
         ("requestContext",
          PDict [("authorizer", PDict [("claims", PStr claims)])])].

End Sample.

(** ** What the statements speak of *)

(** The serializer accepts the fields [fields] of the body [d]. *)
Definition storable_fields (fields : list string) (d : dict) : bool :=
  forallb
    (fun f => match dict_get f d with Some v => storable v | None => true end)
    fields.

(** The fields of the body that fit creation writes. *)
Definition fit_body_fields : list string :=
  ["items"; "mode"; "name"; "body_asset_key"].

(** The value holds no number: it is read back as it was written. *)
Fixpoint no_numbers (v : pyval) : bool :=
  match v with
  | PInt _ | PFloat _ | PDecimal _ => false
  | PList l => forallb no_numbers l
  | PDict d => forallb (fun kv => no_numbers (snd kv)) d
  | _ => true
  end.

(** The fields [fields] that [d] has hold no number. *)
Definition plain_fields (fields : list string) (d : dict) : bool :=
  forallb
    (fun f => match dict_get f d with Some v => no_numbers v | None => true end)
    fields.

(** A required measurement is missing, not a number, [<= 0] or [> 300]. *)
Definition measurement_bad (d : dict) (field : string) : bool :=
  match dict_get field d with
  | None => true
  | Some v => negb (isinstance_int_float v) || py_le_int v 0 || py_gt_int v 300
  end.

(** A required measurement is a number in (0, 300]. *)
Definition measurement_ok (d : dict) (field : string) : bool :=
  match dict_get field d with
  | None => false
  | Some v => isinstance_int_float v && py_gt_int v 0 && py_le_int v 300
  end.

(** The attributes a stored profile can have. *)
Definition profile_attributes : list string :=
  "user_id" :: "updatedAt" :: "preferred_fit" :: "avatar_key"
    :: profile_required_fields.

Section Errors.

Context {lib : PyLib}.

Definition invalid_json : Response :=
  error_reply 400 "INVALID_JSON" "Request body must be valid JSON".

Definition missing_field (field : string) : Response :=
  error_reply 400 "MISSING_FIELD"
    ("Required field missing: " ++ field).

Definition invalid_measurement (field : string) : Response :=
  error_reply 400 "INVALID_VALUE"
    (field ++ " must be a positive number less than 300").

(** The error the profile handler reports for a bad measurement. *)
Definition measurement_error (d : dict) (field : string) : Response :=
  if dict_has field d then invalid_measurement field else missing_field field.

Definition unauthorized (message : string) : Response :=
  error_reply 401 "UNAUTHORIZED"
    message.

Definition internal_error : Response :=
  error_reply 500 "INTERNAL_ERROR"
    "An unexpected error occurred".

(** Every authenticated handler answers [event] with [r] and leaves
    the world as it is. *)
Definition all_answer (event : pyval) (w : World) (r : Response) : Prop :=
  upload_url_handler event w = (inr r, w) /\
  profile_handler event w = (inr r, w) /\
  cart_post_handler event w = (inr r, w) /\
  cart_get_handler event w = (inr r, w) /\
  fit_create_handler event w = (inr (Some r), w) /\
  fit_get_handler event w = (inr r, w) /\
  fits_list_handler event w = (inr r, w).

End Errors.

(** A valid body of the cart upsert: the ten fields are present and
    [price_cents] is a number that is not negative. *)
Definition cart_body_valid (d : dict) : bool :=
  forallb (fun f => dict_has f d) cart_required_fields
  && match dict_get "price_cents" d with
     | Some p => isinstance_int_float p && negb (py_lt_int p 0)
     | None => false
     end.


(** On the key [key], the decoders of the library invert its
    encoders, as the documentation of [json], of [str.encode] and
    [bytes.decode], and of [base64] says they do; the cursor of a key
    is not the empty text. *)
Definition codec_laws {lib : PyLib} (key : pyval) : Prop :=
  exists (raw : list Byte.byte) (cursor : string),
    str_encode (json_text key) = inr raw /\
    bytes_decode (b64encode raw) = inr cursor /\
    cursor <> EmptyString /\
    b64decode cursor = inr raw /\
    bytes_decode raw = inr (json_text key) /\
    json_loads (PStr (json_text key)) = inr key.

(** *** The fit job lifecycle *)

Definition status_of (it : item) : option pyval := dict_get "status" it.

Definition PENDING : option pyval := Some (PStr "PENDING").
Definition READY : option pyval := Some (PStr "READY").
Definition FAILED : option pyval := Some (PStr "FAILED").

(** Every stored fit has one of the three statuses, and it has an
    [imageUrl] exactly when it is READY. *)
Definition fit_inv (s : Store) : Prop :=
  forall k it, fits s !! k = Some it ->
    (status_of it = PENDING \/ status_of it = READY \/ status_of it = FAILED)
    /\ (dict_has "imageUrl" it = true <-> status_of it = READY).

(** One write seen from the fits table: a record appears as PENDING,
    keeps its status, or leaves PENDING for READY or FAILED; none
    disappears. *)
Definition fit_step (s s' : Store) : Prop :=
  forall k,
    match fits s !! k, fits s' !! k with
    | None, None => True
    | None, Some it' => status_of it' = PENDING
    | Some it, Some it' =>
        status_of it' = status_of it
        \/ (status_of it = PENDING
            /\ (status_of it' = READY \/ status_of it' = FAILED))
    | Some _, None => False
    end.

Definition fit_lawful (s s' : Store) : Prop := fit_step s s' /\ fit_inv s'.

(** The stores [l], oldest first, follow one another from [s] by [R]. *)
Fixpoint chain (R : Store -> Store -> Prop) (s : Store) (l : list Store)
    : Prop :=
  match l with
  | [] => True
  | s' :: r => R s s' /\ chain R s' r
  end.

(** From [w] to [w'] the store went through writes related by [R]. *)
Definition evolution (R : Store -> Store -> Prop) (w w' : World) : Prop :=
  exists news,
    history w' = (news ++ history w)%list /\
    chain R (store w) (rev news) /\
    store w' = hd (store w) news.

(** The two updates of the synchronous branch, as stores. *)
Definition ready_store {lib : PyLib} (user_id : pyval) (fit_id now : string)
    (s : Store) : Store :=
  store_put FITS_TABLE [fit_id]
    (updated_item FITS_TABLE [fit_id] [("fitId", PStr fit_id)]
       [SetValue "status" (PStr "READY");
        SetValue "imageUrl"
          (PStr ("generated/" ++ py_str user_id ++ "/" ++ fit_id ++ ".jpg"));
        SetValue "updatedAt" (PStr now)] s) s.

Definition failed_store (fit_id now : string) (s : Store) : Store :=
  store_put FITS_TABLE [fit_id]
    (updated_item FITS_TABLE [fit_id] [("fitId", PStr fit_id)]
       [SetValue "status" (PStr "FAILED");
        SetValue "updatedAt" (PStr now)] s) s.

(** The world after [n] more interactions. *)
Fixpoint after (n : nat) (w : World) : World :=
  match n with
  | O => w
  | S k => next_tick (after k w)
  end.

(** *** Validity of a fit-creation body *)

(** The [items] field, when it is a list. *)
Definition items_list (d : dict) : option (list pyval) :=
  match dict_get "items" d with
  | Some (PList l) => Some l
  | _ => None
  end.

Definition mode_ok (d : dict) : bool :=
  match dict_get "mode" d with
  | Some m => py_in_strs m ["MVP_COMPOSITE"; "BEDROCK"]
  | None => false
  end.

(** An element of [items] carries [retailer] and [productId]. *)
Definition item_ok (v : pyval) : bool :=
  match v with
  | PDict i => dict_has "retailer" i && dict_has "productId" i
  | _ => false
  end.

(** What the handler requires of a body. *)
Definition fit_body_valid (d : dict) : bool :=
  match items_list d with
  | Some l => forallb item_ok l
  | None => false
  end && mode_ok d.

(** What the specification requires: the list is not empty either. *)
Definition fit_body_valid_nonempty (d : dict) : bool :=
  fit_body_valid d
  && match items_list d with
     | Some (_ :: _) => true
     | _ => false
     end.

Section FitErrors.

Context {lib : PyLib}.

Definition missing_items : Response :=
  error_reply 400 "MISSING_FIELD"
    "items array is required".

Definition invalid_mode : Response :=
  error_reply 400 "INVALID_MODE"
    "mode must be MVP_COMPOSITE or BEDROCK".

Definition invalid_items : Response :=
  error_reply 400 "INVALID_ITEMS"
    "Each item must have retailer and productId".

Definition generation_failed : Response :=
  error_reply 500 "GENERATION_FAILED"
    "Failed to generate fit".

(** The 201 answer of fit creation. *)
Definition fit_created (fit_id status : string) : Response :=
  reply 201 (PDict [("fitId", PStr fit_id); ("status", PStr status)]) None.

End FitErrors.

(** A computation all of whose writes are related by [R]. *)
Definition preserves (R : Store -> Store -> Prop) {A} (m : M A) : Prop :=
  forall w, evolution R w (snd (m w)).

(** Writes that leave the fits table as it is. *)
Definition same_fits (s s' : Store) : Prop := fits s' = fits s.

Section Serving.

Context {lib : PyLib}.

(** The world after the router has served the requests in turn. *)
Fixpoint serve (events : list pyval) (w : World) : World :=
  match events with
  | [] => w
  | event :: rest => serve rest (snd (lambda_handler event w))
  end.

(** Along the run, the identifier that a fit creation would draw is
    not yet the key of a record. *)
Fixpoint fresh_identifiers (events : list pyval) (w : World) : Prop :=
  match events with
  | [] => True
  | event :: rest =>
      fits (store w) !! [env_uuid (env w) (ticks w)] = None
      /\ fresh_identifiers rest (snd (lambda_handler event w))
  end.

End Serving.

(** The record under [k] has status [st] in store [s]. *)
Definition has_status (k : list string) (st : option pyval) (s : Store)
    : Prop :=
  exists it, fits s !! k = Some it /\ status_of it = st.

(** ** Requests and worlds of the examples *)

Module Examples.

Import Sample.

Definition w0 : World := world_of empty_store calm.

(** The parsed body of a request. *)
Definition body_of (event : pyval) : dict :=
  match (let? raw := py_getitem event "body" in Reference.ref_json_loads raw)
  with
  | inr (PDict d) => d
  | _ => []
  end.

(** [event] with one more field. *)
Definition with_field (k : string) (v : pyval) (event : pyval) : pyval :=
  match event with
  | PDict d => PDict (dict_set k v d)
  | _ => event
  end.

(** A weight of zero. *)
Definition zero_weight : pyval :=
  request "POST" "/profile" "alice"
    "{'height_cm': 170, 'weight_kg': 0, 'chest_cm': 90, 'waist_cm': 80, 'hips_cm': 95, 'inseam_cm': 78, 'preferred_fit': 'slim'}".

Definition valid_profile : pyval :=
  request "POST" "/profile" "alice"
    "{'height_cm': 170, 'weight_kg': 64, 'chest_cm': 90, 'waist_cm': 80, 'hips_cm': 95, 'inseam_cm': 78, 'preferred_fit': 'slim', 'avatar_key': 'uploads/alice/face/a1.jpg'}".

(** A height of 170.5. *)
Definition float_height : pyval :=
  request "POST" "/profile" "alice"
    "{'height_cm': 170.5, 'weight_kg': 64, 'chest_cm': 90, 'waist_cm': 80, 'hips_cm': 95, 'inseam_cm': 78, 'preferred_fit': 'slim'}".

(** A boolean where the height should be. *)
Definition true_height : pyval :=
  request "POST" "/profile" "alice"
    "{'height_cm': true, 'weight_kg': 64, 'chest_cm': 90, 'waist_cm': 80, 'hips_cm': 95, 'inseam_cm': 78, 'preferred_fit': 'slim'}".

Definition false_height : pyval :=
  request "POST" "/profile" "alice"
    "{'height_cm': false, 'weight_kg': 64, 'chest_cm': 90, 'waist_cm': 80, 'hips_cm': 95, 'inseam_cm': 78, 'preferred_fit': 'slim'}".

(** The same product, first at 19.99 and then at 14.99. *)
Definition cart_first : pyval :=
  request "POST" "/cart" "alice"
    "{'retailer': 'acme', 'productId': 'p1', 'title': 'Shirt', 'price_cents': 1999, 'currency': 'USD', 'productUrl': 'https://acme.example/p1', 'imageUrl': 'https://acme.example/p1.jpg', 'selectedSize': 'M', 'color': 'red', 'category': 'top'}".


(** A synchronous job on one item; an asynchronous job on no item; a
    job without mode. *)
Definition fit_composite : pyval :=
  request "POST" "/fit" "alice"
    "{'items': [{'retailer': 'acme', 'productId': 'p1'}], 'mode': 'MVP_COMPOSITE'}".

Definition fit_no_items : pyval :=
  request "POST" "/fit" "alice" "{'items': [], 'mode': 'BEDROCK'}".

Definition fit_no_mode : pyval :=
  request "POST" "/fit" "alice"
    "{'items': [{'retailer': 'acme', 'productId': 'p1'}]}".

(** A store in which bob owns the READY fit [f-1]. *)
Definition bobs_fit : item :=
  [("fitId", PStr "f-1"); ("user_id", PStr "bob");
   ("items", PList []); ("mode", PStr "MVP_COMPOSITE");
   ("status", PStr "READY");
   ("createdAt", PStr "2025-10-17T08:00:00");
   ("updatedAt", PStr "2025-10-17T08:00:01");
   ("imageUrl", PStr "generated/bob/f-1.jpg")].

Definition bobs_store : Store :=
  store_put FITS_TABLE ["f-1"] bobs_fit empty_store.

(** alice asks for the fit [fit_id]. *)
Definition fit_get (fit_id : string) : pyval :=
  with_field "pathParameters" (PDict [("fitId", PStr fit_id)])
    (request "GET" "/fit/{fitId}" "alice" EmptyString).

(** A cart of which the store hands out one page and then the rest. *)
Definition last_key : pyval :=
  PDict [("user_id", PStr "alice"); ("item_key", PStr "acme#p1")].

Definition paging : Env := {|
  env_fault := env_fault calm;
  env_clock := env_clock calm;
  env_uuid := env_uuid calm;
  env_url := env_url calm;
  env_query := fun _ _ _ _ start =>
    match start with
    | None => {| Items := Some []; LastEvaluatedKey := Some last_key |}
    | Some _ => {| Items := Some []; LastEvaluatedKey := None |}
    end;
  env_http := env_http calm;
  COGNITO_DOMAIN := COGNITO_DOMAIN calm;
  COGNITO_CLIENT_ID := COGNITO_CLIENT_ID calm
|}.

Definition cart_page (cursor : pyval) : pyval :=
  with_field "queryStringParameters" (PDict [("cursor", cursor)])
    (request "GET" "/cart" "alice" EmptyString).

End Examples.

(** ** Outcomes of computations *)

(** What [m] returns, when it returns, satisfies [P]. *)
Definition ensures {A} (P : A -> Prop) (m : M A) : Prop :=
  forall w a, fst (m w) = inr a -> P a.

(** [m] never raises, and what it returns satisfies [P]. *)
Definition always {A} (P : A -> Prop) (m : M A) : Prop :=
  forall w, exists a, fst (m w) = inr a /\ P a.

(** A response with the fixed headers and one of the status codes. *)
Definition standard (codes : list Z) (r : Response) : Prop :=
  headers r = default_headers /\ In (statusCode r) codes.

(** A write that does not happen. *)
Definition no_write (s s' : Store) : Prop := False.

Section Routing.

Context {lib : PyLib}.

(** What the router makes of the answer of a handler. *)
Definition answer (h : pyval -> M Response) (event : pyval)
    : M (option Response) :=
  let! r := h event in ret (Some r).

(** The eight routes of [lambda_handler], in the order of its tests. *)
Definition routes : list (string * string * (pyval -> M (option Response))) :=
  [("/upload-url", "GET", answer upload_url_handler);
   ("/profile", "POST", answer profile_handler);
   ("/cart", "POST", answer cart_post_handler);
   ("/cart", "GET", answer cart_get_handler);
   ("/fit", "POST", fit_create_handler);
   ("/fit/{fitId}", "GET", answer fit_get_handler);
   ("/fits", "GET", answer fits_list_handler);
   ("/token", "POST", answer token_handler)].

(** The first route that the resource and the method of a request
    match. *)
Definition find_route (resource method : pyval)
    : option (string * string * (pyval -> M (option Response))) :=
  List.find
    (fun r => py_eq_str resource (fst (fst r)) && py_eq_str method (snd (fst r)))
    routes.

Definition not_found : Response :=
  error_reply 404 "NOT_FOUND"
    "The requested resource was not found".

Definition router_error : Response :=
  error_reply 500 "INTERNAL_ERROR"
    "An unexpected internal error occurred".

End Routing.

(** ** Who may be written *)

(** The world [w'] holds the records of [w], and no write was made. *)
Definition unchanged (w w' : World) : Prop :=
  store w' = store w /\ history w' = history w.

(** The user a request is made for, when the claim is a text. *)
Definition caller (event : pyval) : option string :=
  match get_user_id event with
  | inr (PStr u) => Some u
  | _ => None
  end.

(** From [s] to [s'] nothing differs but records of table [t] whose
    key starts with [u]. *)
Definition only_own (t : table_name) (u : option string) (s s' : Store)
    : Prop :=
  forall t' k,
    t' <> t \/ head k <> u -> table_of t' s' !! k = table_of t' s !! k.

(** ** Records and answers of the fit handlers *)

(** [if k in source: target[k] = source[k]] *)
Definition copy_field (k : string) (source target : dict) : dict :=
  match dict_get k source with
  | Some v => dict_set k v target
  | None => target
  end.

(** The record of a new job, lines 319-333 of main.py. *)
Definition new_fit_record (user_id : pyval) (body : dict)
    (fit_id createdAt updatedAt : string) : item :=
  copy_field "body_asset_key" body
    (copy_field "name" body
       [("fitId", PStr fit_id);
        ("user_id", user_id);
        ("items", default PNone (dict_get "items" body));
        ("mode", default PNone (dict_get "mode" body));
        ("status", PStr "PENDING");
        ("createdAt", PStr createdAt);
        ("updatedAt", PStr updatedAt)]).

(** What fit retrieval shows of a record, lines 421-449 of main.py,
    with [image] as its [imageUrl]. *)
Definition fit_view (it : item) (image : pyval) : dict :=
  dict_set "imageUrl" image
    (copy_field "name" it
       [("fitId", default PNone (dict_get "fitId" it));
        ("status", default PNone (dict_get "status" it));
        ("items", default PNone (dict_get "items" it));
        ("createdAt", default PNone (dict_get "createdAt" it));
        ("updatedAt", default PNone (dict_get "updatedAt" it));
        ("imageUrl", PNone)]).

(** The record is READY and has an image key. *)
Definition has_image (it : item) : bool :=
  match dict_get "status" it with
  | Some st => py_eq_str st "READY"
  | None => false
  end && dict_has "imageUrl" it.

(** What is shown of the record can be written as JSON, and its image
    key can be signed: no number is shown, and the image key of a
    record that is READY with one is a text. *)
Definition retrievable (it : item) : bool :=
  no_numbers (PDict (fit_view it PNone))
  && (negb (has_image it)
      || match dict_get "imageUrl" it with
         | Some (PStr _) => true
         | _ => false
         end).

(** ** The listing of fits *)

(** A record the listing can summarise: an object with [fitId],
    [createdAt] and [status], none of which is or holds a number, nor
    its name when it has one, and whose image key is a text when it is
    READY with one. *)
Definition listable (item : pyval) : bool :=
  match item with
  | PDict it =>
      dict_has "fitId" it && dict_has "createdAt" it && dict_has "status" it
      && plain_fields ["fitId"; "createdAt"; "status"; "name"] it
      && (negb (has_image it)
          || match dict_get "imageUrl" it with
             | Some (PStr _) => true
             | _ => false
             end)
  | _ => false
  end.

(** [summary] is the entry of the listing for [item]: its identifier,
    creation time, status and name, and a thumbnail URL that is null
    unless the record is READY with an image. *)
Definition summarises (item summary : pyval) : Prop :=
  exists it s,
    item = PDict it /\ summary = PDict s /\
    dict_get "fitId" s = dict_get "fitId" it /\
    dict_get "createdAt" s = dict_get "createdAt" it /\
    dict_get "status" s = dict_get "status" it /\
    dict_get "name" s = dict_get "name" it /\
    (dict_get "thumbnailUrl" s = Some PNone \/
     (has_image it = true /\
      exists url, dict_get "thumbnailUrl" s = Some (PStr url))).

(** ** The token exchange *)

Definition token_required_fields : list string :=
  ["code"; "redirectUri"; "codeVerifier"].

Section TokenErrors.

Context {lib : PyLib}.

Definition cognito_error : Response :=
  error_reply 500 "COGNITO_ERROR"
    "Invalid response from Cognito".

Definition token_exchange_failed : Response :=
  error_reply 500 "INTERNAL_ERROR"
    "Token exchange failed".

End TokenErrors.

(** ** More requests and worlds, for running the handlers *)

Module Cases.

Import Sample.

(** A request that no route matches, and two events that API Gateway
    would not send: one without method, one without authorizer
    context. *)
Definition delete_cart : pyval := request "DELETE" "/cart" "alice" EmptyString.

Definition no_method : pyval := PDict [("resource", PStr "/cart")].

Definition no_authorizer : pyval :=
  PDict [("httpMethod", PStr "GET"); ("resource", PStr "/fits");
         ("requestContext", PDict []); ("body", PNone)].

Definition list_fits : pyval := request "GET" "/fits" "alice" EmptyString.

(** A body that is not JSON. *)
Definition broken_body : pyval := request "POST" "/profile" "alice" "{'height_cm': ".

(** Upload URLs for a hat and for a face. *)
Definition upload (type : string) : pyval :=
  Examples.with_field "queryStringParameters" (PDict [("type", PStr type)])
    (request "GET" "/upload-url" "alice" EmptyString).

(** A cart item without title. *)
Definition cart_no_title : pyval :=
  request "POST" "/cart" "alice"
    "{'retailer': 'acme', 'productId': 'p1', 'price_cents': 1999, 'currency': 'USD', 'productUrl': 'https://acme.example/p1', 'imageUrl': 'https://acme.example/p1.jpg', 'selectedSize': 'M', 'color': 'red', 'category': 'top'}".

(** A profile without [preferred_fit]. *)
Definition profile_no_fit : pyval :=
  request "POST" "/profile" "alice"
    "{'height_cm': 170, 'weight_kg': 64, 'chest_cm': 90, 'waist_cm': 80, 'hips_cm': 95, 'inseam_cm': 78}".

(** An asynchronous job on one item, with a name. *)
Definition fit_bedrock : pyval :=
  request "POST" "/fit" "alice"
    "{'items': [{'retailer': 'acme', 'productId': 'p1'}], 'mode': 'BEDROCK', 'name': 'Friday'}".

(** bob asks for the fit [fit_id]. *)
Definition bob_gets (fit_id : string) : pyval :=
  Examples.with_field "pathParameters" (PDict [("fitId", PStr fit_id)])
    (request "GET" "/fit/{fitId}" "bob" EmptyString).

(** A page of two fits: one READY with its image, one PENDING. *)
Definition pending_fit : item :=
  [("fitId", PStr "f-2"); ("user_id", PStr "bob");
   ("items", PList []); ("mode", PStr "BEDROCK");
   ("status", PStr "PENDING");
   ("createdAt", PStr "2025-10-17T09:00:00");
   ("updatedAt", PStr "2025-10-17T09:00:00");
   ("name", PStr "Friday")].

Definition two_fits : Env := {|
  env_fault := env_fault calm;
  env_clock := env_clock calm;
  env_uuid := env_uuid calm;
  env_url := env_url calm;
  env_query := fun _ _ _ _ _ =>
    {| Items := Some [PDict Examples.bobs_fit; PDict pending_fit];
       LastEvaluatedKey := None |};
  env_http := env_http calm;
  COGNITO_DOMAIN := COGNITO_DOMAIN calm;
  COGNITO_CLIENT_ID := COGNITO_CLIENT_ID calm
|}.

(** Token requests, and a Cognito that refuses the grant. *)
Definition token_code_only : pyval :=
  PDict [("httpMethod", PStr "POST"); ("resource", PStr "/token");
         ("body", PStr (Reference.text "{'code': 'abc'}"))].

Definition token_request : pyval :=
  PDict [("httpMethod", PStr "POST"); ("resource", PStr "/token");
         ("body",
          PStr (Reference.text
                  "{'code': 'abc', 'redirectUri': 'https://app.example/cb', 'codeVerifier': 'xyz'}"))].

Definition refusing_cognito : Env := {|
  env_fault := env_fault calm;
  env_clock := env_clock calm;
  env_uuid := env_uuid calm;
  env_url := env_url calm;
  env_query := env_query calm;
  env_http := fun _ =>
    {| http_status := 400;
       http_data :=
         list_byte_of_string (Reference.text "{'error': 'invalid_grant'}") |};
  COGNITO_DOMAIN := COGNITO_DOMAIN calm;
  COGNITO_CLIENT_ID := COGNITO_CLIENT_ID calm
|}.

(** A cart whose only page holds the shirt of [Examples.cart_first],
    as the upsert stores it. *)
Definition stored_shirt : item :=
  [("user_id", PStr "alice"); ("item_key", PStr "acme#p1");
   ("retailer", PStr "acme"); ("productId", PStr "p1");
   ("title", PStr "Shirt"); ("price_cents", PInt 1999);
   ("currency", PStr "USD");
   ("productUrl", PStr "https://acme.example/p1");
   ("imageUrl", PStr "https://acme.example/p1.jpg");
   ("selectedSize", PStr "M"); ("color", PStr "red");
   ("category", PStr "top");
   ("updatedAt", PStr "2025-10-17T08:00:00");
   ("addedAt", PStr "2025-10-17T08:00:00")].

Definition stocked_cart : Env := {|
  env_fault := env_fault calm;
  env_clock := env_clock calm;
  env_uuid := env_uuid calm;
  env_url := env_url calm;
  env_query := fun _ _ _ _ _ =>
    {| Items := Some [PDict stored_shirt]; LastEvaluatedKey := None |};
  env_http := env_http calm;
  COGNITO_DOMAIN := COGNITO_DOMAIN calm;
  COGNITO_CLIENT_ID := COGNITO_CLIENT_ID calm
|}.

Definition list_cart : pyval := request "GET" "/cart" "alice" EmptyString.

(** A READY fit of bob whose item carries its price. *)
Definition priced_fit : item :=
  [("fitId", PStr "f-3"); ("user_id", PStr "bob");
   ("items",
    PList [PDict [("retailer", PStr "acme"); ("productId", PStr "p1");
                  ("price_cents", PInt 1999)]]);
   ("mode", PStr "MVP_COMPOSITE");
   ("status", PStr "READY");
   ("createdAt", PStr "2025-10-17T08:00:00");
   ("updatedAt", PStr "2025-10-17T08:00:01");
   ("imageUrl", PStr "generated/bob/f-3.jpg")].

Definition priced_store : Store :=
  store_put FITS_TABLE ["f-3"] priced_fit empty_store.

(** A page whose first record has lost its identifier. *)
Definition torn_page : Env := {|
  env_fault := env_fault calm;
  env_clock := env_clock calm;
  env_uuid := env_uuid calm;
  env_url := env_url calm;
  env_query := fun _ _ _ _ _ =>
    {| Items := Some [PDict [("user_id", PStr "alice");
                             ("status", PStr "PENDING")];
                      PDict pending_fit];
       LastEvaluatedKey := None |};
  env_http := env_http calm;
  COGNITO_DOMAIN := COGNITO_DOMAIN calm;
  COGNITO_CLIENT_ID := COGNITO_CLIENT_ID calm
|}.

End Cases.

(** ** Fit records that can be read back *)

(** The attributes that retrieval reads from a fit record. *)
Definition fit_attributes : list string :=
  ["fitId"; "user_id"; "status"; "items"; "createdAt"; "updatedAt"].

(** Every fit record has the attributes that retrieval reads. *)
Definition fits_readable (s : Store) : Prop :=
  forall k it, fits s !! k = Some it ->
    forallb (fun f => dict_has f it) fit_attributes = true.

(** * Properties *)

(** Runs the monadic operators, leaving the Python operators folded. *)
Ltac mcore :=
  cbv beta iota delta
    [bind lift ret raise try_except try_or_return dispatch rbind
     isinstance_exn existsb subclass exn_class_eqb exn_class_of orb negb
     interact get_store put_store get_env read_clock uuid4
     get_current_timestamp put_item update_item get_item query
     generate_presigned_url return_some some_response
     create_error_response create_response];
  cbn [py_getitem py_contains].

(** The serializer accepts what it is given. *)
Lemma serialize_ok v w : serializer_error v = None -> serialize v w = (inr tt, w).
Proof. unfold serialize. now intros ->. Qed.

Lemma serialize_refused v e w :
  serializer_error v = Some e -> serialize v w = (inl e, w).
Proof. unfold serialize. now intros ->. Qed.

(** [json.dumps] returns the text of a value without Decimal, and
    raises on the others. *)
Lemma json_dumps_plain {lib : PyLib} v :
  has_decimal v = false -> json_dumps v = inr (json_text v).
Proof. unfold json_dumps. now intros ->. Qed.

Lemma json_dumps_decimal {lib : PyLib} v :
  has_decimal v = true ->
  json_dumps v
  = inl (Exn TypeError "Object of type Decimal is not JSON serializable").
Proof. unfold json_dumps. now intros ->. Qed.

Ltac mstep :=
  mcore;
  repeat (progress
            (first [ rewrite serialize_ok by reflexivity
                   | rewrite json_dumps_plain by reflexivity ]);
          mcore).

(** ** Dicts and lists *)

Lemma dict_get_set_eq k v d : dict_get k (dict_set k v d) = Some v.
Proof.
  induction d as [|[k' v'] d IH]; cbn.
  - now rewrite String.eqb_refl.
  - destruct (String.eqb k k') eqn:E; cbn; rewrite E; [reflexivity | exact IH].
Qed.

Lemma dict_get_set_ne k k' v d :
  k <> k' -> dict_get k (dict_set k' v d) = dict_get k d.
Proof.
  intros Hne. induction d as [|[k0 v0] d IH]; cbn.
  - apply String.eqb_neq in Hne. now rewrite Hne.
  - destruct (String.eqb k' k0) eqn:E; cbn.
    + apply String.eqb_eq in E. subst k0.
      apply String.eqb_neq in Hne. now rewrite Hne.
    + destruct (String.eqb k k0); [reflexivity | exact IH].
Qed.

(** Looks a key up through a stack of [dict_set]. *)
Ltac dict_lookup :=
  repeat first
    [ rewrite dict_get_set_eq
    | rewrite dict_get_set_ne by (intros ?; discriminate) ].

Lemma find_none_all {A} (p : A -> bool) (l : list A) :
  (forall x, In x l -> p x = false) -> List.find p l = None.
Proof.
  induction l as [|a l IH]; cbn; intros H; [reflexivity|].
  rewrite (H a) by auto. apply IH. auto.
Qed.

Lemma find_some_bad {A} (p : A -> bool) (l : list A) x :
  In x l -> p x = true -> exists y, List.find p l = Some y.
Proof.
  induction l as [|a l IH]; cbn; [tauto|].
  intros [->|Hin] Hp.
  - rewrite Hp. eauto.
  - destruct (p a); eauto.
Qed.

Lemma find_only_bad (p : string -> bool) (l : list string) x :
  In x l -> p x = true ->
  (forall y, In y l -> y <> x -> p y = false) ->
  List.find p l = Some x.
Proof.
  induction l as [|a l IH]; cbn; [tauto|].
  intros Hin Hp Hothers.
  destruct (p a) eqn:Ea.
  - destruct Hin as [->|Hin]; [reflexivity|].
    f_equal. destruct (string_dec a x) as [->|Hne]; [reflexivity|].
    rewrite Hothers in Ea by auto. discriminate.
  - destruct Hin as [->|Hin]; [congruence|]. apply IH; auto.
Qed.

(** ** Values, the serializer and responses *)

(** Induction on a value, through its lists and dicts. *)
Lemma pyval_nested_ind (P : pyval -> Prop) :
  P PNone -> (forall b, P (PBool b)) -> (forall z, P (PInt z)) ->
  (forall f, P (PFloat f)) -> (forall s, P (PStr s)) ->
  (forall l, Forall P l -> P (PList l)) ->
  (forall d, Forall (fun kv => P (snd kv)) d -> P (PDict d)) ->
  (forall x, P (PDecimal x)) ->
  forall v, P v.
Proof.
  intros HN HB HI HF HS HL HD HX. fix IH 1.
  intros [|b|z|f|s|l|d|x];
    [exact HN | apply HB | apply HI | apply HF | apply HS | | | apply HX].
  - apply HL. induction l as [|a l IHl]; constructor; [apply IH | exact IHl].
  - apply HD. induction d as [|[k a] d IHd]; constructor;
      [apply IH | exact IHd].
Qed.

Lemma first_error_none {A} (f : A -> option exn) (l : list A) :
  first_error f l = None <-> Forall (fun x => f x = None) l.
Proof.
  induction l as [|a l IH]; cbn; [split; constructor|].
  destruct (f a) eqn:Ha.
  - split; [discriminate|]. intros H. inversion H; congruence.
  - rewrite IH. split; [now constructor | now inversion 1].
Qed.

Lemma first_error_some {A} (f : A -> option exn) (l : list A) e :
  first_error f l = Some e -> exists x, In x l /\ f x = Some e.
Proof.
  induction l as [|a l IH]; cbn; [discriminate|].
  destruct (f a) eqn:Ha.
  - intros [= <-]. eauto.
  - intros H. destruct (IH H) as (x & Hx & Hfx). eauto.
Qed.

(** What the serializer raises is a TypeError or an error of the
    decimal module: neither a ValueError nor a ClientError. *)
Lemma serializer_error_class v :
  forall e, serializer_error v = Some e ->
    exn_class_of e = TypeError \/ exn_class_of e = Exception.
Proof.
  induction v as [|b|z|f|s|l IH|d IH|x] using pyval_nested_ind;
    cbn [serializer_error]; intros e; try discriminate.
  - destruct (Z.abs z <? 10 ^ 38); [discriminate|]. intros [= <-]. now right.
  - intros [= <-]. now left.
  - intros H. apply first_error_some in H as (x & Hx & Hfx).
    rewrite Forall_forall in IH. apply list_elem_of_In in Hx. eauto.
  - intros H. apply first_error_some in H as (x & Hx & Hfx).
    rewrite Forall_forall in IH. apply list_elem_of_In in Hx. eauto.
Qed.

(** A refused field makes the serializer refuse the item. *)
Lemma serializer_refuses_field d f v :
  dict_get f d = Some v -> serializer_error v <> None ->
  serializer_error (PDict d) <> None.
Proof.
  cbn [serializer_error]. induction d as [|[k x] d IH]; cbn; [discriminate|].
  destruct (String.eqb f k).
  - intros [= ->] Hv. now destruct (serializer_error v).
  - intros Hf Hv. destruct (serializer_error x); [discriminate | auto].
Qed.

Lemma storable_fields_value fs d f v :
  storable_fields fs d = true -> In f fs -> dict_get f d = Some v ->
  serializer_error v = None.
Proof.
  unfold storable_fields. rewrite forallb_forall. intros H Hin Hv.
  specialize (H f Hin). rewrite Hv in H. unfold storable in H.
  now destruct (serializer_error v).
Qed.

Lemma has_decimal_field d f v :
  has_decimal (PDict d) = false -> dict_get f d = Some v ->
  has_decimal v = false.
Proof.
  cbn [has_decimal]. induction d as [|[k x] d IH]; cbn; [discriminate|].
  intros H. apply orb_false_iff in H as [H1 H2].
  destruct (String.eqb f k); [intros [= <-]; exact H1 | now apply IH].
Qed.

(** A value without numbers is read as it was written, and what is
    read holds a Decimal exactly when what was written holds a number. *)
Lemma as_read_no_numbers v : no_numbers v = true -> as_read v = v.
Proof.
  induction v as [|b|z|f|s|l IH|d IH|x] using pyval_nested_ind;
    cbn [no_numbers as_read]; try reflexivity; try discriminate.
  - intros H. f_equal. induction l as [|a l IHl]; [reflexivity|].
    cbn in H. apply andb_true_iff in H as [Ha Hl]. inversion IH; subst.
    cbn. f_equal; auto.
  - intros H. f_equal. induction d as [|[k a] d IHd]; [reflexivity|].
    cbn in H. apply andb_true_iff in H as [Ha Hd]. inversion IH; subst.
    cbn in *. f_equal; [f_equal|]; auto.
Qed.

Lemma has_decimal_as_read v : has_decimal (as_read v) = negb (no_numbers v).
Proof.
  induction v as [|b|z|f|s|l IH|d IH|x] using pyval_nested_ind;
    cbn [no_numbers as_read has_decimal]; try reflexivity.
  - induction l as [|a l IHl]; [reflexivity|]. inversion IH; subst.
    cbn. rewrite negb_andb. f_equal; auto.
  - induction d as [|[k a] d IHd]; [reflexivity|]. inversion IH; subst.
    cbn in *. rewrite negb_andb. f_equal; auto.
Qed.

(** Reading a value does not change what it is equal to. *)
Lemma py_eq_as_read a : forall b, py_eq (as_read a) b = py_eq a b.
Proof.
  induction a as [|x|z|f|s|l IH|d IH|x] using pyval_nested_ind;
    intros b; try reflexivity.
  - destruct b as [| | | | |l'| |]; try reflexivity.
    cbn [as_read py_eq]. revert l'.
    induction l as [|a l IHl]; intros [|a' l']; try reflexivity.
    inversion IH; subst. cbn [map]. now rewrite H1, IHl.
  - destruct b as [| | | | | |d'|]; try reflexivity.
    cbn [as_read py_eq]. rewrite length_map. f_equal.
    induction d as [|[k a] d IHd]; [reflexivity|].
    inversion IH; subst. cbn [map fst snd] in *.
    destruct (dict_get k d'); [|reflexivity]. now rewrite H1, IHd.
Qed.

Lemma dict_get_read_item k it :
  dict_get k (read_item it) = as_read <$> dict_get k it.
Proof.
  induction it as [|[k' v] it IH]; [reflexivity|]. cbn.
  now destruct (String.eqb k k').
Qed.

Lemma dict_has_read_item k it : dict_has k (read_item it) = dict_has k it.
Proof.
  unfold dict_has. rewrite dict_get_read_item. now destruct (dict_get k it).
Qed.

Section Responses.

Context {lib : PyLib}.

Lemma create_response_plain status payload custom :
  has_decimal payload = false ->
  create_response status payload custom = inr (reply status payload custom).
Proof. unfold create_response, json_dumps, reply. now intros ->. Qed.

Lemma create_response_decimal status payload custom :
  has_decimal payload = true ->
  create_response status payload custom
  = inl (Exn TypeError "Object of type Decimal is not JSON serializable").
Proof. unfold create_response, json_dumps. now intros ->. Qed.

Lemma create_error_response_run status error_type message :
  create_error_response status error_type message None
  = inr (error_reply status error_type message).
Proof. reflexivity. Qed.

(** What [json.loads] returns holds no Decimal. *)
Lemma body_plain raw d f v :
  json_loads raw = inr (PDict d) -> dict_get f d = Some v ->
  has_decimal v = false.
Proof.
  intros Hj. apply has_decimal_field. exact (json_loads_plain _ _ Hj).
Qed.

End Responses.

(** ** The router *)

Section Router.

Context {lib : PyLib}.

(** C8, as amended: whatever the route, a request whose method is
    OPTIONS is answered by the router itself with status 204, the four
    cross-origin headers of [create_response], and a body that is the
    JSON text of the empty object (the text [{}], not an empty body);
    no handler runs, so the world is untouched. *)
Theorem options_preflight (event resource : pyval) (w : World) :
  py_getitem event "httpMethod" = inr (PStr "OPTIONS") ->
  py_getitem event "resource" = inr resource ->
  lambda_handler event w =
    (inr (Some
            {| statusCode := 204;
               headers :=
                 [("Content-Type", PStr "application/json");
                  ("Access-Control-Allow-Origin", PStr "*");
                  ("Access-Control-Allow-Headers",
                   PStr "Content-Type,Authorization");
                  ("Access-Control-Allow-Methods",
                   PStr "GET,POST,PUT,DELETE,OPTIONS")];
               body := json_text (PDict []) |}), w).
Proof.
  intros Hm Hr. unfold lambda_handler.
  rewrite Hm; mstep. rewrite Hr; mstep. reflexivity.
Qed.

(** When a key of the claim path is missing, identity extraction
    raises the ValueError that the handlers answer with 401. *)
Lemma get_user_id_missing_key (event : pyval) k :
  (let? rc := py_getitem event "requestContext" in
   let? au := py_getitem rc "authorizer" in
   let? cl := py_getitem au "claims" in
   py_getitem cl "sub") = inl (Exn KeyError k) ->
  get_user_id event =
    inl (Exn ValueError "User ID not found in request context").
Proof. unfold get_user_id. intros ->. reflexivity. Qed.

(** Every authenticated handler answers a request that lacks a key of
    the claim path with 401 UNAUTHORIZED, before anything else. *)
Lemma missing_claim_unauthorized (event : pyval) (w : World) k :
  (let? rc := py_getitem event "requestContext" in
   let? au := py_getitem rc "authorizer" in
   let? cl := py_getitem au "claims" in
   py_getitem cl "sub") = inl (Exn KeyError k) ->
  all_answer event w (unauthorized "User ID not found in request context").
Proof.
  intros Hk. apply get_user_id_missing_key in Hk.
  unfold all_answer, upload_url_handler, profile_handler, cart_post_handler,
    cart_get_handler, fit_create_handler, fit_get_handler, fits_list_handler.
  rewrite Hk. repeat split.
Qed.

(** A TypeError of identity extraction reaches the last [except]
    clause of the handler. *)
Lemma claim_type_error_internal (event : pyval) (w : World) msg :
  get_user_id event = inl (Exn TypeError msg) ->
  all_answer event w internal_error.
Proof.
  intros He.
  unfold all_answer, upload_url_handler, profile_handler, cart_post_handler,
    cart_get_handler, fit_create_handler, fit_get_handler, fits_list_handler.
  rewrite He. repeat split.
Qed.

(** C7, at requests whose claim path is malformed: the authorizer
    context is null, or its claims are a text.  Identity extraction
    raises a TypeError, which [get_user_id] does not turn into the
    ValueError of a missing identity, and every authenticated handler
    answers 500 INTERNAL_ERROR, not 401. *)
Theorem malformed_claims_not_unauthorized (method resource claims : string)
    (w : World) :
  let null_authorizer := Sample.null_authorizer_request method resource in
  let text_claims := Sample.text_claims_request method resource claims in
  get_user_id null_authorizer
    = inl (Exn TypeError "object is not subscriptable") /\
  get_user_id text_claims
    = inl (Exn TypeError "string indices must be integers") /\
  all_answer null_authorizer w internal_error /\
  all_answer text_claims w internal_error /\
  statusCode internal_error = 500.
Proof.
  intros null_authorizer text_claims.
  split; [reflexivity|]. split; [reflexivity|].
  split; [now eapply claim_type_error_internal|].
  split; [now eapply claim_type_error_internal | reflexivity].
Qed.

End Router.

(** A request without authorizer context, by contrast, is answered 401. *)
Example missing_authorizer_unauthorized :
  fst (lambda_handler (lib := Reference.lib)
         (PDict [("httpMethod", PStr "GET"); ("resource", PStr "/fits");
                 ("requestContext", PDict [])])
         (Sample.world_of Sample.empty_store Sample.calm))
  = inr (Some (unauthorized (lib := Reference.lib)
                 "User ID not found in request context")).
Proof. reflexivity. Qed.

Lemma options_preflight_witness :
  let event := Sample.request "OPTIONS" "/cart" "alice" "" in
  let w := Sample.world_of Sample.empty_store Sample.calm in
  py_getitem event "httpMethod" = inr (PStr "OPTIONS") /\
  py_getitem event "resource" = inr (PStr "/cart") /\
  lambda_handler (lib := Reference.lib) event w =
    (inr (Some
            {| statusCode := 204;
               headers :=
                 [("Content-Type", PStr "application/json");
                  ("Access-Control-Allow-Origin", PStr "*");
                  ("Access-Control-Allow-Headers",
                   PStr "Content-Type,Authorization");
                  ("Access-Control-Allow-Methods",
                   PStr "GET,POST,PUT,DELETE,OPTIONS")];
               body := "{}" |}), w).
Proof.
  split; [reflexivity|]. split; [reflexivity|].
  apply (options_preflight (lib := Reference.lib) _ (PStr "/cart"));
    reflexivity.
Defined.

(** The body of the answer to a preflight is not empty: it is the
    two characters of the empty JSON object. *)
Lemma options_body_not_empty :
  let event := Sample.request "OPTIONS" "/cart" "alice" "" in
  let w := Sample.world_of Sample.empty_store Sample.calm in
  exists r,
    lambda_handler (lib := Reference.lib) event w = (inr (Some r), w) /\
    statusCode r = 204 /\
    String.length (body r) = 2%nat /\
    body r <> EmptyString.
Proof.
  eexists. split; [reflexivity|]. split; [reflexivity|].
  split; [reflexivity | discriminate].
Qed.

(** ** The profile handler *)

Section Profile.

Context {lib : PyLib}.

(** The loop reports the first bad measurement, if there is one. *)
Lemma profile_check_fields_find d fields :
  profile_check_fields (PDict d) fields =
    inr (measurement_error d <$> List.find (measurement_bad d) fields).
Proof.
  induction fields as [|f fields IH]; [reflexivity|].
  cbn [profile_check_fields List.find py_contains rbind py_getitem].
  unfold measurement_bad at 1, measurement_error, dict_has.
  destruct (dict_get f d) as [v|] eqn:Hf; cbn [negb rbind].
  - destruct (negb (isinstance_int_float v) || py_le_int v 0
              || py_gt_int v 300);
      [cbn; rewrite Hf; reflexivity | exact IH].
  - cbn. rewrite Hf. reflexivity.
Qed.

Lemma num_range x :
  num_gt x 0 = true -> num_le x 300 = true ->
  num_le x 0 = false /\ num_gt x 300 = false.
Proof.
  unfold num_gt, num_le.
  destruct (num_compare x 0) as [[]|], (num_compare x 300) as [[]|];
    try discriminate; auto.
Qed.

Lemma measurement_ok_not_bad d f :
  measurement_ok d f = true -> measurement_bad d f = false.
Proof.
  unfold measurement_ok, measurement_bad.
  destruct (dict_get f d) as [v|]; [|discriminate].
  unfold py_gt_int, py_le_int, isinstance_int_float.
  destruct (as_number v) as [x|]; [|discriminate]. cbn.
  intros H. apply andb_true_iff in H as [H1 H2].
  destruct (num_range x H1 H2) as [-> ->]. reflexivity.
Qed.

Lemma measurement_ok_value d f :
  measurement_ok d f = true -> exists v, dict_get f d = Some v.
Proof.
  unfold measurement_ok. destruct (dict_get f d); [eauto | discriminate].
Qed.

Lemma measurement_error_status d f : statusCode (measurement_error d f) = 400.
Proof. unfold measurement_error. now destruct (dict_has f d). Qed.

(** A submission with a bad measurement is answered with the error of
    its first bad measurement, and the world is untouched. *)
Lemma profile_rejects (event user raw : pyval) (d : dict) (w : World) f :
  get_user_id event = inr user ->
  py_getitem event "body" = inr raw ->
  json_loads raw = inr (PDict d) ->
  List.find (measurement_bad d) profile_required_fields = Some f ->
  profile_handler event w = (inr (measurement_error d f), w).
Proof.
  intros Hu Hb Hj Hf.
  unfold profile_handler, parse_body.
  rewrite Hu; mstep. rewrite Hb; mstep. rewrite Hj; mstep.
  rewrite profile_check_fields_find, Hf. reflexivity.
Qed.

(** A valid submission replaces the caller's profile by a record made
    of the submitted fields, the caller and the time. *)
Lemma profile_accepts (event raw : pyval) (d : dict) (w : World) u :
  get_user_id event = inr (PStr u) ->
  py_getitem event "body" = inr raw ->
  json_loads raw = inr (PDict d) ->
  (forall f, In f profile_required_fields -> measurement_ok d f = true) ->
  dict_has "preferred_fit" d = true ->
  storable_fields ("preferred_fit" :: "avatar_key" :: profile_required_fields)
    d = true ->
  env_fault (env w) (S (ticks w)) = None ->
  exists record w',
    profile_handler event w =
      (inr (reply 200
              (PDict [("ok", PBool true); ("profile", PDict record)]) None),
       w') /\
    store w' = store_put PROFILES_TABLE [u] record (store w) /\
    dict_get "user_id" record = Some (PStr u) /\
    dict_get "updatedAt" record = Some (PStr (env_clock (env w) (ticks w))) /\
    (forall f,
       In f ("preferred_fit" :: "avatar_key" :: profile_required_fields) ->
       dict_get f record = dict_get f d) /\
    (forall k, ~ In k profile_attributes -> dict_get k record = None).
Proof.
  intros Hu Hb Hj Hok Hfit Hstorable Hfault.
  assert (Hfind : List.find (measurement_bad d) profile_required_fields = None).
  { apply find_none_all. intros x Hx. apply measurement_ok_not_bad; auto. }
  destruct (measurement_ok_value d "height_cm") as [v1 H1];
    [apply Hok; cbn; tauto|].
  destruct (measurement_ok_value d "weight_kg") as [v2 H2];
    [apply Hok; cbn; tauto|].
  destruct (measurement_ok_value d "chest_cm") as [v3 H3];
    [apply Hok; cbn; tauto|].
  destruct (measurement_ok_value d "waist_cm") as [v4 H4];
    [apply Hok; cbn; tauto|].
  destruct (measurement_ok_value d "hips_cm") as [v5 H5];
    [apply Hok; cbn; tauto|].
  destruct (measurement_ok_value d "inseam_cm") as [v6 H6];
    [apply Hok; cbn; tauto|].
  unfold dict_has in Hfit.
  destruct (dict_get "preferred_fit" d) as [pf|] eqn:Hpf; [|discriminate].
  assert (Hser : forall f v,
            In f ("preferred_fit" :: "avatar_key" :: profile_required_fields) ->
            dict_get f d = Some v ->
            serializer_error v = None /\ has_decimal v = false).
  { intros f v Hf Hv. split; [|exact (body_plain raw d f v Hj Hv)].
    exact (storable_fields_value _ d f v Hstorable Hf Hv). }
  destruct (Hser "height_cm" _ ltac:(cbn; tauto) H1) as [S1 D1].
  destruct (Hser "weight_kg" _ ltac:(cbn; tauto) H2) as [S2 D2].
  destruct (Hser "chest_cm" _ ltac:(cbn; tauto) H3) as [S3 D3].
  destruct (Hser "waist_cm" _ ltac:(cbn; tauto) H4) as [S4 D4].
  destruct (Hser "hips_cm" _ ltac:(cbn; tauto) H5) as [S5 D5].
  destruct (Hser "inseam_cm" _ ltac:(cbn; tauto) H6) as [S6 D6].
  destruct (Hser "preferred_fit" _ ltac:(cbn; tauto) Hpf) as [S7 D7].
  unfold profile_handler, parse_body.
  rewrite Hu; mstep. rewrite Hb; mstep. rewrite Hj; mstep.
  rewrite profile_check_fields_find, Hfind.
  cbn [fmap option_fmap option_map]. mstep.
  unfold dict_has. rewrite Hpf, H1, H2, H3, H4, H5, H6. mstep.
  destruct (dict_get "avatar_key" d) as [a|] eqn:Ha;
    [destruct (Hser "avatar_key" _ ltac:(cbn; tauto) Ha) as [S8 D8]|]; mstep;
    (rewrite serialize_ok
       by (cbn [serializer_error first_error fold_right snd dict_set
                String.eqb Ascii.eqb Bool.eqb];
           now rewrite ?S1, ?S2, ?S3, ?S4, ?S5, ?S6, ?S7, ?S8)); mstep;
    cbn [ticks next_tick env store]; rewrite Hfault; mstep;
    (rewrite json_dumps_plain
       by (cbn [has_decimal existsb snd orb dict_set
                String.eqb Ascii.eqb Bool.eqb];
           now rewrite ?D1, ?D2, ?D3, ?D4, ?D5, ?D6, ?D7, ?D8));
    mstep; cbn;
    (eexists; eexists; split; [reflexivity|]);
    (split; [reflexivity|]); (split; [reflexivity|]); (split; [reflexivity|]).
  all: split.
  all: try (intros f Hf; cbn in Hf;
            repeat (destruct Hf as [<-|Hf]; [cbn; congruence|]);
            contradiction).
  all: intros k Hk; unfold profile_attributes, profile_required_fields in Hk;
       cbn in Hk.
  all: cbn [dict_get].
  all: repeat match goal with
       | Hk : ~ _ |- context [String.eqb ?x ?s] =>
           destruct (String.eqb_spec x s); [subst; exfalso; apply Hk; tauto|]
       end; reflexivity.
Qed.

Lemma profile_check_fields_none body fields :
  fields <> [] ->
  profile_check_fields body fields = inr None ->
  exists d, body = PDict d /\
    forall f, In f fields -> measurement_bad d f = false.
Proof.
  intros Hne Hnone. destruct body as [|b|z|x|s|l|d|n].
  1-6, 8: destruct fields as [|f fields]; [congruence|];
       cbn [profile_check_fields py_contains rbind] in Hnone;
       try discriminate.
  - destruct (substringb f s); discriminate.
  - destruct (existsb _ l); discriminate.
  - exists d. split; [reflexivity|].
    rewrite profile_check_fields_find in Hnone.
    destruct (List.find _ _) eqn:Hfind; [discriminate|].
    intros f Hf. apply (find_none _ _ Hfind f Hf).
Qed.

(** The three [except] clauses of a handler answer and leave the
    world as it is. *)
Lemma handler_clauses_total (code message : string) (e : exn) (w : World) :
  exists r,
    dispatch
      [([ValueError],
        fun e => lift (create_error_response 401 "UNAUTHORIZED"
                         (str_exn e) None));
       ([ClientError],
        fun _ => lift (create_error_response 500 code message None));
       ([Exception],
        fun _ => lift (create_error_response 500 "INTERNAL_ERROR"
                         "An unexpected error occurred" None))] e w
    = (inr r, w).
Proof. destruct e as [[] msg]; cbn; eauto. Qed.

(** The profile handler writes only after the validation has passed:
    whatever the request, a change of the store means that the body is
    an object with no bad measurement and with [preferred_fit]. *)
Lemma profile_writes_only_valid (event : pyval) (w w' : World) r :
  profile_handler event w = (r, w') ->
  history w' <> history w ->
  exists raw d,
    py_getitem event "body" = inr raw /\
    json_loads raw = inr (PDict d) /\
    (forall f, In f profile_required_fields -> measurement_bad d f = false) /\
    dict_has "preferred_fit" d = true.
Proof.
  unfold profile_handler.
  match goal with |- context [try_except _ ?c] => set (cl := c) end.
  assert (Hcl : forall e w0, exists r', dispatch cl e w0 = (inr r', w0))
    by (intros e w0; apply handler_clauses_total).
  clearbody cl.
  unfold parse_body, try_except, try_or_return.
  cbv beta iota delta [bind lift ret raise].
  rewrite ?create_error_response_run.
  assert (Hsame : forall (x : result Response) w0,
            history w0 = history w ->
            (let (s, w1) := (x, w0) in
             match s with
             | inl e => dispatch cl e w1
             | inr a => (inr a, w1)
             end) = (r, w') -> history w' <> history w -> False).
  { intros [e|a] w0 Hw0.
    - destruct (Hcl e w0) as (r' & ->). intros [= <- <-]. congruence.
    - intros [= <- <-]. congruence. }
  assert (Hexn : forall e w0, history w0 = history w ->
            dispatch cl e w0 = (r, w') -> history w' <> history w -> False)
    by (intros e w0; apply (Hsame (inl e))).
  assert (Hret : forall a w0, history w0 = history w ->
            (inr a, w0) = (r, w') -> history w' <> history w -> False)
    by (intros a w0; apply (Hsame (inr a))).
  destruct (get_user_id event) as [e|user];
    [intros H1 H2; exfalso; eapply Hexn; eauto|].
  destruct (py_getitem event "body") as [e|raw] eqn:Hb.
  { destruct (isinstance_exn e _); intros H1 H2; exfalso;
      [eapply Hret | eapply Hexn]; eauto. }
  destruct (json_loads raw) as [e|body] eqn:Hj.
  { destruct (isinstance_exn e _); intros H1 H2; exfalso;
      [eapply Hret | eapply Hexn]; eauto. }
  destruct (profile_check_fields body profile_required_fields)
    as [e|[bad|]] eqn:Hcheck;
    try (intros H1 H2; exfalso;
         solve [eapply Hret; eauto | eapply Hexn; eauto]).
  assert (Hne : profile_required_fields <> [])
    by (unfold profile_required_fields; discriminate).
  destruct (profile_check_fields_none body _ Hne Hcheck)
    as (d & -> & Hgood).
  cbn [py_contains]. destruct (dict_has "preferred_fit" d) eqn:Hfit;
    [|cbv beta iota delta [negb]; intros H1 H2; exfalso; eapply Hret; eauto].
  intros _ _. exists raw, d. repeat split; assumption.
Qed.

(** C6, where the code fails it: a submission whose six measurements
    are numbers in (0, 300] and that has [preferred_fit] is not stored
    when one of the measurements is a float, such as 170.5.  The
    validation accepts the float, boto3 refuses to serialise it, and the
    handler answers 500 INTERNAL_ERROR after reading the clock; nothing
    is written. *)
Theorem profile_float_measurement_not_stored (event raw : pyval) (d : dict)
    (w : World) (u f : string) (x : pyfloat) :
  get_user_id event = inr (PStr u) ->
  py_getitem event "body" = inr raw ->
  json_loads raw = inr (PDict d) ->
  (forall g, In g profile_required_fields -> measurement_ok d g = true) ->
  dict_has "preferred_fit" d = true ->
  In f profile_required_fields ->
  dict_get f d = Some (PFloat x) ->
  profile_handler event w = (inr internal_error, next_tick w) /\
  statusCode internal_error = 500 /\
  store (next_tick w) = store w /\ history (next_tick w) = history w.
Proof.
  intros Hu Hb Hj Hok Hfit Hf Hx.
  split; [|repeat split].
  assert (Hfind : List.find (measurement_bad d) profile_required_fields = None).
  { apply find_none_all. intros g Hg. apply measurement_ok_not_bad; auto. }
  destruct (measurement_ok_value d "height_cm") as [v1 H1];
    [apply Hok; cbn; tauto|].
  destruct (measurement_ok_value d "weight_kg") as [v2 H2];
    [apply Hok; cbn; tauto|].
  destruct (measurement_ok_value d "chest_cm") as [v3 H3];
    [apply Hok; cbn; tauto|].
  destruct (measurement_ok_value d "waist_cm") as [v4 H4];
    [apply Hok; cbn; tauto|].
  destruct (measurement_ok_value d "hips_cm") as [v5 H5];
    [apply Hok; cbn; tauto|].
  destruct (measurement_ok_value d "inseam_cm") as [v6 H6];
    [apply Hok; cbn; tauto|].
  unfold dict_has in Hfit.
  destruct (dict_get "preferred_fit" d) as [pf|] eqn:Hpf; [|discriminate].
  unfold profile_handler, parse_body.
  rewrite Hu; mstep. rewrite Hb; mstep. rewrite Hj; mstep.
  rewrite profile_check_fields_find, Hfind.
  cbn [fmap option_fmap option_map]. mstep.
  unfold dict_has. rewrite Hpf, H1, H2, H3, H4, H5, H6. mstep.
  assert (Hrefused : forall record,
            dict_get f record = Some (PFloat x) ->
            exists e, serializer_error (PDict record) = Some e /\
              (exn_class_of e = TypeError \/ exn_class_of e = Exception)).
  { intros record Hrec.
    destruct (serializer_error (PDict record)) as [e|] eqn:He.
    - exists e. split; [reflexivity|]. eapply serializer_error_class, He.
    - exfalso. eapply serializer_refuses_field; [exact Hrec | | exact He].
      discriminate. }
  destruct (dict_get "avatar_key" d) as [a|] eqn:Ha; mstep;
    match goal with
    | |- context [serialize (PDict ?record)] =>
        destruct (Hrefused record) as (e & He & Hclass)
    end.
  1, 3: cbn in Hf;
    repeat (destruct Hf as [<-|Hf];
            [cbn [dict_get dict_set String.eqb Ascii.eqb Bool.eqb];
             congruence|]);
    contradiction.
  all: rewrite (serialize_refused _ e _ He); mstep;
    destruct e as [c msg]; cbn in Hclass;
    destruct Hclass as [-> | ->]; reflexivity.
Qed.

(** A body that is valid JSON but no container (a number, a boolean,
    null) fails the first membership test with a TypeError, outside the
    [try] that guards the parsing: the answer is 500 INTERNAL_ERROR,
    not 400, and nothing is written. *)
Lemma profile_body_not_container (event user raw body : pyval) (w : World) :
  get_user_id event = inr user ->
  py_getitem event "body" = inr raw ->
  json_loads raw = inr body ->
  (exists e, py_contains "height_cm" body = inl e
             /\ exn_class_of e = TypeError) ->
  profile_handler event w = (inr internal_error, w).
Proof.
  intros Hu Hb Hj (e & He & Hclass). unfold profile_handler, parse_body.
  rewrite Hu; mstep. rewrite Hb; mstep. rewrite Hj; mstep.
  unfold profile_required_fields. cbn [profile_check_fields].
  rewrite He. mstep. destruct e as [c msg]. cbn in Hclass. now subst c.
Qed.

(** When [json.loads] raises a ValueError that is no JSONDecodeError
    (CPython does for an integer literal of more than 4300 digits), the
    [except ValueError] meant for the identity catches it: the answer is
    401 UNAUTHORIZED with the message of the parser. *)
Lemma profile_loads_value_error (event user raw : pyval) (msg : string)
    (w : World) :
  get_user_id event = inr user ->
  py_getitem event "body" = inr raw ->
  json_loads raw = inl (Exn ValueError msg) ->
  profile_handler event w = (inr (unauthorized msg), w).
Proof.
  intros Hu Hb Hj. unfold profile_handler, parse_body.
  rewrite Hu; mstep. rewrite Hb; mstep. rewrite Hj; mstep. reflexivity.
Qed.

(** X29: on a body that is a JSON object, a profile submission in
    which a required measurement is missing, not a number, [<= 0] or
    [> 300] is answered 400 with the MISSING_FIELD or INVALID_VALUE
    error of such a measurement, and nothing is written; a submission
    whose six measurements are numbers in (0, 300], that has
    [preferred_fit] and whose fields the serializer accepts (no float
    among them) replaces the record keyed by the caller with one made
    of the submitted fields only, when the store takes the write.  And
    whatever the request, the handler writes only when no measurement
    of the body is bad. *)
Theorem profile_validation (event : pyval) (w : World) :
  (forall user raw d,
     get_user_id event = inr user ->
     py_getitem event "body" = inr raw ->
     json_loads raw = inr (PDict d) ->
     ((exists f, In f profile_required_fields /\ measurement_bad d f = true) ->
      exists g, In g profile_required_fields /\ measurement_bad d g = true /\
        statusCode (measurement_error d g) = 400 /\
        profile_handler event w = (inr (measurement_error d g), w))
     /\
     ((forall f, In f profile_required_fields -> measurement_ok d f = true) ->
      dict_has "preferred_fit" d = true ->
      forall u, user = PStr u ->
      storable_fields
        ("preferred_fit" :: "avatar_key" :: profile_required_fields) d
        = true ->
      env_fault (env w) (S (ticks w)) = None ->
      exists record w',
        profile_handler event w =
          (inr (reply 200
                  (PDict [("ok", PBool true); ("profile", PDict record)])
                  None),
           w') /\
        store w' = store_put PROFILES_TABLE [u] record (store w) /\
        dict_get "user_id" record = Some (PStr u) /\
        dict_get "updatedAt" record
          = Some (PStr (env_clock (env w) (ticks w))) /\
        (forall f,
           In f ("preferred_fit" :: "avatar_key" :: profile_required_fields) ->
           dict_get f record = dict_get f d) /\
        (forall k, ~ In k profile_attributes -> dict_get k record = None)))
  /\
  (forall r w',
     profile_handler event w = (r, w') ->
     history w' <> history w ->
     exists raw d,
       py_getitem event "body" = inr raw /\
       json_loads raw = inr (PDict d) /\
       (forall f, In f profile_required_fields ->
                  measurement_bad d f = false) /\
       dict_has "preferred_fit" d = true).
Proof.
  split.
  - intros user raw d Hu Hb Hj. split.
    + intros (f & Hin & Hbad).
      destruct (find_some_bad _ _ _ Hin Hbad) as [g Hg].
      exists g. pose proof (find_some _ _ Hg) as [Hg1 Hg2].
      repeat split; auto using measurement_error_status.
      eapply profile_rejects; eauto.
    + intros Hok Hfit u -> Hstorable Hfault. eapply profile_accepts; eauto.
  - intros r w'. apply profile_writes_only_valid.
Qed.

(** C10: a required measurement that is the JSON boolean [true]
    passes the numeric validation and is stored as that boolean, when
    the serializer accepts the fields of the body and the store takes
    the write; one that is [false] is answered with INVALID_VALUE for
    that field (the other measurements being valid). *)
Theorem profile_boolean_measurement (event user raw : pyval) (d : dict)
    (w : World) (f : string) :
  get_user_id event = inr user ->
  py_getitem event "body" = inr raw ->
  json_loads raw = inr (PDict d) ->
  In f profile_required_fields ->
  (forall g, In g profile_required_fields -> g <> f ->
             measurement_ok d g = true) ->
  (dict_get f d = Some (PBool true) ->
   measurement_bad d f = false /\
   (dict_has "preferred_fit" d = true ->
    forall u, user = PStr u ->
    storable_fields
      ("preferred_fit" :: "avatar_key" :: profile_required_fields) d
      = true ->
    env_fault (env w) (S (ticks w)) = None ->
    exists record w',
      profile_handler event w =
        (inr (reply 200
                (PDict [("ok", PBool true); ("profile", PDict record)]) None),
         w') /\
      profiles (store w') !! [u] = Some record /\
      dict_get f record = Some (PBool true)))
  /\
  (dict_get f d = Some (PBool false) ->
   profile_handler event w = (inr (invalid_measurement f), w)).
Proof.
  intros Hu Hb Hj Hin Hothers. split.
  - intros Hf.
    assert (Hokf : measurement_ok d f = true)
      by (unfold measurement_ok; rewrite Hf; reflexivity).
    split; [now apply measurement_ok_not_bad|].
    intros Hfit u -> Hstorable Hfault.
    destruct (profile_accepts event raw d w u Hu Hb Hj) as
      (record & w' & Hrun & Hstore & _ & _ & Hfields & _); auto.
    { intros g Hg. destruct (string_dec g f) as [->|Hne]; auto. }
    exists record, w'. split; [exact Hrun|]. split.
    + rewrite Hstore. cbn. apply lookup_insert_eq.
    + rewrite Hfields, Hf; [reflexivity|]. cbn. cbn in Hin. tauto.
  - intros Hf.
    assert (Hbad : measurement_bad d f = true)
      by (unfold measurement_bad; rewrite Hf; reflexivity).
    rewrite (profile_rejects event user raw d w f Hu Hb Hj).
    + unfold measurement_error, dict_has. now rewrite Hf.
    + apply find_only_bad; auto.
      intros g Hg Hne. apply measurement_ok_not_bad; auto.
Qed.

End Profile.



Lemma profile_validation_witness :
  let w := Examples.w0 in
  (get_user_id Examples.zero_weight = inr (PStr "alice") /\
   measurement_bad (Examples.body_of Examples.zero_weight) "weight_kg"
     = true /\
   profile_handler (lib := Reference.lib) Examples.zero_weight w
   = (inr (invalid_measurement (lib := Reference.lib) "weight_kg"), w)) /\
  (forallb (measurement_ok (Examples.body_of Examples.valid_profile))
     profile_required_fields = true /\
   exists record w',
     profile_handler (lib := Reference.lib) Examples.valid_profile w
     = (inr (reply (lib := Reference.lib) 200
               (PDict [("ok", PBool true); ("profile", PDict record)]) None),
        w') /\
     profiles (store w') !! ["alice"] = Some record /\
     dict_get "weight_kg" record = Some (PInt 64) /\
     dict_get "updatedAt" record = Some (PStr "2025-10-18T09:00:0")).
Proof.
  intros w.
  destruct (profile_validation (lib := Reference.lib)
              Examples.zero_weight w) as [Hbad _].
  destruct (Hbad (PStr "alice") _ (Examples.body_of Examples.zero_weight)
              eq_refl eq_refl ltac:(vm_compute; reflexivity))
    as [Hreject _].
  destruct (profile_validation (lib := Reference.lib)
              Examples.valid_profile w) as [Hgood _].
  destruct (Hgood (PStr "alice") _ (Examples.body_of Examples.valid_profile)
              eq_refl eq_refl ltac:(vm_compute; reflexivity))
    as [_ Haccept].
  split.
  - split; [reflexivity|]. split; [reflexivity|].
    destruct Hreject as (g & Hin & Hg & _ & Hrun).
    { exists "weight_kg". split; [cbn; tauto | reflexivity]. }
    rewrite Hrun. cbn in Hin.
    repeat (destruct Hin as [<-|Hin]; [try discriminate Hg; try reflexivity|]).
    contradiction.
  - split; [reflexivity|].
    destruct (Haccept) with (u := "alice")
      as (record & w' & Hrun & Hstore & _ & Htime & Hfields & _).
    { intros f Hf. cbn in Hf.
      repeat (destruct Hf as [<-|Hf]; [reflexivity|]). contradiction. }
    { reflexivity. }
    { reflexivity. }
    { reflexivity. }
    { reflexivity. }
    exists record, w'. split; [exact Hrun|]. split.
    + rewrite Hstore. apply lookup_insert_eq.
    + split; [|exact Htime].
      rewrite Hfields; [reflexivity | cbn; tauto].
Defined.

Lemma profile_boolean_measurement_witness :
  let w := Examples.w0 in
  (dict_get "height_cm" (Examples.body_of Examples.true_height)
   = Some (PBool true) /\
   exists record w',
     profile_handler (lib := Reference.lib) Examples.true_height w
     = (inr (reply (lib := Reference.lib) 200
               (PDict [("ok", PBool true); ("profile", PDict record)]) None),
        w') /\
     profiles (store w') !! ["alice"] = Some record /\
     dict_get "height_cm" record = Some (PBool true)) /\
  (dict_get "height_cm" (Examples.body_of Examples.false_height)
   = Some (PBool false) /\
   profile_handler (lib := Reference.lib) Examples.false_height w
   = (inr (invalid_measurement (lib := Reference.lib) "height_cm"), w)).
Proof.
  intros w.
  assert (Hothers : forall d,
    forallb (measurement_ok d) (tl profile_required_fields) = true ->
    forall g, In g profile_required_fields -> g <> "height_cm" ->
              measurement_ok d g = true).
  { intros d Hall g Hg Hne. cbn in Hg. destruct Hg as [<-|Hg]; [congruence|].
    rewrite forallb_forall in Hall. apply Hall. exact Hg. }
  split.
  - split; [reflexivity|].
    destruct (profile_boolean_measurement (lib := Reference.lib)
                Examples.true_height (PStr "alice") _
                (Examples.body_of Examples.true_height)
                w "height_cm"
                eq_refl eq_refl ltac:(vm_compute; reflexivity)) as [Htrue _].
    { cbn; tauto. }
    { apply Hothers. reflexivity. }
    destruct Htrue as [_ Htrue]; [reflexivity|].
    apply (Htrue eq_refl "alice" eq_refl eq_refl eq_refl).
  - split; [reflexivity|].
    destruct (profile_boolean_measurement (lib := Reference.lib)
                Examples.false_height (PStr "alice") _
                (Examples.body_of Examples.false_height)
                w "height_cm"
                eq_refl eq_refl ltac:(vm_compute; reflexivity)) as [_ Hfalse].
    { cbn; tauto. }
    { apply Hothers. reflexivity. }
    apply Hfalse. reflexivity.
Defined.

Lemma profile_float_measurement_not_stored_witness :
  let w := Examples.w0 in
  dict_get "height_cm" (Examples.body_of Examples.float_height)
    = Some (PFloat (FFin 5998935441145856 (-45))) /\
  profile_handler (lib := Reference.lib) Examples.float_height w
    = (inr (internal_error (lib := Reference.lib)), next_tick w) /\
  statusCode (internal_error (lib := Reference.lib)) = 500 /\
  profiles (store (next_tick w)) = ∅.
Proof.
  intros w.
  destruct (profile_float_measurement_not_stored (lib := Reference.lib)
              Examples.float_height _
              (Examples.body_of Examples.float_height) w "alice"
              "height_cm" (FFin 5998935441145856 (-45))
              eq_refl eq_refl ltac:(vm_compute; reflexivity))
    as (Hrun & Hcode & _ & _).
  - intros g Hg. cbn in Hg.
    repeat (destruct Hg as [<-|Hg]; [vm_compute; reflexivity|]).
    contradiction.
  - reflexivity.
  - cbn; tauto.
  - vm_compute; reflexivity.
  - split; [vm_compute; reflexivity|]. split; [exact Hrun|].
    split; [exact Hcode | reflexivity].
Defined.

(** ** The cart upsert *)

Section Cart.

Context {lib : PyLib}.

Lemma check_required_fields_find d fields :
  check_required_fields (PDict d) fields =
    inr (missing_field <$> List.find (fun f => negb (dict_has f d)) fields).
Proof.
  induction fields as [|f fields IH]; [reflexivity|].
  cbn [check_required_fields List.find py_contains rbind].
  destruct (dict_has f d); cbn; [exact IH | reflexivity].
Qed.

Lemma dict_has_value d f :
  dict_has f d = true -> exists v, dict_get f d = Some v.
Proof. unfold dict_has. destruct (dict_get f d); [eauto | discriminate]. Qed.



End Cart.

(** ** Fit retrieval *)

Section FitGet.

Context {lib : PyLib}.

(** C4: for an authenticated caller asking for a fit by its
    identifier, when the lookup is served: no record under the
    identifier gives 404 FIT_NOT_FOUND; a record whose owner differs
    from the caller gives 403 FORBIDDEN whatever its status, READY
    included.  The existence check comes first. *)
Theorem fit_get_not_found_then_forbidden (event user path : pyval)
    (fit_id : string) (w : World) :
  get_user_id event = inr user ->
  py_getitem event "pathParameters" = inr path ->
  py_getitem path "fitId" = inr (PStr fit_id) ->
  fit_id <> EmptyString ->
  env_fault (env w) (ticks w) = None ->
  (fits (store w) !! [fit_id] = None ->
   fit_get_handler event w =
     (inr (error_reply 404 "FIT_NOT_FOUND" "Fit not found"), next_tick w))
  /\
  (forall it owner,
     fits (store w) !! [fit_id] = Some it ->
     dict_get "user_id" it = Some owner ->
     py_eq owner user = false ->
     fit_get_handler event w =
       (inr (error_reply 403 "FORBIDDEN" "Access denied to this fit"),
        next_tick w)).
Proof.
  intros Hu Hp Hid Hne Hfault.
  assert (Htruthy : py_truthy (PStr fit_id) = true).
  { cbn. apply negb_true_iff, String.eqb_neq, Hne. }
  split.
  - intros Hnone. unfold fit_get_handler.
    rewrite Hu; mstep. rewrite Hp; mstep. rewrite Hid; mstep.
    rewrite Htruthy; mstep. rewrite Hfault.
    cbn [key_schema key_values dict_get String.eqb Ascii.eqb Bool.eqb
         table_of store next_tick].
    rewrite Hnone. reflexivity.
  - intros it owner Hsome Howner Hdiff. unfold fit_get_handler.
    rewrite Hu; mstep. rewrite Hp; mstep. rewrite Hid; mstep.
    rewrite Htruthy; mstep. rewrite Hfault.
    cbn [key_schema key_values dict_get String.eqb Ascii.eqb Bool.eqb
         table_of store next_tick].
    rewrite Hsome. cbn [dict_has dict_get String.eqb Ascii.eqb Bool.eqb].
    mstep. cbn [dict_get String.eqb Ascii.eqb Bool.eqb]. mstep.
    rewrite dict_get_read_item, Howner. cbn [fmap option_fmap option_map].
    mstep. rewrite py_eq_as_read, Hdiff. reflexivity.
Qed.

End FitGet.

(** ** The pagination cursor *)

Section Cursor.

Context {lib : PyLib}.

(** When the decoders of the library invert its encoders on a key,
    the key is encoded to a cursor that decodes to it. *)
Lemma cursor_codec (key : pyval) :
  codec_laws key ->
  exists cursor,
    cursor <> EmptyString /\
    encode_cursor key = inr cursor /\ decode_cursor (PStr cursor) = inr key.
Proof.
  intros (raw & cursor & Henc & Hb64 & Hne & Hdec & Hutf & Hjson).
  exists cursor. split; [exact Hne|].
  pose proof (json_loads_plain _ _ Hjson) as Hplain. split.
  - unfold encode_cursor, json_dumps. rewrite Hplain. cbn.
    rewrite Henc. cbn. exact Hb64.
  - unfold decode_cursor. rewrite Hdec. cbn. rewrite Hutf. cbn.
    exact Hjson.
Qed.

(** The last step of the listing: the page is serialised, which
    fails on a Decimal, and the failure is answered 500. *)
Lemma listing_answer (items : list pyval) (next : pyval) (w : World) :
  has_decimal next = false ->
  try_except
    (lift (create_response 200
             (PDict [("items", PList items); ("nextCursor", next)]) None))
    [([ValueError],
      fun e => lift (create_error_response 401 "UNAUTHORIZED" (str_exn e) None));
     ([ClientError],
      fun _ => lift (create_error_response 500 "DYNAMODB_ERROR"
                       "Failed to retrieve cart items" None));
     ([Exception],
      fun _ => lift (create_error_response 500 "INTERNAL_ERROR"
                       "An unexpected error occurred" None))] w
  = (inr (if has_decimal (PList items) then internal_error
          else reply 200
                 (PDict [("items", PList items); ("nextCursor", next)]) None),
     w).
Proof.
  intros Hnext.
  assert (Hdec : has_decimal
                   (PDict [("items", PList items); ("nextCursor", next)])
                 = has_decimal (PList items)).
  { cbn [has_decimal existsb snd orb]. rewrite Hnext.
    now rewrite !orb_false_r. }
  mstep. destruct (has_decimal (PList items)) eqn:Hitems.
  - rewrite json_dumps_decimal by (now rewrite Hdec). mstep. reflexivity.
  - rewrite json_dumps_plain by (now rewrite Hdec). mstep. reflexivity.
Qed.

(** The first page of the listing: the encoding of the last-evaluated
    key is handed out as [nextCursor] beside the items, and the answer
    is 500 when an item holds a number. *)
Lemma cart_listing_next_cursor event user params given w key cursor :
  get_user_id event = inr user ->
  query_string_parameters event = inr params ->
  py_get params "cursor" = inr given ->
  py_truthy given = false ->
  serializer_error user = None ->
  env_fault (env w) (ticks w) = None ->
  let page := env_query (env w) (ticks w) CART_ITEMS_TABLE None user None in
  let items := map as_read (default [] (Items page)) in
  LastEvaluatedKey page = Some key ->
  encode_cursor (as_read key) = inr cursor ->
  cart_get_handler event w =
    (inr (if has_decimal (PList items) then internal_error
          else reply 200
                 (PDict [("items", PList items);
                         ("nextCursor", PStr cursor)]) None),
     next_tick w).
Proof.
  intros Hu Hq Hc Hfalse Hser Hfault page items Hlast He.
  unfold cart_get_handler.
  rewrite Hu; mstep. rewrite Hq; mstep. rewrite Hc; mstep.
  rewrite Hfalse. mstep. rewrite (serialize_ok _ _ Hser). mstep.
  rewrite Hfault. cbn [env next_tick]. fold page. rewrite Hlast.
  cbn [fmap option_fmap option_map LastEvaluatedKey Items].
  rewrite He.
  replace (default [] (map as_read <$> Items page)) with items
    by (subst items; now destruct (Items page)).
  mstep. apply listing_answer. reflexivity.
Qed.

(** A cursor that decodes to a key makes the listing resume after
    that key. *)
Lemma cart_listing_resumes event user params w key cursor :
  get_user_id event = inr user ->
  query_string_parameters event = inr params ->
  py_get params "cursor" = inr (PStr cursor) ->
  cursor <> EmptyString ->
  decode_cursor (PStr cursor) = inr key ->
  is_dict key = true ->
  serializer_error user = None ->
  serializer_error key = None ->
  env_fault (env w) (ticks w) = None ->
  let page :=
    env_query (env w) (ticks w) CART_ITEMS_TABLE None user (Some key) in
  let items := map as_read (default [] (Items page)) in
  LastEvaluatedKey page = None ->
  cart_get_handler event w =
    (inr (if has_decimal (PList items) then internal_error
          else reply 200
                 (PDict [("items", PList items); ("nextCursor", PNone)])
                 None),
     next_tick w).
Proof.
  intros Hu Hq Hc Hne Hd Hdict Hser Hkey Hfault page items Hlast.
  unfold cart_get_handler.
  rewrite Hu; mstep. rewrite Hq; mstep. rewrite Hc; mstep.
  assert (Htruthy : py_truthy (PStr cursor) = true).
  { cbn. apply negb_true_iff, String.eqb_neq, Hne. }
  rewrite Htruthy, Hd. mstep. rewrite (serialize_ok _ _ Hser). mstep.
  destruct key as [| | | | | |d|]; try discriminate Hdict.
  rewrite (serialize_ok _ _ Hkey). mstep.
  rewrite Hfault. cbn [env next_tick]. fold page. rewrite Hlast.
  cbn [fmap option_fmap option_map LastEvaluatedKey Items].
  replace (default [] (map as_read <$> Items page)) with items
    by (subst items; now destruct (Items page)).
  mstep. apply listing_answer. reflexivity.
Qed.

(** A cursor whose decoding raises is answered 400 INVALID_CURSOR. *)
Lemma undecodable_cursor_rejected event user params given w e :
  get_user_id event = inr user ->
  query_string_parameters event = inr params ->
  py_get params "cursor" = inr given ->
  py_truthy given = true ->
  decode_cursor given = inl e ->
  cart_get_handler event w =
    (inr (error_reply 400 "INVALID_CURSOR" "Invalid pagination cursor"), w).
Proof.
  intros Hu Hq Hc Htruthy Hfail. unfold cart_get_handler.
  rewrite Hu; mstep. rewrite Hq; mstep. rewrite Hc; mstep.
  rewrite Htruthy, Hfail. clear Hfail. mstep.
  destruct e as [[] msg]; reflexivity.
Qed.

End Cursor.

(** ** Evolution of the store *)

Lemma last_cons_default {A} (x : A) l d d' :
  List.last (x :: l) d = List.last (x :: l) d'.
Proof.
  revert x. induction l as [|y l IH]; intros x; [reflexivity|].
  change (List.last (y :: l) d = List.last (y :: l) d'). apply IH.
Qed.

Lemma chain_app R s (l1 l2 : list Store) :
  chain R s l1 -> chain R (List.last l1 s) l2 -> chain R s (l1 ++ l2).
Proof.
  revert s. induction l1 as [|a l1 IH]; intros s H1 H2; [exact H2|].
  destruct H1 as [Ha H1]. split; [exact Ha|]. apply IH; [exact H1|].
  destruct l1 as [|b l1]; [exact H2|].
  rewrite (last_cons_default b l1 a s). exact H2.
Qed.

Lemma last_rev_hd (s : Store) (l : list Store) :
  List.last (rev l) s = hd s l.
Proof.
  destruct l as [|a l]; [reflexivity|]. cbn [rev hd].
  rewrite <- (rev_involutive l) at 1.
  now rewrite List.last_last.
Qed.

Lemma chain_impl (R R' : Store -> Store -> Prop) (P : Store -> Prop) s l :
  (forall a b, P a -> R a b -> R' a b /\ P b) ->
  P s -> chain R s l -> chain R' s l /\ P (List.last l s).
Proof.
  intros Himpl. revert s. induction l as [|a l IH]; intros s Hs Hc.
  - split; [exact I | exact Hs].
  - destruct Hc as [Ha Hc]. destruct (Himpl s a Hs Ha) as [Ha' Hpa].
    destruct (IH a Hpa Hc) as [Hc' Hlast].
    split; [split; assumption|].
    destruct l as [|b l]; [exact Hpa|].
    rewrite (last_cons_default b l a s) in Hlast. exact Hlast.
Qed.

Lemma evolution_refl R w : evolution R w w.
Proof. exists []. cbn. auto. Qed.

Lemma evolution_silent R w w' :
  history w' = history w -> store w' = store w -> evolution R w w'.
Proof. intros Hh Hs. exists []. cbn. auto. Qed.

Lemma evolution_trans R w w' w'' :
  evolution R w w' -> evolution R w' w'' -> evolution R w w''.
Proof.
  intros (n1 & Hh1 & Hc1 & Hs1) (n2 & Hh2 & Hc2 & Hs2).
  exists (n2 ++ n1)%list. split; [|split].
  - rewrite Hh2, Hh1. now rewrite app_assoc.
  - rewrite rev_app_distr. apply chain_app; [exact Hc1|].
    rewrite last_rev_hd, <- Hs1. exact Hc2.
  - rewrite Hs2, Hs1. now destruct n2.
Qed.

Lemma evolution_commit (R : Store -> Store -> Prop) w s :
  R (store w) s -> evolution R w (commit s w).
Proof. intros H. exists [s]. cbn. auto. Qed.

Section Preserves.

Context (R : Store -> Store -> Prop).

Lemma preserves_ret {A} (a : A) : preserves R (ret a).
Proof. intros w. apply evolution_refl. Qed.

Lemma preserves_raise {A} e : preserves R (raise (A := A) e).
Proof. intros w. apply evolution_refl. Qed.

Lemma preserves_lift {A} (r : result A) : preserves R (lift r).
Proof. destruct r; [apply preserves_raise | apply preserves_ret]. Qed.

Lemma preserves_bind {A B} (m : M A) (k : A -> M B) :
  preserves R m -> (forall a, preserves R (k a)) -> preserves R (bind m k).
Proof.
  intros Hm Hk w. unfold bind. specialize (Hm w).
  destruct (m w) as [[e|a] w1]; [exact Hm|].
  eapply evolution_trans; [exact Hm | apply Hk].
Qed.

Lemma preserves_dispatch {A}
    (clauses : list (list exn_class * (exn -> M A))) e :
  Forall (fun c => forall e, preserves R (snd c e)) clauses ->
  preserves R (dispatch clauses e).
Proof.
  induction 1 as [|[cs h] clauses Hh _ IH]; cbn [dispatch].
  - apply preserves_raise.
  - destruct (isinstance_exn e cs); [apply Hh | exact IH].
Qed.

Lemma preserves_try_except {A} (m : M A) clauses :
  preserves R m ->
  Forall (fun c => forall e, preserves R (snd c e)) clauses ->
  preserves R (try_except m clauses).
Proof.
  intros Hm Hc w. unfold try_except. specialize (Hm w).
  destruct (m w) as [[e|a] w1]; [|exact Hm].
  eapply evolution_trans; [exact Hm | now apply preserves_dispatch].
Qed.

Lemma preserves_try_or_return {A B} (m : M A) cs (r : M B) k :
  preserves R m -> preserves R r -> (forall a, preserves R (k a)) ->
  preserves R (try_or_return m cs r k).
Proof.
  intros Hm Hr Hk w. unfold try_or_return. specialize (Hm w).
  destruct (m w) as [[e|a] w1].
  - destruct (isinstance_exn e cs); [|exact Hm].
    eapply evolution_trans; [exact Hm | apply Hr].
  - eapply evolution_trans; [exact Hm | apply Hk].
Qed.

Lemma preserves_interact : preserves R interact.
Proof.
  intros w. unfold interact.
  destruct (env_fault (env w) (ticks w)); now apply evolution_silent.
Qed.

Lemma preserves_get_env : preserves R get_env.
Proof. intros w. apply evolution_refl. Qed.

Lemma preserves_get_store : preserves R get_store.
Proof. intros w. apply evolution_refl. Qed.

Lemma preserves_read_clock : preserves R read_clock.
Proof. intros w. now apply evolution_silent. Qed.

Lemma preserves_uuid4 : preserves R uuid4.
Proof. intros w. now apply evolution_silent. Qed.

Lemma preserves_get_current_timestamp : preserves R get_current_timestamp.
Proof.
  apply preserves_bind; [apply preserves_read_clock|].
  intros a. apply preserves_ret.
Qed.

Lemma preserves_serialize v : preserves R (serialize v).
Proof.
  unfold serialize.
  destruct (serializer_error v); [apply preserves_raise | apply preserves_ret].
Qed.

Lemma preserves_return_some (r : result Response) :
  preserves R (return_some r).
Proof.
  unfold return_some. apply preserves_bind; [apply preserves_lift|].
  intros a. apply preserves_ret.
Qed.

Lemma preserves_get_item t key : preserves R (get_item t key).
Proof.
  unfold get_item. apply preserves_bind; [apply preserves_serialize|].
  intros _. apply preserves_bind; [apply preserves_interact|].
  intros _. destruct (key_values _ _); [|apply preserves_raise].
  apply preserves_bind; [apply preserves_get_store|].
  intros s. destruct (_ !! _); apply preserves_ret.
Qed.

Lemma preserves_query t i u k : preserves R (query t i u k).
Proof.
  unfold query. apply preserves_bind; [apply preserves_serialize|].
  intros _. apply preserves_bind.
  { destruct k as [[]|];
      first [apply preserves_serialize | apply preserves_raise
            | apply preserves_ret]. }
  intros _. apply preserves_bind; [apply preserves_interact|].
  intros n. apply preserves_bind; [apply preserves_get_env|].
  intros e. apply preserves_ret.
Qed.

Lemma preserves_generate_presigned_url m k x kw :
  preserves R (generate_presigned_url m k x kw).
Proof.
  unfold generate_presigned_url.
  destruct kw; [|apply preserves_raise].
  destruct k; try apply preserves_raise.
  apply preserves_bind; [apply preserves_interact|].
  intros n. apply preserves_bind; [apply preserves_get_env|].
  intros e. apply preserves_ret.
Qed.

Lemma preserves_http_request u b : preserves R (http_request u b).
Proof.
  unfold http_request. apply preserves_bind; [apply preserves_interact|].
  intros n. apply preserves_bind; [apply preserves_get_env|].
  intros e. apply preserves_ret.
Qed.

End Preserves.

Lemma same_fits_set_table s t m :
  t <> FITS_TABLE -> same_fits s (set_table t m s).
Proof. destruct t; intros H; try reflexivity. congruence. Qed.

Lemma preserves_put_item t it :
  t <> FITS_TABLE -> preserves same_fits (put_item t it).
Proof.
  intros Ht. unfold put_item.
  apply preserves_bind; [apply preserves_serialize|]. intros _ w. mstep.
  destruct (env_fault (env w) (ticks w)); [now apply evolution_silent|].
  destruct (key_values _ _); [|now apply evolution_silent].
  cbn [snd].
  eapply evolution_trans;
    [apply (evolution_silent _ w (next_tick w)); reflexivity|].
  apply evolution_commit. now apply same_fits_set_table.
Qed.

Lemma preserves_update_item t key actions :
  t <> FITS_TABLE -> preserves same_fits (update_item t key actions).
Proof.
  intros Ht. unfold update_item.
  apply preserves_bind; [apply preserves_serialize|]. intros _.
  apply preserves_bind; [apply preserves_serialize|]. intros _ w. mstep.
  destruct (env_fault (env w) (ticks w)); [now apply evolution_silent|].
  destruct (key_values _ _); [|now apply evolution_silent].
  cbn [snd].
  eapply evolution_trans;
    [apply (evolution_silent _ w (next_tick w)); reflexivity|].
  apply evolution_commit. now apply same_fits_set_table.
Qed.

(** Decomposes a handler into its operations. *)
Ltac preserves_step :=
  first
    [ apply preserves_ret
    | apply preserves_raise
    | apply preserves_lift
    | apply preserves_return_some
    | apply preserves_get_current_timestamp
    | apply preserves_get_item
    | apply preserves_query
    | apply preserves_generate_presigned_url
    | apply preserves_http_request
    | apply preserves_get_env
    | apply preserves_uuid4
    | apply preserves_put_item; discriminate
    | apply preserves_update_item; discriminate
    | apply preserves_bind; [|intros ?]
    | apply preserves_try_or_return; [| |intros ?]
    | apply preserves_try_except; [|repeat constructor; intros ?]
    | match goal with
      | |- preserves _ (if ?b then _ else _) => destruct b
      | |- preserves _ (match ?x with _ => _ end) => destruct x
      end ].

Section Quiet.

Context {lib : PyLib}.

Lemma upload_url_handler_quiet event :
  preserves same_fits (upload_url_handler event).
Proof. unfold upload_url_handler. repeat preserves_step. Qed.

Lemma profile_handler_quiet event :
  preserves same_fits (profile_handler event).
Proof. unfold profile_handler, parse_body. repeat preserves_step. Qed.

Lemma cart_post_handler_quiet event :
  preserves same_fits (cart_post_handler event).
Proof. unfold cart_post_handler, parse_body. repeat preserves_step. Qed.

Lemma cart_get_handler_quiet event :
  preserves same_fits (cart_get_handler event).
Proof. unfold cart_get_handler. repeat preserves_step. Qed.

Lemma fit_get_handler_quiet event :
  preserves same_fits (fit_get_handler event).
Proof. unfold fit_get_handler. repeat preserves_step. Qed.

Lemma fit_summaries_quiet items :
  preserves same_fits (fit_summaries items).
Proof.
  induction items as [|item items IH]; cbn [fit_summaries].
  - apply preserves_ret.
  - apply preserves_bind.
    + unfold fit_summary_of. repeat preserves_step.
    + intros x. apply preserves_bind; [exact IH|].
      intros xs. apply preserves_ret.
Qed.

Lemma fits_list_handler_quiet event :
  preserves same_fits (fits_list_handler event).
Proof.
  unfold fits_list_handler.
  repeat first [apply fit_summaries_quiet | preserves_step].
Qed.

Lemma token_handler_quiet event :
  preserves same_fits (token_handler event).
Proof. unfold token_handler, parse_body. repeat preserves_step. Qed.

End Quiet.

(** ** The fit job lifecycle *)

Lemma fit_step_insert s k it :
  match fits s !! k with
  | None => status_of it = PENDING
  | Some old =>
      status_of it = status_of old
      \/ (status_of old = PENDING
          /\ (status_of it = READY \/ status_of it = FAILED))
  end ->
  fit_step s (set_table FITS_TABLE (<[ k := it ]> (fits s)) s).
Proof.
  intros H k'. cbn [set_table fits].
  destruct (decide (k = k')) as [<-|Hne].
  - rewrite lookup_insert_eq. destruct (fits s !! k); exact H.
  - rewrite lookup_insert_ne by exact Hne.
    destruct (fits s !! k'); auto.
Qed.

Lemma fit_inv_insert s k it :
  fit_inv s ->
  (status_of it = PENDING \/ status_of it = READY \/ status_of it = FAILED) ->
  (dict_has "imageUrl" it = true <-> status_of it = READY) ->
  fit_inv (set_table FITS_TABLE (<[ k := it ]> (fits s)) s).
Proof.
  intros Hinv H1 H2 k' it'. cbn [set_table fits].
  destruct (decide (k = k')) as [<-|Hne].
  - rewrite lookup_insert_eq. intros [= <-]. auto.
  - rewrite lookup_insert_ne by exact Hne. apply Hinv.
Qed.

Lemma fit_lawful_same s s' :
  fit_inv s -> same_fits s s' -> fit_lawful s s' /\ fit_inv s'.
Proof.
  unfold same_fits. intros Hinv Heq.
  assert (Hinv' : fit_inv s') by (intros k it; rewrite Heq; apply Hinv).
  split; [split|]; try exact Hinv'.
  intros k. rewrite Heq. destruct (fits s !! k); auto.
Qed.

Lemma fit_lawful_inv s s' :
  fit_inv s -> fit_lawful s s' -> fit_lawful s s' /\ fit_inv s'.
Proof. intros _ H. split; [exact H | apply H]. Qed.

(** Writes that respect the lifecycle keep the invariant. *)
Lemma evolution_fit_inv R w w' :
  (forall a b, fit_inv a -> R a b -> fit_lawful a b /\ fit_inv b) ->
  fit_inv (store w) -> evolution R w w' ->
  evolution fit_lawful w w' /\ fit_inv (store w').
Proof.
  intros HR Hinv (news & Hh & Hc & Hs).
  destruct (chain_impl R fit_lawful fit_inv _ _ HR Hinv Hc) as [Hc' Hlast].
  rewrite last_rev_hd, <- Hs in Hlast.
  split; [|exact Hlast]. exists news. auto.
Qed.

Section FitCreate.

Context {lib : PyLib}.

(** The new record: a fresh identifier, status PENDING, no image. *)
Lemma fit_new_record_spec user body w :
  let w1 := snd (fit_new_record user body w) in
  store w1 = store w /\ history w1 = history w /\
  forall new, fst (fit_new_record user body w) = inr new ->
    env w1 = env w /\ ticks w1 = S (S (S (ticks w))) /\
    fst new = env_uuid (env w) (ticks w) /\
    dict_get "fitId" (snd new) = Some (PStr (fst new)) /\
    status_of (snd new) = PENDING /\
    dict_has "imageUrl" (snd new) = false.
Proof.
  unfold fit_new_record. mstep.
  destruct (py_getitem body "items") as [e|items];
    [cbn; repeat split; discriminate|].
  destruct (py_getitem body "mode") as [e|mode];
    [cbn; repeat split; discriminate|].
  destruct (py_contains "name" body) as [e|[]];
    [cbn; repeat split; discriminate| |].
  - destruct (py_getitem body "name") as [e|name];
      [cbn; repeat split; discriminate|].
    destruct (py_contains "body_asset_key" body) as [e|[]];
      [cbn; repeat split; discriminate| |].
    + destruct (py_getitem body "body_asset_key") as [e|key];
        [cbn; repeat split; discriminate|].
      cbn. repeat split; injection H as <-; reflexivity.
    + cbn. repeat split; injection H as <-; reflexivity.
  - destruct (py_contains "body_asset_key" body) as [e|[]];
      [cbn; repeat split; discriminate| |].
    + destruct (py_getitem body "body_asset_key") as [e|key];
        [cbn; repeat split; discriminate|].
      cbn. repeat split; injection H as <-; reflexivity.
    + cbn. repeat split; injection H as <-; reflexivity.
Qed.

Lemma isinstance_Exception e : isinstance_exn e [Exception] = true.
Proof. now destruct e as [[] msg]. Qed.

Lemma put_item_run t it w :
  put_item t it w =
    match serializer_error (PDict it) with
    | Some e => (inl e, w)
    | None =>
        match env_fault (env w) (ticks w) with
        | Some e => (inl e, next_tick w)
        | None =>
            match key_values (key_schema t) it with
            | None => (inl validation_exception, next_tick w)
            | Some k =>
                (inr tt, commit (store_put t k it (store w)) (next_tick w))
            end
        end
    end.
Proof.
  unfold put_item, serialize. mstep.
  destruct (serializer_error (PDict it)); [reflexivity|].
  destruct (env_fault (env w) (ticks w)); [reflexivity|].
  now destruct (key_values (key_schema t) it).
Qed.

Lemma update_item_run t key actions w :
  update_item t key actions w =
    match serializer_error (PDict key),
          serializer_error (PList (map action_value actions)) with
    | Some e, _ => (inl e, w)
    | None, Some e => (inl e, w)
    | None, None =>
        match env_fault (env w) (ticks w) with
        | Some e => (inl e, next_tick w)
        | None =>
            match key_values (key_schema t) key with
            | None => (inl validation_exception, next_tick w)
            | Some k =>
                (inr tt,
                 commit (store_put t k
                           (updated_item t k key actions (store w))
                           (store w))
                   (next_tick w))
            end
        end
    end.
Proof.
  unfold update_item, serialize. mstep.
  destruct (serializer_error (PDict key)); [reflexivity|].
  destruct (serializer_error (PList _)); [reflexivity|].
  destruct (env_fault (env w) (ticks w)); [reflexivity|].
  now destruct (key_values (key_schema t) key).
Qed.

(** What the synchronous branch does, by the faults of its two
    updates: READY is stored; or READY is refused and FAILED is stored;
    or both are refused and the second exception goes on. *)
Lemma fit_generate_run user id w :
  fit_generate user id w =
    match env_fault (env w) (S (ticks w)) with
    | None =>
        (inr (fit_created id "READY"),
         commit (ready_store user id (env_clock (env w) (ticks w)) (store w))
           (after 2 w))
    | Some _ =>
        match env_fault (env w) (S (S (S (ticks w)))) with
        | None =>
            (inr generation_failed,
             commit (failed_store id (env_clock (env w) (S (S (ticks w))))
                       (store w))
               (after 4 w))
        | Some e => (inl e, after 4 w)
        end
    end.
Proof.
  unfold fit_generate.
  cbv beta iota delta [bind ret read_clock get_current_timestamp try_except].
  rewrite update_item_run.
  cbn [ticks next_tick env store serializer_error first_error fold_right
       map action_value snd].
  destruct (env_fault (env w) (S (ticks w))) as [e|]; [|reflexivity].
  cbn [dispatch]. rewrite isinstance_Exception.
  cbv beta iota delta [bind ret read_clock get_current_timestamp].
  rewrite update_item_run.
  cbn [ticks next_tick env store serializer_error first_error fold_right
       map action_value snd].
  destruct (env_fault (env w) (S (S (S (ticks w))))); reflexivity.
Qed.

Lemma fit_create_lawful s id data :
  fit_inv s -> fits s !! [id] = None ->
  status_of data = PENDING -> dict_has "imageUrl" data = false ->
  fit_lawful s (store_put FITS_TABLE [id] data s).
Proof.
  intros Hinv Hfresh Hstatus Himage. split.
  - apply fit_step_insert. cbn [table_of]. now rewrite Hfresh.
  - apply fit_inv_insert; auto.
    rewrite Himage, Hstatus. split; discriminate.
Qed.

Lemma ready_store_lookup user fid now s data :
  fits s !! [fid] = Some data ->
  exists it,
    fits (ready_store user fid now s) !! [fid] = Some it /\
    status_of it = READY /\
    dict_get "imageUrl" it
      = Some (PStr ("generated/" ++ py_str user ++ "/" ++ fid ++ ".jpg")).
Proof.
  intros Hdata. unfold ready_store, store_put, updated_item.
  cbn [table_of set_table fits]. rewrite Hdata, lookup_insert_eq.
  eexists. split; [reflexivity|].
  cbn [default from_option id fold_left apply_set]. unfold status_of.
  split; dict_lookup; reflexivity.
Qed.

Lemma failed_store_lookup fid now s data :
  fits s !! [fid] = Some data ->
  exists it,
    fits (failed_store fid now s) !! [fid] = Some it /\
    status_of it = FAILED /\
    dict_get "imageUrl" it = dict_get "imageUrl" data.
Proof.
  intros Hdata. unfold failed_store, store_put, updated_item.
  cbn [table_of set_table fits]. rewrite Hdata, lookup_insert_eq.
  eexists. split; [reflexivity|].
  cbn [default from_option id fold_left apply_set]. unfold status_of.
  split; dict_lookup; reflexivity.
Qed.

Lemma fit_ready_lawful user id now s data :
  fit_inv s -> fits s !! [id] = Some data -> status_of data = PENDING ->
  fit_lawful s (ready_store user id now s).
Proof.
  intros Hinv Hdata Hstatus.
  destruct (ready_store_lookup user id now s data Hdata)
    as (it & Hit & Hready & Himage).
  unfold ready_store, store_put in *. cbn [table_of] in *.
  cbn [set_table fits] in Hit. rewrite lookup_insert_eq in Hit.
  injection Hit as Hit. rewrite Hit. split.
  - apply fit_step_insert. rewrite Hdata, Hstatus. auto.
  - apply fit_inv_insert; auto.
    unfold dict_has. rewrite Himage. tauto.
Qed.

Lemma fit_failed_lawful id now s data :
  fit_inv s -> fits s !! [id] = Some data -> status_of data = PENDING ->
  fit_lawful s (failed_store id now s).
Proof.
  intros Hinv Hdata Hstatus.
  destruct (failed_store_lookup id now s data Hdata)
    as (it & Hit & Hfailed & Himage).
  unfold failed_store, store_put in *. cbn [table_of] in *.
  cbn [set_table fits] in Hit. rewrite lookup_insert_eq in Hit.
  injection Hit as Hit. rewrite Hit. split.
  - apply fit_step_insert. rewrite Hdata, Hstatus. auto.
  - apply fit_inv_insert; auto.
    destruct (Hinv [id] data Hdata) as [_ Hiff].
    unfold dict_has in *. rewrite Himage, Hfailed.
    rewrite Hstatus in Hiff. split; [|discriminate].
    intros H. apply Hiff in H. discriminate.
Qed.

Lemma evolution_after R n w : evolution R w (after n w).
Proof.
  induction n as [|n IH]; [apply evolution_refl|].
  eapply evolution_trans; [exact IH|]. now apply evolution_silent.
Qed.

Lemma evolution_commit_after (R : Store -> Store -> Prop) n w s :
  R (store w) s -> evolution R w (commit s (after n w)).
Proof.
  intros H. eapply evolution_trans; [apply (evolution_after R n)|].
  apply evolution_commit.
  replace (store (after n w)) with (store w); [exact H|].
  induction n; [reflexivity | exact IHn].
Qed.

Lemma fit_generate_evolution user id w data :
  fit_inv (store w) -> fits (store w) !! [id] = Some data ->
  status_of data = PENDING ->
  evolution fit_lawful w (snd (fit_generate user id w)).
Proof.
  intros Hinv Hdata Hstatus. rewrite fit_generate_run.
  destruct (env_fault (env w) (S (ticks w))).
  - destruct (env_fault (env w) (S (S (S (ticks w))))); cbn [snd].
    + apply evolution_after.
    + apply evolution_commit_after. eapply fit_failed_lawful; eauto.
  - cbn [snd]. apply evolution_commit_after. eapply fit_ready_lawful; eauto.
Qed.

Lemma fit_persist_evolution user body id data w :
  fit_inv (store w) ->
  fits (store w) !! [id] = None ->
  dict_get "fitId" data = Some (PStr id) ->
  status_of data = PENDING ->
  dict_has "imageUrl" data = false ->
  evolution fit_lawful w (snd (fit_persist user body id data w)).
Proof.
  intros Hinv Hfresh Hid Hstatus Himage.
  assert (Hlawful := fit_create_lawful _ id data Hinv Hfresh Hstatus Himage).
  unfold fit_persist. unfold bind at 1. rewrite put_item_run.
  cbn [key_schema key_values]. rewrite Hid.
  destruct (serializer_error (PDict data)); [apply evolution_refl|].
  destruct (env_fault (env w) (ticks w)); [now apply evolution_silent|].
  set (w1 := commit (store_put FITS_TABLE [id] data (store w)) (next_tick w)).
  assert (Hstep : evolution fit_lawful w w1)
    by (apply (evolution_commit_after fit_lawful 1); exact Hlawful).
  assert (Hnext : forall m : M Response,
            evolution fit_lawful w1 (snd (m w1)) ->
            evolution fit_lawful w
              (snd ((let! r := m in ret (Some r)) w1))).
  { intros m Hm. unfold bind, ret.
    destruct (m w1) as [[e|r] w2]; eapply evolution_trans; eauto. }
  cbv beta iota delta [bind lift ret raise].
  destruct (py_getitem body "mode") as [e|mode]; [exact Hstep|].
  destruct (py_eq_str mode "BEDROCK"); [exact Hstep|].
  destruct (py_eq_str mode "MVP_COMPOSITE"); [|exact Hstep].
  specialize (Hnext (fit_generate user id)).
  cbv beta iota delta [bind ret] in Hnext. apply Hnext.
  apply (fit_generate_evolution user id w1 data).
  - apply Hlawful.
  - subst w1. cbn [store commit store_put table_of set_table fits].
    apply lookup_insert_eq.
  - exact Hstatus.
Qed.

Lemma snd_dispatch_ret {A} (e : exn) (w : World)
    (clauses : list (list exn_class * (exn -> M A))) :
  Forall (fun c => forall e w, snd (snd c e w) = w) clauses ->
  snd (dispatch clauses e w) = w.
Proof.
  induction 1 as [|[cs h] clauses Hh _ IH]; cbn [dispatch]; [reflexivity|].
  destruct (isinstance_exn e cs); [apply Hh | exact IH].
Qed.

(** An [except] clause that only builds a response leaves the world
    as the [try] left it. *)
Lemma snd_try_except {A} (m : M A) clauses w :
  Forall (fun c => forall e w, snd (snd c e w) = w) clauses ->
  snd (try_except m clauses w) = snd (m w).
Proof.
  intros H. unfold try_except.
  destruct (m w) as [[e|a] w1]; [|reflexivity].
  now apply snd_dispatch_ret.
Qed.

Lemma fit_create_handler_evolution event w :
  fit_inv (store w) ->
  fits (store w) !! [env_uuid (env w) (ticks w)] = None ->
  evolution fit_lawful w (snd (fit_create_handler event w)).
Proof.
  intros Hinv Hfresh. unfold fit_create_handler.
  rewrite snd_try_except by (repeat constructor).
  unfold parse_body, try_or_return.
  cbv beta iota delta [bind lift ret raise].
  destruct (get_user_id event) as [e|user]; [apply evolution_refl|].
  destruct (py_getitem event "body") as [e|raw].
  { destruct (isinstance_exn e _); apply evolution_refl. }
  destruct (json_loads raw) as [e|body].
  { destruct (isinstance_exn e _); apply evolution_refl. }
  destruct (fit_validate body) as [e|[r|]]; try apply evolution_refl.
  destruct (fit_new_record_spec user body w) as (Hs & Hh & Hnew).
  destruct (fit_new_record user body w) as [[e|[id data]] w1] eqn:Hrun;
    cbn [fst snd] in *.
  { now apply evolution_silent. }
  destruct (Hnew _ eq_refl) as (_ & _ & Hid & Hkey & Hstatus & Himage).
  cbn [fst snd] in *. subst id.
  eapply evolution_trans; [apply (evolution_silent _ w w1); assumption|].
  apply fit_persist_evolution; auto; now rewrite Hs.
Qed.

Lemma route_quiet (h : M Response) w :
  preserves same_fits h -> fit_inv (store w) ->
  let w' := snd ((let! r := h in ret (Some r)) w) in
  evolution fit_lawful w w' /\ fit_inv (store w').
Proof.
  intros Hq Hinv. cbv beta iota delta [bind ret].
  specialize (Hq w). destruct (h w) as [[e|r] w1]; cbn [snd] in *;
    apply (evolution_fit_inv same_fits); auto using fit_lawful_same.
Qed.

Lemma fit_lawful_one_step (event : pyval) (w : World) :
  fit_inv (store w) ->
  fits (store w) !! [env_uuid (env w) (ticks w)] = None ->
  let w' := snd (lambda_handler event w) in
  evolution fit_lawful w w' /\ fit_inv (store w').
Proof.
  intros Hinv Hfresh w'. subst w'. unfold lambda_handler.
  rewrite snd_try_except by (repeat constructor).
  set (P := fun w' => evolution fit_lawful w w' /\ fit_inv (store w')).
  match goal with |- _ /\ fit_inv (store ?x) => change (P x) end.
  assert (Hrefl : P w)
    by (split; [apply evolution_refl | exact Hinv]).
  unfold bind at 1. unfold lift at 1.
  destruct (py_getitem event "httpMethod") as [e|method]; [exact Hrefl|].
  unfold ret at 1. unfold bind at 1. unfold lift at 1.
  destruct (py_getitem event "resource") as [e|resource]; [exact Hrefl|].
  unfold ret at 1.
  destruct (py_eq_str method "OPTIONS"); [exact Hrefl|].
  destruct (_ && _);
    [apply route_quiet; [apply upload_url_handler_quiet | exact Hinv]|].
  destruct (_ && _);
    [apply route_quiet; [apply profile_handler_quiet | exact Hinv]|].
  destruct (_ && _);
    [apply route_quiet; [apply cart_post_handler_quiet | exact Hinv]|].
  destruct (_ && _);
    [apply route_quiet; [apply cart_get_handler_quiet | exact Hinv]|].
  destruct (_ && _).
  { apply (evolution_fit_inv fit_lawful); auto using fit_lawful_inv.
    now apply fit_create_handler_evolution. }
  destruct (_ && _);
    [apply route_quiet; [apply fit_get_handler_quiet | exact Hinv]|].
  destruct (_ && _);
    [apply route_quiet; [apply fits_list_handler_quiet | exact Hinv]|].
  destruct (_ && _);
    [apply route_quiet; [apply token_handler_quiet | exact Hinv]|].
  exact Hrefl.
Qed.

Lemma Forall_last {A} (P : A -> Prop) a l d :
  Forall P (a :: l) -> P (List.last (a :: l) d).
Proof.
  revert a. induction l as [|b l IH]; intros a H.
  - now inversion H.
  - inversion H; subst. now apply IH.
Qed.

(** Along lawful writes a terminal status stays. *)
Lemma chain_terminal k st s l :
  st = READY \/ st = FAILED ->
  chain fit_lawful s l -> has_status k st s ->
  Forall (has_status k st) l.
Proof.
  intros Hst. revert s. induction l as [|s' l IH]; intros s Hc Hk.
  - constructor.
  - destruct Hc as [[Hstep _] Hc]. destruct Hk as (it & Hit & Hstatus).
    assert (Hk' : has_status k st s').
    { specialize (Hstep k). rewrite Hit in Hstep.
      destruct (fits s' !! k) as [it'|] eqn:Hit'; [|contradiction].
      exists it'. split; [exact Hit'|].
      destruct Hstep as [Heq|[Hpending _]]; [congruence|].
      rewrite Hstatus in Hpending. destruct Hst; subst st; discriminate. }
    constructor; [exact Hk' | now apply (IH s')].
Qed.

(** C1: whatever requests the router serves, in whatever order, the
    fits table goes through lawful writes only: a record appears with
    status PENDING and never disappears, a PENDING record may turn
    READY or FAILED, and a record that is READY or FAILED keeps that
    status in every later store; and in every store a record has an
    [imageUrl] exactly when it is READY.  The identifiers drawn for new
    jobs are assumed unused. *)
Theorem fit_status_one_directional (events : list pyval) (w : World) :
  fit_inv (store w) ->
  fresh_identifiers events w ->
  let w' := serve events w in
  evolution fit_lawful w w' /\ fit_inv (store w') /\
  forall k st, st = READY \/ st = FAILED ->
    has_status k st (store w) ->
    has_status k st (store w').
Proof.
  intros Hinv Hfresh w'. subst w'.
  assert (Hmain : evolution fit_lawful w (serve events w)
                  /\ fit_inv (store (serve events w))).
  { revert w Hinv Hfresh.
    induction events as [|event events IH]; intros w Hinv Hfresh.
    - split; [apply evolution_refl | exact Hinv].
    - destruct Hfresh as [Hfresh Hrest]. cbn [serve].
      destruct (fit_lawful_one_step event w Hinv Hfresh) as [Hev Hinv'].
      destruct (IH _ Hinv' Hrest) as [Hev' Hinv''].
      split; [|exact Hinv'']. eapply evolution_trans; eauto. }
  destruct Hmain as [Hev Hinv']. split; [exact Hev|]. split; [exact Hinv'|].
  intros k st Hst Hk. destruct Hev as (news & _ & Hc & Hs).
  pose proof (chain_terminal k st _ _ Hst Hc Hk) as Hall.
  rewrite Hs, <- last_rev_hd.
  destruct (rev news) as [|a l] eqn:Hrev; [exact Hk|].
  now apply Forall_last.
Qed.

End FitCreate.

(** ** Validation and outcome of fit creation *)

Section FitValidation.

Context {lib : PyLib}.

Lemma fit_check_items_spec l :
  fit_check_items l =
    inr (if forallb item_ok l then None else Some invalid_items).
Proof.
  induction l as [|item l IH]; [reflexivity|].
  cbn [fit_check_items forallb].
  destruct item as [| | | | |l'|i|]; try reflexivity.
  cbn [is_dict negb or_else rbind py_not_in py_contains item_ok].
  destruct (dict_has "retailer" i); [|reflexivity].
  destruct (dict_has "productId" i); [|reflexivity].
  exact IH.
Qed.

Lemma fit_validate_dict d :
  fit_validate (PDict d) =
    inr match items_list d with
        | None => Some missing_items
        | Some l =>
            if mode_ok d
            then if forallb item_ok l then None else Some invalid_items
            else Some invalid_mode
        end.
Proof.
  unfold fit_validate, items_list, mode_ok, py_not_in, dict_has.
  cbn [py_contains py_getitem rbind].
  unfold dict_has.
  destruct (dict_get "items" d) as [items|]; [|reflexivity].
  cbn [negb or_else rbind].
  destruct items as [| | | | |l|i|]; try reflexivity.
  cbn [is_list negb].
  destruct (dict_get "mode" d) as [mode|]; [|reflexivity].
  cbn [negb or_else rbind].
  destruct (py_in_strs mode _); [|reflexivity].
  cbn [negb list_elements]. apply fit_check_items_spec.
Qed.

Lemma fit_validate_status body r :
  fit_validate body = inr (Some r) -> statusCode r = 400.
Proof.
  unfold fit_validate, py_not_in. 
  destruct (py_contains "items" body) as [e|has_items]; [discriminate|].
  cbn [rbind]. destruct has_items; cbn [negb or_else rbind].
  - destruct (py_getitem body "items") as [e|items]; [discriminate|].
    cbn [rbind]. destruct (negb (is_list items)); [now intros [= <-]|].
    destruct (py_contains "mode" body) as [e|has_mode]; [discriminate|].
    cbn [rbind]. destruct has_mode; cbn [negb or_else rbind].
    + destruct (py_getitem body "mode") as [e|mode]; [discriminate|].
      cbn [rbind]. destruct (negb _); [now intros [= <-]|].
      rewrite fit_check_items_spec.
      destruct (forallb _ _); [discriminate | now intros [= <-]].
    + now intros [= <-].
  - now intros [= <-].
Qed.

Lemma fit_validate_none body :
  fit_validate body = inr None ->
  exists d, body = PDict d /\ fit_body_valid d = true.
Proof.
  destruct body as [| | | |s|l|d|].
  1-4, 8: discriminate.
  - unfold fit_validate, py_not_in. cbn [py_contains rbind].
    destruct (substringb "items" s); cbn; discriminate.
  - unfold fit_validate, py_not_in. cbn [py_contains rbind].
    destruct (existsb _ l); cbn; discriminate.
  - rewrite fit_validate_dict. unfold fit_body_valid. intros H.
    exists d. split; [reflexivity|].
    destruct (items_list d) as [l|]; [|discriminate].
    destruct (mode_ok d); [|discriminate].
    destruct (forallb item_ok l); [reflexivity | discriminate].
Qed.

Lemma error_clause_status (e : exn) (w : World) :
  exists r,
    dispatch
      [([ValueError],
        fun e => return_some (create_error_response 401 "UNAUTHORIZED"
                                (str_exn e) None));
       ([ClientError],
        fun _ => return_some (create_error_response 500 "DYNAMODB_ERROR"
                                "Failed to create fit job" None));
       ([Exception],
        fun _ => return_some (create_error_response 500 "INTERNAL_ERROR"
                                "An unexpected error occurred" None))] e w
    = (inr (Some r), w) /\ statusCode r <> 201.
Proof.
  destruct e as [[] msg]; cbn; eexists; (split; [reflexivity|]);
    cbn; discriminate.
Qed.

(** Whatever the request, fit creation either answers with an error
    and leaves the world as it is, or has validated an object body. *)
Lemma fit_create_rejects_or_valid (event : pyval) (w w' : World) r :
  fit_create_handler event w = (r, w') ->
  (w' = w /\ exists resp, r = inr (Some resp) /\ statusCode resp <> 201)
  \/ (exists raw d,
        py_getitem event "body" = inr raw /\
        json_loads raw = inr (PDict d) /\
        fit_body_valid d = true).
Proof.
  unfold fit_create_handler.
  match goal with |- context [try_except _ ?c] => set (cl := c) end.
  assert (Hcl : forall e, exists r',
            dispatch cl e w = (inr (Some r'), w) /\ statusCode r' <> 201)
    by (intros e; apply error_clause_status).
  clearbody cl.
  unfold parse_body, try_except, try_or_return.
  cbv beta iota delta [bind lift ret raise].
  assert (Hexn : forall e, dispatch cl e w = (r, w') ->
            w' = w /\ exists resp, r = inr (Some resp) /\ statusCode resp <> 201).
  { intros e. destruct (Hcl e) as (r' & -> & Hne).
    intros [= <- <-]. eauto. }
  destruct (get_user_id event) as [e|user]; [left; now apply (Hexn e)|].
  destruct (py_getitem event "body") as [e|raw] eqn:Hb.
  { destruct (isinstance_exn e _); [|left; now apply (Hexn e)].
    intros [= <- <-]. left. split; [reflexivity|].
    eexists. split; [reflexivity | discriminate]. }
  destruct (json_loads raw) as [e|body] eqn:Hj.
  { destruct (isinstance_exn e _); [|left; now apply (Hexn e)].
    intros [= <- <-]. left. split; [reflexivity|].
    eexists. split; [reflexivity | discriminate]. }
  destruct (fit_validate body) as [e|[bad|]] eqn:Hv.
  { left. now apply (Hexn e). }
  { intros [= <- <-]. left. split; [reflexivity|].
    exists bad. split; [reflexivity|].
    apply fit_validate_status in Hv. congruence. }
  intros _. right.
  destruct (fit_validate_none body Hv) as (d & -> & Hvalid).
  exists raw, d. auto.
Qed.

(** C5, as the code has it: a body whose [items] is missing or not a
    list is answered 400 MISSING_FIELD; otherwise one whose [mode] is
    missing or not MVP_COMPOSITE or BEDROCK is answered 400
    INVALID_MODE; otherwise one with an element of [items] that is not
    an object carrying [retailer] and [productId] is answered 400
    INVALID_ITEMS; in each case the world is untouched, so no record is
    written.  And whatever the request, it is accepted (201), and a
    record is written, only when its body is an object in which [items]
    is a list, possibly empty, of such elements and [mode] is one of the
    two. *)
Theorem fit_validation (event : pyval) (w : World) :
  (forall user raw d,
     get_user_id event = inr user ->
     py_getitem event "body" = inr raw ->
     json_loads raw = inr (PDict d) ->
     (items_list d = None ->
      fit_create_handler event w = (inr (Some missing_items), w)) /\
     (forall l, items_list d = Some l -> mode_ok d = false ->
      fit_create_handler event w = (inr (Some invalid_mode), w)) /\
     (forall l, items_list d = Some l -> mode_ok d = true ->
      forallb item_ok l = false ->
      fit_create_handler event w = (inr (Some invalid_items), w)))
  /\
  (forall r w',
     fit_create_handler event w = (r, w') ->
     (exists resp, r = inr (Some resp) /\ statusCode resp = 201)
     \/ history w' <> history w ->
     exists raw d,
       py_getitem event "body" = inr raw /\
       json_loads raw = inr (PDict d) /\
       fit_body_valid d = true).
Proof.
  split.
  - intros user raw d Hu Hb Hj.
    assert (Hrun : forall r,
      fit_validate (PDict d) = inr (Some r) ->
      fit_create_handler event w = (inr (Some r), w)).
    { intros r Hr. unfold fit_create_handler, parse_body.
      rewrite Hu; mstep. rewrite Hb; mstep. rewrite Hj; mstep.
      rewrite Hr. reflexivity. }
    split; [|split].
    + intros Hitems. apply Hrun. rewrite fit_validate_dict. now rewrite Hitems.
    + intros l Hitems Hmode. apply Hrun. rewrite fit_validate_dict.
      now rewrite Hitems, Hmode.
    + intros l Hitems Hmode Hbad. apply Hrun. rewrite fit_validate_dict.
      now rewrite Hitems, Hmode, Hbad.
  - intros r w' Hrun Haccepted.
    destruct (fit_create_rejects_or_valid event w w' r Hrun)
      as [(-> & resp & -> & Hne)|Hvalid]; [|exact Hvalid].
    exfalso. destruct Haccepted as [(resp' & [= <-] & H201)|Hhist];
      congruence.
Qed.

(** On a valid body the new record is built without an exception. *)
Lemma fit_new_record_ok user d w :
  fit_body_valid d = true ->
  exists new w1, fit_new_record user (PDict d) w = (inr new, w1).
Proof.
  intros Hvalid. unfold fit_body_valid, items_list, mode_ok in Hvalid.
  destruct (dict_get "items" d) as [items|] eqn:Hitems; [|discriminate].
  destruct (dict_get "mode" d) as [mode|] eqn:Hmode;
    [|now rewrite andb_false_r in Hvalid].
  unfold fit_new_record. mstep. unfold dict_has. rewrite Hitems, Hmode.
  destruct (dict_get "name" d), (dict_get "body_asset_key" d); eauto.
Qed.

(** The serializer accepts the new record when it accepts the caller
    and the fields of the body that the record takes. *)
Lemma fit_new_record_storable user d w new w1 :
  fit_new_record user (PDict d) w = (inr new, w1) ->
  storable user = true ->
  storable_fields fit_body_fields d = true ->
  serializer_error (PDict (snd new)) = None.
Proof.
  intros Hrun Huser Hfields.
  assert (Hu : serializer_error user = None)
    by (unfold storable in Huser; now destruct (serializer_error user)).
  assert (Hf : forall f v, In f fit_body_fields -> dict_get f d = Some v ->
                           serializer_error v = None)
    by (intros f v; apply storable_fields_value; exact Hfields).
  revert Hrun. unfold fit_new_record. mstep. unfold dict_has.
  destruct (dict_get "items" d) as [items|] eqn:Hitems; [|discriminate].
  destruct (dict_get "mode" d) as [mode|] eqn:Hmode; [|discriminate].
  pose proof (Hf "items" _ ltac:(cbn; tauto) Hitems) as S1.
  pose proof (Hf "mode" _ ltac:(cbn; tauto) Hmode) as S2.
  destruct (dict_get "name" d) as [name|] eqn:Hname;
    [pose proof (Hf "name" _ ltac:(cbn; tauto) Hname) as S3|];
    (destruct (dict_get "body_asset_key" d) as [key|] eqn:Hkey;
     [pose proof (Hf "body_asset_key" _ ltac:(cbn; tauto) Hkey) as S4|]);
    intros [= <- <-];
    cbn [snd serializer_error first_error fold_right dict_set
         String.eqb Ascii.eqb Bool.eqb];
    now rewrite Hu, S1, S2, ?S3, ?S4.
Qed.

(** C2, as the code has it: a valid MVP_COMPOSITE request whose new
    record the serializer accepts and the store takes.  When the update
    to READY is accepted the answer is 201 and the record is READY with
    its image key; when that update fails and the update to FAILED is
    accepted, the record is FAILED although the answer is the
    GENERATION_FAILED error, 500.  In both cases the record is not
    PENDING. *)
Theorem fit_composite_outcome (event user raw : pyval) (d : dict)
    (w w' : World) r :
  get_user_id event = inr user ->
  py_getitem event "body" = inr raw ->
  json_loads raw = inr (PDict d) ->
  fit_body_valid d = true ->
  dict_get "mode" d = Some (PStr "MVP_COMPOSITE") ->
  storable user = true ->
  storable_fields fit_body_fields d = true ->
  env_fault (env w) (3 + ticks w)%nat = None ->
  fit_create_handler event w = (r, w') ->
  let fit_id := env_uuid (env w) (ticks w) in
  (env_fault (env w) (5 + ticks w)%nat = None ->
   r = inr (Some (fit_created fit_id "READY")) /\
   exists it,
     fits (store w') !! [fit_id] = Some it /\
     status_of it = READY /\
     dict_get "imageUrl" it
       = Some (PStr ("generated/" ++ py_str user ++ "/" ++ fit_id ++ ".jpg")))
  /\
  (env_fault (env w) (5 + ticks w)%nat <> None ->
   env_fault (env w) (7 + ticks w)%nat = None ->
   r = inr (Some generation_failed) /\
   statusCode generation_failed = 500 /\
   exists it,
     fits (store w') !! [fit_id] = Some it /\ status_of it = FAILED).
Proof.
  cbn [Nat.add]. intros Hu Hb Hj Hvalid Hmode Huser Hfields Hput Hrun.
  set (fit_id := env_uuid (env w) (ticks w)).
  assert (Hv : fit_validate (PDict d) = inr None).
  { rewrite fit_validate_dict. unfold fit_body_valid in Hvalid.
    destruct (items_list d) as [l|]; [|discriminate].
    apply andb_true_iff in Hvalid as [-> ->]. reflexivity. }
  destruct (fit_new_record_ok user d w Hvalid) as ([id data] & w1 & Hnew).
  destruct (fit_new_record_spec user (PDict d) w) as (Hs & Hh & Hspec).
  rewrite Hnew in Hs, Hh, Hspec. cbn [fst snd] in Hs, Hh, Hspec.
  destruct (Hspec _ eq_refl) as (He & Ht & Hid & Hkey & Hstatus & Himage).
  cbn [fst snd] in Hid, Hkey, Hstatus, Himage. subst id.
  fold fit_id in Hkey.
  revert Hrun. unfold fit_create_handler, parse_body.
  rewrite Hu. unfold try_except, try_or_return.
  cbv beta iota delta [bind lift ret].
  rewrite Hb, Hj, Hv, Hnew. cbn [fst snd].
  unfold fit_persist. unfold bind at 1. rewrite put_item_run.
  pose proof (fit_new_record_storable user d w _ _ Hnew Huser Hfields)
    as Hser.
  cbn [snd] in Hser. rewrite Hser.
  cbn [key_schema key_values]. rewrite Hkey, He, Ht, Hput.
  cbv beta iota delta [bind lift ret]. cbn [py_getitem]. rewrite Hmode.
  cbn [py_eq_str String.eqb Ascii.eqb Bool.eqb].
  rewrite fit_generate_run.
  cbn [env ticks store commit next_tick]. rewrite He, Ht, Hs.
  set (s1 := store_put FITS_TABLE [fit_id] data (store w)).
  assert (Hdata : fits s1 !! [fit_id] = Some data)
    by (subst s1; cbn [store_put table_of set_table fits];
        apply lookup_insert_eq).
  destruct (env_fault (env w) (S (S (S (S (S (ticks w)))))))
    as [e|] eqn:H5.
  - destruct (env_fault (env w) (S (S (S (S (S (S (S (ticks w)))))))))
      as [e'|] eqn:H7.
    + intros _. split; [discriminate|]. intros _ Hno. discriminate.
    + intros [= <- <-]. split; [discriminate|]. intros _ _.
      split; [reflexivity|]. split; [reflexivity|].
      cbn [store commit].
      destruct (failed_store_lookup fit_id
                  (env_clock (env w) (S (S (S (S (S (S (ticks w))))))))
                  s1 data Hdata) as (it & Hit & Hfailed & _).
      eauto.
  - intros [= <- <-]. split; [|intros Hne; now elim Hne].
    intros _. split; [reflexivity|]. cbn [store commit].
    destruct (ready_store_lookup user fit_id
                (env_clock (env w) (S (S (S (S (ticks w))))))
                s1 data Hdata) as (it & Hit & Hready & Hurl).
    eauto.
Qed.

End FitValidation.

(** ** The reference codecs invert one another *)

Module ReferenceFacts.

Import Reference.

Lemma code_range c : 0 <= code c < 256.
Proof.
  unfold code. pose proof (N_ascii_bounded c). lia.
Qed.

Lemma code_chr z : 0 <= z < 256 -> code (chr z) = z.
Proof.
  intros Hz. unfold code, chr.
  rewrite N_ascii_embedding by lia. lia.
Qed.

Lemma chr_code c : chr (code c) = c.
Proof.
  unfold code, chr. rewrite N2Z.id. apply ascii_N_embedding.
Qed.

Lemma code_inj a b : code a = code b -> a = b.
Proof. intros H. rewrite <- (chr_code a), <- (chr_code b). now rewrite H. Qed.

(** *** base64 *)

(** Splits the goal on a comparison of integers that it tests. *)
Ltac split_on spec := destruct spec; try lia; cbn [andb orb negb].

Ltac zbool :=
  repeat match goal with
         | |- context [?a <=? ?b] => split_on (Z.leb_spec a b)
         | |- context [?a <? ?b] => split_on (Z.ltb_spec a b)
         | |- context [?a =? ?b] => split_on (Z.eqb_spec a b)
         end.

Lemma b64_char_code n : 0 <= n < 64 -> code (b64_char n) = b64_code n.
Proof.
  intros Hn. unfold b64_char, b64_code.
  zbool; (rewrite code_chr by lia); lia.
Qed.

Lemma b64_code_cases n :
  0 <= n < 64 ->
  exists x, b64_code n = x /\
    (n < 26 /\ x = 65 + n \/ 26 <= n < 52 /\ x = 71 + n \/
     52 <= n < 62 /\ x = n - 4 \/ n = 62 /\ x = 43 \/ n = 63 /\ x = 47).
Proof.
  intros Hn. eexists. split; [reflexivity|]. unfold b64_code. zbool; lia.
Qed.

Lemma b64_value_char n : 0 <= n < 64 -> b64_value (b64_char n) = Some n.
Proof.
  intros Hn. unfold b64_value. rewrite b64_char_code by exact Hn.
  destruct (b64_code_cases n Hn) as (x & -> & Hx).
  cbv zeta. zbool; f_equal; lia.
Qed.

Lemma b64_char_not_pad n : 0 <= n < 64 -> (code (b64_char n) =? 61) = false.
Proof.
  intros Hn. rewrite b64_char_code by exact Hn.
  destruct (b64_code_cases n Hn) as (x & -> & Hx). lia.
Qed.

Lemma b64_char_ascii n : 0 <= n < 64 -> (code (b64_char n) <? 128) = true.
Proof.
  intros Hn. rewrite b64_char_code by exact Hn.
  destruct (b64_code_cases n Hn) as (x & -> & Hx). lia.
Qed.

(** One character of the alphabet, read at position [q] of a quad. *)
Lemma b64_decode_char n s q left pads :
  0 <= n < 64 ->
  b64_decode_from (String (b64_char n) s) q left pads =
    if q =? 0 then b64_decode_from s 1 n 0
    else if q =? 1 then
      cons (left * 4 + n / 16) <$> b64_decode_from s 2 (n mod 16) 0
    else if q =? 2 then
      cons (left * 16 + n / 4) <$> b64_decode_from s 3 (n mod 4) 0
    else cons (left * 64 + n) <$> b64_decode_from s 0 0 0.
Proof.
  intros Hn. cbn [b64_decode_from].
  now rewrite b64_char_not_pad, b64_value_char.
Qed.

Lemma b64_decode_pad2 x : b64_decode_from "==" 2 x 0 = Some [].
Proof. reflexivity. Qed.

Lemma b64_decode_pad1 x : b64_decode_from "=" 3 x 0 = Some [].
Proof. reflexivity. Qed.

Ltac divmod_arith :=
  repeat match goal with
         | |- context [?a / ?b] =>
             lazymatch goal with
             | _ : a = b * (a / b) + a mod b |- _ => fail
             | _ => pose proof (Z.div_mod a b ltac:(lia));
                    pose proof (Z.mod_pos_bound a b ltac:(lia))
             end
         | |- context [?a mod ?b] =>
             lazymatch goal with
             | _ : a = b * (a / b) + a mod b |- _ => fail
             | _ => pose proof (Z.div_mod a b ltac:(lia));
                    pose proof (Z.mod_pos_bound a b ltac:(lia))
             end
         end; try lia.

Lemma b64_decode_encode_lt n : forall l : list Z,
  (length l < n)%nat -> byte_range l ->
  b64_decode_from (b64_encode_codes l) 0 0 0 = Some l.
Proof.
  induction n as [|n IH]; intros l Hlen Hrange; [lia|].
  destruct l as [|a [|b [|c r]]].
  - reflexivity.
  - inversion Hrange as [|? ? Ha _]; subst.
    cbn [b64_encode_codes].
    rewrite !b64_decode_char by divmod_arith.
    cbn [Z.eqb Pos.eqb]. rewrite b64_decode_pad2.
    cbn. f_equal. f_equal. divmod_arith.
  - inversion Hrange as [|? ? Ha Hr]; subst.
    inversion Hr as [|? ? Hb _]; subst.
    cbn [b64_encode_codes].
    rewrite !b64_decode_char by divmod_arith.
    cbn [Z.eqb Pos.eqb]. rewrite b64_decode_pad1.
    cbn. f_equal. f_equal; [divmod_arith|]. f_equal. divmod_arith.
  - inversion Hrange as [|? ? Ha Hr]; subst.
    inversion Hr as [|? ? Hb Hr']; subst.
    inversion Hr' as [|? ? Hc Hr'']; subst.
    cbn [b64_encode_codes].
    rewrite !b64_decode_char by divmod_arith.
    cbn [Z.eqb Pos.eqb]. rewrite IH by (cbn [length] in Hlen; lia || assumption).
    cbn. f_equal. f_equal; [divmod_arith|]. f_equal; [divmod_arith|].
    f_equal. divmod_arith.
Qed.

Lemma b64_decode_encode l :
  byte_range l -> b64_decode_from (b64_encode_codes l) 0 0 0 = Some l.
Proof. apply (b64_decode_encode_lt (S (length l))). lia. Qed.

Lemma b64_encode_nonempty l : l <> [] -> b64_encode_codes l <> EmptyString.
Proof. destruct l as [|a [|b [|c r]]]; [congruence|discriminate..]. Qed.

(** *** Bytes and ASCII texts *)

Lemma byte_of_code_byte_code b : byte_of_code (byte_code b) = b.
Proof.
  unfold byte_of_code, byte_code. now rewrite N2Z.id, Byte.of_to_N.
Qed.

Lemma byte_range_codes raw : byte_range (map byte_code raw).
Proof.
  apply Forall_map, Forall_true. intros b. unfold byte_code.
  pose proof (Byte.to_N_bounded b). lia.
Qed.

Lemma bytes_of_codes raw : map byte_of_code (map byte_code raw) = raw.
Proof.
  rewrite map_map. induction raw as [|b raw IH]; [reflexivity|].
  cbn [map]. now rewrite byte_of_code_byte_code, IH.
Qed.

Lemma is_ascii_text_cons c s :
  is_ascii_text (String c s) = (code c <? 128) && is_ascii_text s.
Proof. reflexivity. Qed.

Lemma is_ascii_text_app a b :
  is_ascii_text (a ++ b) = is_ascii_text a && is_ascii_text b.
Proof.
  induction a as [|c a IH]; [reflexivity|].
  change (String c a ++ b) with (String c (a ++ b)).
  now rewrite !is_ascii_text_cons, IH, andb_assoc.
Qed.

(** An ASCII text is UTF-8, one code point a character. *)
Lemma ascii_code_points s :
  is_ascii_text s = true ->
  forall fuel, (String.length s <= fuel)%nat ->
  code_points fuel s = Some (map code (list_ascii_of_string s)).
Proof.
  induction s as [|c s IH]; intros Hs fuel Hlen.
  - now destruct fuel.
  - rewrite is_ascii_text_cons in Hs. apply andb_true_iff in Hs as [Hc Hs].
    destruct fuel as [|fuel]; [cbn in Hlen; lia|].
    cbn [code_points]. cbv zeta. rewrite Hc.
    rewrite IH by (cbn in Hlen; lia || assumption). reflexivity.
Qed.

Lemma ascii_decodes s :
  is_ascii_text s = true -> ref_bytes_decode (list_byte_of_string s) = inr s.
Proof.
  intros Hs. unfold ref_bytes_decode.
  rewrite string_of_list_byte_of_string.
  now rewrite (ascii_code_points s Hs).
Qed.

Lemma b64_encode_ascii_lt n : forall l : list Z,
  (length l < n)%nat -> byte_range l ->
  is_ascii_text (b64_encode_codes l) = true.
Proof.
  induction n as [|n IH]; intros l Hlen Hrange; [lia|].
  destruct l as [|a [|b [|c r]]].
  - reflexivity.
  - inversion Hrange as [|? ? Ha _]; subst.
    cbn [b64_encode_codes].
    rewrite !is_ascii_text_cons, !b64_char_ascii by divmod_arith. reflexivity.
  - inversion Hrange as [|? ? Ha Hr]; subst.
    inversion Hr as [|? ? Hb _]; subst.
    cbn [b64_encode_codes].
    rewrite !is_ascii_text_cons, !b64_char_ascii by divmod_arith. reflexivity.
  - inversion Hrange as [|? ? Ha Hr]; subst.
    inversion Hr as [|? ? Hb Hr']; subst.
    inversion Hr' as [|? ? Hc Hr'']; subst.
    cbn [b64_encode_codes].
    rewrite !is_ascii_text_cons, !b64_char_ascii by divmod_arith.
    rewrite IH by (cbn [length] in Hlen; lia || assumption). reflexivity.
Qed.

Lemma b64_encode_ascii l :
  byte_range l -> is_ascii_text (b64_encode_codes l) = true.
Proof. apply (b64_encode_ascii_lt (S (length l))). lia. Qed.

(** The bytes of an ASCII text travel through base64 unchanged. *)
Lemma ascii_through_base64 (t : string) :
  is_ascii_text t = true ->
  let cursor := b64_encode_codes (map byte_code (bytes_of_string t)) in
  ref_bytes_decode (ref_b64encode (bytes_of_string t)) = inr cursor /\
  ref_b64decode cursor = inr (bytes_of_string t) /\
  ref_bytes_decode (bytes_of_string t) = inr t.
Proof.
  intros Ht cursor.
  pose proof (byte_range_codes (bytes_of_string t)) as Hrange.
  split; [|split].
  - unfold ref_b64encode. apply ascii_decodes, b64_encode_ascii, Hrange.
  - unfold ref_b64decode. subst cursor.
    rewrite b64_encode_ascii, b64_decode_encode by exact Hrange.
    now rewrite bytes_of_codes.
  - now apply ascii_decodes.
Qed.

(** *** Texts *)

Lemma append_assoc (a b c : string) : (a ++ b) ++ c = a ++ (b ++ c).
Proof.
  induction a as [|x a IH]; [reflexivity|].
  change (String x ((a ++ b) ++ c) = String x (a ++ (b ++ c))).
  now rewrite IH.
Qed.

Lemma append_nil_r (a : string) : a ++ EmptyString = a.
Proof.
  induction a as [|x a IH]; [reflexivity|].
  change (String x (a ++ EmptyString) = String x a). now rewrite IH.
Qed.

Lemma length_append (a b : string) :
  String.length (a ++ b) = (String.length a + String.length b)%nat.
Proof.
  induction a as [|x a IH]; [reflexivity|].
  change (S (String.length (a ++ b)) = S (String.length a + String.length b)).
  now rewrite IH.
Qed.

(** *** UTF-8 *)

Lemma is_cont_range c : is_cont c = true -> 128 <= code c < 192.
Proof. unfold is_cont. intros H. apply andb_true_iff in H. lia. Qed.

Lemma fmap_cons_some (x : Z) (o : option (list Z)) l :
  cons x <$> o = Some l -> exists l', o = Some l' /\ l = x :: l'.
Proof. destruct o as [l'|]; [|discriminate]. intros [= <-]. eauto. Qed.

Lemma char_code_app c s : char (code c) ++ s = String c s.
Proof. unfold char. now rewrite chr_code. Qed.

(** Decoding succeeds only on the encoding of scalar values. *)
Lemma code_points_utf8 fuel : forall s pts,
  code_points fuel s = Some pts ->
  utf8_of_points pts = s /\ Forall scalar pts.
Proof.
  induction fuel as [|fuel IH]; intros s pts.
  - destruct s; [|discriminate]. intros [= <-]. split; [reflexivity|constructor].
  - destruct s as [|a r]; [intros [= <-]; split; [reflexivity|constructor]|].
    cbn [code_points]. cbv zeta.
    pose proof (code_range a) as Ha.
    destruct (Z.ltb_spec (code a) 128) as [H1|H1].
    { intros H. apply fmap_cons_some in H as (l & Hl & ->).
      destruct (IH _ _ Hl) as [<- Hs]. split.
      - cbn [utf8_of_points]. unfold utf8_of_point.
        destruct (Z.ltb_spec (code a) 128); [|lia]. apply char_code_app.
      - constructor; [unfold scalar; lia | exact Hs]. }
    destruct (Z.ltb_spec (code a) 194) as [H2|H2]; [discriminate|].
    destruct (Z.ltb_spec (code a) 224) as [H3|H3].
    { destruct r as [|b r]; [discriminate|].
      destruct (is_cont b) eqn:Hb; [|discriminate].
      apply is_cont_range in Hb.
      intros H. apply fmap_cons_some in H as (l & Hl & ->).
      destruct (IH _ _ Hl) as [<- Hs]. split.
      - cbn [utf8_of_points]. unfold utf8_of_point.
        set (cp := (code a - 192) * 64 + (code b - 128)).
        destruct (Z.ltb_spec cp 128); [subst cp; lia|].
        destruct (Z.ltb_spec cp 2048); [|subst cp; lia].
        replace (192 + cp / 64) with (code a) by (subst cp; divmod_arith).
        replace (128 + cp mod 64) with (code b) by (subst cp; divmod_arith).
        unfold char. now rewrite !chr_code.
      - constructor; [unfold scalar; lia | exact Hs]. }
    destruct (Z.ltb_spec (code a) 240) as [H4|H4].
    { destruct r as [|b [|c r]]; try discriminate.
      set (cp := (code a - 224) * 4096 + (code b - 128) * 64
                 + (code c - 128)).
      destruct (is_cont b) eqn:Hb; [|discriminate].
      destruct (is_cont c) eqn:Hc; [|discriminate].
      apply is_cont_range in Hb, Hc.
      destruct (Z.leb_spec 2048 cp) as [Hlow|Hlow]; [|discriminate].
      destruct ((55296 <=? cp) && (cp <? 57344)) eqn:Hsur; [discriminate|].
      cbn [andb negb].
      intros H. apply fmap_cons_some in H as (l & Hl & ->).
      destruct (IH _ _ Hl) as [<- Hs]. split.
      - cbn [utf8_of_points]. unfold utf8_of_point. fold cp.
        destruct (Z.ltb_spec cp 128); [lia|].
        destruct (Z.ltb_spec cp 2048); [lia|].
        destruct (Z.ltb_spec cp 65536); [|subst cp; lia].
        replace (224 + cp / 4096) with (code a) by (subst cp; divmod_arith).
        replace (128 + cp / 64 mod 64) with (code b)
          by (subst cp; divmod_arith).
        replace (128 + cp mod 64) with (code c) by (subst cp; divmod_arith).
        unfold char. now rewrite !chr_code.
      - constructor; [|exact Hs]. apply andb_false_iff in Hsur.
        unfold scalar. subst cp. lia. }
    destruct (Z.ltb_spec (code a) 245) as [H5|H5]; [|discriminate].
    destruct r as [|b [|c [|d r]]]; try discriminate.
    set (cp := (code a - 240) * 262144 + (code b - 128) * 4096
               + (code c - 128) * 64 + (code d - 128)).
    destruct (is_cont b) eqn:Hb; [|discriminate].
    destruct (is_cont c) eqn:Hc; [|discriminate].
    destruct (is_cont d) eqn:Hd; [|discriminate].
    apply is_cont_range in Hb, Hc, Hd.
    destruct (Z.leb_spec 65536 cp) as [Hlow|Hlow]; [|discriminate].
    destruct (Z.ltb_spec cp 1114112) as [Hhigh|Hhigh]; [|discriminate].
    cbn [andb].
    intros H. apply fmap_cons_some in H as (l & Hl & ->).
    destruct (IH _ _ Hl) as [<- Hs]. split.
    + cbn [utf8_of_points]. unfold utf8_of_point. fold cp.
      destruct (Z.ltb_spec cp 128); [lia|].
      destruct (Z.ltb_spec cp 2048); [lia|].
      destruct (Z.ltb_spec cp 65536); [lia|].
      replace (240 + cp / 262144) with (code a) by (subst cp; divmod_arith).
      replace (128 + cp / 4096 mod 64) with (code b)
        by (subst cp; divmod_arith).
      replace (128 + cp / 64 mod 64) with (code c)
        by (subst cp; divmod_arith).
      replace (128 + cp mod 64) with (code d) by (subst cp; divmod_arith).
      unfold char. now rewrite !chr_code.
    + constructor; [|exact Hs]. unfold scalar. lia.
Qed.

(** *** JSON string literals *)

Lemma hex_digit_code n :
  0 <= n < 16 ->
  code (hex_digit n) = if n <? 10 then 48 + n else 87 + n.
Proof.
  intros Hn. unfold hex_digit.
  destruct (Z.ltb_spec n 10); now rewrite code_chr by lia.
Qed.

Lemma hex_value_digit n : 0 <= n < 16 -> hex_value (hex_digit n) = Some n.
Proof.
  intros Hn. unfold hex_value. rewrite hex_digit_code by exact Hn.
  cbv zeta. destruct (Z.ltb_spec n 10); zbool; f_equal; lia.
Qed.

Lemma hex4_digits cp rest :
  0 <= cp < 65536 -> hex4 (hex_digits cp rest) = Some (cp, rest).
Proof.
  intros Hcp. unfold hex4, hex_digits.
  rewrite !hex_value_digit by (apply Z.mod_pos_bound; lia).
  f_equal. f_equal. divmod_arith.
Qed.

Lemma u_escape_app cp rest :
  u_escape cp ++ rest
  = String (chr 92) (String (chr 117) (hex_digits cp rest)).
Proof. reflexivity. Qed.

Lemma scan_string_u_escape f cp rest :
  0 <= cp < 65536 -> ~ (55296 <= cp < 56320) ->
  scan_string (S f) (u_escape cp ++ rest)
  = '(t, r) ← scan_string f rest; Some (utf8_of_point cp ++ t, r).
Proof.
  intros Hcp Hhigh. rewrite u_escape_app. cbn [scan_string].
  rewrite !code_chr by lia. cbn [Z.eqb Pos.eqb].
  rewrite hex4_digits by exact Hcp.
  assert (Hf : (55296 <=? cp) && (cp <? 56320) = false)
    by (apply andb_false_iff; lia).
  rewrite Hf. cbn [andb].
  match goal with
  | |- match ?low with _ => _ end = _ => now destruct low as [[lo r4]|]
  end.
Qed.

(** A surrogate pair is read as the code point it stands for. *)
Lemma scan_string_pair f hi lo rest :
  55296 <= hi < 56320 -> 56320 <= lo < 57344 ->
  scan_string (S f) (u_escape hi ++ u_escape lo ++ rest)
  = '(t, r) ← scan_string f rest;
    Some (utf8_of_point (65536 + (hi - 55296) * 1024 + (lo - 56320)) ++ t, r).
Proof.
  intros Hhi Hlo. rewrite !u_escape_app. cbn [scan_string].
  rewrite !code_chr by lia. cbn [Z.eqb Pos.eqb].
  rewrite hex4_digits by lia. cbv beta iota.
  rewrite !code_chr by lia. cbn [Z.eqb Pos.eqb andb].
  rewrite hex4_digits by lia.
  assert (Ht : (55296 <=? hi) && (hi <? 56320) && (56320 <=? lo)
               && (lo <? 57344) = true)
    by (rewrite !andb_true_iff; lia).
  now rewrite Ht.
Qed.

Lemma scan_string_simple f e x rest :
  (code e =? 117) = false -> simple_escape e = Some x ->
  scan_string (S f) (String (chr 92) (String e rest))
  = '(t, r) ← scan_string f rest; Some (String (chr x) t, r).
Proof.
  intros He Hx. cbn [scan_string].
  rewrite !code_chr by lia. cbn [Z.eqb Pos.eqb]. now rewrite He, Hx.
Qed.

Lemma scan_string_plain f c rest :
  32 <= code c -> code c <> 34 -> code c <> 92 ->
  scan_string (S f) (String c rest)
  = '(t, r) ← scan_string f rest; Some (String c t, r).
Proof.
  intros H32 H34 H92. cbn [scan_string].
  destruct (Z.eqb_spec (code c) 34); [lia|].
  destruct (Z.eqb_spec (code c) 92); [lia|].
  destruct (Z.ltb_spec (code c) 32); [lia|]. reflexivity.
Qed.

(** Reading back the escape of one scalar value. *)
Lemma scan_escape_point f cp rest :
  scalar cp ->
  scan_string (S f) (escape_point cp ++ rest)
  = '(t, r) ← scan_string f rest; Some (utf8_of_point cp ++ t, r).
Proof.
  intros [Hcp Hsur]. unfold escape_point.
  destruct (Z.eqb_spec cp 34) as [->|H34];
    [now apply scan_string_simple|].
  destruct (Z.eqb_spec cp 92) as [->|H92];
    [now apply scan_string_simple|].
  destruct (Z.eqb_spec cp 10) as [->|H10];
    [now apply scan_string_simple|].
  destruct (Z.eqb_spec cp 13) as [->|H13];
    [now apply scan_string_simple|].
  destruct (Z.eqb_spec cp 9) as [->|H9];
    [now apply scan_string_simple|].
  destruct (Z.eqb_spec cp 8) as [->|H8];
    [now apply scan_string_simple|].
  destruct (Z.eqb_spec cp 12) as [->|H12];
    [now apply scan_string_simple|].
  destruct (Z.leb_spec 32 cp) as [H32|H32]; cbn [andb].
  - destruct (Z.ltb_spec cp 127) as [H127|H127].
    + change (char cp ++ rest) with (String (chr cp) rest).
      rewrite scan_string_plain by (rewrite code_chr; lia).
      unfold utf8_of_point. destruct (Z.ltb_spec cp 128); [|lia].
      reflexivity.
    + destruct (Z.ltb_spec cp 65536) as [Hbmp|Hbmp].
      * apply scan_string_u_escape; lia.
      * rewrite append_assoc, scan_string_pair by divmod_arith.
        replace (65536 + (55296 + (cp - 65536) / 1024 - 55296) * 1024
                 + (56320 + (cp - 65536) mod 1024 - 56320))
          with cp by divmod_arith.
        reflexivity.
  - destruct (Z.ltb_spec cp 65536) as [Hbmp|Hbmp]; [|lia].
    apply scan_string_u_escape; lia.
Qed.

Lemma escaped_cons cp pts rest :
  escaped (cp :: pts) ++ rest = escape_point cp ++ escaped pts ++ rest.
Proof. unfold escaped. cbn [fold_right]. apply append_assoc. Qed.

(** The inside of a literal and its closing quotation mark are read
    back as the text of the code points. *)
Lemma scan_escaped pts :
  Forall scalar pts ->
  forall f rest, (length pts < f)%nat ->
  scan_string f (escaped pts ++ dquote ++ rest)
  = Some (utf8_of_points pts, rest).
Proof.
  induction 1 as [|cp pts Hcp Hpts IH]; intros f rest Hf;
    (destruct f as [|f]; [cbn in Hf; lia|]).
  - change (escaped [] ++ dquote ++ rest) with (String (chr 34) rest).
    cbn [scan_string]. now rewrite code_chr by lia.
  - rewrite escaped_cons, scan_escape_point by exact Hcp.
    rewrite IH by (cbn [length] in Hf; lia). reflexivity.
Qed.

Lemma points_of_utf8 s :
  is_utf8 s = true ->
  utf8_of_points (points_of s) = s /\ Forall scalar (points_of s).
Proof.
  unfold is_utf8, points_of.
  destruct (code_points (String.length s) s) as [pts|] eqn:Hpts;
    [|discriminate].
  intros _. cbn [default]. exact (code_points_utf8 _ _ _ Hpts).
Qed.

Lemma escape_point_length cp : (1 <= String.length (escape_point cp))%nat.
Proof.
  unfold escape_point.
  repeat match goal with
         | |- context [if ?b then _ else _] => destruct b
         end; cbv [u_escape char String.append String.length]; lia.
Qed.

Lemma escaped_length pts : (length pts <= String.length (escaped pts))%nat.
Proof.
  induction pts as [|cp pts IH]; [cbn; lia|].
  unfold escaped in *. cbn [fold_right length]. rewrite length_append.
  pose proof (escape_point_length cp). lia.
Qed.

Lemma json_quote_app s rest :
  json_quote s ++ rest
  = String (chr 34) (escaped (points_of s) ++ dquote ++ rest).
Proof.
  unfold json_quote. fold (escaped (points_of s)).
  change (dquote ++ escaped (points_of s) ++ dquote)
    with (String (chr 34) (escaped (points_of s) ++ dquote)).
  change (String (chr 34) (escaped (points_of s) ++ dquote) ++ rest)
    with (String (chr 34) ((escaped (points_of s) ++ dquote) ++ rest)).
  now rewrite append_assoc.
Qed.

(** A quoted text is read back, with whatever fuel the scanner of
    values gives. *)
Lemma scan_json_quote s rest :
  is_utf8 s = true ->
  let r := escaped (points_of s) ++ dquote ++ rest in
  scan_string (String.length r) r = Some (s, rest).
Proof.
  intros Hs r. destruct (points_of_utf8 s Hs) as [Htext Hscalar].
  subst r. rewrite scan_escaped; [now rewrite Htext | exact Hscalar |].
  rewrite length_append. pose proof (escaped_length (points_of s)).
  change (dquote ++ rest) with (String (chr 34) rest).
  cbn [String.length]. lia.
Qed.

(** *** JSON objects of texts *)

Lemma skip_ws_quote r : skip_ws (String (chr 34) r) = String (chr 34) r.
Proof. reflexivity. Qed.

Lemma skip_ws_json_quote s rest :
  skip_ws (json_quote s ++ rest) = json_quote s ++ rest.
Proof. rewrite json_quote_app. apply skip_ws_quote. Qed.

Lemma scan_value_text f v s rest :
  is_utf8 v = true ->
  skip_ws s = json_quote v ++ rest ->
  scan_value (S f) s = Some (PStr v, rest).
Proof.
  intros Hv Hs. cbn [scan_value]. rewrite Hs, json_quote_app.
  rewrite code_chr by lia. cbn [Z.eqb Pos.eqb].
  now rewrite (scan_json_quote v rest Hv).
Qed.

Lemma scan_members_step f k v s acc tail :
  is_utf8 k = true -> is_utf8 v = true ->
  skip_ws s = json_quote k ++ ": " ++ json_quote v ++ tail ->
  scan_members (S (S f)) s acc =
    match skip_ws tail with
    | String c r =>
        if code c =? 44
        then scan_members (S f) r (dict_set k (PStr v) acc)
        else if code c =? 125
             then Some (PDict (dict_set k (PStr v) acc), r)
             else None
    | EmptyString => None
    end.
Proof.
  intros Hk Hv Hs.
  change (scan_members (S (S f)) s acc) with
    (match skip_ws s with
     | String q r =>
         if code q =? 34 then
           '(k, rest) ← scan_string (String.length r) r;
           match skip_ws rest with
           | String c r1 =>
               if code c =? 58 then
                 '(v, rest1) ← scan_value (S f) r1;
                 let acc' := dict_set k v acc in
                 match skip_ws rest1 with
                 | String c2 r2 =>
                     if code c2 =? 44 then scan_members (S f) r2 acc'
                     else if code c2 =? 125 then Some (PDict acc', r2)
                     else None
                 | EmptyString => None
                 end
               else None
           | EmptyString => None
           end
         else None
     | EmptyString => None
     end).
  rewrite Hs, json_quote_app. rewrite code_chr by lia. cbn [Z.eqb Pos.eqb].
  rewrite (scan_json_quote k _ Hk). cbn [mbind option_bind].
  change (skip_ws (": " ++ json_quote v ++ tail))
    with (String ":" (String " " (json_quote v ++ tail))).
  change (code ":" =? 58) with true. cbv beta iota.
  rewrite (scan_value_text f v (String " " (json_quote v ++ tail)) tail Hv)
    by apply skip_ws_json_quote.
  reflexivity.
Qed.

Lemma members_text_cons kv d rest :
  members_text (kv :: d) ++ rest
  = json_quote (fst kv) ++ ": " ++ ref_json_dumps (snd kv)
      ++ match d with
         | [] => rest
         | _ :: _ => ", " ++ members_text d ++ rest
         end.
Proof.
  unfold members_text, member_text.
  destruct d as [|kv' d]; cbn [map join]; now rewrite !append_assoc.
Qed.

Lemma skip_ws_members kv d rest :
  skip_ws (members_text (kv :: d) ++ rest) = members_text (kv :: d) ++ rest.
Proof. rewrite members_text_cons. apply skip_ws_json_quote. Qed.

(** The members of an object of texts are read back one by one. *)
Lemma scan_members_text d :
  forallb text_member d = true -> d <> [] ->
  forall f acc rest s,
    (length d < f)%nat ->
    skip_ws s = members_text d ++ "}" ++ rest ->
    scan_members f s acc = Some (PDict (fold_left set_member d acc), rest).
Proof.
  induction d as [|[k v] d IH]; intros Hd Hne f acc rest s Hf Hs;
    [congruence|].
  cbn [forallb] in Hd. apply andb_true_iff in Hd as [Hkv Hd].
  apply andb_true_iff in Hkv as [Hk Hv]. cbn [fst snd] in Hk, Hv.
  destruct v as [| | | |t| | |]; try discriminate. cbn [is_text_value] in Hv.
  destruct f as [|[|f]]; [cbn [length] in Hf; lia..|].
  rewrite members_text_cons in Hs. cbn [fst snd ref_json_dumps] in Hs.
  rewrite (scan_members_step f k t s acc _ Hk Hv Hs).
  cbn [fold_left]. unfold set_member at 2. cbn [fst snd].
  destruct d as [|kv d].
  - reflexivity.
  - change (skip_ws (", " ++ members_text (kv :: d) ++ "}" ++ rest))
      with (String "," (String " " (members_text (kv :: d) ++ "}" ++ rest))).
    change (code "," =? 44) with true. cbv beta iota.
    apply IH; [exact Hd | discriminate | cbn [length] in *; lia |].
    apply (skip_ws_members kv d).
Qed.

Lemma dict_set_fresh k v acc :
  existsb (String.eqb k) (map fst acc) = false ->
  dict_set k v acc = (acc ++ [(k, v)])%list.
Proof.
  induction acc as [|[k' v'] acc IH]; [reflexivity|].
  cbn [map fst existsb dict_set]. intros H.
  apply orb_false_iff in H as [Hk H]. rewrite Hk.
  now rewrite IH.
Qed.

(** Setting members whose names are distinct and new appends them. *)
Lemma fold_set_member d : forall acc,
  distinct (map fst d) = true ->
  (forall kv, In kv d -> existsb (String.eqb (fst kv)) (map fst acc) = false) ->
  fold_left set_member d acc = (acc ++ d)%list.
Proof.
  induction d as [|[k v] d IH]; intros acc Hd Hnew.
  - now rewrite app_nil_r.
  - cbn [map fst distinct] in Hd. apply andb_true_iff in Hd as [Hk Hd].
    apply negb_true_iff in Hk.
    cbn [fold_left]. unfold set_member at 2. cbn [fst snd].
    rewrite dict_set_fresh by (apply (Hnew (k, v)); now left).
    rewrite IH; [now rewrite <- app_assoc | exact Hd |].
    intros [k' v'] Hin. cbn [fst].
    rewrite map_app, existsb_app. cbn [map fst existsb].
    pose proof (Hnew (k', v') ltac:(now right)) as Hacc.
    cbn [fst] in Hacc. rewrite Hacc. cbn [orb].
    rewrite orb_false_r. apply String.eqb_neq. intros ->.
    assert (Hex : existsb (String.eqb k) (map fst d) = true).
    { apply existsb_exists. exists k. split; [|apply String.eqb_refl].
      apply in_map_iff. now exists (k, v'). }
    congruence.
Qed.

Lemma fold_set_member_nil d :
  distinct (map fst d) = true -> fold_left set_member d [] = d.
Proof. intros Hd. now rewrite fold_set_member. Qed.

Lemma member_text_length kv : (1 <= String.length (member_text kv))%nat.
Proof.
  unfold member_text. rewrite json_quote_app. cbn [String.length]. lia.
Qed.

Lemma members_text_length d :
  (length d <= String.length (members_text d))%nat.
Proof.
  unfold members_text.
  induction d as [|kv [|kv' d] IH]; [cbn; lia|..].
  - cbn [map join length]. apply member_text_length.
  - change (join ", " (map member_text (kv :: kv' :: d)))
      with (member_text kv ++ ", " ++ join ", " (map member_text (kv' :: d))).
    rewrite !length_append. pose proof (member_text_length kv).
    cbn [length] in *. lia.
Qed.

Lemma scan_value_object f r c r' :
  skip_ws r = String c r' -> code c <> 125 ->
  scan_value (S f) (String "{" r) = scan_members f r [].
Proof.
  intros Hr Hc. cbn [scan_value].
  change (skip_ws (String "{" r)) with (String "{" r). cbv beta iota.
  change (code "{" =? 34) with false. change (code "{" =? 91) with false.
  change (code "{" =? 123) with true. cbv beta iota.
  rewrite Hr. now apply Z.eqb_neq in Hc as ->.
Qed.

(** An object of texts, each member named once, is read back from
    its serialisation. *)
Lemma json_object_round_trip d :
  forallb text_member d = true -> distinct (map fst d) = true ->
  ref_json_loads (PStr (ref_json_dumps (PDict d))) = inr (PDict d).
Proof.
  intros Hd Hdistinct.
  change (ref_json_dumps (PDict d)) with (String "{" (members_text d ++ "}")).
  destruct d as [|kv d]; [reflexivity|].
  unfold ref_json_loads.
  set (r := members_text (kv :: d) ++ "}").
  replace (2 * String.length (String "{" r) + 2)%nat
    with (S (S (2 * String.length (String "{" r)))) by lia.
  assert (Hr : skip_ws r = members_text (kv :: d) ++ "}" ++ EmptyString)
    by apply (skip_ws_members kv d).
  rewrite (scan_value_object _ r (chr 34)
             (escaped (points_of (fst kv)) ++ dquote ++ ": "
              ++ ref_json_dumps (snd kv)
              ++ match d with
                 | [] => "}"
                 | _ :: _ => ", " ++ members_text d ++ "}"
                 end)).
  - rewrite (scan_members_text (kv :: d) Hd ltac:(discriminate) _ [] "" r).
    + now rewrite fold_set_member_nil.
    + subst r. cbn [String.length]. rewrite length_append.
      pose proof (members_text_length (kv :: d)). lia.
    + exact Hr.
  - rewrite Hr. change ("}" ++ EmptyString) with "}".
    now rewrite members_text_cons, json_quote_app.
  - now rewrite code_chr by lia.
Qed.

(** *** Serialised texts are ASCII *)

Lemma hex_digit_ascii n : (code (hex_digit (n mod 16)) <? 128) = true.
Proof.
  pose proof (Z.mod_pos_bound n 16 ltac:(lia)) as Hn.
  rewrite hex_digit_code by exact Hn.
  destruct (Z.ltb_spec (n mod 16) 10); lia.
Qed.

Lemma u_escape_ascii cp : is_ascii_text (u_escape cp) = true.
Proof.
  change (u_escape cp) with (u_escape cp ++ EmptyString).
  rewrite u_escape_app. unfold hex_digits.
  rewrite !is_ascii_text_cons, !hex_digit_ascii. reflexivity.
Qed.

Lemma escape_point_ascii cp : is_ascii_text (escape_point cp) = true.
Proof.
  unfold escape_point.
  repeat match goal with
         | |- context [if ?a =? ?b then _ else _] =>
             destruct (Z.eqb_spec a b); [reflexivity|]
         end.
  destruct (Z.leb_spec 32 cp); cbn [andb].
  - destruct (Z.ltb_spec cp 127).
    + unfold char. rewrite is_ascii_text_cons, code_chr by lia.
      destruct (Z.ltb_spec cp 128); [reflexivity|lia].
    + destruct (cp <? 65536);
        now rewrite ?is_ascii_text_app, !u_escape_ascii.
  - destruct (cp <? 65536);
      now rewrite ?is_ascii_text_app, !u_escape_ascii.
Qed.

Lemma escaped_ascii pts : is_ascii_text (escaped pts) = true.
Proof.
  induction pts as [|cp pts IH]; [reflexivity|].
  unfold escaped in *. cbn [fold_right].
  now rewrite is_ascii_text_app, escape_point_ascii, IH.
Qed.

Lemma json_quote_ascii s : is_ascii_text (json_quote s) = true.
Proof.
  rewrite <- (append_nil_r (json_quote s)).
  rewrite json_quote_app, is_ascii_text_cons, is_ascii_text_app.
  now rewrite escaped_ascii.
Qed.

Lemma members_text_ascii d :
  forallb text_member d = true -> is_ascii_text (members_text d) = true.
Proof.
  unfold members_text.
  induction d as [|[k v] [|kv' d] IH]; intros Hd; [reflexivity|..].
  - cbn [forallb] in Hd. apply andb_true_iff in Hd as [Hkv _].
    apply andb_true_iff in Hkv as [_ Hv]. cbn [snd] in Hv.
    destruct v as [| | | |t| | |]; try discriminate.
    cbn [map join]. unfold member_text. cbn [fst snd ref_json_dumps].
    now rewrite !is_ascii_text_app, !json_quote_ascii.
  - cbn [forallb] in Hd. apply andb_true_iff in Hd as [Hkv Hd].
    apply andb_true_iff in Hkv as [_ Hv]. cbn [snd] in Hv.
    destruct v as [| | | |t| | |]; try discriminate.
    change (join ", " (map member_text ((k, PStr t) :: kv' :: d)))
      with (member_text (k, PStr t) ++ ", "
            ++ join ", " (map member_text (kv' :: d))).
    unfold member_text at 1. cbn [fst snd ref_json_dumps].
    rewrite !is_ascii_text_app, !json_quote_ascii, IH by exact Hd.
    reflexivity.
Qed.

Lemma json_object_ascii d :
  forallb text_member d = true ->
  is_ascii_text (ref_json_dumps (PDict d)) = true.
Proof.
  intros Hd.
  change (ref_json_dumps (PDict d)) with (String "{" (members_text d ++ "}")).
  rewrite is_ascii_text_cons, is_ascii_text_app.
  now rewrite members_text_ascii.
Qed.

(** *** The cursor of the reference library *)

(** With the reference library, the decoders invert the encoders on
    every key of texts. *)
Lemma reference_cursor key :
  string_key key = true -> codec_laws (lib := lib) key.
Proof.
  destruct key as [| | | | | |d|]; try discriminate.
  cbn [string_key]. intros H. apply andb_true_iff in H as [Hd Hdistinct].
  unfold codec_laws.
  cbn [str_encode json_text bytes_decode b64encode b64decode json_loads
       lib].
  destruct (ascii_through_base64 _ (json_object_ascii d Hd))
    as (H1 & H2 & H3).
  eexists _, _. split; [reflexivity|].
  split; [exact H1|]. split; [|split; [exact H2|split; [exact H3|]]].
  - change (ref_json_dumps (PDict d))
      with (String "{" (members_text d ++ "}")).
    apply b64_encode_nonempty. unfold bytes_of_string.
    change (list_byte_of_string (String "{" (members_text d ++ "}")))
      with (byte_of_ascii "{" :: list_byte_of_string (members_text d ++ "}")).
    discriminate.
  - now apply json_object_round_trip.
Qed.

(** A key of texts is an object that the serializer accepts and that
    is read as it was written. *)
Lemma string_key_plain key :
  string_key key = true ->
  is_dict key = true /\ serializer_error key = None /\ as_read key = key.
Proof.
  destruct key as [| | | | | |d|]; try discriminate.
  cbn [string_key]. intros H. apply andb_true_iff in H as [Hd _].
  split; [reflexivity|].
  assert (Hvalues : Forall (fun kv => exists t, snd kv = PStr t) d).
  { rewrite forallb_forall in Hd. apply List.Forall_forall. intros kv Hkv.
    specialize (Hd kv Hkv). unfold text_member in Hd.
    apply andb_true_iff in Hd as [_ Hv].
    destruct (snd kv); try discriminate. eauto. }
  clear Hd. split.
  - cbn [serializer_error]. induction Hvalues as [|kv d (t & Ht) _ IH];
      [reflexivity|]. cbn. now rewrite Ht.
  - cbn [as_read]. f_equal. induction Hvalues as [|[k v] d (t & Ht) _ IH];
      [reflexivity|]. cbn in *. subst v. now rewrite IH.
Qed.

End ReferenceFacts.

(** C9: the cursor round-trips.  Whatever the library, when its
    decoders invert its encoders on a key, the key is encoded to a
    cursor, not empty, that decodes to the identical key; and the
    decoders of the reference library do invert its encoders on every
    key of texts, which is what the store produces for a table keyed by
    texts.  The listing hands out the encoding of the store's
    last-evaluated key as [nextCursor], resumes after the key that a
    returned cursor decodes to, and answers a cursor whose decoding
    raises with 400 INVALID_CURSOR, the world untouched.  (The page is
    serialised after the cursor is encoded: the listing is answered 500
    when an item of the page holds a number.) *)
Theorem cursor_round_trip :
  (forall (lib : PyLib) (key : pyval),
     codec_laws key ->
     exists cursor,
       cursor <> EmptyString /\
       encode_cursor key = inr cursor /\
       decode_cursor (PStr cursor) = inr key)
  /\
  (forall key,
     Reference.string_key key = true ->
     codec_laws (lib := Reference.lib) key /\
     is_dict key = true /\ serializer_error key = None /\ as_read key = key)
  /\
  (forall (lib : PyLib) (key : pyval) (cursor : string)
          event user params given w,
     get_user_id event = inr user ->
     query_string_parameters event = inr params ->
     py_get params "cursor" = inr given ->
     serializer_error user = None ->
     env_fault (env w) (ticks w) = None ->
     let page start :=
       env_query (env w) (ticks w) CART_ITEMS_TABLE None user start in
     let listing start next :=
       let items := map as_read (default [] (Items (page start))) in
       (inr (if has_decimal (PList items) then internal_error
             else reply 200
                    (PDict [("items", PList items); ("nextCursor", next)])
                    None),
        next_tick w) in
     (py_truthy given = false ->
      LastEvaluatedKey (page None) = Some key ->
      encode_cursor (as_read key) = inr cursor ->
      cart_get_handler event w = listing None (PStr cursor)) /\
     (given = PStr cursor -> cursor <> EmptyString ->
      decode_cursor (PStr cursor) = inr key ->
      is_dict key = true ->
      serializer_error key = None ->
      LastEvaluatedKey (page (Some key)) = None ->
      cart_get_handler event w = listing (Some key) PNone))
  /\
  (forall (lib : PyLib) event user params given w e,
     get_user_id event = inr user ->
     query_string_parameters event = inr params ->
     py_get params "cursor" = inr given ->
     py_truthy given = true ->
     decode_cursor given = inl e ->
     cart_get_handler event w =
       (inr (error_reply 400 "INVALID_CURSOR" "Invalid pagination cursor"),
        w)).
Proof.
  split; [|split; [|split]].
  - intros lib key. apply cursor_codec.
  - intros key Hkey. split.
    + now apply ReferenceFacts.reference_cursor.
    + now apply ReferenceFacts.string_key_plain.
  - intros lib key cursor event user params given w Hu Hq Hc Hser Hfault
      page listing.
    split.
    + intros Hfalse Hlast He.
      exact (cart_listing_next_cursor event user params given w key cursor
               Hu Hq Hc Hfalse Hser Hfault Hlast He).
    + intros -> Hne Hd Hdict Hkey Hlast.
      exact (cart_listing_resumes event user params w key cursor
               Hu Hq Hc Hne Hd Hdict Hser Hkey Hfault Hlast).
  - intros lib event user params given w e.
    apply undecodable_cursor_rejected.
Qed.

(** ** The theorems at concrete requests *)


Lemma fit_get_not_found_then_forbidden_witness :
  let w := Sample.world_of Examples.bobs_store Sample.calm in
  (fits (store w) !! ["f-2"] = None /\
   fit_get_handler (lib := Reference.lib) (Examples.fit_get "f-2") w =
     (inr (error_reply (lib := Reference.lib) 404 "FIT_NOT_FOUND"
             "Fit not found"), next_tick w)) /\
  (fits (store w) !! ["f-1"] = Some Examples.bobs_fit /\
   status_of Examples.bobs_fit = READY /\
   py_eq (PStr "bob") (PStr "alice") = false /\
   fit_get_handler (lib := Reference.lib) (Examples.fit_get "f-1") w =
     (inr (error_reply (lib := Reference.lib) 403 "FORBIDDEN"
             "Access denied to this fit"), next_tick w)).
Proof.
  intros w.
  assert (H1 : fits (store w) !! ["f-1"] = Some Examples.bobs_fit)
    by apply lookup_insert_eq.
  assert (H2 : fits (store w) !! ["f-2"] = None).
  { cbn. rewrite lookup_insert_ne by discriminate. apply lookup_empty. }
  split.
  - split; [exact H2|].
    apply (fit_get_not_found_then_forbidden (lib := Reference.lib)
             (Examples.fit_get "f-2") (PStr "alice")
             (PDict [("fitId", PStr "f-2")]) "f-2" w
             eq_refl eq_refl eq_refl ltac:(discriminate) eq_refl).
    exact H2.
  - split; [exact H1|]. split; [reflexivity|]. split; [reflexivity|].
    apply (fit_get_not_found_then_forbidden (lib := Reference.lib)
             (Examples.fit_get "f-1") (PStr "alice")
             (PDict [("fitId", PStr "f-1")]) "f-1" w
             eq_refl eq_refl eq_refl ltac:(discriminate) eq_refl)
      with (it := Examples.bobs_fit) (owner := PStr "bob");
      [exact H1 | reflexivity | reflexivity].
Defined.

Lemma fit_inv_empty : fit_inv Sample.empty_store.
Proof. intros k it H. cbn in H. now rewrite lookup_empty in H. Qed.

Lemma fit_status_one_directional_witness :
  let w0 := Examples.w0 in
  let events := [Examples.fit_composite; Examples.cart_first;
                 Examples.fit_no_items] in
  let w' := serve (lib := Reference.lib) events w0 in
  fit_inv (store w0) /\
  fresh_identifiers (lib := Reference.lib) events w0 /\
  evolution fit_lawful w0 w' /\ fit_inv (store w') /\
  map (fun s => status_of <$> fits s !! ["uuid-0"]) (history w')
    = [Some READY; Some READY; Some READY; Some PENDING] /\
  map (fun s => status_of <$> fits s !! ["uuid-8"]) (history w')
    = [Some PENDING; None; None; None].
Proof.
  intros w0 events w'.
  assert (Hinv : fit_inv (store w0)) by exact fit_inv_empty.
  assert (Hfresh : fresh_identifiers (lib := Reference.lib) events w0).
  { cbn [fresh_identifiers events]. split; [apply lookup_empty|].
    split; [vm_compute; reflexivity|].
    split; [vm_compute; reflexivity | exact I]. }
  split; [exact Hinv|]. split; [exact Hfresh|].
  destruct (fit_status_one_directional (lib := Reference.lib)
              events w0 Hinv Hfresh) as (Hev & Hinv' & _).
  split; [exact Hev|]. split; [exact Hinv'|].
  split; vm_compute; reflexivity.
Defined.

(** C2 as stated fails: when the store refuses both the update to READY
    and the update to FAILED, the handler answers 500 DYNAMODB_ERROR and
    the record it wrote stays PENDING. *)
Lemma fit_composite_stays_pending :
  let w := Sample.world_of Sample.empty_store (Sample.failing_at [5; 7]%nat) in
  let run := fit_create_handler (lib := Reference.lib)
               Examples.fit_composite w in
  fit_body_valid (Examples.body_of Examples.fit_composite) = true /\
  fst run = inr (Some (error_reply (lib := Reference.lib) 500
                         "DYNAMODB_ERROR" "Failed to create fit job")) /\
  status_of <$> fits (store (snd run)) !! ["uuid-0"] = Some PENDING.
Proof. vm_compute. repeat split. Qed.

Lemma fit_composite_outcome_witness :
  let ready := Sample.world_of Sample.empty_store Sample.calm in
  let failed :=
    Sample.world_of Sample.empty_store (Sample.failing_at [5]%nat) in
  let run w := fit_create_handler (lib := Reference.lib)
                 Examples.fit_composite w in
  fit_body_valid (Examples.body_of Examples.fit_composite) = true /\
  (fst (run ready)
     = inr (Some (fit_created (lib := Reference.lib) "uuid-0" "READY")) /\
   exists it,
     fits (store (snd (run ready))) !! ["uuid-0"] = Some it /\
     status_of it = READY /\
     dict_get "imageUrl" it = Some (PStr "generated/alice/uuid-0.jpg")) /\
  (fst (run failed) = inr (Some (generation_failed (lib := Reference.lib))) /\
   exists it,
     fits (store (snd (run failed))) !! ["uuid-0"] = Some it /\
     status_of it = FAILED).
Proof.
  intros ready failed run.
  split; [reflexivity|].
  split.
  - destruct (fit_composite_outcome (lib := Reference.lib)
                Examples.fit_composite (PStr "alice") _
                (Examples.body_of Examples.fit_composite)
                ready (snd (run ready)) (fst (run ready))
                eq_refl eq_refl ltac:(vm_compute; reflexivity)
                eq_refl eq_refl eq_refl ltac:(vm_compute; reflexivity)
                eq_refl (surjective_pairing _))
      as [Hready _].
    destruct (Hready eq_refl) as [Hr Hit]. split; [exact Hr | exact Hit].
  - destruct (fit_composite_outcome (lib := Reference.lib)
                Examples.fit_composite (PStr "alice") _
                (Examples.body_of Examples.fit_composite)
                failed (snd (run failed)) (fst (run failed))
                eq_refl eq_refl ltac:(vm_compute; reflexivity)
                eq_refl eq_refl eq_refl ltac:(vm_compute; reflexivity)
                eq_refl (surjective_pairing _))
      as [_ Hfailed].
    destruct Hfailed as (Hr & _ & Hit); [discriminate | reflexivity |].
    split; [exact Hr | exact Hit].
Defined.

(** C5 as stated fails: a body whose [items] is the empty list is
    accepted, answered 201, and its record is written. *)
Lemma fit_empty_items_accepted :
  let run := fit_create_handler (lib := Reference.lib)
               Examples.fit_no_items Examples.w0 in
  items_list (Examples.body_of Examples.fit_no_items) = Some [] /\
  fit_body_valid_nonempty (Examples.body_of Examples.fit_no_items) = false /\
  fst run = inr (Some (fit_created (lib := Reference.lib)
                         "uuid-0" "PENDING")) /\
  statusCode (fit_created (lib := Reference.lib) "uuid-0" "PENDING") = 201 /\
  status_of <$> fits (store (snd run)) !! ["uuid-0"] = Some PENDING.
Proof. vm_compute. repeat split. Qed.

Lemma fit_validation_witness :
  let w := Examples.w0 in
  (mode_ok (Examples.body_of Examples.fit_no_mode) = false /\
   fit_create_handler (lib := Reference.lib) Examples.fit_no_mode w
   = (inr (Some (invalid_mode (lib := Reference.lib))), w)) /\
  (statusCode (fit_created (lib := Reference.lib) "uuid-0" "PENDING") = 201 /\
   fit_body_valid (Examples.body_of Examples.fit_no_items) = true).
Proof.
  intros w. split.
  - split; [reflexivity|].
    destruct (fit_validation (lib := Reference.lib) Examples.fit_no_mode w)
      as [Hreject _].
    destruct (Hreject (PStr "alice") _
                (Examples.body_of Examples.fit_no_mode)
                eq_refl eq_refl ltac:(vm_compute; reflexivity))
      as (_ & Hmode & _).
    eapply Hmode; reflexivity.
  - split; [reflexivity|].
    destruct (fit_validation (lib := Reference.lib) Examples.fit_no_items w)
      as [_ Haccept].
    destruct (Haccept _ _ (surjective_pairing _))
      as (raw & d & Hraw & Hd & Hvalid).
    + left. eexists. split; [vm_compute; reflexivity | reflexivity].
    + reflexivity.
Defined.

Lemma cursor_round_trip_witness :
  let w := Sample.world_of Sample.empty_store Examples.paging in
  let cursor := "eyJ1c2VyX2lkIjogImFsaWNlIiwgIml0ZW1fa2V5IjogImFjbWUjcDEifQ==" in
  let listing next :=
    (inr (reply (lib := Reference.lib) 200
            (PDict [("items", PList []); ("nextCursor", next)]) None),
     next_tick w) in
  Reference.string_key Examples.last_key = true /\
  encode_cursor (lib := Reference.lib) Examples.last_key = inr cursor /\
  decode_cursor (lib := Reference.lib) (PStr cursor) = inr Examples.last_key /\
  cart_get_handler (lib := Reference.lib) (Examples.cart_page PNone) w
    = listing (PStr cursor) /\
  cart_get_handler (lib := Reference.lib) (Examples.cart_page (PStr cursor)) w
    = listing PNone /\
  cart_get_handler (lib := Reference.lib) (Examples.cart_page (PStr "%%%")) w
    = (inr (error_reply (lib := Reference.lib) 400 "INVALID_CURSOR"
              "Invalid pagination cursor"), w).
Proof.
  intros w cursor listing.
  destruct cursor_round_trip as (Hround & Hlaws & Hpages & Hbad).
  assert (Hkey : Reference.string_key Examples.last_key = true)
    by (vm_compute; reflexivity).
  destruct (Hlaws Examples.last_key Hkey) as (Hlaw & Hdict & Hser & Hread).
  destruct (Hround Reference.lib Examples.last_key Hlaw)
    as (c & Hne & Henc & Hdec).
  assert (Hc : c = cursor).
  { assert (Hrun : encode_cursor (lib := Reference.lib) Examples.last_key
                   = inr cursor) by (vm_compute; reflexivity).
    rewrite Hrun in Henc. now injection Henc. }
  subst c.
  split; [exact Hkey|]. split; [exact Henc|]. split; [exact Hdec|].
  split; [|split].
  - destruct (Hpages Reference.lib Examples.last_key cursor
                (Examples.cart_page PNone) (PStr "alice")
                (PDict [("cursor", PNone)]) PNone w
                eq_refl eq_refl eq_refl eq_refl eq_refl) as [Hfirst _].
    apply Hfirst; [reflexivity | reflexivity |].
    rewrite Hread. exact Henc.
  - destruct (Hpages Reference.lib Examples.last_key cursor
                (Examples.cart_page (PStr cursor)) (PStr "alice")
                (PDict [("cursor", PStr cursor)]) (PStr cursor) w
                eq_refl eq_refl eq_refl eq_refl eq_refl) as [_ Hnext].
    apply Hnext;
      [reflexivity | exact Hne | exact Hdec | exact Hdict | exact Hser
      | reflexivity].
  - eapply (Hbad Reference.lib (Examples.cart_page (PStr "%%%"))
              (PStr "alice") (PDict [("cursor", PStr "%%%")])
              (PStr "%%%") w);
      reflexivity.
Defined.

(** ** Outcomes of computations *)

Lemma run_pair {A} (m : M A) (w : World) : m w = (fst (m w), snd (m w)).
Proof. now destruct (m w). Qed.

Section Outcomes.

Context {A : Type} (P : A -> Prop).

Lemma ensures_ret (a : A) : P a -> ensures P (ret a).
Proof. intros H w a'. cbn. now intros [= <-]. Qed.

Lemma ensures_raise e : ensures P (raise e).
Proof. intros w a. discriminate. Qed.

Lemma ensures_bind {B} (m : M B) (k : B -> M A) :
  (forall b, ensures P (k b)) -> ensures P (bind m k).
Proof.
  intros Hk w a. unfold bind. destruct (m w) as [[e|b] w1]; [discriminate|].
  apply Hk.
Qed.

(** The continuation may rely on what the first computation ensures. *)
Lemma ensures_bind_with {B} (Q : B -> Prop) (m : M B) (k : B -> M A) :
  ensures Q m -> (forall b, Q b -> ensures P (k b)) -> ensures P (bind m k).
Proof.
  intros Hm Hk w a. unfold bind. specialize (Hm w).
  destruct (m w) as [[e|b] w1]; [discriminate|].
  apply Hk, Hm. reflexivity.
Qed.

Lemma ensures_lift (r : result A) :
  (forall a, r = inr a -> P a) -> ensures P (lift r).
Proof.
  intros H. destruct r as [e|a]; [apply ensures_raise|].
  apply ensures_ret. now apply H.
Qed.

Lemma ensures_try_or_return {B} (m : M B) cs (r : M A) (k : B -> M A) :
  ensures P r -> (forall b, ensures P (k b)) ->
  ensures P (try_or_return m cs r k).
Proof.
  intros Hr Hk w a. unfold try_or_return.
  destruct (m w) as [[e|b] w1]; [|apply Hk].
  destruct (isinstance_exn e cs); [apply Hr | discriminate].
Qed.

Lemma always_ret (a : A) : P a -> always P (ret a).
Proof. intros H w. now exists a. Qed.

(** A list of [except] clauses that answer, the last of which catches
    every exception. *)
Lemma always_dispatch (clauses : list (list exn_class * (exn -> M A))) e :
  Forall (fun c => forall e, always P (snd c e)) clauses ->
  Exists (fun c => fst c = [Exception]) clauses ->
  always P (dispatch clauses e).
Proof.
  induction 1 as [|[cs h] clauses Hh Hrest IH]; intros Hex;
    [inversion Hex|].
  cbn [dispatch]. destruct (isinstance_exn e cs) eqn:Hcs; [apply Hh|].
  apply IH. inversion Hex as [? ? Hhere|]; subst; [|assumption].
  cbn [fst] in Hhere. subst cs. now rewrite isinstance_Exception in Hcs.
Qed.

Lemma always_try_except (m : M A) clauses :
  ensures P m ->
  Forall (fun c => forall e, always P (snd c e)) clauses ->
  Exists (fun c => fst c = [Exception]) clauses ->
  always P (try_except m clauses).
Proof.
  intros Hm Hc Hex w. unfold try_except. specialize (Hm w).
  destruct (m w) as [[e|a] w1].
  - now apply always_dispatch.
  - exists a. split; [reflexivity | now apply Hm].
Qed.

Lemma ensures_bind_lift {B} (x : result B) (k : B -> M A) :
  (forall b, x = inr b -> ensures P (k b)) -> ensures P (bind (lift x) k).
Proof.
  intros Hk. destruct x as [e|b]; [intros w a; discriminate|].
  intros w a. apply (Hk b eq_refl).
Qed.

Lemma ensures_dispatch (clauses : list (list exn_class * (exn -> M A))) e :
  Forall (fun c => forall e, ensures P (snd c e)) clauses ->
  ensures P (dispatch clauses e).
Proof.
  induction 1 as [|[cs h] clauses Hh _ IH]; cbn [dispatch].
  - apply ensures_raise.
  - destruct (isinstance_exn e cs); [apply Hh | exact IH].
Qed.

Lemma ensures_try_except (m : M A) clauses :
  ensures P m ->
  Forall (fun c => forall e, ensures P (snd c e)) clauses ->
  ensures P (try_except m clauses).
Proof.
  intros Hm Hc w a. unfold try_except. specialize (Hm w).
  destruct (m w) as [[e|a'] w1]; [now apply ensures_dispatch|].
  cbn [fst] in *. intros [= <-]. now apply Hm.
Qed.

Lemma always_ensures (m : M A) : always P m -> ensures P m.
Proof.
  intros Hm w a Ha. destruct (Hm w) as (a' & Ha' & HP). congruence.
Qed.

End Outcomes.

(** ** Every handler answers *)

Section Answers.

Context {lib : PyLib}.

Lemma standard_response codes status payload r :
  In status codes -> create_response status payload None = inr r ->
  standard codes r.
Proof.
  intros H. unfold create_response.
  destruct (json_dumps payload) as [e|text]; [discriminate|].
  intros [= <-]. split; [reflexivity | exact H].
Qed.

Lemma standard_error codes status code message r :
  In status codes ->
  create_error_response status code message None = inr r ->
  standard codes r.
Proof. intros H [= <-]. split; [reflexivity | exact H]. Qed.

Lemma standard_some_error codes status code message r :
  In status codes ->
  some_response (create_error_response status code message None)
  = inr (Some r) ->
  standard codes r.
Proof. intros H [= <-]. split; [reflexivity | exact H]. Qed.

Lemma profile_check_fields_standard codes body fields r :
  In 400 codes ->
  profile_check_fields body fields = inr (Some r) -> standard codes r.
Proof.
  intros Hc. induction fields as [|f fields IH]; [discriminate|].
  cbn [profile_check_fields].
  destruct (py_contains f body) as [e|[]]; cbn [rbind negb];
    [discriminate| |intros Hr; exact (standard_some_error _ _ _ _ _ Hc Hr)].
  destruct (py_getitem body f) as [e|v]; cbn [rbind]; [discriminate|].
  destruct (negb (isinstance_int_float v) || py_le_int v 0
            || py_gt_int v 300);
    [intros Hr; exact (standard_some_error _ _ _ _ _ Hc Hr) | exact IH].
Qed.

Lemma check_required_fields_standard codes body fields r :
  In 400 codes ->
  check_required_fields body fields = inr (Some r) -> standard codes r.
Proof.
  intros Hc. induction fields as [|f fields IH]; [discriminate|].
  cbn [check_required_fields].
  destruct (py_contains f body) as [e|[]]; cbn [rbind negb];
    [discriminate | exact IH | intros Hr; exact (standard_some_error _ _ _ _ _ Hc Hr)].
Qed.

Lemma fit_check_items_standard codes l r :
  In 400 codes -> fit_check_items l = inr (Some r) -> standard codes r.
Proof.
  intros Hc. rewrite fit_check_items_spec.
  destruct (forallb item_ok l); [discriminate|].
  intros Hr. exact (standard_some_error _ _ _ _ _ Hc Hr).
Qed.

Lemma fit_validate_standard codes body r :
  In 400 codes -> fit_validate body = inr (Some r) -> standard codes r.
Proof.
  intros Hc. unfold fit_validate, py_not_in.
  destruct (py_contains "items" body) as [e|has_items]; [discriminate|].
  cbn [rbind]. destruct has_items; cbn [negb or_else rbind];
    [|intros Hr; exact (standard_some_error _ _ _ _ _ Hc Hr)].
  destruct (py_getitem body "items") as [e|items]; [discriminate|].
  cbn [rbind].
  destruct (negb (is_list items)); [intros Hr; exact (standard_some_error _ _ _ _ _ Hc Hr)|].
  destruct (py_contains "mode" body) as [e|has_mode]; [discriminate|].
  cbn [rbind]. destruct has_mode; cbn [negb or_else rbind];
    [|intros Hr; exact (standard_some_error _ _ _ _ _ Hc Hr)].
  destruct (py_getitem body "mode") as [e|mode]; [discriminate|].
  cbn [rbind]. destruct (negb _); [intros Hr; exact (standard_some_error _ _ _ _ _ Hc Hr)|].
  now apply fit_check_items_standard.
Qed.

(** Closes a goal on the response that a handler returns. *)
Ltac standard_solve :=
  solve
    [ eapply standard_response; [|eassumption]; cbn; tauto
    | eapply standard_error; [|eassumption]; cbn; tauto
    | eapply profile_check_fields_standard; [|eassumption]; cbn; tauto
    | eapply check_required_fields_standard; [|eassumption]; cbn; tauto
    | eapply fit_validate_standard; [|eassumption]; cbn; tauto ].

(** Decomposes a handler into its operations. *)
Ltac ensures_step :=
  first
    [ apply ensures_ret; standard_solve
    | apply ensures_lift; intros ? ?; standard_solve
    | apply ensures_raise
    | apply ensures_bind_lift; intros ? ?
    | apply ensures_bind; intros ?
    | apply ensures_try_or_return; [|intros ?]
    | match goal with
      | |- ensures _ (if ?b then _ else _) => destruct b
      | |- ensures _ (match ?x with _ => _ end) => destruct x
      end ].

(** An [except] clause that answers with an error. *)
Lemma always_error {A} (P : A -> Prop) status code message
    (k : Response -> M A) :
  (forall r, create_error_response status code message None = inr r ->
             always P (k r)) ->
  always P (let! r := lift (create_error_response status code message None)
            in k r).
Proof. intros H w. exact (H _ eq_refl w). Qed.

Lemma always_lift_error codes status code message :
  In status codes ->
  always (standard codes)
    (lift (create_error_response status code message None)).
Proof.
  intros H w. eexists. split; [reflexivity|]. split; [reflexivity | exact H].
Qed.

(** The three [except] clauses of a handler. *)
Ltac clauses_answer :=
  repeat (constructor;
          [intros ?; apply always_lift_error; cbn; tauto|]);
  constructor.

Ltac clauses_catch_all :=
  repeat first [ apply Exists_cons_hd; reflexivity | apply Exists_cons_tl ].

Ltac handler_answers :=
  apply always_try_except;
    [repeat ensures_step | clauses_answer | clauses_catch_all].

Lemma upload_url_handler_answers event :
  always (standard [200; 400; 401; 500]) (upload_url_handler event).
Proof.
  unfold upload_url_handler. handler_answers.
Qed.

Lemma profile_handler_answers event :
  always (standard [200; 400; 401; 500]) (profile_handler event).
Proof. unfold profile_handler, parse_body. handler_answers. Qed.

Lemma cart_post_handler_answers event :
  always (standard [200; 400; 401; 500]) (cart_post_handler event).
Proof. unfold cart_post_handler, parse_body. handler_answers. Qed.

Lemma cart_get_handler_answers event :
  always (standard [200; 400; 401; 500]) (cart_get_handler event).
Proof. unfold cart_get_handler. handler_answers. Qed.

Lemma fit_get_handler_answers event :
  always (standard [200; 400; 401; 403; 404; 500]) (fit_get_handler event).
Proof. unfold fit_get_handler. handler_answers. Qed.

Lemma fits_list_handler_answers event :
  always (standard [200; 401; 500]) (fits_list_handler event).
Proof. unfold fits_list_handler. handler_answers. Qed.

Lemma check_required_fields_headers body fields r :
  check_required_fields body fields = inr (Some r) ->
  headers r = default_headers.
Proof.
  intros H. now apply (check_required_fields_standard [400] body fields r);
    [left|].
Qed.

Lemma response_headers status payload r :
  create_response status payload None = inr r ->
  headers r = default_headers.
Proof.
  intros H. now apply (standard_response [status] status payload r); [left|].
Qed.

Lemma token_handler_answers event :
  always (fun r => headers r = default_headers) (token_handler event).
Proof.
  unfold token_handler, parse_body.
  apply always_try_except;
    [|repeat (constructor;
              [intros ?; intros w; eexists; split; reflexivity|]);
      constructor
     |clauses_catch_all].
  repeat first
    [ apply ensures_ret;
      solve [reflexivity | eapply check_required_fields_headers; eassumption]
    | apply ensures_lift; intros ? ?;
      solve [eapply response_headers; eassumption]
    | apply ensures_bind_lift; intros ? ?
    | apply ensures_bind; intros ?
    | apply ensures_try_or_return; [|intros ?]
    | match goal with
      | |- ensures _ (if ?b then _ else _) => destruct b
      | |- ensures _ (match ?x with _ => _ end) => destruct x
      end ].
Qed.

Lemma fit_generate_ensures user id :
  ensures (standard [201; 400; 401; 500]) (fit_generate user id).
Proof.
  unfold fit_generate. apply ensures_try_except; [repeat ensures_step|].
  repeat (constructor; [intros ?; repeat ensures_step|]). constructor.
Qed.

(** A mode that passed the validation is one of the two. *)
Lemma mode_ok_cases d m :
  mode_ok d = true -> dict_get "mode" d = Some m ->
  py_eq_str m "BEDROCK" = true \/
  (py_eq_str m "BEDROCK" = false /\ py_eq_str m "MVP_COMPOSITE" = true).
Proof.
  unfold mode_ok. intros Hok Hm. rewrite Hm in Hok.
  cbn [py_in_strs existsb] in Hok.
  destruct (py_eq_str m "BEDROCK"); [now left|].
  destruct (py_eq_str m "MVP_COMPOSITE"); [now right | discriminate].
Qed.

Lemma ensures_return_some codes (r : result Response) :
  (forall x, r = inr x -> standard codes x) ->
  ensures (fun o => exists x, o = Some x /\ standard codes x)
    (return_some r).
Proof.
  intros H. unfold return_some. apply ensures_bind_lift. intros x Hx.
  apply ensures_ret. exists x. split; [reflexivity | now apply H].
Qed.

Lemma always_return_some_error codes status code message :
  In status codes ->
  always (fun o => exists x, o = Some x /\ standard codes x)
    (return_some (create_error_response status code message None)).
Proof.
  intros H w. eexists. split; [reflexivity|]. eexists.
  split; [reflexivity|]. split; [reflexivity | exact H].
Qed.

(** An answer, with the fixed headers and one of the status codes. *)
Lemma fit_create_handler_answers event :
  always (fun o => exists r, o = Some r /\ standard [201; 400; 401; 500] r)
    (fit_create_handler event).
Proof.
  unfold fit_create_handler.
  apply always_try_except;
    [|repeat (constructor;
              [intros ?; apply always_return_some_error; cbn; tauto|]);
      constructor
     |clauses_catch_all].
  apply ensures_bind_lift; intros user Hu.
  apply ensures_try_or_return;
    [apply ensures_return_some; intros x Hx; standard_solve|].
  intros body. apply ensures_bind_lift; intros bad Hbad.
  destruct bad as [r|];
    [apply ensures_ret; eexists; split; [reflexivity | standard_solve]|].
  destruct (fit_validate_none body Hbad) as (d & -> & Hvalid).
  apply andb_true_iff in Hvalid as [_ Hmode].
  apply ensures_bind; intros new. unfold fit_persist.
  apply ensures_bind; intros _.
  apply ensures_bind_lift; intros m Hm.
  cbn [py_getitem] in Hm.
  destruct (dict_get "mode" d) as [m'|] eqn:Hget; [|discriminate].
  injection Hm as ->.
  destruct (mode_ok_cases d m Hmode Hget) as [->|[-> Hmvp]].
  - apply ensures_return_some; intros x Hx; standard_solve.
  - cbn [py_getitem]. rewrite Hget.
    apply ensures_bind_lift; intros m2 [= <-]. rewrite Hmvp.
    apply (ensures_bind_with _ (standard [201; 400; 401; 500]));
      [apply fit_generate_ensures|].
    intros r Hr. apply ensures_ret. now exists r.
Qed.

(** ** The router *)

Lemma try_except_returns {A} (m : M A) clauses w a :
  fst (m w) = inr a -> try_except m clauses w = m w.
Proof.
  unfold try_except. destruct (m w) as [[e|a'] w1]; [discriminate|].
  reflexivity.
Qed.

Lemma answer_returns (h : pyval -> M Response) (P : Response -> Prop)
    event w :
  always P (h event) ->
  (forall r, P r -> headers r = default_headers) ->
  exists r,
    fst (answer h event w) = inr (Some r) /\ headers r = default_headers.
Proof.
  intros Hh HP. destruct (Hh w) as (r & Hr & Hr'). exists r.
  unfold answer, bind, ret. rewrite (run_pair (h event) w), Hr. auto.
Qed.

(** Every route answers, with the fixed headers. *)
Lemma routes_answer event w r :
  In r routes ->
  exists resp,
    fst (snd r event w) = inr (Some resp) /\ headers resp = default_headers.
Proof.
  intros Hin. unfold routes in Hin. cbn [In] in Hin.
  assert (Hstd : forall codes resp,
            standard codes resp -> headers resp = default_headers)
    by (intros codes resp [Hh _]; exact Hh).
  destruct Hin as [<-|[<-|[<-|[<-|[<-|[<-|[<-|[<-|[]]]]]]]]]; cbn [snd].
  - eapply answer_returns; [apply upload_url_handler_answers | apply Hstd].
  - eapply answer_returns; [apply profile_handler_answers | apply Hstd].
  - eapply answer_returns; [apply cart_post_handler_answers | apply Hstd].
  - eapply answer_returns; [apply cart_get_handler_answers | apply Hstd].
  - destruct (fit_create_handler_answers event w)
      as (o & Ho & resp & -> & Hh & _).
    now exists resp.
  - eapply answer_returns; [apply fit_get_handler_answers | apply Hstd].
  - eapply answer_returns; [apply fits_list_handler_answers | apply Hstd].
  - eapply answer_returns; [apply token_handler_answers | auto].
Qed.

(** What the router does with a request that is not a preflight. *)
Lemma lambda_handler_run event method resource w :
  py_getitem event "httpMethod" = inr method ->
  py_getitem event "resource" = inr resource ->
  py_eq_str method "OPTIONS" = false ->
  lambda_handler event w =
    match find_route resource method with
    | Some r => snd r event w
    | None => (inr (Some not_found), w)
    end.
Proof.
  intros Hm Hr Hopt. unfold lambda_handler.
  match goal with
  | |- try_except ?m ?c w = ?rhs =>
      assert (Hinner : m w = rhs);
      [|rewrite <- Hinner;
        assert (Hret : exists a, fst (m w) = inr a);
        [rewrite Hinner|destruct Hret as [a Ha];
                         exact (try_except_returns m c w a Ha)]]
  end.
  - cbv beta iota delta [bind lift ret raise].
    rewrite Hm, Hr, Hopt. unfold find_route, routes.
    cbn [List.find fst snd].
    repeat match goal with
           | |- context [if ?b && ?c then _ else _] =>
               destruct (b && c); [reflexivity|]
           end.
    reflexivity.
  - destruct (find_route resource method) as [r|] eqn:Hfind; [|eauto].
    apply find_some in Hfind as [Hin _].
    destruct (routes_answer event w r Hin) as (resp & Hresp & _). eauto.
Qed.

Lemma py_eq_str_true v s : py_eq_str v s = true -> v = PStr s.
Proof.
  destruct v as [| | | |t| | |]; try discriminate. cbn.
  now intros ->%String.eqb_eq.
Qed.

(** X1: a request whose resource and method are those of one of the
    eight routes is handled by the handler of that route, and the
    router passes its answer on as it is: the catch-all of the router
    never fires on a handler. *)
Theorem router_dispatch event w r :
  In r routes ->
  py_getitem event "resource" = inr (PStr (fst (fst r))) ->
  py_getitem event "httpMethod" = inr (PStr (snd (fst r))) ->
  lambda_handler event w = snd r event w.
Proof.
  intros Hin Hr Hm. unfold routes in Hin. cbn [In] in Hin.
  destruct Hin as [<-|[<-|[<-|[<-|[<-|[<-|[<-|[<-|[]]]]]]]]];
    cbn [fst snd] in *;
    now rewrite (lambda_handler_run event _ _ w Hm Hr eq_refl).
Qed.

(** X2: a request that is not a preflight and whose resource and
    method are not those of a route is answered 404 NOT_FOUND; no
    handler runs and the world is untouched. *)
Theorem router_not_found event method resource w :
  py_getitem event "httpMethod" = inr method ->
  py_getitem event "resource" = inr resource ->
  method <> PStr "OPTIONS" ->
  (forall r, In r routes ->
     resource <> PStr (fst (fst r)) \/ method <> PStr (snd (fst r))) ->
  lambda_handler event w = (inr (Some not_found), w) /\
  statusCode not_found = 404.
Proof.
  intros Hm Hr Hopt Hnone. split; [|reflexivity].
  assert (Hopt' : py_eq_str method "OPTIONS" = false).
  { destruct (py_eq_str method "OPTIONS") eqn:E; [|reflexivity].
    now apply py_eq_str_true in E. }
  rewrite (lambda_handler_run event method resource w Hm Hr Hopt').
  unfold find_route. rewrite find_none_all; [reflexivity|].
  intros r Hin. apply andb_false_iff.
  destruct (py_eq_str resource (fst (fst r))) eqn:E1; [|now left].
  destruct (py_eq_str method (snd (fst r))) eqn:E2; [|now right].
  apply py_eq_str_true in E1, E2. destruct (Hnone r Hin); contradiction.
Qed.

Lemma router_error_run event w e :
  py_getitem event "httpMethod" = inl e \/
  ((exists method, py_getitem event "httpMethod" = inr method) /\
   py_getitem event "resource" = inl e) ->
  lambda_handler event w = (inr (Some router_error), w) /\
  statusCode router_error = 500.
Proof.
  intros H. split; [|reflexivity]. unfold lambda_handler.
  destruct H as [Hm|[[method Hm] Hr]].
  - rewrite Hm. mstep. now destruct e as [[] msg].
  - rewrite Hm. mstep. rewrite Hr. mstep. now destruct e as [[] msg].
Qed.

(** X3: an event without [httpMethod] or without [resource], or one
    that is not an object, is answered by the catch-all of the router:
    500 INTERNAL_ERROR, the world untouched. *)
Theorem router_malformed_event event w e :
  py_getitem event "httpMethod" = inl e \/
  ((exists method, py_getitem event "httpMethod" = inr method) /\
   py_getitem event "resource" = inl e) ->
  lambda_handler event w = (inr (Some router_error), w) /\
  statusCode router_error = 500.
Proof. apply router_error_run. Qed.

(** X4: whatever the event and the state of the world, the router
    returns a response: it never raises, it never returns [None], and
    the response carries the fixed headers. *)
Theorem router_always_answers event w :
  exists resp,
    fst (lambda_handler event w) = inr (Some resp) /\
    headers resp = default_headers.
Proof.
  destruct (py_getitem event "httpMethod") as [e|method] eqn:Hm.
  { destruct (router_error_run event w e (or_introl Hm)) as [-> _]. eauto. }
  destruct (py_getitem event "resource") as [e|resource] eqn:Hr.
  { destruct (router_error_run event w e
                (or_intror (conj (ex_intro _ method Hm) Hr))) as [-> _].
    eauto. }
  destruct (py_eq_str method "OPTIONS") eqn:Hopt.
  - unfold lambda_handler. rewrite Hm; mstep. rewrite Hr; mstep.
    rewrite Hopt. eauto.
  - rewrite (lambda_handler_run event method resource w Hm Hr Hopt).
    destruct (find_route resource method) as [r|] eqn:Hfind; [|eauto].
    apply find_some in Hfind as [Hin _].
    apply (routes_answer event w r Hin).
Qed.

(** X5: each handler always answers, never raising, with the fixed
    headers and one of its own status codes; fit creation never falls
    off its [if]/[elif] (it never returns [None]) and never answers
    200. *)
Theorem handler_status_codes event :
  always (standard [200; 400; 401; 500]) (upload_url_handler event) /\
  always (standard [200; 400; 401; 500]) (profile_handler event) /\
  always (standard [200; 400; 401; 500]) (cart_post_handler event) /\
  always (standard [200; 400; 401; 500]) (cart_get_handler event) /\
  always (fun o => exists r, o = Some r /\ standard [201; 400; 401; 500] r)
    (fit_create_handler event) /\
  always (standard [200; 400; 401; 403; 404; 500]) (fit_get_handler event) /\
  always (standard [200; 401; 500]) (fits_list_handler event) /\
  always (fun r => headers r = default_headers) (token_handler event).
Proof.
  repeat split;
    auto using upload_url_handler_answers, profile_handler_answers,
      cart_post_handler_answers, cart_get_handler_answers,
      fit_create_handler_answers, fit_get_handler_answers,
      fits_list_handler_answers, token_handler_answers.
Qed.

End Answers.

(** ** What the handlers write *)

Lemma chain_no_write s l : chain no_write s l -> l = [].
Proof. destruct l as [|a l]; [reflexivity | intros [[] _]]. Qed.

Lemma no_write_unchanged w w' : evolution no_write w w' -> unchanged w w'.
Proof.
  intros (news & Hh & Hc & Hs). apply chain_no_write in Hc.
  assert (news = []) as ->.
  { destruct news as [|a l]; [reflexivity|]. cbn [rev] in Hc.
    now destruct (rev l). }
  split; assumption.
Qed.

(** The store after writes all related by a preorder is related to the
    store before. *)
Lemma chain_last (R : Store -> Store -> Prop) s l :
  (forall a, R a a) -> (forall a b c, R a b -> R b c -> R a c) ->
  chain R s l -> R s (List.last l s).
Proof.
  intros Hrefl Htrans. revert s.
  induction l as [|a l IH]; intros s Hc; [apply Hrefl|].
  destruct Hc as [Ha Hc]. specialize (IH a Hc).
  destruct l as [|b l]; [exact Ha|].
  change (List.last (a :: b :: l) s) with (List.last (b :: l) s).
  rewrite (last_cons_default b l s a). eapply Htrans; eauto.
Qed.

Lemma evolution_related (R : Store -> Store -> Prop) w w' :
  (forall a, R a a) -> (forall a b c, R a b -> R b c -> R a c) ->
  evolution R w w' -> R (store w) (store w').
Proof.
  intros Hrefl Htrans (news & _ & Hc & Hs).
  rewrite Hs, <- last_rev_hd. now apply chain_last.
Qed.

Lemma only_own_refl t u s : only_own t u s s.
Proof. intros t' k _. reflexivity. Qed.

Lemma only_own_trans t u a b c :
  only_own t u a b -> only_own t u b c -> only_own t u a c.
Proof. intros H1 H2 t' k Hk. now rewrite (H2 t' k Hk), (H1 t' k Hk). Qed.

Lemma only_own_put t u k it s :
  head k = u -> only_own t u s (store_put t k it s).
Proof.
  intros Hk t' k' [Ht|Hk']; unfold store_put.
  - destruct t, t'; try reflexivity; contradiction.
  - destruct t, t'; try reflexivity; cbn [set_table table_of];
      apply lookup_insert_ne; congruence.
Qed.

Section WriteSteps.

Context (R : Store -> Store -> Prop).

Lemma preserves_bind_lift {A B} (x : result A) (k : A -> M B) :
  (forall a, x = inr a -> preserves R (k a)) -> preserves R (bind (lift x) k).
Proof.
  intros Hk. destruct x as [e|a]; [intros w; apply evolution_refl|].
  intros w. apply (Hk a eq_refl).
Qed.

(** The continuation may rely on what the first computation ensures. *)
Lemma preserves_bind_with {A B} (Q : A -> Prop) (m : M A) (k : A -> M B) :
  ensures Q m -> preserves R m -> (forall a, Q a -> preserves R (k a)) ->
  preserves R (bind m k).
Proof.
  intros HQ Hm Hk w. unfold bind. specialize (Hm w). specialize (HQ w).
  destruct (m w) as [[e|a] w1]; [exact Hm|].
  eapply evolution_trans; [exact Hm | apply Hk, HQ; reflexivity].
Qed.

Lemma preserves_put_when t it :
  (forall s k, key_values (key_schema t) it = Some k ->
               R s (store_put t k it s)) ->
  preserves R (put_item t it).
Proof.
  intros HR w. rewrite put_item_run.
  destruct (serializer_error _); [apply evolution_refl|].
  destruct (env_fault (env w) (ticks w)); [now apply evolution_silent|].
  destruct (key_values _ _) as [k|]; [|now apply evolution_silent].
  apply (evolution_commit_after R 1). now apply HR.
Qed.

Lemma preserves_update_when t key actions :
  (forall s k, key_values (key_schema t) key = Some k ->
               R s (store_put t k (updated_item t k key actions s) s)) ->
  preserves R (update_item t key actions).
Proof.
  intros HR w. rewrite update_item_run.
  destruct (serializer_error _); [apply evolution_refl|].
  destruct (serializer_error _); [apply evolution_refl|].
  destruct (env_fault (env w) (ticks w)); [now apply evolution_silent|].
  destruct (key_values _ _) as [k|]; [|now apply evolution_silent].
  apply (evolution_commit_after R 1). now apply HR.
Qed.

End WriteSteps.

(** Decomposes a handler, leaving its writes to be examined. *)
Ltac scope_step :=
  lazymatch goal with
  | |- preserves _ (put_item _ _) => fail
  | |- preserves _ (update_item _ _ _) => fail
  | _ => preserves_step
  end.

Section Writes.

Context {lib : PyLib}.

Lemma profile_handler_scope event :
  preserves (only_own PROFILES_TABLE (caller event)) (profile_handler event).
Proof.
  unfold profile_handler, parse_body.
  apply preserves_try_except;
    [|repeat constructor; intros ?; apply preserves_ret].
  apply preserves_bind_lift; intros user Hu.
  repeat first
    [ match goal with
      | |- preserves _ (bind (if _ then _ else _) _) =>
          apply (preserves_bind_with _
                   (fun data => dict_get "user_id" data = Some user));
          [repeat first
             [ apply ensures_ret; reflexivity
             | apply ensures_bind; intros ?
             | match goal with
               | |- ensures _ (if ?b then _ else _) => destruct b
               end ]
          | repeat preserves_step
          | intros data Hdata]
      end
    | scope_step ].
  apply preserves_put_when. intros s k Hk.
  cbn [key_schema key_values] in Hk. rewrite Hdata in Hk.
  destruct user as [| | | |u| | |]; try discriminate. injection Hk as <-.
  apply only_own_put. unfold caller. now rewrite Hu.
Qed.

Lemma cart_post_handler_scope event :
  preserves (only_own CART_ITEMS_TABLE (caller event))
    (cart_post_handler event).
Proof.
  unfold cart_post_handler, parse_body.
  apply preserves_try_except;
    [|repeat constructor; intros ?; apply preserves_ret].
  apply preserves_bind_lift; intros user Hu.
  repeat scope_step.
  apply preserves_update_when. intros s k Hk.
  cbn [key_schema key_values dict_get String.eqb Ascii.eqb Bool.eqb] in Hk.
  destruct user as [| | | |u| | |]; try discriminate. injection Hk as <-.
  apply only_own_put. unfold caller. now rewrite Hu.
Qed.

(** X7: the profile handler changes nothing but the profile of the
    caller, and the cart upsert nothing but cart records of the caller:
    the other tables and the records of other users are as they were,
    whatever the request. *)
Theorem writes_stay_with_caller event w :
  only_own PROFILES_TABLE (caller event)
    (store w) (store (snd (profile_handler event w))) /\
  only_own CART_ITEMS_TABLE (caller event)
    (store w) (store (snd (cart_post_handler event w))).
Proof.
  split;
    (apply evolution_related;
     [apply only_own_refl | apply only_own_trans|]).
  - apply profile_handler_scope.
  - apply cart_post_handler_scope.
Qed.

Lemma fit_summaries_read_only items :
  preserves no_write (fit_summaries items).
Proof.
  induction items as [|item items IH]; cbn [fit_summaries].
  - apply preserves_ret.
  - apply preserves_bind.
    + unfold fit_summary_of. repeat preserves_step.
    + intros x. apply preserves_bind; [exact IH|].
      intros xs. apply preserves_ret.
Qed.

Lemma upload_url_handler_read_only event :
  preserves no_write (upload_url_handler event).
Proof. unfold upload_url_handler. repeat preserves_step. Qed.

Lemma cart_get_handler_read_only event :
  preserves no_write (cart_get_handler event).
Proof. unfold cart_get_handler. repeat preserves_step. Qed.

Lemma fit_get_handler_read_only event :
  preserves no_write (fit_get_handler event).
Proof. unfold fit_get_handler. repeat preserves_step. Qed.

Lemma fits_list_handler_read_only event :
  preserves no_write (fits_list_handler event).
Proof.
  unfold fits_list_handler.
  repeat first [apply fit_summaries_read_only | preserves_step].
Qed.

Lemma token_handler_read_only event :
  preserves no_write (token_handler event).
Proof. unfold token_handler, parse_body. repeat preserves_step. Qed.

(** X6: the upload-URL, cart-listing, fit-retrieval, fit-listing and
    token handlers never write: whatever the request and the faults of
    the services, the three tables are as they were. *)
Theorem read_only_handlers event w :
  unchanged w (snd (upload_url_handler event w)) /\
  unchanged w (snd (cart_get_handler event w)) /\
  unchanged w (snd (fit_get_handler event w)) /\
  unchanged w (snd (fits_list_handler event w)) /\
  unchanged w (snd (token_handler event w)).
Proof.
  repeat split; apply no_write_unchanged.
  - apply upload_url_handler_read_only.
  - apply upload_url_handler_read_only.
  - apply cart_get_handler_read_only.
  - apply cart_get_handler_read_only.
  - apply fit_get_handler_read_only.
  - apply fit_get_handler_read_only.
  - apply fits_list_handler_read_only.
  - apply fits_list_handler_read_only.
  - apply token_handler_read_only.
  - apply token_handler_read_only.
Qed.

End Writes.

(** ** Requests that are turned away *)

Section Rejections.

Context {lib : PyLib}.

(** X8: a request whose context lacks a key of the claim path is
    answered 401 UNAUTHORIZED by each of the seven authenticated
    handlers, before the body is read or a service is called: the world
    is untouched. *)
Theorem missing_identity_unauthorized (event : pyval) (w : World) k :
  (let? rc := py_getitem event "requestContext" in
   let? au := py_getitem rc "authorizer" in
   let? cl := py_getitem au "claims" in
   py_getitem cl "sub") = inl (Exn KeyError k) ->
  all_answer event w (unauthorized "User ID not found in request context")
  /\ statusCode (unauthorized "User ID not found in request context") = 401.
Proof.
  intros Hk. split; [|reflexivity]. now apply (missing_claim_unauthorized _ _ k).
Qed.

(** X9: a body that [json.loads] refuses with a JSONDecodeError or a
    TypeError (a null body) is answered 400 INVALID_JSON by the four
    handlers that read a body, the world untouched; the three that
    authenticate do so first. *)
Theorem invalid_json_rejected (event raw : pyval) (e : exn) (w : World) :
  py_getitem event "body" = inr raw ->
  json_loads raw = inl e ->
  isinstance_exn e [JSONDecodeError; TypeError] = true ->
  statusCode invalid_json = 400 /\
  token_handler event w = (inr invalid_json, w) /\
  forall user, get_user_id event = inr user ->
    profile_handler event w = (inr invalid_json, w) /\
    cart_post_handler event w = (inr invalid_json, w) /\
    fit_create_handler event w = (inr (Some invalid_json), w).
Proof.
  intros Hb Hj He. split; [reflexivity|]. split.
  - unfold token_handler, parse_body, try_except, try_or_return.
    cbv beta iota delta [bind lift ret raise].
    now rewrite Hb, Hj, He.
  - intros user Hu.
    unfold profile_handler, cart_post_handler, fit_create_handler,
      parse_body, try_except, try_or_return.
    cbv beta iota delta [bind lift ret raise].
    now rewrite Hu, Hb, Hj, He.
Qed.

(** X10: an upload URL is refused with 400 INVALID_PARAMETER when the
    [type] parameter is absent, empty or none of face, body and other
    (absent or null query parameters count as none); no identifier is
    drawn and no URL is signed. *)
Theorem upload_url_invalid_type (event user params type : pyval)
    (w : World) :
  get_user_id event = inr user ->
  query_string_parameters event = inr params ->
  py_get params "type" = inr type ->
  py_truthy type = false \/ py_in_strs type ["face"; "body"; "other"] = false ->
  upload_url_handler event w =
    (inr (error_reply 400 "INVALID_PARAMETER"
            "type parameter must be one of: face, body, other"), w).
Proof.
  intros Hu Hq Ht Hbad. unfold upload_url_handler.
  rewrite Hu; mstep. rewrite Hq; mstep. rewrite Ht; mstep.
  destruct Hbad as [-> | ->]; [reflexivity|].
  now destruct (py_truthy type).
Qed.

(** The call of line 83 passes a keyword that the method does not
    have: it raises before anything is signed. *)
Lemma upload_url_call_raises key expires w :
  exists e,
    generate_presigned_url "put_object" key expires ["Conditions"] w
    = (inl e, w) /\
    exn_class_of e = TypeError.
Proof. eexists. split; reflexivity. Qed.

Lemma upload_url_handler_not_ok event :
  ensures (fun r => statusCode r <> 200) (upload_url_handler event).
Proof.
  unfold upload_url_handler. apply ensures_try_except.
  - apply ensures_bind_lift; intros user _.
    apply ensures_bind_lift; intros params _.
    apply ensures_bind_lift; intros type _.
    destruct (_ || _).
    + apply ensures_lift. now intros r [= <-].
    + apply ensures_bind; intros unique_id. intros w r.
      unfold bind.
      destruct (upload_url_call_raises
                  (PStr ("uploads/" ++ py_str user ++ "/" ++ py_str type
                         ++ "/" ++ unique_id ++ ".jpg")) 300 w)
        as (e & -> & _).
      discriminate.
  - repeat (constructor;
            [intros e; apply ensures_lift; now intros r [= <-]|]).
    constructor.
Qed.

(** X11: an upload URL is never issued.  For a type that is face, body
    or other the handler draws an identifier and calls
    [generate_presigned_url] with the keyword [Conditions] of line 90,
    which the method does not take: the TypeError is answered by the
    catch-all with 500 INTERNAL_ERROR, and nothing is signed.  Whatever
    the request, the status of the answer is not 200. *)
Theorem upload_url_never_issued (event : pyval) (w : World) :
  (forall user params type,
     get_user_id event = inr user ->
     query_string_parameters event = inr params ->
     py_get params "type" = inr (PStr type) ->
     In type ["face"; "body"; "other"] ->
     upload_url_handler event w = (inr internal_error, next_tick w)) /\
  statusCode internal_error = 500 /\
  (forall r, fst (upload_url_handler event w) = inr r -> statusCode r <> 200).
Proof.
  split; [|split; [reflexivity | apply upload_url_handler_not_ok]].
  intros user params type Hu Hq Ht Hin.
  assert (Hok : py_truthy (PStr type) = true /\
                py_in_strs (PStr type) ["face"; "body"; "other"] = true).
  { cbn in Hin. destruct Hin as [<-|[<-|[<-|[]]]]; split; reflexivity. }
  destruct Hok as [Htruthy Hlisted].
  unfold upload_url_handler.
  rewrite Hu; mstep. rewrite Hq; mstep. rewrite Ht; mstep.
  rewrite Htruthy, Hlisted. reflexivity.
Qed.

Lemma cart_post_writes_only_valid (event : pyval) (w w' : World) r :
  cart_post_handler event w = (r, w') ->
  history w' <> history w ->
  exists raw d,
    py_getitem event "body" = inr raw /\
    json_loads raw = inr (PDict d) /\
    cart_body_valid d = true.
Proof.
  unfold cart_post_handler.
  match goal with |- context [try_except _ ?c] => set (cl := c) end.
  assert (Hcl : forall e w0, exists r', dispatch cl e w0 = (inr r', w0))
    by (intros e w0; apply handler_clauses_total).
  clearbody cl.
  unfold parse_body, try_except, try_or_return.
  cbv beta iota delta [bind lift ret raise].
  rewrite ?create_error_response_run.
  assert (Hsame : forall (x : result Response) w0,
            history w0 = history w ->
            (let (s, w1) := (x, w0) in
             match s with
             | inl e => dispatch cl e w1
             | inr a => (inr a, w1)
             end) = (r, w') -> history w' <> history w -> False).
  { intros [e|a] w0 Hw0.
    - destruct (Hcl e w0) as (r' & ->). intros [= <- <-]. congruence.
    - intros [= <- <-]. congruence. }
  assert (Hexn : forall e w0, history w0 = history w ->
            dispatch cl e w0 = (r, w') -> history w' <> history w -> False)
    by (intros e w0; apply (Hsame (inl e))).
  assert (Hret : forall a w0, history w0 = history w ->
            (inr a, w0) = (r, w') -> history w' <> history w -> False)
    by (intros a w0; apply (Hsame (inr a))).
  destruct (get_user_id event) as [e|user];
    [intros H1 H2; exfalso; eapply Hexn; eauto|].
  destruct (py_getitem event "body") as [e|raw] eqn:Hb.
  { destruct (isinstance_exn e _); intros H1 H2; exfalso;
      [eapply Hret | eapply Hexn]; eauto. }
  destruct (json_loads raw) as [e|body] eqn:Hj.
  { destruct (isinstance_exn e _); intros H1 H2; exfalso;
      [eapply Hret | eapply Hexn]; eauto. }
  destruct (check_required_fields body cart_required_fields)
    as [e|[bad|]] eqn:Hcheck;
    try (intros H1 H2; exfalso;
         solve [eapply Hret; eauto | eapply Hexn; eauto]).
  destruct (py_getitem body "price_cents") as [e|price] eqn:Hprice;
    [intros H1 H2; exfalso; eapply Hexn; eauto|].
  destruct body as [| | | |s|l|d|]; try discriminate.
  rewrite check_required_fields_find in Hcheck.
  destruct (List.find _ cart_required_fields) as [f|] eqn:Hfind;
    [discriminate|].
  cbn [py_getitem] in Hprice.
  destruct (dict_get "price_cents" d) as [p|] eqn:Hp; [|discriminate].
  injection Hprice as <-.
  destruct (negb (isinstance_int_float p) || py_lt_int p 0) eqn:Hbad;
    [intros H1 H2; exfalso; eapply Hret; eauto|].
  intros _ _. exists raw, d. split; [reflexivity|]. split; [exact Hj|].
  apply orb_false_iff in Hbad as [Hnum Hneg].
  apply negb_false_iff in Hnum.
  unfold cart_body_valid. rewrite Hp, Hnum, Hneg.
  rewrite andb_true_r. apply forallb_forall. intros f Hf.
  apply (find_none _ _ Hfind) in Hf. now apply negb_false_iff in Hf.
Qed.

(** X12: the cart upsert on an object body.  The first of the ten
    required fields that is missing, in the order of the source, is
    reported with 400 MISSING_FIELD; with all ten present, a
    [price_cents] that is not a number or is negative is reported with
    400 INVALID_VALUE; in both cases nothing is written.  And whatever
    the request, the handler writes only when the body is valid. *)
Theorem cart_validation (event : pyval) (w : World) :
  (forall user raw d,
     get_user_id event = inr user ->
     py_getitem event "body" = inr raw ->
     json_loads raw = inr (PDict d) ->
     (forall f,
        List.find (fun f => negb (dict_has f d)) cart_required_fields
          = Some f ->
        cart_post_handler event w = (inr (missing_field f), w)) /\
     (forall p,
        forallb (fun f => dict_has f d) cart_required_fields = true ->
        dict_get "price_cents" d = Some p ->
        isinstance_int_float p = false \/ py_lt_int p 0 = true ->
        cart_post_handler event w =
          (inr (error_reply 400 "INVALID_VALUE"
            "price_cents must be a non-negative number"), w)))
  /\
  (forall r w',
     cart_post_handler event w = (r, w') ->
     history w' <> history w ->
     exists raw d,
       py_getitem event "body" = inr raw /\
       json_loads raw = inr (PDict d) /\
       cart_body_valid d = true).
Proof.
  split; [|intros r w'; apply cart_post_writes_only_valid].
  intros user raw d Hu Hb Hj. split.
  - intros f Hfind. unfold cart_post_handler, parse_body.
    rewrite Hu; mstep. rewrite Hb; mstep. rewrite Hj; mstep.
    now rewrite check_required_fields_find, Hfind.
  - intros p Hall Hp Hbad. unfold cart_post_handler, parse_body.
    rewrite Hu; mstep. rewrite Hb; mstep. rewrite Hj; mstep.
    rewrite check_required_fields_find, find_none_all.
    + cbn [fmap option_fmap option_map]. mstep. rewrite Hp.
      destruct Hbad as [-> | ->]; [reflexivity|].
      now destruct (isinstance_int_float p).
    + intros f Hf. rewrite forallb_forall in Hall.
      now rewrite (Hall f Hf).
Qed.

End Rejections.

(** ** Fit jobs *)

Section FitJobs.

Context {lib : PyLib}.

Lemma fit_validate_valid d :
  fit_body_valid d = true -> fit_validate (PDict d) = inr None.
Proof.
  intros Hvalid. rewrite fit_validate_dict. unfold fit_body_valid in Hvalid.
  destruct (items_list d) as [l|]; [|discriminate].
  now apply andb_true_iff in Hvalid as [-> ->].
Qed.

(** The record that fit creation builds from a valid body. *)
Lemma fit_new_record_run user d w :
  fit_body_valid d = true ->
  fit_new_record user (PDict d) w =
    (inr (env_uuid (env w) (ticks w),
          new_fit_record user d (env_uuid (env w) (ticks w))
            (env_clock (env w) (S (ticks w)))
            (env_clock (env w) (S (S (ticks w))))),
     after 3 w).
Proof.
  intros Hvalid. unfold fit_body_valid, items_list, mode_ok in Hvalid.
  destruct (dict_get "items" d) as [items|] eqn:Hitems; [|discriminate].
  destruct (dict_get "mode" d) as [mode|] eqn:Hmode;
    [|now rewrite andb_false_r in Hvalid].
  unfold fit_new_record, new_fit_record, copy_field. mstep.
  unfold dict_has. rewrite Hitems, Hmode.
  destruct (dict_get "name" d), (dict_get "body_asset_key" d); reflexivity.
Qed.

(** The serializer accepts the record when it accepts the caller and
    the fields that the record takes from the body. *)
Lemma new_fit_record_storable user d fit_id c u :
  fit_body_valid d = true ->
  storable user = true ->
  storable_fields fit_body_fields d = true ->
  serializer_error (PDict (new_fit_record user d fit_id c u)) = None.
Proof.
  intros Hvalid Huser Hfields.
  assert (Hu : serializer_error user = None)
    by (unfold storable in Huser; now destruct (serializer_error user)).
  assert (Hf : forall f v, In f fit_body_fields -> dict_get f d = Some v ->
                           serializer_error v = None)
    by (intros f v; apply storable_fields_value; exact Hfields).
  unfold fit_body_valid, items_list, mode_ok in Hvalid.
  destruct (dict_get "items" d) as [items|] eqn:Hitems; [|discriminate].
  destruct (dict_get "mode" d) as [mode|] eqn:Hmode;
    [|now rewrite andb_false_r in Hvalid].
  pose proof (Hf "items" _ ltac:(cbn; tauto) Hitems) as S1.
  pose proof (Hf "mode" _ ltac:(cbn; tauto) Hmode) as S2.
  unfold new_fit_record, copy_field. rewrite Hitems, Hmode.
  destruct (dict_get "name" d) as [name|] eqn:Hname;
    [pose proof (Hf "name" _ ltac:(cbn; tauto) Hname) as S3|];
    (destruct (dict_get "body_asset_key" d) as [key|] eqn:Hkey;
     [pose proof (Hf "body_asset_key" _ ltac:(cbn; tauto) Hkey) as S4|]);
    cbn [default from_option id serializer_error first_error fold_right
         dict_set snd String.eqb Ascii.eqb Bool.eqb];
    now rewrite Hu, S1, S2, ?S3, ?S4.
Qed.

Lemma new_fit_record_fields user d id c u :
  let record := new_fit_record user d id c u in
  dict_get "fitId" record = Some (PStr id) /\
  dict_get "user_id" record = Some user /\
  dict_get "items" record = Some (default PNone (dict_get "items" d)) /\
  dict_get "mode" record = Some (default PNone (dict_get "mode" d)) /\
  status_of record = PENDING /\
  dict_get "createdAt" record = Some (PStr c) /\
  dict_get "updatedAt" record = Some (PStr u) /\
  dict_get "name" record = dict_get "name" d /\
  dict_get "body_asset_key" record = dict_get "body_asset_key" d /\
  dict_has "imageUrl" record = false.
Proof.
  unfold new_fit_record, copy_field, status_of, dict_has.
  destruct (dict_get "name" d) eqn:Hn, (dict_get "body_asset_key" d) eqn:Hb;
    cbn; repeat split; reflexivity.
Qed.

(** What fit creation does with a valid body, up to the mode. *)
Lemma fit_create_run event user raw d w :
  get_user_id event = inr user ->
  py_getitem event "body" = inr raw ->
  json_loads raw = inr (PDict d) ->
  fit_body_valid d = true ->
  fit_create_handler event w =
    try_except
      (fit_persist user (PDict d) (env_uuid (env w) (ticks w))
         (new_fit_record user d (env_uuid (env w) (ticks w))
            (env_clock (env w) (S (ticks w)))
            (env_clock (env w) (S (S (ticks w))))))
      [([ValueError],
        fun e => return_some (create_error_response 401 "UNAUTHORIZED"
                                (str_exn e) None));
       ([ClientError],
        fun _ => return_some (create_error_response 500 "DYNAMODB_ERROR"
                                "Failed to create fit job" None));
       ([Exception],
        fun _ => return_some (create_error_response 500 "INTERNAL_ERROR"
                                "An unexpected error occurred" None))]
      (after 3 w).
Proof.
  intros Hu Hb Hj Hvalid. unfold fit_create_handler, parse_body.
  rewrite Hu. unfold try_except, try_or_return.
  cbv beta iota delta [bind lift ret].
  rewrite Hb, Hj, (fit_validate_valid d Hvalid).
  now rewrite (fit_new_record_run user d w Hvalid).
Qed.

(** What fit creation does with a valid BEDROCK body when the store
    accepts the record. *)
Lemma fit_bedrock_run event user raw d w :
  get_user_id event = inr user ->
  py_getitem event "body" = inr raw ->
  json_loads raw = inr (PDict d) ->
  fit_body_valid d = true ->
  dict_get "mode" d = Some (PStr "BEDROCK") ->
  storable user = true ->
  storable_fields fit_body_fields d = true ->
  env_fault (env w) (S (S (S (ticks w)))) = None ->
  let fit_id := env_uuid (env w) (ticks w) in
  let record :=
    new_fit_record user d fit_id
      (env_clock (env w) (S (ticks w)))
      (env_clock (env w) (S (S (ticks w)))) in
  fit_create_handler event w =
    (inr (Some (fit_created fit_id "PENDING")),
     commit (store_put FITS_TABLE [fit_id] record (store w)) (after 4 w)).
Proof.
  intros Hu Hb Hj Hvalid Hmode Huser Hfields Hfault fit_id record.
  pose proof (new_fit_record_fields user d fit_id
                (env_clock (env w) (S (ticks w)))
                (env_clock (env w) (S (S (ticks w)))))
    as (Hid & _).
  fold record in Hid.
  pose proof (new_fit_record_storable user d fit_id
                (env_clock (env w) (S (ticks w)))
                (env_clock (env w) (S (S (ticks w)))) Hvalid Huser Hfields)
    as Hser.
  fold record in Hser.
  rewrite (fit_create_run event user raw d w Hu Hb Hj Hvalid).
  fold fit_id. fold record.
  unfold try_except, fit_persist. unfold bind at 1.
  rewrite put_item_run, Hser. cbn [key_schema key_values]. rewrite Hid.
  cbn [after env ticks next_tick]. rewrite Hfault.
  cbv beta iota delta [bind lift ret]. cbn [py_getitem]. rewrite Hmode.
  reflexivity.
Qed.

(** X13: a valid BEDROCK request whose caller and body fields the
    serializer accepts.  When the store accepts the record,
    the answer is 201 with status PENDING and the table holds, under a
    fresh identifier, the record of the source: the caller, the items
    and the mode of the body, status PENDING, the two times read for
    [createdAt] and [updatedAt], the optional [name] and
    [body_asset_key], and no image; it is the only write.  When the
    store refuses the record with a ClientError, the answer is 500
    DYNAMODB_ERROR and nothing is written. *)
Theorem fit_bedrock_pending (event user raw : pyval) (d : dict) (w : World) :
  get_user_id event = inr user ->
  py_getitem event "body" = inr raw ->
  json_loads raw = inr (PDict d) ->
  fit_body_valid d = true ->
  dict_get "mode" d = Some (PStr "BEDROCK") ->
  storable user = true ->
  storable_fields fit_body_fields d = true ->
  let fit_id := env_uuid (env w) (ticks w) in
  let record :=
    new_fit_record user d fit_id
      (env_clock (env w) (1 + ticks w)%nat)
      (env_clock (env w) (2 + ticks w)%nat) in
  (env_fault (env w) (3 + ticks w)%nat = None ->
   fit_create_handler event w =
     (inr (Some (fit_created fit_id "PENDING")),
      commit (store_put FITS_TABLE [fit_id] record (store w)) (after 4 w))
   /\ dict_get "user_id" record = Some user
   /\ dict_get "items" record = dict_get "items" d
   /\ status_of record = PENDING
   /\ dict_has "imageUrl" record = false)
  /\
  (forall msg,
     env_fault (env w) (3 + ticks w)%nat = Some (Exn ClientError msg) ->
     fit_create_handler event w =
       (inr (Some (error_reply 500 "DYNAMODB_ERROR"
            "Failed to create fit job")),
        after 4 w)).
Proof.
  cbn [Nat.add]. intros Hu Hb Hj Hvalid Hmode Hsu Hsf.
  set (fit_id := env_uuid (env w) (ticks w)).
  set (record := new_fit_record user d fit_id _ _).
  pose proof (new_fit_record_storable user d fit_id
                (env_clock (env w) (S (ticks w)))
                (env_clock (env w) (S (S (ticks w)))) Hvalid Hsu Hsf)
    as Hser.
  fold record in Hser.
  pose proof (new_fit_record_fields user d fit_id
                (env_clock (env w) (S (ticks w)))
                (env_clock (env w) (S (S (ticks w)))))
    as (Hid & Huser & Hitems & _ & Hstatus & _ & _ & _ & _ & Himage).
  fold record in Hid, Huser, Hitems, Hstatus, Himage.
  assert (Hrun := fit_create_run event user raw d w Hu Hb Hj Hvalid).
  fold fit_id in Hrun. fold record in Hrun.
  split.
  - intros Hfault. split; [|repeat split; try assumption].
    + now apply (fit_bedrock_run event user raw d w).
    + rewrite Hitems. unfold fit_body_valid, items_list in Hvalid.
      now destruct (dict_get "items" d).
  - intros msg Hfault.
    rewrite Hrun. unfold try_except, fit_persist. unfold bind at 1.
    rewrite put_item_run, Hser. cbn [after env ticks next_tick].
    rewrite Hfault. reflexivity.
Qed.

Lemma return_some_world (r : result Response) w :
  snd (return_some r w) = w.
Proof. now destruct r. Qed.

Lemma fit_persist_scope user body id data w :
  dict_get "fitId" data = Some (PStr id) ->
  only_own FITS_TABLE (Some id)
    (store w) (store (snd (fit_persist user body id data w))).
Proof.
  intros Hid. unfold fit_persist. unfold bind at 1. rewrite put_item_run.
  cbn [key_schema key_values]. rewrite Hid.
  destruct (serializer_error (PDict data)); [apply only_own_refl|].
  destruct (env_fault (env w) (ticks w)); [apply only_own_refl|].
  set (s1 := store_put FITS_TABLE [id] data (store w)).
  assert (H1 : only_own FITS_TABLE (Some id) (store w) s1)
    by now apply only_own_put.
  cbv beta iota delta [bind lift ret raise].
  destruct (py_getitem body "mode") as [e|mode]; [exact H1|].
  destruct (py_eq_str mode "BEDROCK");
    [rewrite return_some_world; exact H1|].
  destruct (py_eq_str mode "MVP_COMPOSITE"); [|exact H1].
  rewrite fit_generate_run. cbn [env ticks store commit next_tick].
  destruct (env_fault _ _);
    [destruct (env_fault _ _)|]; cbn [fst snd store commit];
    try (eapply only_own_trans; [exact H1|];
         unfold ready_store, failed_store; now apply only_own_put).
  replace (store (after 4 (commit s1 (next_tick w)))) with s1
    by reflexivity.
  exact H1.
Qed.

(** X14: whatever the request, fit creation changes nothing but the
    record under the identifier it draws: every other fit, and the
    profile and cart tables, are as they were. *)
Theorem fit_create_scope event w :
  only_own FITS_TABLE (Some (env_uuid (env w) (ticks w)))
    (store w) (store (snd (fit_create_handler event w))).
Proof.
  unfold fit_create_handler.
  rewrite snd_try_except by (repeat constructor).
  unfold parse_body, try_or_return.
  cbv beta iota delta [bind lift ret raise].
  destruct (get_user_id event) as [e|user]; [apply only_own_refl|].
  destruct (py_getitem event "body") as [e|raw].
  { destruct (isinstance_exn e _); apply only_own_refl. }
  destruct (json_loads raw) as [e|body].
  { destruct (isinstance_exn e _); apply only_own_refl. }
  destruct (fit_validate body) as [e|[r|]]; try apply only_own_refl.
  destruct (fit_new_record_spec user body w) as (Hs & Hh & Hnew).
  destruct (fit_new_record user body w) as [[e|[id data]] w1] eqn:Hrun;
    cbn [fst snd] in *.
  { rewrite Hs. apply only_own_refl. }
  destruct (Hnew _ eq_refl) as (_ & _ & Hid & Hkey & _).
  cbn [fst snd] in *. subst id. rewrite <- Hs.
  now apply fit_persist_scope.
Qed.

(** What is read from the table and holds a number cannot be
    written as JSON. *)
Lemma json_dumps_read_item (d : dict) :
  json_dumps (PDict (read_item d))
  = if no_numbers (PDict d) then inr (json_text (PDict d))
    else inl (Exn TypeError "Object of type Decimal is not JSON serializable").
Proof.
  pose proof (has_decimal_as_read (PDict d)) as H.
  change (as_read (PDict d)) with (PDict (read_item d)) in H.
  unfold json_dumps. rewrite H.
  destruct (no_numbers (PDict d)) eqn:E; cbn [negb]; [|reflexivity].
  change (PDict (read_item d)) with (as_read (PDict d)).
  now rewrite (as_read_no_numbers _ E).
Qed.

Lemma py_eq_str_as_read v s : py_eq_str (as_read v) s = py_eq_str v s.
Proof. now destruct v. Qed.

(** The answer is made of what was read from the record. *)
Ltac read_back :=
  match goal with
  | |- context [json_dumps ?x] =>
      match goal with
      | |- context [no_numbers (PDict ?l)] =>
          change x with (PDict (read_item l));
          rewrite (json_dumps_read_item l);
          destruct (no_numbers (PDict l)); reflexivity
      end
  end.

(** What retrieval answers to the owner of a record. *)
Lemma fit_get_owner_run (event user path owner : pyval) (fit_id : string)
    (it : item) (w : World) :
  get_user_id event = inr user ->
  py_getitem event "pathParameters" = inr path ->
  py_getitem path "fitId" = inr (PStr fit_id) ->
  fit_id <> EmptyString ->
  env_fault (env w) (ticks w) = None ->
  fits (store w) !! [fit_id] = Some it ->
  dict_get "user_id" it = Some owner ->
  py_eq owner user = true ->
  forallb (fun f => dict_has f it)
    ["fitId"; "status"; "items"; "createdAt"; "updatedAt"] = true ->
  let shown image :=
    if no_numbers (PDict (fit_view it image))
    then reply 200 (PDict (fit_view it image)) None
    else internal_error in
  (has_image it = false ->
   fit_get_handler event w = (inr (shown PNone), next_tick w))
  /\
  (has_image it = true ->
   (forall key,
      dict_get "imageUrl" it = Some (PStr key) ->
      (env_fault (env w) (S (ticks w)) = None ->
       fit_get_handler event w =
         (inr (shown (PStr (env_url (env w) (S (ticks w)) "get_object"
                              key 3600))),
          after 2 w))
      /\
      (forall msg,
         env_fault (env w) (S (ticks w)) = Some (Exn ClientError msg) ->
         fit_get_handler event w = (inr (shown PNone), after 2 w)))
   /\
   (forall key,
      dict_get "imageUrl" it = Some key ->
      (forall text, key <> PStr text) ->
      fit_get_handler event w = (inr internal_error, next_tick w))).
Proof.
  intros Hu Hp Hid Hne Hfault Hit Howner Heq Hfields shown.
  cbn [forallb] in Hfields. unfold dict_has in Hfields.
  destruct (dict_get "fitId" it) as [f|] eqn:Hf; [|discriminate].
  destruct (dict_get "status" it) as [st|] eqn:Hst; [|discriminate].
  destruct (dict_get "items" it) as [items|] eqn:Hitems; [|discriminate].
  destruct (dict_get "createdAt" it) as [c|] eqn:Hc; [|discriminate].
  destruct (dict_get "updatedAt" it) as [u|] eqn:Hup; [|discriminate].
  clear Hfields.
  assert (Htruthy : py_truthy (PStr fit_id) = true).
  { cbn. apply negb_true_iff, String.eqb_neq, Hne. }
  unfold has_image. rewrite Hst.
  subst shown. unfold fit_view, copy_field. rewrite Hf, Hst, Hitems, Hc, Hup.
  cbn [default from_option id].
  split; [intros Himg | intros Himg; split;
           [intros key Hkey; split; [intros Hsign | intros msg Hsign]
           |intros key Hkey Htext]];
    unfold fit_get_handler;
    rewrite Hu; mstep; rewrite Hp; mstep; rewrite Hid; mstep;
    rewrite Htruthy; mstep; rewrite Hfault;
    cbn [key_schema key_values dict_get String.eqb Ascii.eqb Bool.eqb
         table_of store next_tick negb];
    rewrite Hit;
    cbn [dict_has dict_get String.eqb Ascii.eqb Bool.eqb negb];
    mstep; cbn [dict_get String.eqb Ascii.eqb Bool.eqb]; mstep;
    rewrite !dict_get_read_item, Howner, Hf, Hst, Hitems, Hc, Hup;
    cbn [fmap option_fmap option_map]; mstep;
    rewrite py_eq_as_read, Heq; cbn [negb]; mstep;
    rewrite !dict_has_read_item, ?py_eq_str_as_read.
  - unfold dict_has in *.
    destruct (dict_get "name" it) as [name|] eqn:Hname;
      cbn [fmap option_fmap option_map]; mstep;
      (destruct (py_eq_str st "READY"); cbn [andb] in Himg;
       try rewrite Himg; mstep).
    all: read_back.
  - apply andb_true_iff in Himg as [Hready Himage]. rewrite Hready, Himage.
    rewrite Hkey. unfold dict_has.
    destruct (dict_get "name" it) as [name|] eqn:Hname;
      cbn [fmap option_fmap option_map as_read]; mstep;
      cbn [ticks next_tick env]; rewrite Hsign; mstep; read_back.
  - apply andb_true_iff in Himg as [Hready Himage]. rewrite Hready, Himage.
    rewrite Hkey. unfold dict_has.
    destruct (dict_get "name" it) as [name|] eqn:Hname;
      cbn [fmap option_fmap option_map as_read]; mstep;
      cbn [ticks next_tick env]; rewrite Hsign; mstep; read_back.
  - apply andb_true_iff in Himg as [Hready Himage]. rewrite Hready, Himage.
    rewrite Hkey. unfold dict_has.
    destruct (dict_get "name" it) as [name|] eqn:Hname;
      cbn [fmap option_fmap option_map]; mstep;
      (destruct key as [| | | |text| | |];
       [..|now elim (Htext text)| | |]; reflexivity).
Qed.


(** X15: retrieval by the owner of a record.  The answer is made of
    the identifier, status, items and times of the record, its name
    when it has one, and [imageUrl]: a URL signed for the image key
    when the record is READY and has one, null otherwise, and null too
    when the signing raises a ClientError.  It is 200 only when none of
    these holds a number: a number is read back from the table as a
    Decimal, which [json.dumps] refuses, and the answer is then 500
    INTERNAL_ERROR.  An image key that is not a text is refused by the
    signing and answered 500 INTERNAL_ERROR as well. *)
Theorem fit_get_owner (event user path owner : pyval) (fit_id : string)
    (it : item) (w : World) :
  get_user_id event = inr user ->
  py_getitem event "pathParameters" = inr path ->
  py_getitem path "fitId" = inr (PStr fit_id) ->
  fit_id <> EmptyString ->
  env_fault (env w) (ticks w) = None ->
  fits (store w) !! [fit_id] = Some it ->
  dict_get "user_id" it = Some owner ->
  py_eq owner user = true ->
  forallb (fun f => dict_has f it)
    ["fitId"; "status"; "items"; "createdAt"; "updatedAt"] = true ->
  let shown image :=
    if no_numbers (PDict (fit_view it image))
    then reply 200 (PDict (fit_view it image)) None
    else internal_error in
  (has_image it = false ->
   fit_get_handler event w = (inr (shown PNone), next_tick w))
  /\
  (has_image it = true ->
   (forall key,
      dict_get "imageUrl" it = Some (PStr key) ->
      (env_fault (env w) (S (ticks w)) = None ->
       fit_get_handler event w =
         (inr (shown (PStr (env_url (env w) (S (ticks w)) "get_object"
                              key 3600))),
          after 2 w))
      /\
      (forall msg,
         env_fault (env w) (S (ticks w)) = Some (Exn ClientError msg) ->
         fit_get_handler event w = (inr (shown PNone), after 2 w)))
   /\
   (forall key,
      dict_get "imageUrl" it = Some key ->
      (forall text, key <> PStr text) ->
      fit_get_handler event w = (inr internal_error, next_tick w))).
Proof. apply fit_get_owner_run. Qed.

(** X16: retrieval without an identifier.  An empty or null [fitId]
    is answered 400 MISSING_PARAMETER before the store is asked; a
    request without path parameters, or without [fitId] among them, is
    answered 500 INTERNAL_ERROR.  The world is untouched. *)
Theorem fit_get_without_id (event user : pyval) (w : World) :
  get_user_id event = inr user ->
  (forall path fit_id,
     py_getitem event "pathParameters" = inr path ->
     py_getitem path "fitId" = inr fit_id ->
     py_truthy fit_id = false ->
     fit_get_handler event w =
       (inr (error_reply 400 "MISSING_PARAMETER"
            "fitId is required"), w))
  /\
  (forall e,
     py_getitem event "pathParameters" = inl e \/
     (exists path, py_getitem event "pathParameters" = inr path /\
                   py_getitem path "fitId" = inl e) ->
     exn_class_of e = KeyError \/ exn_class_of e = TypeError ->
     fit_get_handler event w = (inr internal_error, w)).
Proof.
  intros Hu. split.
  - intros path fit_id Hp Hid Hfalsy. unfold fit_get_handler.
    rewrite Hu; mstep. rewrite Hp; mstep. rewrite Hid; mstep.
    now rewrite Hfalsy.
  - intros e He Hclass. unfold fit_get_handler. rewrite Hu; mstep.
    destruct He as [Hp|(path & Hp & Hid)].
    + rewrite Hp. mstep. destruct e as [c msg]. cbn in Hclass.
      now destruct Hclass as [-> | ->].
    + rewrite Hp; mstep. rewrite Hid. mstep. destruct e as [c msg].
      cbn in Hclass. now destruct Hclass as [-> | ->].
Qed.

(** The record of a job after the update to READY. *)
Lemma ready_record user fid now s data :
  fits s !! [fid] = Some data ->
  fits (ready_store user fid now s) !! [fid] =
    Some (dict_set "updatedAt" (PStr now)
            (dict_set "imageUrl"
               (PStr ("generated/" ++ py_str user ++ "/" ++ fid ++ ".jpg"))
               (dict_set "status" (PStr "READY") data))).
Proof.
  intros Hdata. unfold ready_store, store_put, updated_item.
  cbn [table_of set_table fits]. rewrite Hdata, lookup_insert_eq.
  reflexivity.
Qed.

(** What fit creation does with a valid MVP_COMPOSITE body when the
    store accepts the record and the update to READY. *)
Lemma fit_composite_run event user raw d w :
  get_user_id event = inr user ->
  py_getitem event "body" = inr raw ->
  json_loads raw = inr (PDict d) ->
  fit_body_valid d = true ->
  dict_get "mode" d = Some (PStr "MVP_COMPOSITE") ->
  storable user = true ->
  storable_fields fit_body_fields d = true ->
  env_fault (env w) (S (S (S (ticks w)))) = None ->
  env_fault (env w) (S (S (S (S (S (ticks w)))))) = None ->
  let fit_id := env_uuid (env w) (ticks w) in
  let record :=
    new_fit_record user d fit_id
      (env_clock (env w) (S (ticks w)))
      (env_clock (env w) (S (S (ticks w)))) in
  fit_create_handler event w =
    (inr (Some (fit_created fit_id "READY")),
     commit
       (ready_store user fit_id (env_clock (env w) (S (S (S (S (ticks w))))))
          (store_put FITS_TABLE [fit_id] record (store w)))
       (after 2
          (commit (store_put FITS_TABLE [fit_id] record (store w))
             (after 4 w)))).
Proof.
  intros Hu Hb Hj Hvalid Hmode Hsu Hsf Hput Hready fit_id record.
  pose proof (new_fit_record_fields user d fit_id
                (env_clock (env w) (S (ticks w)))
                (env_clock (env w) (S (S (ticks w)))))
    as (Hid & _).
  fold record in Hid.
  pose proof (new_fit_record_storable user d fit_id
                (env_clock (env w) (S (ticks w)))
                (env_clock (env w) (S (S (ticks w)))) Hvalid Hsu Hsf)
    as Hser.
  fold record in Hser.
  rewrite (fit_create_run event user raw d w Hu Hb Hj Hvalid).
  fold fit_id. fold record.
  unfold try_except, fit_persist. unfold bind at 1.
  rewrite put_item_run, Hser. cbn [key_schema key_values]. rewrite Hid.
  cbn [after env ticks next_tick]. rewrite Hput.
  cbv beta iota delta [bind lift ret]. cbn [py_getitem]. rewrite Hmode.
  cbn [py_eq_str String.eqb Ascii.eqb Bool.eqb].
  rewrite fit_generate_run.
  cbn [env ticks store commit next_tick]. rewrite Hready. reflexivity.
Qed.

Lemma fit_view_fields it image :
  let view := fit_view it image in
  dict_get "fitId" view = Some (default PNone (dict_get "fitId" it)) /\
  dict_get "status" view = Some (default PNone (dict_get "status" it)) /\
  dict_get "items" view = Some (default PNone (dict_get "items" it)) /\
  dict_get "imageUrl" view = Some image /\
  dict_get "name" view = dict_get "name" it.
Proof.
  unfold fit_view, copy_field.
  destruct (dict_get "name" it) eqn:Hn; cbn; repeat split; reflexivity.
Qed.

(** A value without numbers passes the serializer. *)
Lemma no_numbers_storable v : no_numbers v = true -> serializer_error v = None.
Proof.
  induction v as [|b|z|f|s|l IH|d IH|x] using pyval_nested_ind;
    cbn [no_numbers serializer_error]; try reflexivity; try discriminate.
  - induction l as [|a l IHl]; [reflexivity|]. intros H.
    cbn in H. apply andb_true_iff in H as [Ha Hl]. inversion IH; subst.
    cbn. rewrite (H1 Ha). auto.
  - induction d as [|[k a] d IHd]; [reflexivity|]. intros H.
    cbn in H. apply andb_true_iff in H as [Ha Hd]. inversion IH; subst.
    cbn in *. rewrite (H1 Ha). auto.
Qed.

Lemma plain_fields_storable fields d :
  plain_fields fields d = true -> storable_fields fields d = true.
Proof.
  unfold plain_fields, storable_fields. rewrite !forallb_forall.
  intros H f Hf. specialize (H f Hf). destruct (dict_get f d) as [v|]; auto.
  unfold storable. now rewrite (no_numbers_storable v H).
Qed.

Lemma plain_fields_value fields d f v :
  plain_fields fields d = true -> In f fields -> dict_get f d = Some v ->
  no_numbers v = true.
Proof.
  unfold plain_fields. rewrite forallb_forall. intros H Hin Hv.
  specialize (H f Hin). now rewrite Hv in H.
Qed.

(** What is shown of a record holds no number when the record holds
    none in the fields that are shown. *)
Lemma fit_view_plain it image :
  no_numbers image = true ->
  plain_fields ["fitId"; "status"; "items"; "createdAt"; "updatedAt"; "name"]
    it = true ->
  no_numbers (PDict (fit_view it image)) = true.
Proof.
  intros Himage H. unfold plain_fields in H. cbn [forallb] in H.
  repeat (apply andb_true_iff in H as [? H]).
  unfold fit_view, copy_field.
  destruct (dict_get "fitId" it), (dict_get "status" it),
    (dict_get "items" it), (dict_get "createdAt" it),
    (dict_get "updatedAt" it), (dict_get "name" it);
    cbn [default from_option id no_numbers forallb snd dict_set
         String.eqb Ascii.eqb Bool.eqb];
    repeat match goal with
           | E : no_numbers _ = true |- _ => rewrite E; clear E
           end;
    reflexivity.
Qed.

(** X17: creation and retrieval compose, for a body without numbers.
    After a fit is created from a valid body whose [items], [name] and
    [body_asset_key] hold no number, its creator retrieves it under the
    identifier of the 201 answer: a BEDROCK job is shown PENDING with a
    null [imageUrl], an MVP_COMPOSITE job READY with a URL signed for
    the key [generated/<user>/<identifier>.jpg], each with the items
    that were submitted.  (The store and the signing serve the calls.) *)
Theorem fit_create_then_get (create get raw path : pyval) (u : string)
    (d : dict) (w : World) :
  get_user_id create = inr (PStr u) ->
  py_getitem create "body" = inr raw ->
  json_loads raw = inr (PDict d) ->
  fit_body_valid d = true ->
  plain_fields fit_body_fields d = true ->
  let fit_id := env_uuid (env w) (ticks w) in
  get_user_id get = inr (PStr u) ->
  py_getitem get "pathParameters" = inr path ->
  py_getitem path "fitId" = inr (PStr fit_id) ->
  fit_id <> EmptyString ->
  env_fault (env w) (3 + ticks w)%nat = None ->
  let w1 := snd (fit_create_handler create w) in
  (dict_get "mode" d = Some (PStr "BEDROCK") ->
   env_fault (env w) (4 + ticks w)%nat = None ->
   exists view,
     fit_get_handler get w1 =
       (inr (reply 200 (PDict view) None), next_tick w1) /\
     dict_get "fitId" view = Some (PStr fit_id) /\
     dict_get "status" view = Some (PStr "PENDING") /\
     dict_get "items" view = dict_get "items" d /\
     dict_get "imageUrl" view = Some PNone)
  /\
  (dict_get "mode" d = Some (PStr "MVP_COMPOSITE") ->
   env_fault (env w) (5 + ticks w)%nat = None ->
   env_fault (env w) (6 + ticks w)%nat = None ->
   env_fault (env w) (7 + ticks w)%nat = None ->
   exists view,
     fit_get_handler get w1 =
       (inr (reply 200 (PDict view) None), after 2 w1) /\
     dict_get "fitId" view = Some (PStr fit_id) /\
     dict_get "status" view = Some (PStr "READY") /\
     dict_get "items" view = dict_get "items" d /\
     dict_get "imageUrl" view
       = Some (PStr (env_url (env w) (7 + ticks w)%nat "get_object"
                       ("generated/" ++ py_str (PStr u) ++ "/" ++ fit_id
                          ++ ".jpg") 3600))).
Proof.
  cbn [Nat.add]. intros Hu Hb Hj Hvalid Hplain.
  set (fit_id := env_uuid (env w) (ticks w)).
  intros Hu2 Hp Hid Hne Hput.
  pose proof (plain_fields_storable _ _ Hplain) as Hsf.
  set (record := new_fit_record (PStr u) d fit_id
                   (env_clock (env w) (S (ticks w)))
                   (env_clock (env w) (S (S (ticks w))))).
  pose proof (new_fit_record_fields (PStr u) d fit_id
                (env_clock (env w) (S (ticks w)))
                (env_clock (env w) (S (S (ticks w)))))
    as (Hrid & Hruser & Hritems & _ & Hrstatus & Hrc & Hru & Hrname & _
        & Hrimage).
  fold record in Hrid, Hruser, Hritems, Hrstatus, Hrc, Hru, Hrname, Hrimage.
  assert (Hitems : Some (default PNone (dict_get "items" d))
                   = dict_get "items" d).
  { unfold fit_body_valid, items_list in Hvalid.
    now destruct (dict_get "items" d). }
  unfold status_of, PENDING in Hrstatus.
  assert (Hpi : no_numbers (default PNone (dict_get "items" d)) = true).
  { destruct (dict_get "items" d) as [v|] eqn:E; [|reflexivity].
    apply (plain_fields_value fit_body_fields d "items" v Hplain);
      [cbn; tauto | exact E]. }
  assert (Hpn : match dict_get "name" d with
                | Some v => no_numbers v
                | None => true
                end = true).
  { destruct (dict_get "name" d) as [v|] eqn:E; [|reflexivity].
    apply (plain_fields_value fit_body_fields d "name" v Hplain);
      [cbn; tauto | exact E]. }
  split.
  - intros Hmode Hget.
    rewrite (fit_bedrock_run create (PStr u) raw d w Hu Hb Hj Hvalid Hmode
               eq_refl Hsf Hput).
    fold fit_id. fold record. cbn [snd].
    set (w1 := commit _ _).
    destruct (fit_get_owner_run get (PStr u) path (PStr u) fit_id record w1
                Hu2 Hp Hid Hne Hget) as [Hshown _].
    + subst w1. cbn [store commit store_put table_of set_table fits].
      apply lookup_insert_eq.
    + exact Hruser.
    + cbn. apply String.eqb_refl.
    + cbn [forallb]. unfold dict_has.
      now rewrite Hrid, Hrstatus, Hritems, Hrc, Hru.
    + exists (fit_view record PNone).
      destruct (fit_view_fields record PNone) as (Hf & Hs & Hi & Him & _).
      split.
      * rewrite Hshown by (unfold has_image; now rewrite Hrstatus).
        rewrite fit_view_plain; [reflexivity..|].
        unfold plain_fields. cbn [forallb].
        now rewrite Hrid, Hrstatus, Hritems, Hrc, Hru, Hrname, Hpi, Hpn.
      * rewrite Hf, Hs, Hi, Him, Hrid, Hrstatus, Hritems.
        cbn [default from_option id]. auto.
  - intros Hmode Hready Hget Hsign.
    rewrite (fit_composite_run create (PStr u) raw d w Hu Hb Hj Hvalid Hmode
               eq_refl Hsf Hput Hready).
    fold fit_id. fold record. cbn [snd].
    set (s1 := store_put FITS_TABLE [fit_id] record (store w)).
    set (w1 := commit _ _).
    assert (Hs1 : fits s1 !! [fit_id] = Some record)
      by (subst s1; cbn [store_put table_of set_table fits];
          apply lookup_insert_eq).
    pose proof (ready_record (PStr u) fit_id
                  (env_clock (env w) (S (S (S (S (ticks w))))))
                  s1 record Hs1) as Hit.
    set (key := "generated/" ++ py_str (PStr u) ++ "/" ++ fit_id ++ ".jpg")
      in *.
    set (it := dict_set "updatedAt" _ _) in Hit.
    assert (Hfields :
      dict_get "fitId" it = Some (PStr fit_id) /\
      dict_get "user_id" it = Some (PStr u) /\
      dict_get "items" it = Some (default PNone (dict_get "items" d)) /\
      dict_get "status" it = Some (PStr "READY") /\
      dict_get "createdAt" it
        = Some (PStr (env_clock (env w) (S (ticks w)))) /\
      dict_get "updatedAt" it
        = Some (PStr (env_clock (env w) (S (S (S (S (ticks w))))))) /\
      dict_get "imageUrl" it = Some (PStr key) /\
      dict_get "name" it = dict_get "name" d).
    { subst it. dict_lookup.
      rewrite Hrid, Hruser, Hritems, Hrc, Hrname. repeat split; reflexivity. }
    destruct Hfields as (Hf & Ho & Hi & Hs & Hc & Hup & Him & Hn).
    destruct (fit_get_owner_run get (PStr u) path (PStr u) fit_id it w1
                Hu2 Hp Hid Hne Hget) as [_ Hshown].
    + subst w1. cbn [store commit]. exact Hit.
    + exact Ho.
    + cbn. apply String.eqb_refl.
    + cbn [forallb]. unfold dict_has in *.
      now rewrite Hf, Hs, Hi, Hc, Hup.
    + assert (Himg : has_image it = true)
        by (unfold has_image, dict_has; now rewrite Hs, Him).
      destruct (Hshown Himg) as [Hsigned _].
      destruct (Hsigned key Him) as [Hurl _].
      exists (fit_view it (PStr (env_url (env w1) (S (ticks w1)) "get_object"
                                   key 3600))).
      destruct (fit_view_fields it
                  (PStr (env_url (env w1) (S (ticks w1)) "get_object"
                           key 3600)))
        as (Hvf & Hvs & Hvi & Hvim & _).
      split.
      * rewrite (Hurl Hsign).
        rewrite fit_view_plain; [reflexivity..|].
        unfold plain_fields. cbn [forallb].
        now rewrite Hf, Hs, Hi, Hc, Hup, Hn, Hpi, Hpn.
      * rewrite Hvf, Hvs, Hvi, Hvim, Hf, Hs, Hi.
        cbn [default from_option id]. auto.
Qed.

End FitJobs.

(** ** The listing of fits *)

Section FitsList.

Context {lib : PyLib}.

Lemma no_numbers_plain v : no_numbers v = true -> has_decimal v = false.
Proof.
  intros H. rewrite <- (as_read_no_numbers v H), has_decimal_as_read.
  now rewrite H.
Qed.

(** One entry of the listing, for a record as it is read from the
    table; the signing may fail with a ClientError. *)
Lemma fit_summary_of_run item w :
  listable item = true ->
  (forall e, env_fault (env w) (ticks w) = Some e ->
             exn_class_of e = ClientError) ->
  exists s w',
    fit_summary_of (as_read item) w = (inr s, w') /\ summarises item s /\
    has_decimal s = false /\
    env w' = env w /\ (ticks w <= ticks w')%nat.
Proof.
  intros Hitem Hfault. destruct item as [| | | | | |it|]; try discriminate.
  cbn [listable] in Hitem.
  apply andb_true_iff in Hitem as [Hitem Himage].
  apply andb_true_iff in Hitem as [Hitem Hplain].
  apply andb_true_iff in Hitem as [Hitem Hstatus].
  apply andb_true_iff in Hitem as [Hid Hcreated].
  unfold dict_has in Hid, Hcreated, Hstatus.
  destruct (dict_get "fitId" it) as [f|] eqn:Hf; [|discriminate].
  destruct (dict_get "createdAt" it) as [c|] eqn:Hc; [|discriminate].
  destruct (dict_get "status" it) as [st|] eqn:Hst; [|discriminate].
  unfold has_image in Himage. rewrite Hst in Himage.
  unfold plain_fields in Hplain. cbn [forallb] in Hplain.
  rewrite Hf, Hc, Hst in Hplain.
  apply andb_true_iff in Hplain as [Pf Hplain].
  apply andb_true_iff in Hplain as [Pc Hplain].
  apply andb_true_iff in Hplain as [Ps Hplain].
  apply andb_true_iff in Hplain as [Pn _].
  assert (Hsum : forall name_part thumb,
    (thumb = PNone \/
     (has_image it = true /\ exists url, thumb = PStr url)) ->
    dict_get "name" name_part = dict_get "name" it ->
    dict_get "fitId" name_part = Some f ->
    dict_get "createdAt" name_part = Some c ->
    dict_get "status" name_part = Some st ->
    dict_get "thumbnailUrl" name_part = Some thumb ->
    summarises (PDict it) (PDict name_part)).
  { intros s thumb Hthumb Hn Hsf Hsc Hss Hst'. exists it, s.
    rewrite Hsf, Hsc, Hss, Hn, Hst', Hf, Hc, Hst.
    repeat split; try reflexivity.
    destruct Hthumb as [->|(Hi & url & ->)]; [now left | right; eauto]. }
  change (as_read (PDict it)) with (PDict (read_item it)).
  unfold fit_summary_of. mstep.
  rewrite !dict_get_read_item, !dict_has_read_item, Hf, Hc, Hst.
  cbn [fmap option_fmap option_map].
  rewrite (as_read_no_numbers f Pf), (as_read_no_numbers c Pc),
    (as_read_no_numbers st Ps).
  pose proof (no_numbers_plain f Pf) as Df.
  pose proof (no_numbers_plain c Pc) as Dc.
  pose proof (no_numbers_plain st Ps) as Ds.
  mstep. unfold dict_has in *.
  destruct (dict_get "name" it) as [name|] eqn:Hname;
    cbn [fmap option_fmap option_map];
    [rewrite (as_read_no_numbers name Pn);
     pose proof (no_numbers_plain name Pn) as Dn|];
    mstep;
    (destruct (py_eq_str st "READY") eqn:Hready; mstep;
     [destruct (dict_get "imageUrl" it) as [key|] eqn:Hkey;
      cbn [fmap option_fmap option_map]; mstep|]).
  all: cbn [negb orb andb] in Himage.
  all: try (destruct key as [| | | |k| | |]; try discriminate;
            cbn [as_read]; mstep;
            cbn [py_replace]; mstep;
            destruct (env_fault (env w) (ticks w)) as [e|] eqn:He;
            [specialize (Hfault e eq_refl); destruct e as [cl msg];
             cbn in Hfault; subst cl; cbn|]).
  all: eexists _, _; (split; [reflexivity|]);
       (split; [|split; [|split; [reflexivity | cbn; lia]]]).
  all: try (cbn [has_decimal existsb snd dict_set String.eqb Ascii.eqb
                 Bool.eqb];
            now rewrite Df, Dc, Ds, ?Dn).
  all: eapply Hsum; try reflexivity.
  all: try (now left).
  all: right; split; [unfold has_image; rewrite Hst, Hready; cbn;
                      unfold dict_has; now rewrite Hkey | eauto].
Qed.

Lemma fit_summaries_run items : forall w,
  forallb listable items = true ->
  (forall k e, (ticks w <= k)%nat -> env_fault (env w) k = Some e ->
               exn_class_of e = ClientError) ->
  exists l w',
    fit_summaries (map as_read items) w = (inr l, w') /\
    Forall2 summarises items l /\
    has_decimal (PList l) = false.
Proof.
  induction items as [|item items IH]; intros w Hitems Hfault.
  - exists [], w. split; [reflexivity | split; [constructor | reflexivity]].
  - cbn [forallb] in Hitems. apply andb_true_iff in Hitems as [Hitem Hitems].
    destruct (fit_summary_of_run item w Hitem)
      as (s & w1 & Hs & Hsum & Hplain & He & Ht).
    { intros e. apply Hfault. lia. }
    destruct (IH w1 Hitems) as (l & w2 & Hl & Hall & Hplains).
    { intros k e Hk. rewrite He. apply Hfault. lia. }
    exists (s :: l), w2. cbn [map fit_summaries]. unfold bind, ret.
    rewrite Hs, Hl. split; [reflexivity|]. split; [now constructor|].
    cbn [has_decimal existsb] in *. now rewrite Hplain, Hplains.
Qed.

(** X18: the listing of fits asks the index of fits by user and date
    for the caller's page.  When each record of the page has its
    identifier, creation time and status, and these and the name hold
    no number, the answer is 200 with one entry for each record, in the
    order of the page: the identifier, creation time, status and name
    of the record, and a thumbnail URL that is null unless the record
    is READY with an image.  A signing that raises a ClientError leaves
    that thumbnail null and the listing goes on. *)
Theorem fits_list_summaries (event user : pyval) (w : World) :
  get_user_id event = inr user ->
  serializer_error user = None ->
  env_fault (env w) (ticks w) = None ->
  let page :=
    env_query (env w) (ticks w) FITS_TABLE (Some "UserFitsByDate-Index")
      user None in
  let items := default [] (Items page) in
  forallb listable items = true ->
  (forall k e, (ticks w < k)%nat -> env_fault (env w) k = Some e ->
               exn_class_of e = ClientError) ->
  exists l w',
    fits_list_handler event w =
      (inr (reply 200 (PDict [("fits", PList l)]) None), w') /\
    Forall2 summarises items l.
Proof.
  intros Hu Hser Hquery page items Hitems Hfault.
  destruct (fit_summaries_run items (next_tick w) Hitems)
    as (l & w' & Hl & Hall & Hplain).
  { intros k e Hk. apply Hfault. cbn in Hk. lia. }
  exists l, w'. split; [|exact Hall].
  unfold fits_list_handler. rewrite Hu. mstep.
  rewrite (serialize_ok user w Hser). mstep. rewrite Hquery.
  cbn [env next_tick]. fold page.
  assert (Hread : default [] (map as_read <$> Items page)
                  = map as_read items)
    by (subst items; now destruct (Items page)).
  cbn [Items]. rewrite Hread, Hl.
  unfold json_dumps. cbn [has_decimal existsb snd] in *.
  now rewrite Hplain.
Qed.

(** X26: one record that cannot be summarised fails the listing.
    When the query is served and the first record of the page is not
    an object, or lacks [fitId], the answer is 500 INTERNAL_ERROR,
    whatever the other records are. *)
Theorem fits_list_malformed_item (event user item : pyval)
    (rest : list pyval) (w : World) :
  get_user_id event = inr user ->
  serializer_error user = None ->
  env_fault (env w) (ticks w) = None ->
  Items (env_query (env w) (ticks w) FITS_TABLE
           (Some "UserFitsByDate-Index") user None) = Some (item :: rest) ->
  (forall it, item = PDict it -> dict_get "fitId" it = None) ->
  fits_list_handler event w = (inr internal_error, next_tick w).
Proof.
  intros Hu Hser Hquery Hitems Hbad. unfold fits_list_handler.
  rewrite Hu. mstep. rewrite (serialize_ok user w Hser). mstep.
  rewrite Hquery. cbn [env next_tick]. rewrite Hitems.
  cbn [default from_option id fit_summaries map fmap option_fmap option_map
       Items].
  unfold fit_summary_of. mstep.
  destruct item as [| | | |s|l|it|]; try reflexivity.
  cbn [as_read py_getitem]. fold (read_item it).
  now rewrite dict_get_read_item, (Hbad it eq_refl).
Qed.

End FitsList.

(** ** The token exchange *)

Section Token.

Context {lib : PyLib}.

Lemma not_json_decode_error e :
  exn_class_of e <> JSONDecodeError ->
  isinstance_exn e [JSONDecodeError] = false.
Proof. destruct e as [[] msg]; cbn; congruence. Qed.

(** What the exchange does once the body has its three fields. *)
Lemma token_handler_run (event raw : pyval) (d : dict) (w : World) :
  py_getitem event "body" = inr raw ->
  json_loads raw = inr (PDict d) ->
  forallb (fun f => dict_has f d) token_required_fields = true ->
  token_handler event w =
    match env_fault (env w) (ticks w) with
    | Some e =>
        (inr (if isinstance_exn e [JSONDecodeError]
              then cognito_error else token_exchange_failed),
         next_tick w)
    | None =>
        let response := env_http (env w) (ticks w) in
        (inr match (let? text := bytes_decode (http_data response) in
                    json_loads (PStr text)) with
             | inr data => reply (http_status response) data None
             | inl e =>
                 if isinstance_exn e [JSONDecodeError]
                 then cognito_error else token_exchange_failed
             end,
         next_tick w)
    end.
Proof.
  intros Hb Hj Hall. unfold token_handler, parse_body.
  rewrite Hb; mstep. rewrite Hj; mstep.
  rewrite check_required_fields_find, find_none_all.
  2:{ intros f Hf. rewrite forallb_forall in Hall.
      now rewrite (Hall f Hf). }
  cbn [fmap option_fmap option_map].
  cbn [forallb token_required_fields] in Hall. unfold dict_has in Hall.
  destruct (dict_get "code" d); [|discriminate].
  destruct (dict_get "redirectUri" d); [|discriminate].
  destruct (dict_get "codeVerifier" d); [|discriminate].
  cbv beta iota delta [http_request]. mstep.
  destruct (env_fault (env w) (ticks w)) as [e|].
  - now destruct e as [[] msg].
  - cbn [env next_tick].
    destruct (bytes_decode _) as [e|text]; cbn [rbind].
    + now destruct e as [[] msg].
    + destruct (json_loads (PStr text)) as [e|data] eqn:Hdata.
      * now destruct e as [[] msg].
      * rewrite (json_dumps_plain data (json_loads_plain _ _ Hdata)).
        destruct (Z.eqb_spec (http_status (env_http (env w) (ticks w))) 200)
          as [Heq|Hne]; [rewrite Heq|]; reflexivity.
Qed.

(** X19: the token exchange needs no identity.  On an object body
    the first of [code], [redirectUri] and [codeVerifier] that is
    missing is reported with 400 MISSING_FIELD, and Cognito is not
    called: the world is untouched. *)
Theorem token_missing_field (event raw : pyval) (d : dict) (w : World) f :
  py_getitem event "body" = inr raw ->
  json_loads raw = inr (PDict d) ->
  List.find (fun f => negb (dict_has f d)) token_required_fields = Some f ->
  token_handler event w = (inr (missing_field f), w) /\
  statusCode (missing_field f) = 400.
Proof.
  intros Hb Hj Hfind. split; [|reflexivity].
  unfold token_handler, parse_body, try_except, try_or_return.
  cbv beta iota delta [bind lift ret raise].
  rewrite Hb, Hj, check_required_fields_find.
  unfold token_required_fields in Hfind. now rewrite Hfind.
Qed.

(** X20: with the three fields present, the answer of Cognito is
    passed on: its status code, whether 200 or not, and its JSON body
    as parsed. *)
Theorem token_forwards (event raw data : pyval) (d : dict) (text : string)
    (w : World) :
  py_getitem event "body" = inr raw ->
  json_loads raw = inr (PDict d) ->
  forallb (fun f => dict_has f d) token_required_fields = true ->
  env_fault (env w) (ticks w) = None ->
  let response := env_http (env w) (ticks w) in
  bytes_decode (http_data response) = inr text ->
  json_loads (PStr text) = inr data ->
  token_handler event w =
    (inr (reply (http_status response) data None), next_tick w).
Proof.
  intros Hb Hj Hall Hfault response Htext Hdata.
  rewrite (token_handler_run event raw d w Hb Hj Hall), Hfault.
  cbv zeta. fold response. now rewrite Htext; cbn [rbind]; rewrite Hdata.
Qed.

(** X21: with the three fields present, an answer of Cognito that is
    not JSON is reported with 500 COGNITO_ERROR; one that is not UTF-8,
    or a request that fails, with 500 INTERNAL_ERROR, Token exchange
    failed. *)
Theorem token_bad_response (event raw : pyval) (d : dict) (w : World) :
  py_getitem event "body" = inr raw ->
  json_loads raw = inr (PDict d) ->
  forallb (fun f => dict_has f d) token_required_fields = true ->
  let response := env_http (env w) (ticks w) in
  (forall text msg,
     env_fault (env w) (ticks w) = None ->
     bytes_decode (http_data response) = inr text ->
     json_loads (PStr text) = inl (Exn JSONDecodeError msg) ->
     token_handler event w = (inr cognito_error, next_tick w))
  /\
  (forall e,
     env_fault (env w) (ticks w) = None ->
     bytes_decode (http_data response) = inl e ->
     exn_class_of e <> JSONDecodeError ->
     token_handler event w = (inr token_exchange_failed, next_tick w))
  /\
  (forall e,
     env_fault (env w) (ticks w) = Some e ->
     exn_class_of e <> JSONDecodeError ->
     token_handler event w = (inr token_exchange_failed, next_tick w)).
Proof.
  intros Hb Hj Hall response.
  pose proof (token_handler_run event raw d w Hb Hj Hall) as Hrun.
  cbv zeta in Hrun. fold response in Hrun.
  split; [|split].
  - intros text msg Hfault Htext Hbad. rewrite Hrun, Hfault, Htext.
    cbn [rbind]. now rewrite Hbad.
  - intros e Hfault Htext Hclass. rewrite Hrun, Hfault, Htext.
    cbn [rbind]. now rewrite not_json_decode_error.
  - intros e Hfault Hclass. rewrite Hrun, Hfault.
    now rewrite not_json_decode_error.
Qed.

End Token.

(** ** Faults of the store *)

Section StoreFaults.

Context {lib : PyLib}.

Lemma profile_put_fault (event user raw : pyval) (d : dict) (w : World) e :
  get_user_id event = inr user ->
  py_getitem event "body" = inr raw ->
  json_loads raw = inr (PDict d) ->
  (forall f, In f profile_required_fields -> measurement_ok d f = true) ->
  dict_has "preferred_fit" d = true ->
  storable user = true ->
  storable_fields ("preferred_fit" :: "avatar_key" :: profile_required_fields)
    d = true ->
  env_fault (env w) (S (ticks w)) = Some e ->
  exn_class_of e = ClientError \/ exn_class_of e = BotoCoreError ->
  profile_handler event w =
    (inr (match exn_class_of e with
          | ClientError =>
              error_reply 500 "DYNAMODB_ERROR" "Failed to save profile"
          | _ => internal_error
          end),
     after 2 w).
Proof.
  intros Hu Hb Hj Hok Hfit Hsu Hstorable Hfault Hclass.
  assert (S0 : serializer_error user = None)
    by (unfold storable in Hsu; now destruct (serializer_error user)).
  assert (Hser : forall f v,
            In f ("preferred_fit" :: "avatar_key" :: profile_required_fields) ->
            dict_get f d = Some v -> serializer_error v = None)
    by (intros f v Hf Hv;
        exact (storable_fields_value _ d f v Hstorable Hf Hv)).
  assert (Hfind : List.find (measurement_bad d) profile_required_fields = None).
  { apply find_none_all. intros x Hx. apply measurement_ok_not_bad; auto. }
  destruct (measurement_ok_value d "height_cm") as [v1 H1];
    [apply Hok; cbn; tauto|].
  destruct (measurement_ok_value d "weight_kg") as [v2 H2];
    [apply Hok; cbn; tauto|].
  destruct (measurement_ok_value d "chest_cm") as [v3 H3];
    [apply Hok; cbn; tauto|].
  destruct (measurement_ok_value d "waist_cm") as [v4 H4];
    [apply Hok; cbn; tauto|].
  destruct (measurement_ok_value d "hips_cm") as [v5 H5];
    [apply Hok; cbn; tauto|].
  destruct (measurement_ok_value d "inseam_cm") as [v6 H6];
    [apply Hok; cbn; tauto|].
  unfold dict_has in Hfit.
  destruct (dict_get "preferred_fit" d) as [pf|] eqn:Hpf; [|discriminate].
  unfold profile_handler, parse_body.
  rewrite Hu; mstep. rewrite Hb; mstep. rewrite Hj; mstep.
  rewrite profile_check_fields_find, Hfind.
  cbn [fmap option_fmap option_map]. mstep.
  unfold dict_has. rewrite Hpf, H1, H2, H3, H4, H5, H6. mstep.
  pose proof (Hser "height_cm" _ ltac:(cbn; tauto) H1) as S1.
  pose proof (Hser "weight_kg" _ ltac:(cbn; tauto) H2) as S2.
  pose proof (Hser "chest_cm" _ ltac:(cbn; tauto) H3) as S3.
  pose proof (Hser "waist_cm" _ ltac:(cbn; tauto) H4) as S4.
  pose proof (Hser "hips_cm" _ ltac:(cbn; tauto) H5) as S5.
  pose proof (Hser "inseam_cm" _ ltac:(cbn; tauto) H6) as S6.
  pose proof (Hser "preferred_fit" _ ltac:(cbn; tauto) Hpf) as S7.
  destruct e as [c msg]. cbn [exn_class_of] in *.
  destruct (dict_get "avatar_key" d) as [a|] eqn:Ha;
    [pose proof (Hser "avatar_key" _ ltac:(cbn; tauto) Ha) as S8|]; mstep;
    (rewrite serialize_ok
       by (cbn [serializer_error first_error fold_right snd dict_set
                String.eqb Ascii.eqb Bool.eqb];
           now rewrite ?S0, ?S1, ?S2, ?S3, ?S4, ?S5, ?S6, ?S7, ?S8)); mstep;
    cbn [ticks next_tick env store]; rewrite Hfault;
    destruct Hclass as [-> | ->]; reflexivity.
Qed.

Lemma cart_update_fault (event user raw : pyval) (d : dict) (w : World) e :
  get_user_id event = inr user ->
  py_getitem event "body" = inr raw ->
  json_loads raw = inr (PDict d) ->
  cart_body_valid d = true ->
  storable user = true ->
  storable_fields cart_required_fields d = true ->
  env_fault (env w) (S (ticks w)) = Some e ->
  exn_class_of e = ClientError \/ exn_class_of e = BotoCoreError ->
  cart_post_handler event w =
    (inr (match exn_class_of e with
          | ClientError =>
              error_reply 500 "DYNAMODB_ERROR" "Failed to save cart item"
          | _ => internal_error
          end),
     after 2 w).
Proof.
  intros Hu Hb Hj Hvalid Hsu Hstorable Hfault Hclass.
  assert (S0 : serializer_error user = None)
    by (unfold storable in Hsu; now destruct (serializer_error user)).
  apply andb_true_iff in Hvalid as [Hall Hprice].
  rewrite forallb_forall in Hall.
  assert (Hfind : List.find (fun f => negb (dict_has f d))
                    cart_required_fields = None).
  { apply find_none_all. intros f Hf. now rewrite (Hall f Hf). }
  destruct (dict_has_value d "retailer") as [r Hr]; [apply Hall; cbn; tauto|].
  destruct (dict_has_value d "productId") as [pid Hpid];
    [apply Hall; cbn; tauto|].
  destruct (dict_has_value d "title") as [t Ht]; [apply Hall; cbn; tauto|].
  destruct (dict_get "price_cents" d) as [p|] eqn:Hp; [|discriminate].
  destruct (dict_has_value d "currency") as [c Hc]; [apply Hall; cbn; tauto|].
  destruct (dict_has_value d "productUrl") as [pu Hpu];
    [apply Hall; cbn; tauto|].
  destruct (dict_has_value d "imageUrl") as [iu Hiu]; [apply Hall; cbn; tauto|].
  destruct (dict_has_value d "selectedSize") as [ss Hss];
    [apply Hall; cbn; tauto|].
  destruct (dict_has_value d "color") as [col Hcol]; [apply Hall; cbn; tauto|].
  destruct (dict_has_value d "category") as [cat Hcat];
    [apply Hall; cbn; tauto|].
  apply andb_true_iff in Hprice as [Hnum Hneg].
  apply negb_true_iff in Hneg.
  unfold cart_post_handler, parse_body.
  rewrite Hu; mstep. rewrite Hb; mstep. rewrite Hj; mstep.
  rewrite check_required_fields_find, Hfind.
  cbn [fmap option_fmap option_map]. mstep.
  rewrite Hp, Hr, Hpid, Ht, Hc, Hpu, Hiu, Hss, Hcol, Hcat.
  rewrite Hnum, Hneg. mstep.
  rewrite serialize_ok
    by (cbn [serializer_error first_error fold_right snd];
        now rewrite S0).
  mstep.
  rewrite serialize_ok.
  2: { cbn [serializer_error first_error fold_right map action_value].
       rewrite (storable_fields_value _ d "retailer" _ Hstorable
            ltac:(cbn; tauto) Hr),
         (storable_fields_value _ d "productId" _ Hstorable
            ltac:(cbn; tauto) Hpid),
         (storable_fields_value _ d "title" _ Hstorable
            ltac:(cbn; tauto) Ht),
         (storable_fields_value _ d "price_cents" _ Hstorable
            ltac:(cbn; tauto) Hp),
         (storable_fields_value _ d "currency" _ Hstorable
            ltac:(cbn; tauto) Hc),
         (storable_fields_value _ d "productUrl" _ Hstorable
            ltac:(cbn; tauto) Hpu),
         (storable_fields_value _ d "imageUrl" _ Hstorable
            ltac:(cbn; tauto) Hiu),
         (storable_fields_value _ d "selectedSize" _ Hstorable
            ltac:(cbn; tauto) Hss),
         (storable_fields_value _ d "color" _ Hstorable
            ltac:(cbn; tauto) Hcol),
         (storable_fields_value _ d "category" _ Hstorable
            ltac:(cbn; tauto) Hcat).
       reflexivity. }
  mstep.
  cbn [ticks next_tick env store]. rewrite Hfault.
  destruct e as [cl msg]. cbn [exn_class_of] in *.
  destruct Hclass as [-> | ->]; reflexivity.
Qed.

Lemma fit_put_fault (event user raw : pyval) (d : dict) (w : World) e :
  get_user_id event = inr user ->
  py_getitem event "body" = inr raw ->
  json_loads raw = inr (PDict d) ->
  fit_body_valid d = true ->
  storable user = true ->
  storable_fields fit_body_fields d = true ->
  env_fault (env w) (S (S (S (ticks w)))) = Some e ->
  exn_class_of e = ClientError \/ exn_class_of e = BotoCoreError ->
  fit_create_handler event w =
    (inr (Some (match exn_class_of e with
                | ClientError =>
                    error_reply 500 "DYNAMODB_ERROR"
                      "Failed to create fit job"
                | _ => internal_error
                end)),
     after 4 w).
Proof.
  intros Hu Hb Hj Hvalid Hsu Hsf Hfault Hclass.
  rewrite (fit_create_run event user raw d w Hu Hb Hj Hvalid).
  unfold try_except, fit_persist. unfold bind at 1.
  rewrite put_item_run, (new_fit_record_storable _ _ _ _ _ Hvalid Hsu Hsf).
  cbn [after env ticks next_tick]. rewrite Hfault.
  destruct e as [cl msg]. cbn [exn_class_of] in *.
  destruct Hclass as [-> | ->]; reflexivity.
Qed.

(** X22: a write that the store refuses.  With a valid body that the
    serializer accepts, when the write of the profile, of the cart
    record or of the new fit raises a ClientError, the answer is 500
    DYNAMODB_ERROR; when it raises a BotoCoreError, which the handlers
    import but do not catch, the answer is 500 INTERNAL_ERROR.  Nothing
    is written. *)
Theorem refused_write_reported (event user raw : pyval) (d : dict)
    (w : World) (e : exn) :
  get_user_id event = inr user ->
  py_getitem event "body" = inr raw ->
  json_loads raw = inr (PDict d) ->
  storable user = true ->
  exn_class_of e = ClientError \/ exn_class_of e = BotoCoreError ->
  let reported message :=
    match exn_class_of e with
    | ClientError => error_reply 500 "DYNAMODB_ERROR" message
    | _ => internal_error
    end in
  ((forall f, In f profile_required_fields -> measurement_ok d f = true) ->
   dict_has "preferred_fit" d = true ->
   storable_fields
     ("preferred_fit" :: "avatar_key" :: profile_required_fields) d = true ->
   env_fault (env w) (1 + ticks w)%nat = Some e ->
   profile_handler event w = (inr (reported "Failed to save profile"), after 2 w))
  /\
  (cart_body_valid d = true ->
   storable_fields cart_required_fields d = true ->
   env_fault (env w) (1 + ticks w)%nat = Some e ->
   cart_post_handler event w
     = (inr (reported "Failed to save cart item"), after 2 w))
  /\
  (fit_body_valid d = true ->
   storable_fields fit_body_fields d = true ->
   env_fault (env w) (3 + ticks w)%nat = Some e ->
   fit_create_handler event w
     = (inr (Some (reported "Failed to create fit job")), after 4 w)).
Proof.
  intros Hu Hb Hj Hsu Hclass reported. subst reported. split; [|split].
  - intros Hok Hfit Hsf Hfault.
    now apply (profile_put_fault event user raw d).
  - intros Hvalid Hsf Hfault. now apply (cart_update_fault event user raw d).
  - intros Hvalid Hsf Hfault. now apply (fit_put_fault event user raw d).
Qed.

(** X23: a read that the store refuses.  When the query of the cart
    listing or of the fit listing, or the lookup of fit retrieval, is
    sent (the serializer accepts the caller, or the identifier) and
    raises a ClientError, the answer is 500 DYNAMODB_ERROR; when it
    raises a BotoCoreError, 500 INTERNAL_ERROR. *)
Theorem refused_read_reported (event user : pyval) (w : World) (e : exn) :
  get_user_id event = inr user ->
  env_fault (env w) (ticks w) = Some e ->
  exn_class_of e = ClientError \/ exn_class_of e = BotoCoreError ->
  let reported message :=
    match exn_class_of e with
    | ClientError => error_reply 500 "DYNAMODB_ERROR" message
    | _ => internal_error
    end in
  (forall params cursor,
     query_string_parameters event = inr params ->
     py_get params "cursor" = inr cursor ->
     py_truthy cursor = false ->
     serializer_error user = None ->
     cart_get_handler event w
       = (inr (reported "Failed to retrieve cart items"), next_tick w))
  /\
  (forall path fit_id,
     py_getitem event "pathParameters" = inr path ->
     py_getitem path "fitId" = inr fit_id ->
     py_truthy fit_id = true ->
     serializer_error fit_id = None ->
     fit_get_handler event w
       = (inr (reported "Failed to retrieve fit"), next_tick w))
  /\
  (serializer_error user = None ->
   fits_list_handler event w
     = (inr (reported "Failed to retrieve fits"), next_tick w)).
Proof.
  intros Hu Hfault Hclass reported. subst reported.
  destruct e as [cl msg]. cbn [exn_class_of] in *.
  split; [|split].
  - intros params cursor Hq Hc Hfalsy Hser. unfold cart_get_handler.
    rewrite Hu; mstep. rewrite Hq; mstep. rewrite Hc; mstep.
    rewrite Hfalsy. mstep. rewrite (serialize_ok user w Hser). mstep.
    rewrite Hfault.
    destruct Hclass as [-> | ->]; reflexivity.
  - intros path fit_id Hp Hid Htruthy Hser. unfold fit_get_handler.
    rewrite Hu; mstep. rewrite Hp; mstep. rewrite Hid; mstep.
    rewrite Htruthy; mstep.
    rewrite serialize_ok
      by (cbn [serializer_error first_error fold_right snd];
          now rewrite Hser).
    mstep. rewrite Hfault. destruct Hclass as [-> | ->]; reflexivity.
  - intros Hser. unfold fits_list_handler. rewrite Hu; mstep.
    rewrite (serialize_ok user w Hser). mstep. rewrite Hfault.
    destruct Hclass as [-> | ->]; reflexivity.
Qed.

(** X24: a profile whose six measurements are numbers in (0, 300]
    but that has no [preferred_fit] is answered 400 MISSING_FIELD for
    that field, after the measurements have been checked; nothing is
    written. *)
Theorem profile_missing_preferred_fit (event user raw : pyval) (d : dict)
    (w : World) :
  get_user_id event = inr user ->
  py_getitem event "body" = inr raw ->
  json_loads raw = inr (PDict d) ->
  (forall f, In f profile_required_fields -> measurement_ok d f = true) ->
  dict_has "preferred_fit" d = false ->
  profile_handler event w = (inr (missing_field "preferred_fit"), w).
Proof.
  intros Hu Hb Hj Hok Hfit.
  assert (Hfind : List.find (measurement_bad d) profile_required_fields = None).
  { apply find_none_all. intros x Hx. apply measurement_ok_not_bad; auto. }
  unfold profile_handler, parse_body.
  rewrite Hu; mstep. rewrite Hb; mstep. rewrite Hj; mstep.
  rewrite profile_check_fields_find, Hfind.
  cbn [fmap option_fmap option_map]. mstep. now rewrite Hfit.
Qed.

End StoreFaults.

(** ** Fit records stay readable *)

Lemma dict_get_set_cases k k' v d :
  dict_get k (dict_set k' v d)
  = if String.eqb k k' then Some v else dict_get k d.
Proof.
  destruct (String.eqb_spec k k') as [->|Hne].
  - apply dict_get_set_eq.
  - now apply dict_get_set_ne.
Qed.

Lemma dict_has_set f k v d :
  dict_has f d = true -> dict_has f (dict_set k v d) = true.
Proof.
  unfold dict_has. rewrite dict_get_set_cases.
  now destruct (String.eqb f k).
Qed.

Lemma attributes_set k v it :
  forallb (fun f => dict_has f it) fit_attributes = true ->
  forallb (fun f => dict_has f (dict_set k v it)) fit_attributes = true.
Proof.
  rewrite !forallb_forall. intros H f Hf. apply dict_has_set. auto.
Qed.

Lemma readable_put s k it :
  fits_readable s ->
  forallb (fun f => dict_has f it) fit_attributes = true ->
  fits_readable (store_put FITS_TABLE k it s).
Proof.
  intros Hs Hit k' it'. unfold store_put. cbn [set_table table_of fits].
  destruct (decide (k' = k)) as [->|Hne].
  - rewrite lookup_insert_eq. now intros [= <-].
  - rewrite lookup_insert_ne by congruence. apply Hs.
Qed.

Lemma readable_same_fits s s' :
  same_fits s s' -> fits_readable s -> fits_readable s'.
Proof. unfold same_fits, fits_readable. now intros ->. Qed.

Lemma same_fits_trans a b c : same_fits a b -> same_fits b c -> same_fits a c.
Proof. unfold same_fits. congruence. Qed.

Section Readable.

Context {lib : PyLib}.

Lemma new_fit_record_readable user d id c u :
  forallb (fun f => dict_has f (new_fit_record user d id c u)) fit_attributes
  = true.
Proof.
  destruct (new_fit_record_fields user d id c u)
    as (Hid & Huser & Hitems & _ & Hstatus & Hc & Hu & _).
  unfold status_of, PENDING in Hstatus. cbn [forallb fit_attributes].
  unfold dict_has. now rewrite Hid, Huser, Hitems, Hstatus, Hc, Hu.
Qed.

Lemma fit_persist_readable user body fit_id data w :
  fits_readable (store w) ->
  forallb (fun f => dict_has f data) fit_attributes = true ->
  dict_get "fitId" data = Some (PStr fit_id) ->
  fits_readable (store (snd (fit_persist user body fit_id data w))).
Proof.
  intros Hs Hdata Hid. unfold fit_persist. unfold bind at 1.
  rewrite put_item_run. cbn [key_schema key_values]. rewrite Hid.
  destruct (serializer_error (PDict data)); [exact Hs|].
  destruct (env_fault (env w) (ticks w)); [exact Hs|].
  set (s1 := store_put FITS_TABLE [fit_id] data (store w)).
  assert (H1 : fits_readable s1) by now apply readable_put.
  assert (Hlook : fits s1 !! [fit_id] = Some data)
    by (subst s1; cbn [store_put table_of set_table fits];
        apply lookup_insert_eq).
  cbv beta iota delta [bind lift ret raise].
  destruct (py_getitem body "mode") as [e|mode]; [exact H1|].
  destruct (py_eq_str mode "BEDROCK");
    [rewrite return_some_world; exact H1|].
  destruct (py_eq_str mode "MVP_COMPOSITE"); [|exact H1].
  rewrite fit_generate_run. cbn [env ticks store commit next_tick].
  destruct (env_fault _ _);
    [destruct (env_fault _ _)|]; cbn [fst snd store commit].
  - exact H1.
  - unfold failed_store, updated_item. cbn [table_of]. rewrite Hlook.
    apply readable_put; [exact H1|].
    cbn [default from_option fold_left apply_set].
    now repeat apply attributes_set.
  - unfold ready_store, updated_item. cbn [table_of]. rewrite Hlook.
    apply readable_put; [exact H1|].
    cbn [default from_option fold_left apply_set].
    now repeat apply attributes_set.
Qed.

Lemma fit_create_handler_readable event w :
  fits_readable (store w) ->
  fits_readable (store (snd (fit_create_handler event w))).
Proof.
  intros Hs. unfold fit_create_handler.
  rewrite snd_try_except by (repeat constructor).
  unfold parse_body, try_or_return.
  cbv beta iota delta [bind lift ret raise].
  destruct (get_user_id event) as [e|user]; [exact Hs|].
  destruct (py_getitem event "body") as [e|raw].
  { now destruct (isinstance_exn e _). }
  destruct (json_loads raw) as [e|body].
  { now destruct (isinstance_exn e _). }
  destruct (fit_validate body) as [e|[r|]] eqn:Hv; try exact Hs.
  destruct (fit_validate_none body Hv) as (d & -> & Hvalid).
  rewrite (fit_new_record_run user d w Hvalid). cbn [fst snd].
  apply fit_persist_readable.
  - exact Hs.
  - apply new_fit_record_readable.
  - apply new_fit_record_fields.
Qed.

Lemma snd_answer (h : pyval -> M Response) event w :
  snd (answer h event w) = snd (h event w).
Proof. unfold answer, bind, ret. now destruct (h event w) as [[e|r] w']. Qed.

Lemma quiet_readable (h : M Response) w :
  preserves same_fits h -> fits_readable (store w) ->
  fits_readable (store (snd (h w))).
Proof.
  intros Hq Hs. eapply readable_same_fits; [|exact Hs].
  apply (evolution_related same_fits);
    [reflexivity | apply same_fits_trans | apply Hq].
Qed.

Lemma lambda_handler_readable event w :
  fits_readable (store w) ->
  fits_readable (store (snd (lambda_handler event w))).
Proof.
  intros Hs.
  destruct (py_getitem event "httpMethod") as [e|method] eqn:Hm.
  { now destruct (router_error_run event w e (or_introl Hm)) as [-> _]. }
  destruct (py_getitem event "resource") as [e|resource] eqn:Hr.
  { now destruct (router_error_run event w e
                    (or_intror (conj (ex_intro _ method Hm) Hr)))
      as [-> _]. }
  destruct (py_eq_str method "OPTIONS") eqn:Hopt.
  { unfold lambda_handler. rewrite Hm; mstep. rewrite Hr; mstep.
    now rewrite Hopt. }
  rewrite (lambda_handler_run event method resource w Hm Hr Hopt).
  destruct (find_route resource method) as [r|] eqn:Hfind; [|exact Hs].
  apply find_some in Hfind as [Hin _].
  unfold routes in Hin. cbn [In] in Hin.
  destruct Hin as [<-|[<-|[<-|[<-|[<-|[<-|[<-|[<-|[]]]]]]]]]; cbn [snd];
    rewrite ?snd_answer.
  - apply quiet_readable; [apply upload_url_handler_quiet | exact Hs].
  - apply quiet_readable; [apply profile_handler_quiet | exact Hs].
  - apply quiet_readable; [apply cart_post_handler_quiet | exact Hs].
  - apply quiet_readable; [apply cart_get_handler_quiet | exact Hs].
  - now apply fit_create_handler_readable.
  - apply quiet_readable; [apply fit_get_handler_quiet | exact Hs].
  - apply quiet_readable; [apply fits_list_handler_quiet | exact Hs].
  - apply quiet_readable; [apply token_handler_quiet | exact Hs].
Qed.

(** X27: whatever requests the router serves, in whatever order,
    every fit record keeps the attributes that retrieval and listing
    read (identifier, owner, status, items and the two times), when the
    records of the initial table have them. *)
Theorem fits_stay_readable (events : list pyval) (w : World) :
  fits_readable (store w) -> fits_readable (store (serve events w)).
Proof.
  revert w. induction events as [|event events IH]; intros w Hs;
    [exact Hs|].
  cbn [serve]. apply IH. now apply lambda_handler_readable.
Qed.

(** What is shown holds a number or not, whatever text the image is. *)
Lemma fit_view_plain_image it image :
  no_numbers image = true ->
  no_numbers (PDict (fit_view it image))
  = no_numbers (PDict (fit_view it PNone)).
Proof.
  intros H. unfold fit_view, copy_field.
  destruct (dict_get "name" it);
    cbn [no_numbers forallb snd dict_set String.eqb Ascii.eqb Bool.eqb];
    now rewrite H.
Qed.

(** X28: on a table of readable records, the owner of a record is
    never failed for a missing attribute.  When the read is served and
    the signer either answers or raises a ClientError, the owner is
    answered 200, or else 500 in exactly two cases: what is shown of
    the record holds a number, or the record is READY with an image
    key that is not a text. *)
Theorem fit_get_on_readable_store (event user path owner : pyval)
    (fit_id : string) (it : item) (w : World) :
  fits_readable (store w) ->
  get_user_id event = inr user ->
  py_getitem event "pathParameters" = inr path ->
  py_getitem path "fitId" = inr (PStr fit_id) ->
  fit_id <> EmptyString ->
  env_fault (env w) (ticks w) = None ->
  (forall e, env_fault (env w) (S (ticks w)) = Some e ->
             exn_class_of e = ClientError) ->
  fits (store w) !! [fit_id] = Some it ->
  dict_get "user_id" it = Some owner ->
  py_eq owner user = true ->
  exists r,
    fst (fit_get_handler event w) = inr r /\
    statusCode r = if retrievable it then 200 else 500.
Proof.
  intros Hs Hu Hp Hid Hne Hfault Hsign Hit Howner Heq.
  pose proof (Hs _ _ Hit) as Hfields.
  assert (Hshown : forallb (fun f => dict_has f it)
            ["fitId"; "status"; "items"; "createdAt"; "updatedAt"] = true).
  { cbn [forallb fit_attributes] in *.
    repeat (apply andb_true_iff in Hfields as [? Hfields]).
    now repeat (apply andb_true_iff; split). }
  destruct (fit_get_owner_run event user path owner fit_id it w
              Hu Hp Hid Hne Hfault Hit Howner Heq Hshown)
    as [Hplain Himage].
  unfold retrievable.
  destruct (has_image it) eqn:Himg; cbn [negb orb].
  - destruct (Himage eq_refl) as [Hsigned Hrefused].
    destruct (dict_get "imageUrl" it) as [key|] eqn:Hkey.
    2:{ unfold has_image, dict_has in Himg. rewrite Hkey in Himg.
        now rewrite andb_false_r in Himg. }
    assert (Htext : (exists text, key = PStr text)
                    \/ forall text, key <> PStr text)
      by (destruct key; try (right; discriminate); left; eauto).
    destruct Htext as [[text ->]|Hnot].
    + destruct (Hsigned text eq_refl) as [Hurl Hnull].
      destruct (env_fault (env w) (S (ticks w))) as [[c msg]|] eqn:Hf.
      * specialize (Hsign _ eq_refl). cbn in Hsign. subst c.
        rewrite (Hnull msg eq_refl). eexists. split; [reflexivity|].
        rewrite andb_true_r.
        now destruct (no_numbers (PDict (fit_view it PNone))).
      * rewrite (Hurl eq_refl). eexists. split; [reflexivity|].
        rewrite andb_true_r, fit_view_plain_image by reflexivity.
        now destruct (no_numbers (PDict (fit_view it PNone))).
    + rewrite (Hrefused key eq_refl Hnot). eexists.
      split; [reflexivity|].
      replace (match key with PStr _ => true | _ => false end) with false
        by (destruct key; try reflexivity; now elim (Hnot s)).
      now rewrite andb_false_r.
  - rewrite (Hplain eq_refl). eexists. split; [reflexivity|].
    rewrite andb_true_r.
    now destruct (no_numbers (PDict (fit_view it PNone))).
Qed.

End Readable.

(** ** The construction of responses *)

(** After [d.update(h)] a key has the value that [h] gives it last,
    or else the value it had in [d]. *)
Lemma dict_get_update k h : forall d,
  dict_get k (dict_update d h)
  = match dict_get k (rev h) with
    | Some v => Some v
    | None => dict_get k d
    end.
Proof.
  unfold dict_update. induction h as [|[k' v'] h IH] using rev_ind;
    intros d; [reflexivity|].
  rewrite fold_left_app, rev_app_distr. cbn [fold_left rev app fst snd dict_get].
  rewrite dict_get_set_cases, IH. now destruct (String.eqb k k').
Qed.

(** X25: the construction of a response.  On a payload without
    Decimal, [create_response] keeps the status code and writes the
    payload as JSON; a header passed by the caller replaces the fixed
    header of the same name and any other is added, so that each fixed
    header name is always present.  On a payload that holds a Decimal
    it raises the TypeError of [json.dumps]. *)
Theorem create_response_headers {lib : PyLib} (status : Z) (payload : pyval)
    (custom : dict) (k : string) :
  (has_decimal payload = false ->
   exists r,
     create_response status payload (Some custom) = inr r /\
     statusCode r = status /\
     body r = json_text payload /\
     dict_get k (headers r)
       = match dict_get k (rev custom) with
         | Some v => Some v
         | None => dict_get k default_headers
         end /\
     (dict_has k default_headers = true -> dict_has k (headers r) = true))
  /\
  (has_decimal payload = true ->
   exists e,
     create_response status payload (Some custom) = inl e /\
     exn_class_of e = TypeError).
Proof.
  split.
  - intros Hplain. exists (reply status payload (Some custom)).
    split; [now apply create_response_plain|].
    assert (Hget : dict_get k (headers (reply status payload (Some custom)))
                   = match dict_get k (rev custom) with
                     | Some v => Some v
                     | None => dict_get k default_headers
                     end).
    { unfold reply. cbn [headers py_truthy].
      destruct custom as [|x custom]; [reflexivity|].
      apply dict_get_update. }
    split; [reflexivity|]. split; [reflexivity|]. split; [exact Hget|].
    unfold dict_has. rewrite Hget.
    now destruct (dict_get k (rev custom)).
  - intros Hdec. eexists. split; [now apply create_response_decimal|].
    reflexivity.
Qed.

(** ** The listing of the cart *)

(** X30: a cart that fits one page.  When the query is served and
    returns no last-evaluated key, the answer is 200 with the items of
    the page and a null [nextCursor] if no item holds a number; if one
    does, as every item does whose [price_cents] was stored as a
    number, the item is read back with a Decimal, [json.dumps] refuses
    it and the answer is 500 INTERNAL_ERROR. *)
Theorem cart_listing_single_page {lib : PyLib}
    (event user params given : pyval) (w : World) :
  get_user_id event = inr user ->
  query_string_parameters event = inr params ->
  py_get params "cursor" = inr given ->
  py_truthy given = false ->
  serializer_error user = None ->
  env_fault (env w) (ticks w) = None ->
  let page := env_query (env w) (ticks w) CART_ITEMS_TABLE None user None in
  let items := default [] (Items page) in
  LastEvaluatedKey page = None ->
  cart_get_handler event w =
    (inr (if no_numbers (PList items)
          then reply 200
                 (PDict [("items", PList items); ("nextCursor", PNone)]) None
          else internal_error),
     next_tick w).
Proof.
  intros Hu Hq Hc Hfalse Hser Hfault page items Hlast.
  unfold cart_get_handler.
  rewrite Hu; mstep. rewrite Hq; mstep. rewrite Hc; mstep.
  rewrite Hfalse. mstep. rewrite (serialize_ok _ _ Hser). mstep.
  rewrite Hfault. cbn [env next_tick]. fold page. rewrite Hlast.
  cbn [fmap option_fmap option_map LastEvaluatedKey Items].
  replace (default [] (map as_read <$> Items page)) with (map as_read items)
    by (subst items; now destruct (Items page)).
  mstep.
  transitivity
    (inr (A := exn)
       (if has_decimal (PList (map as_read items)) then internal_error
        else reply 200
               (PDict [("items", PList (map as_read items));
                       ("nextCursor", PNone)]) None),
     next_tick w);
    [apply listing_answer; reflexivity|].
  change (PList (map as_read items)) with (as_read (PList items)).
  rewrite has_decimal_as_read.
  destruct (no_numbers (PList items)) eqn:Hplain; cbn [negb];
    [|reflexivity].
  now rewrite (as_read_no_numbers _ Hplain).
Qed.

(** ** The further theorems at concrete requests *)

Lemma router_dispatch_witness :
  let route :=
    ("/fits", "GET", answer (fits_list_handler (lib := Reference.lib))) in
  In route (routes (lib := Reference.lib)) /\
  lambda_handler (lib := Reference.lib) Cases.list_fits Examples.w0
    = answer (fits_list_handler (lib := Reference.lib)) Cases.list_fits
        Examples.w0 /\
  fst (lambda_handler (lib := Reference.lib) Cases.list_fits Examples.w0)
    = inr (Some (reply (lib := Reference.lib) 200
                   (PDict [("fits", PList [])]) None)).
Proof.
  intros route.
  assert (Hin : In route (routes (lib := Reference.lib))) 
    by (do 6 right; left; reflexivity).
  pose proof (router_dispatch (lib := Reference.lib) Cases.list_fits
                Examples.w0 route Hin eq_refl eq_refl) as Hrun.
  split; [exact Hin|]. split; [exact Hrun|].
  rewrite Hrun. reflexivity.
Defined.

Lemma router_not_found_witness :
  lambda_handler (lib := Reference.lib) Cases.delete_cart Examples.w0
    = (inr (Some (not_found (lib := Reference.lib))), Examples.w0).
Proof.
  refine (proj1 (router_not_found (lib := Reference.lib) Cases.delete_cart
                   (PStr "DELETE") (PStr "/cart") Examples.w0
                   eq_refl eq_refl _ _)).
  - discriminate.
  - intros r Hin. right. cbn in Hin.
    repeat (destruct Hin as [<-|Hin]; [discriminate|]). contradiction.
Defined.

Lemma router_malformed_event_witness :
  py_getitem Cases.no_method "httpMethod" = inl (Exn KeyError "httpMethod") /\
  lambda_handler (lib := Reference.lib) Cases.no_method Examples.w0
    = (inr (Some (router_error (lib := Reference.lib))), Examples.w0).
Proof.
  split; [reflexivity|].
  exact (proj1 (router_malformed_event (lib := Reference.lib) Cases.no_method
                  Examples.w0 (Exn KeyError "httpMethod")
                  (or_introl eq_refl))).
Defined.

Lemma missing_identity_unauthorized_witness :
  all_answer (lib := Reference.lib) Cases.no_authorizer Examples.w0
    (unauthorized (lib := Reference.lib)
       "User ID not found in request context").
Proof.
  exact (proj1 (missing_identity_unauthorized (lib := Reference.lib)
                  Cases.no_authorizer Examples.w0 "authorizer" eq_refl)).
Defined.

Lemma invalid_json_rejected_witness :
  json_loads (PyLib := Reference.lib) (PStr (Reference.text "{'height_cm': "))
    = inl (Exn JSONDecodeError "Expecting value") /\
  profile_handler (lib := Reference.lib) Cases.broken_body Examples.w0
    = (inr (invalid_json (lib := Reference.lib)), Examples.w0) /\
  token_handler (lib := Reference.lib) Cases.broken_body Examples.w0
    = (inr (invalid_json (lib := Reference.lib)), Examples.w0).
Proof.
  assert (Hj : json_loads (PyLib := Reference.lib)
                 (PStr (Reference.text "{'height_cm': "))
               = inl (Exn JSONDecodeError "Expecting value"))
    by (vm_compute; reflexivity).
  destruct (invalid_json_rejected (lib := Reference.lib) Cases.broken_body
              (PStr (Reference.text "{'height_cm': "))
              (Exn JSONDecodeError "Expecting value") Examples.w0
              eq_refl Hj eq_refl) as (_ & Htoken & Hauth).
  destruct (Hauth (PStr "alice") eq_refl) as (Hprofile & _).
  split; [exact Hj|]. split; [exact Hprofile | exact Htoken].
Defined.

Lemma upload_url_invalid_type_witness :
  py_in_strs (PStr "hat") ["face"; "body"; "other"] = false /\
  upload_url_handler (lib := Reference.lib) (Cases.upload "hat") Examples.w0
    = (inr (error_reply (lib := Reference.lib) 400
              "INVALID_PARAMETER"
              "type parameter must be one of: face, body, other"),
       Examples.w0).
Proof.
  split; [reflexivity|].
  apply (upload_url_invalid_type (lib := Reference.lib) (Cases.upload "hat")
           (PStr "alice") (PDict [("type", PStr "hat")]) (PStr "hat"));
    try reflexivity.
  now right.
Defined.

Lemma upload_url_never_issued_witness :
  upload_url_handler (lib := Reference.lib) (Cases.upload "face") Examples.w0
    = (inr (internal_error (lib := Reference.lib)), next_tick Examples.w0) /\
  statusCode (internal_error (lib := Reference.lib)) = 500.
Proof.
  destruct (upload_url_never_issued (lib := Reference.lib)
              (Cases.upload "face") Examples.w0) as (Hrun & Hcode & _).
  split; [|exact Hcode].
  exact (Hrun (PStr "alice") (PDict [("type", PStr "face")]) "face"
           eq_refl eq_refl eq_refl ltac:(left; reflexivity)).
Defined.

Lemma cart_validation_witness :
  List.find (fun f => negb (dict_has f (Examples.body_of Cases.cart_no_title)))
    cart_required_fields = Some "title" /\
  cart_post_handler (lib := Reference.lib) Cases.cart_no_title Examples.w0
    = (inr (missing_field (lib := Reference.lib) "title"), Examples.w0).
Proof.
  assert (Hfind :
    List.find (fun f => negb (dict_has f (Examples.body_of Cases.cart_no_title)))
      cart_required_fields = Some "title") by (vm_compute; reflexivity).
  split; [exact Hfind|].
  destruct (cart_validation (lib := Reference.lib) Cases.cart_no_title
              Examples.w0) as [Hrejects _].
  destruct (Hrejects (PStr "alice") _ (Examples.body_of Cases.cart_no_title)
              eq_refl eq_refl ltac:(vm_compute; reflexivity))
    as [Hmissing _].
  exact (Hmissing "title" Hfind).
Defined.

Lemma fit_bedrock_pending_witness :
  let d := Examples.body_of Cases.fit_bedrock in
  let record :=
    new_fit_record (PStr "alice") d "uuid-0"
      "2025-10-18T09:00:1" "2025-10-18T09:00:2" in
  fit_body_valid d = true /\
  dict_get "name" record = Some (PStr "Friday") /\
  fit_create_handler (lib := Reference.lib) Cases.fit_bedrock Examples.w0
    = (inr (Some (fit_created (lib := Reference.lib) "uuid-0" "PENDING")),
       commit (store_put FITS_TABLE ["uuid-0"] record Sample.empty_store)
         (after 4 Examples.w0)).
Proof.
  intros d record.
  assert (Hvalid : fit_body_valid d = true) by (vm_compute; reflexivity).
  split; [exact Hvalid|]. split; [vm_compute; reflexivity|].
  destruct (fit_bedrock_pending (lib := Reference.lib) Cases.fit_bedrock
              (PStr "alice") _ d Examples.w0
              eq_refl eq_refl ltac:(vm_compute; reflexivity) Hvalid
              ltac:(vm_compute; reflexivity) eq_refl
              ltac:(vm_compute; reflexivity)) as [Hstored _].
  destruct (Hstored eq_refl) as [Hrun _]. exact Hrun.
Defined.

Lemma fit_get_owner_witness :
  let w := Sample.world_of Examples.bobs_store Sample.calm in
  let w' := Sample.world_of Cases.priced_store Sample.calm in
  has_image Examples.bobs_fit = true /\
  fit_get_handler (lib := Reference.lib) (Cases.bob_gets "f-1") w
    = (inr (reply (lib := Reference.lib) 200
              (PDict (fit_view Examples.bobs_fit
                        (PStr "https://assets.example/generated/bob/f-1.jpg?n=1")))
              None),
       after 2 w) /\
  fit_get_handler (lib := Reference.lib) (Cases.bob_gets "f-3") w'
    = (inr (internal_error (lib := Reference.lib)), after 2 w').
Proof.
  intros w w'. split; [reflexivity|]. split.
  - destruct (fit_get_owner (lib := Reference.lib) (Cases.bob_gets "f-1")
                (PStr "bob") (PDict [("fitId", PStr "f-1")]) (PStr "bob")
                "f-1" Examples.bobs_fit w
                eq_refl eq_refl eq_refl ltac:(discriminate) eq_refl
                ltac:(vm_compute; reflexivity) eq_refl eq_refl eq_refl)
      as [_ Hready].
    destruct (Hready eq_refl) as [Hsigned _].
    destruct (Hsigned "generated/bob/f-1.jpg" eq_refl) as [Hurl _].
    exact (Hurl eq_refl).
  - destruct (fit_get_owner (lib := Reference.lib) (Cases.bob_gets "f-3")
                (PStr "bob") (PDict [("fitId", PStr "f-3")]) (PStr "bob")
                "f-3" Cases.priced_fit w'
                eq_refl eq_refl eq_refl ltac:(discriminate) eq_refl
                ltac:(vm_compute; reflexivity) eq_refl eq_refl eq_refl)
      as [_ Hready].
    destruct (Hready eq_refl) as [Hsigned _].
    destruct (Hsigned "generated/bob/f-3.jpg" eq_refl) as [Hurl _].
    exact (Hurl eq_refl).
Defined.

Lemma fit_get_without_id_witness :
  fit_get_handler (lib := Reference.lib) (Examples.fit_get EmptyString)
    Examples.w0
    = (inr (error_reply (lib := Reference.lib) 400
              "MISSING_PARAMETER" "fitId is required"),
       Examples.w0).
Proof.
  destruct (fit_get_without_id (lib := Reference.lib)
              (Examples.fit_get EmptyString) (PStr "alice") Examples.w0
              eq_refl) as [Hempty _].
  exact (Hempty (PDict [("fitId", PStr EmptyString)]) (PStr EmptyString)
           eq_refl eq_refl eq_refl).
Defined.

Lemma fit_create_then_get_witness :
  let w1 :=
    snd (fit_create_handler (lib := Reference.lib) Cases.fit_bedrock
           Examples.w0) in
  exists view,
    fit_get_handler (lib := Reference.lib) (Examples.fit_get "uuid-0") w1
      = (inr (reply (lib := Reference.lib) 200 (PDict view) None),
         next_tick w1) /\
    dict_get "fitId" view = Some (PStr "uuid-0") /\
    dict_get "status" view = Some (PStr "PENDING") /\
    dict_get "items" view
      = dict_get "items" (Examples.body_of Cases.fit_bedrock) /\
    dict_get "imageUrl" view = Some PNone.
Proof.
  intros w1.
  destruct (fit_create_then_get (lib := Reference.lib) Cases.fit_bedrock
              (Examples.fit_get "uuid-0") _ (PDict [("fitId", PStr "uuid-0")])
              "alice" (Examples.body_of Cases.fit_bedrock) Examples.w0
              eq_refl eq_refl ltac:(vm_compute; reflexivity)
              ltac:(vm_compute; reflexivity) ltac:(vm_compute; reflexivity)
              eq_refl eq_refl eq_refl ltac:(vm_compute; discriminate) eq_refl)
    as [Hbedrock _].
  exact (Hbedrock ltac:(vm_compute; reflexivity) eq_refl).
Defined.

Lemma fits_list_summaries_witness :
  let w := Sample.world_of Sample.empty_store Cases.two_fits in
  exists l w',
    fits_list_handler (lib := Reference.lib) Cases.list_fits w
      = (inr (reply (lib := Reference.lib) 200
                (PDict [("fits", PList l)]) None), w') /\
    Forall2 summarises [PDict Examples.bobs_fit; PDict Cases.pending_fit] l.
Proof.
  intros w.
  apply (fits_list_summaries (lib := Reference.lib) Cases.list_fits
           (PStr "alice") w eq_refl eq_refl eq_refl).
  - reflexivity.
  - intros k e _ He. discriminate He.
Defined.

Lemma token_missing_field_witness :
  token_handler (lib := Reference.lib) Cases.token_code_only Examples.w0
    = (inr (missing_field (lib := Reference.lib) "redirectUri"), Examples.w0).
Proof.
  exact (proj1 (token_missing_field (lib := Reference.lib)
                  Cases.token_code_only _
                  (Examples.body_of Cases.token_code_only) Examples.w0
                  "redirectUri" eq_refl ltac:(vm_compute; reflexivity)
                  ltac:(vm_compute; reflexivity))).
Defined.

Lemma token_forwards_witness :
  let w := Sample.world_of Sample.empty_store Cases.refusing_cognito in
  token_handler (lib := Reference.lib) Cases.token_request w
    = (inr (reply (lib := Reference.lib) 400
              (PDict [("error", PStr "invalid_grant")]) None),
       next_tick w).
Proof.
  intros w.
  exact (token_forwards (lib := Reference.lib) Cases.token_request _
           (PDict [("error", PStr "invalid_grant")])
           (Examples.body_of Cases.token_request)
           (Reference.text "{'error': 'invalid_grant'}") w
           eq_refl ltac:(vm_compute; reflexivity)
           ltac:(vm_compute; reflexivity) eq_refl
           ltac:(vm_compute; reflexivity) ltac:(vm_compute; reflexivity)).
Defined.

Lemma token_bad_response_witness :
  token_handler (lib := Reference.lib) Cases.token_request Examples.w0
    = (inr (cognito_error (lib := Reference.lib)), next_tick Examples.w0).
Proof.
  destruct (token_bad_response (lib := Reference.lib) Cases.token_request _
              (Examples.body_of Cases.token_request) Examples.w0
              eq_refl ltac:(vm_compute; reflexivity)
              ltac:(vm_compute; reflexivity)) as [Hjson _].
  apply (Hjson EmptyString "Expecting value"); reflexivity.
Defined.

Lemma refused_write_reported_witness :
  let w := Sample.world_of Sample.empty_store (Sample.failing_at [1%nat]) in
  profile_handler (lib := Reference.lib) Examples.valid_profile w
    = (inr (error_reply (lib := Reference.lib) 500 "DYNAMODB_ERROR"
              "Failed to save profile"),
       after 2 w).
Proof.
  intros w.
  destruct (refused_write_reported (lib := Reference.lib)
              Examples.valid_profile (PStr "alice") _
              (Examples.body_of Examples.valid_profile) w
              (Exn ClientError "ProvisionedThroughputExceededException")
              eq_refl eq_refl ltac:(vm_compute; reflexivity) eq_refl
              (or_introl eq_refl)) as [Hprofile _].
  apply Hprofile; try (vm_compute; reflexivity).
  intros f Hf. cbn in Hf.
  repeat (destruct Hf as [<-|Hf]; [vm_compute; reflexivity|]).
  contradiction.
Defined.

Lemma refused_read_reported_witness :
  let w := Sample.world_of Sample.empty_store (Sample.failing_at [0%nat]) in
  fits_list_handler (lib := Reference.lib) Cases.list_fits w
    = (inr (error_reply (lib := Reference.lib) 500 "DYNAMODB_ERROR"
              "Failed to retrieve fits"),
       next_tick w).
Proof.
  intros w.
  destruct (refused_read_reported (lib := Reference.lib) Cases.list_fits
              (PStr "alice") w
              (Exn ClientError "ProvisionedThroughputExceededException")
              eq_refl eq_refl (or_introl eq_refl)) as (_ & _ & Hlist).
  exact (Hlist eq_refl).
Defined.

Lemma profile_missing_preferred_fit_witness :
  dict_has "preferred_fit" (Examples.body_of Cases.profile_no_fit) = false /\
  profile_handler (lib := Reference.lib) Cases.profile_no_fit Examples.w0
    = (inr (missing_field (lib := Reference.lib) "preferred_fit"),
       Examples.w0).
Proof.
  split; [vm_compute; reflexivity|].
  refine (profile_missing_preferred_fit (lib := Reference.lib)
            Cases.profile_no_fit (PStr "alice") _
            (Examples.body_of Cases.profile_no_fit) Examples.w0
            eq_refl eq_refl ltac:(vm_compute; reflexivity) _
            ltac:(vm_compute; reflexivity)).
  intros f Hf. cbn in Hf.
  repeat (destruct Hf as [<-|Hf]; [vm_compute; reflexivity|]).
  contradiction.
Defined.

Lemma fits_list_malformed_item_witness :
  let w := Sample.world_of Sample.empty_store Cases.torn_page in
  fits_list_handler (lib := Reference.lib) Cases.list_fits w
    = (inr (internal_error (lib := Reference.lib)), next_tick w).
Proof.
  intros w.
  apply (fits_list_malformed_item (lib := Reference.lib) Cases.list_fits
           (PStr "alice") _ _ w eq_refl eq_refl eq_refl eq_refl).
  intros it [= <-]. reflexivity.
Defined.

Lemma fits_stay_readable_witness :
  fits_readable
    (store (serve (lib := Reference.lib)
              [Cases.fit_bedrock; Cases.bob_gets "f-1"; Cases.delete_cart]
              (Sample.world_of Examples.bobs_store Sample.calm))).
Proof.
  apply (fits_stay_readable (lib := Reference.lib)).
  apply readable_put; [|reflexivity].
  intros k it Hk. cbn in Hk. rewrite lookup_empty in Hk. discriminate Hk.
Defined.

Lemma fit_get_on_readable_store_witness :
  let w := Sample.world_of Examples.bobs_store Sample.calm in
  let w' := Sample.world_of Cases.priced_store Sample.calm in
  (exists r,
     fst (fit_get_handler (lib := Reference.lib) (Cases.bob_gets "f-1") w)
       = inr r /\
     statusCode r = 200) /\
  (exists r,
     fst (fit_get_handler (lib := Reference.lib) (Cases.bob_gets "f-3") w')
       = inr r /\
     statusCode r = 500).
Proof.
  intros w w'.
  assert (Hempty : fits_readable Sample.empty_store).
  { intros k it Hk. cbn in Hk. rewrite lookup_empty in Hk. discriminate Hk. }
  split.
  - refine (fit_get_on_readable_store (lib := Reference.lib)
              (Cases.bob_gets "f-1") (PStr "bob")
              (PDict [("fitId", PStr "f-1")]) (PStr "bob") "f-1"
              Examples.bobs_fit w _ eq_refl eq_refl eq_refl _ eq_refl _
              _ eq_refl eq_refl).
    + apply readable_put; [exact Hempty | reflexivity].
    + discriminate.
    + intros e He. discriminate He.
    + vm_compute; reflexivity.
  - refine (fit_get_on_readable_store (lib := Reference.lib)
              (Cases.bob_gets "f-3") (PStr "bob")
              (PDict [("fitId", PStr "f-3")]) (PStr "bob") "f-3"
              Cases.priced_fit w' _ eq_refl eq_refl eq_refl _ eq_refl _
              _ eq_refl eq_refl).
    + apply readable_put; [exact Hempty | reflexivity].
    + discriminate.
    + intros e He. discriminate He.
    + vm_compute; reflexivity.
Defined.

Lemma cart_listing_single_page_witness :
  let w := Sample.world_of Sample.empty_store Cases.stocked_cart in
  cart_get_handler (lib := Reference.lib) Cases.list_cart w
    = (inr (internal_error (lib := Reference.lib)), next_tick w) /\
  cart_get_handler (lib := Reference.lib) Cases.list_cart Examples.w0
    = (inr (reply (lib := Reference.lib) 200
              (PDict [("items", PList []); ("nextCursor", PNone)]) None),
       next_tick Examples.w0).
Proof.
  intros w. split.
  - exact (cart_listing_single_page (lib := Reference.lib) Cases.list_cart
             (PStr "alice") (PDict []) PNone w
             eq_refl eq_refl eq_refl eq_refl eq_refl eq_refl eq_refl).
  - exact (cart_listing_single_page (lib := Reference.lib) Cases.list_cart
             (PStr "alice") (PDict []) PNone Examples.w0
             eq_refl eq_refl eq_refl eq_refl eq_refl eq_refl eq_refl).
Defined.
